(** * HemPa MCP client: a verification development

    A shallow embedding of the MCP client runtime
    ([src/handlers/dynamic_mcp_client.py]) and of the server configuration
    manager ([src/config/mcp_config.py]), followed by the theorems that
    settle the properties stated about them.

    Modelling conventions.
    - A Python [str] is a [string]; every [ascii] stands for one code point
      below 256.
    - A Python [dict] with string keys is an insertion-ordered association
      list ([pydict]); the operations below keep the first position of a key
      and overwrite its value, as CPython does.
    - A decoded JSON document is a [json] tree.  Numbers are integers; a text
      with a fractional literal, [NaN], [Infinity], or an escape above
      code point 255 is reported as [Unmodelled] and nothing is proved about it.
    - Effects are threaded through an explicit [world]: the table of child
      processes, the identifiers drawn from [uuid.uuid4], the log, and the
      store of catalog dictionaries handed out by reference. *)

From stdpp Require Import base option list strings.
From Stdlib Require Import ZArith Ascii String DecimalString Lia.
From Stdlib Require DecimalFacts DecimalPos.

Set Default Proof Using "Type".

(** ** Python dictionaries *)

Module Py.

Abbreviation pydict V := (list (string * V)).

Section Dict.
Context {V : Type}.

Fixpoint dict_get (k : string) (d : pydict V) : option V :=
  match d with
  | [] => None
  | (k', v) :: r => if String.eqb k k' then Some v else dict_get k r
  end.

Definition dict_contains (k : string) (d : pydict V) : bool :=
  match dict_get k d with Some _ => true | None => false end.

(** [d[k] = v] *)
Fixpoint dict_set (k : string) (v : V) (d : pydict V) : pydict V :=
  match d with
  | [] => [(k, v)]
  | (k', v') :: r =>
      if String.eqb k k' then (k', v) :: r else (k', v') :: dict_set k v r
  end.

(** [d.update(other)] and [dict(pairs)] *)
Definition dict_update (d other : pydict V) : pydict V :=
  fold_left (fun acc kv => dict_set (fst kv) (snd kv) acc) other d.

Definition dict_of_pairs (pairs : list (string * V)) : pydict V :=
  dict_update [] pairs.

Definition dict_keys (d : pydict V) : list string := map fst d.
Definition dict_values (d : pydict V) : list V := map snd d.

(** [del d[k]], for a key that is present; the other entries keep their
    order *)
Fixpoint dict_del (k : string) (d : pydict V) : pydict V :=
  match d with
  | [] => []
  | (k', v) :: r => if String.eqb k k' then r else (k', v) :: dict_del k r
  end.

(** The shape every CPython dictionary has: no key occurs twice. *)
Definition dict_wf (d : pydict V) : Prop := NoDup (dict_keys d).
End Dict.

(** ** Decoded JSON documents and the Python operations applied to them *)

Unset Elimination Schemes.
Inductive json : Type :=
| JNull
| JBool (b : bool)
| JNum (z : Z)
| JStr (s : string)
| JArr (items : list json)
| JObj (members : pydict json).
Set Elimination Schemes.

(** [x.get(k)], with [None] rendered as [JNull] *)
Definition get_or_none (k : string) (d : pydict json) : json :=
  default JNull (dict_get k d).

(** [bool(x)] *)
Definition truthy (v : json) : bool :=
  match v with
  | JNull => false
  | JBool b => b
  | JNum z => negb (Z.eqb z 0)
  | JStr s => negb (String.eqb s "")
  | JArr l => match l with [] => false | _ => true end
  | JObj d => match d with [] => false | _ => true end
  end.

(** [x == y] on decoded documents: booleans compare as the integers 0 and 1,
    dictionaries compare regardless of order. *)
Fixpoint py_eq (a b : json) {struct a} : bool :=
  match a, b with
  | JNull, JNull => true
  | JBool x, JBool y => Bool.eqb x y
  | JBool x, JNum y => Z.eqb (if x then 1 else 0) y
  | JNum x, JBool y => Z.eqb x (if y then 1 else 0)
  | JNum x, JNum y => Z.eqb x y
  | JStr x, JStr y => String.eqb x y
  | JArr xs, JArr ys =>
      (fix all2 (xs ys : list json) : bool :=
         match xs, ys with
         | [], [] => true
         | x :: xs', y :: ys' => py_eq x y && all2 xs' ys'
         | _, _ => false
         end) xs ys
  | JObj xs, JObj ys =>
      Nat.eqb (List.length xs) (List.length ys) &&
      (fix every (xs : pydict json) : bool :=
         match xs with
         | [] => true
         | (k, v) :: xs' =>
             match dict_get k ys with
             | Some w => py_eq v w && every xs'
             | None => false
             end
         end) xs
  | _, _ => false
  end.

(** *** Characters *)

(** the double quote, code point 34 *)
Definition dquote : ascii := Eval cbv in ascii_of_nat 34.

Definition code (c : ascii) : nat := nat_of_ascii c.

Definition hex_digit (n : nat) : ascii :=
  match n with
  | 0 => "0" | 1 => "1" | 2 => "2" | 3 => "3" | 4 => "4"
  | 5 => "5" | 6 => "6" | 7 => "7" | 8 => "8" | 9 => "9"
  | 10 => "a" | 11 => "b" | 12 => "c" | 13 => "d" | 14 => "e"
  | _ => "f"
  end%char.

(** two lowercase hexadecimal digits of a code point below 256 *)
Definition hex2 (c : ascii) : string :=
  String (hex_digit (code c / 16)) (String (hex_digit (code c mod 16)) "").

(** [str.lower] on code points below 256 *)
Definition lower_char (c : ascii) : ascii :=
  let n := code c in
  if (65 <=? n) && (n <=? 90) then ascii_of_nat (n + 32)
  else if (192 <=? n) && (n <=? 222) && negb (n =? 215) then ascii_of_nat (n + 32)
  else c.

Fixpoint lower (s : string) : string :=
  match s with
  | EmptyString => EmptyString
  | String c r => String (lower_char c) (lower r)
  end.

(** [str.isspace] on code points below 256 *)
Definition isspace (c : ascii) : bool :=
  let n := code c in
  ((9 <=? n) && (n <=? 13)) || ((28 <=? n) && (n <=? 32))
  || (n =? 133) || (n =? 160).

Fixpoint lstrip (s : string) : string :=
  match s with
  | String c r => if isspace c then lstrip r else s
  | EmptyString => EmptyString
  end.

Fixpoint rstrip (s : string) : string :=
  match s with
  | EmptyString => EmptyString
  | String c r =>
      match rstrip r with
      | EmptyString => if isspace c then EmptyString else String c EmptyString
      | r' => String c r'
      end
  end.

(** [s.strip()] *)
Definition strip (s : string) : string := rstrip (lstrip s).

Fixpoint startswith (p s : string) : bool :=
  match p, s with
  | EmptyString, _ => true
  | String a p', String b s' => Ascii.eqb a b && startswith p' s'
  | String _ _, EmptyString => false
  end.

(** [p in s] for two strings *)
Fixpoint substring_of (p s : string) : bool :=
  startswith p s ||
  match s with
  | EmptyString => false
  | String _ s' => substring_of p s'
  end.

Fixpoint contains_char (c : ascii) (s : string) : bool :=
  match s with
  | EmptyString => false
  | String b r => Ascii.eqb c b || contains_char c r
  end.

(** [sep.join(parts)] *)
Definition join (sep : string) (parts : list string) : string :=
  String.concat sep parts.

(** *** [str()] and [repr()] *)

Definition str_of_Z (z : Z) : string := NilEmpty.string_of_int (Z.to_int z).

Definition printable (c : ascii) : bool :=
  let n := code c in
  (32 <=? n) && negb (n =? 127) && negb ((128 <=? n) && (n <=? 160))
  && negb (n =? 173).

Fixpoint repr_chars (quote : ascii) (s : string) : string :=
  match s with
  | EmptyString => EmptyString
  | String c r =>
      (if Ascii.eqb c quote || Ascii.eqb c "\"
       then String "\" (String c "")
       else if Ascii.eqb c "009" then "\t"
       else if Ascii.eqb c "010" then "\n"
       else if Ascii.eqb c "013" then "\r"
       else if printable c then String c ""
       else "\x" +:+ hex2 c) +:+ repr_chars quote r
  end.

Definition repr_str (s : string) : string :=
  let quote : ascii :=
    if contains_char "'" s && negb (contains_char dquote s) then dquote else "'"%char in
  String quote (repr_chars quote s) +:+ String quote EmptyString.

Fixpoint py_repr (v : json) : string :=
  match v with
  | JNull => "None"
  | JBool true => "True"
  | JBool false => "False"
  | JNum z => str_of_Z z
  | JStr s => repr_str s
  | JArr l => "[" +:+ join ", " (map py_repr l) +:+ "]"
  | JObj d =>
      "{" +:+ join ", " (map (fun kv => repr_str (fst kv) +:+ ": " +:+ py_repr (snd kv)) d)
      +:+ "}"
  end.

(** what an f-string substitutes for [{v}] *)
Definition py_str (v : json) : string :=
  match v with
  | JStr s => s
  | _ => py_repr v
  end.

(** *** Exceptions *)

(** The exceptions the modelled code can meet, by the operation that raises
    them. *)
Inductive py_exn : Type :=
| AttributeError (receiver : json) (attr : string)
| TypeError_not_iterable (v : json)
| TypeError_not_container (v : json)
| TypeError_subscript (v : json) (key : string)
| TypeError_join (position : nat) (v : json)
| TypeError_unhashable (v : json)
| TypeError_arguments (v : json)
| KeyError (key : string)
| ValueError (v : json)
| JSONDecodeError (text : string)
| OSError (argv : list string).

(** The result of running a fragment of the program: a value, an exception
    in flight, or an input the embedding does not cover. *)
Inductive outcome (A : Type) : Type :=
| Ret (a : A)
| Raise (e : py_exn)
| Unmodelled.
Arguments Ret {A} a.
Arguments Raise {A} e.
Arguments Unmodelled {A}.

Definition obind {A B} (m : outcome A) (k : A -> outcome B) : outcome B :=
  match m with
  | Ret a => k a
  | Raise e => Raise e
  | Unmodelled => Unmodelled
  end.

Fixpoint omap {A B} (f : A -> outcome B) (l : list A) : outcome (list B) :=
  match l with
  | [] => Ret []
  | x :: r => obind (f x) (fun y => obind (omap f r) (fun ys => Ret (y :: ys)))
  end.

(** [x.get(k, dflt)], which needs a dictionary *)
Definition py_get (v : json) (k : string) (dflt : json) : outcome json :=
  match v with
  | JObj d => Ret (default dflt (dict_get k d))
  | _ => Raise (AttributeError v "get")
  end.

(** [k in x] for a string [k] *)
Definition py_in (k : string) (v : json) : outcome bool :=
  match v with
  | JObj d => Ret (dict_contains k d)
  | JArr l => Ret (existsb (py_eq (JStr k)) l)
  | JStr s => Ret (substring_of k s)
  | _ => Raise (TypeError_not_container v)
  end.

(** [x[k]] for a string [k] *)
Definition py_getitem (v : json) (k : string) : outcome json :=
  match v with
  | JObj d => match dict_get k d with Some x => Ret x | None => Raise (KeyError k) end
  | _ => Raise (TypeError_subscript v k)
  end.

Fixpoint chars_of (s : string) : list json :=
  match s with
  | EmptyString => []
  | String c r => JStr (String c "") :: chars_of r
  end.

(** the values a [for] loop over [x] visits *)
Definition py_iter (v : json) : outcome (list json) :=
  match v with
  | JArr l => Ret l
  | JObj d => Ret (map JStr (dict_keys d))
  | JStr s => Ret (chars_of s)
  | _ => Raise (TypeError_not_iterable v)
  end.

(** ["\n".join(parts)], which needs strings *)
Fixpoint expect_strs (i : nat) (parts : list json) : outcome (list string) :=
  match parts with
  | [] => Ret []
  | JStr s :: r => obind (expect_strs (S i) r) (fun ss => Ret (s :: ss))
  | v :: _ => Raise (TypeError_join i v)
  end.

Definition py_join (sep : string) (parts : list json) : outcome string :=
  obind (expect_strs 0 parts) (fun ss => Ret (join sep ss)).

End Py.

(** ** The JSON text codec: [json.dumps] and [json.loads] *)

Module Json.
Import Py.

(** *** Encoding, as [json.dumps] with [ensure_ascii] on *)

Definition escape_char (c : ascii) : string :=
  let n := code c in
  if Ascii.eqb c dquote then String "\" (String dquote EmptyString)
  else if Ascii.eqb c "\" then "\\"
  else if n =? 10 then "\n"
  else if n =? 13 then "\r"
  else if n =? 9 then "\t"
  else if n =? 8 then "\b"
  else if n =? 12 then "\f"
  else if (32 <=? n) && (n <=? 126) then String c EmptyString
  else "\u00" +:+ hex2 c.

Fixpoint escape (s : string) : string :=
  match s with
  | EmptyString => EmptyString
  | String c r => escape_char c +:+ escape r
  end.

Definition encode_str (s : string) : string :=
  String dquote (escape s +:+ String dquote EmptyString).

Fixpoint spaces (n : nat) : string :=
  match n with
  | O => EmptyString
  | S m => String " " (spaces m)
  end.

(** the line break and indentation [json.dumps] emits at nesting [level];
    empty when no [indent] was asked for *)
Definition newline_indent (indent : option nat) (level : nat) : string :=
  match indent with
  | Some n => String "010" (spaces (n * level))
  | None => EmptyString
  end.

Definition item_separator (indent : option nat) : string :=
  match indent with
  | Some _ => ","
  | None => ", "
  end.

Fixpoint encode (indent : option nat) (level : nat) (v : json) : string :=
  match v with
  | JNull => "null"
  | JBool true => "true"
  | JBool false => "false"
  | JNum z => str_of_Z z
  | JStr s => encode_str s
  | JArr [] => "[]"
  | JArr l =>
      "[" +:+ newline_indent indent (S level)
      +:+ join (item_separator indent +:+ newline_indent indent (S level))
               (map (encode indent (S level)) l)
      +:+ newline_indent indent level +:+ "]"
  | JObj [] => "{}"
  | JObj d =>
      "{" +:+ newline_indent indent (S level)
      +:+ join (item_separator indent +:+ newline_indent indent (S level))
               (map (fun kv => encode_str (fst kv) +:+ ": "
                               +:+ encode indent (S level) (snd kv)) d)
      +:+ newline_indent indent level +:+ "}"
  end.

(** [json.dumps(v)] *)
Definition dumps (v : json) : string := encode None 0 v.

(** [json.dumps(v, indent=2)] *)
Definition dumps_indent2 (v : json) : string := encode (Some 2) 0 v.

(** *** Decoding, as [json.loads] *)

Inductive scan (A : Type) : Type :=
| ScanOk (a : A) (rest : string)
| ScanError
| ScanUnmodelled.
Arguments ScanOk {A} a rest.
Arguments ScanError {A}.
Arguments ScanUnmodelled {A}.

Definition is_ws (c : ascii) : bool :=
  let n := code c in (n =? 32) || (n =? 9) || (n =? 10) || (n =? 13).

Fixpoint skip_ws (s : string) : string :=
  match s with
  | String c r => if is_ws c then skip_ws r else s
  | EmptyString => EmptyString
  end.

Definition is_digit (c : ascii) : bool :=
  (48 <=? code c) && (code c <=? 57).

Definition digit_val (c : ascii) : Z := Z.of_nat (code c - 48).

Definition hex_val (c : ascii) : option nat :=
  let n := code c in
  if (48 <=? n) && (n <=? 57) then Some (n - 48)
  else if (97 <=? n) && (n <=? 102) then Some (n - 87)
  else if (65 <=? n) && (n <=? 70) then Some (n - 55)
  else None.

(** the character a one-letter escape stands for *)
Definition unescape (c : ascii) : option ascii :=
  if Ascii.eqb c dquote then Some dquote
  else if Ascii.eqb c "\" then Some "\"%char
  else if Ascii.eqb c "/" then Some "/"%char
  else if Ascii.eqb c "b" then Some (ascii_of_nat 8)
  else if Ascii.eqb c "f" then Some (ascii_of_nat 12)
  else if Ascii.eqb c "n" then Some (ascii_of_nat 10)
  else if Ascii.eqb c "r" then Some (ascii_of_nat 13)
  else if Ascii.eqb c "t" then Some (ascii_of_nat 9)
  else None.

Definition scan_cons (c : ascii) (r : scan string) : scan string :=
  match r with
  | ScanOk s rest => ScanOk (String c s) rest
  | ScanError => ScanError
  | ScanUnmodelled => ScanUnmodelled
  end.

(** the body of a string literal, read from just after its opening quote *)
Fixpoint scanstring (s : string) : scan string :=
  match s with
  | EmptyString => ScanError
  | String c r =>
      if Ascii.eqb c dquote then ScanOk EmptyString r
      else if Ascii.eqb c "\" then
        match r with
        | EmptyString => ScanError
        | String e r1 =>
            if Ascii.eqb e "u" then
              match r1 with
              | String h1 (String h2 (String h3 (String h4 r2))) =>
                  match hex_val h1, hex_val h2, hex_val h3, hex_val h4 with
                  | Some a, Some b, Some c', Some d =>
                      if (a =? 0) && (b =? 0)
                      then scan_cons (ascii_of_nat (c' * 16 + d)) (scanstring r2)
                      else ScanUnmodelled
                  | _, _, _, _ => ScanUnmodelled
                  end
              | _ => ScanError
              end
            else
              match unescape e with
              | Some ch => scan_cons ch (scanstring r1)
              | None => ScanError
              end
        end
      else if code c <? 32 then ScanError
      else scan_cons c (scanstring r)
  end.

Fixpoint scan_digits (acc : Z) (s : string) : Z * string :=
  match s with
  | String c r =>
      if is_digit c then scan_digits (acc * 10 + digit_val c) r else (acc, s)
  | EmptyString => (acc, EmptyString)
  end.

Definition starts_with_digit (s : string) : bool :=
  match s with
  | String c _ => is_digit c
  | EmptyString => false
  end.

(** does a fraction or an exponent follow the integer part? *)
Definition float_follows (s : string) : bool :=
  match s with
  | String c r =>
      if Ascii.eqb c "." then starts_with_digit r
      else if Ascii.eqb c "e" || Ascii.eqb c "E" then
        match r with
        | String c2 r2 =>
            if Ascii.eqb c2 "+" || Ascii.eqb c2 "-" then starts_with_digit r2
            else is_digit c2
        | EmptyString => false
        end
      else false
  | EmptyString => false
  end.

(** the number pattern of the decoder; [None] when the text matches no
    number *)
Definition scan_number (s : string) : option (scan json) :=
  let finish (negative : bool) (n : Z) (rest : string) : scan json :=
    if float_follows rest then ScanUnmodelled
    else ScanOk (JNum (if negative then (- n)%Z else n)) rest in
  let unsigned (negative : bool) (t : string) : option (scan json) :=
    match t with
    | String c r =>
        if Ascii.eqb c "0" then Some (finish negative 0%Z r)
        else if is_digit c then
          let '(n, rest) := scan_digits (digit_val c) r in
          Some (finish negative n rest)
        else None
    | EmptyString => None
    end in
  match s with
  | String c r => if Ascii.eqb c "-" then unsigned true r else unsigned false s
  | EmptyString => None
  end.

(** the text after the literal [p], when [s] starts with it *)
Fixpoint strip_prefix (p s : string) : option string :=
  match p, s with
  | EmptyString, _ => Some s
  | String a p', String b s' => if Ascii.eqb a b then strip_prefix p' s' else None
  | String _ _, EmptyString => None
  end.

Fixpoint scan_once (fuel : nat) (s : string) : scan json :=
  match fuel with
  | O => ScanUnmodelled
  | S f =>
      match s with
      | EmptyString => ScanError
      | String c r =>
          if Ascii.eqb c dquote then
            match scanstring r with
            | ScanOk str rest => ScanOk (JStr str) rest
            | ScanError => ScanError
            | ScanUnmodelled => ScanUnmodelled
            end
          else if Ascii.eqb c "{" then
            match skip_ws r with
            | String c1 r1 =>
                if Ascii.eqb c1 "}" then ScanOk (JObj []) r1
                else if Ascii.eqb c1 dquote then scan_members f [] r1
                else ScanError
            | EmptyString => ScanError
            end
          else if Ascii.eqb c "[" then
            match skip_ws r with
            | String c1 r1 =>
                if Ascii.eqb c1 "]" then ScanOk (JArr []) r1
                else scan_items f [] (String c1 r1)
            | EmptyString => ScanError
            end
          else
            match strip_prefix "null" s, strip_prefix "true" s, strip_prefix "false" s with
            | Some rest, _, _ => ScanOk JNull rest
            | _, Some rest, _ => ScanOk (JBool true) rest
            | _, _, Some rest => ScanOk (JBool false) rest
            | None, None, None =>
                match scan_number s with
                | Some res => res
                | None =>
                    if startswith "NaN" s || startswith "Infinity" s
                       || startswith "-Infinity" s
                    then ScanUnmodelled else ScanError
                end
            end
      end
  end

(** the elements of an array, read from the first character of an element;
    [acc] holds the elements read so far, most recent first *)
with scan_items (fuel : nat) (acc : list json) (s : string) : scan json :=
  match fuel with
  | O => ScanUnmodelled
  | S f =>
      match scan_once f s with
      | ScanOk v rest =>
          match skip_ws rest with
          | String c r =>
              if Ascii.eqb c "]" then ScanOk (JArr (rev (v :: acc))) r
              else if Ascii.eqb c "," then scan_items f (v :: acc) (skip_ws r)
              else ScanError
          | EmptyString => ScanError
          end
      | ScanError => ScanError
      | ScanUnmodelled => ScanUnmodelled
      end
  end

(** the members of an object, read from just after the opening quote of a
    key *)
with scan_members (fuel : nat) (acc : list (string * json)) (s : string) : scan json :=
  match fuel with
  | O => ScanUnmodelled
  | S f =>
      match scanstring s with
      | ScanOk key rest =>
          match skip_ws rest with
          | String c r =>
              if Ascii.eqb c ":" then
                match scan_once f (skip_ws r) with
                | ScanOk v rest1 =>
                    match skip_ws rest1 with
                    | String c1 r1 =>
                        if Ascii.eqb c1 "}"
                        then ScanOk (JObj (dict_of_pairs (rev ((key, v) :: acc)))) r1
                        else if Ascii.eqb c1 "," then
                          match skip_ws r1 with
                          | String c2 r2 =>
                              if Ascii.eqb c2 dquote
                              then scan_members f ((key, v) :: acc) r2
                              else ScanError
                          | EmptyString => ScanError
                          end
                        else ScanError
                    | EmptyString => ScanError
                    end
                | ScanError => ScanError
                | ScanUnmodelled => ScanUnmodelled
                end
              else ScanError
          | EmptyString => ScanError
          end
      | ScanError => ScanError
      | ScanUnmodelled => ScanUnmodelled
      end
  end.

Inductive loaded : Type :=
| Loaded (v : json)
| DecodeError
| NotModelled.

(** [json.loads(s)] *)
Definition loads (s : string) : loaded :=
  match scan_once (2 * String.length s + 2) (skip_ws s) with
  | ScanOk v rest =>
      match skip_ws rest with
      | EmptyString => Loaded v
      | String _ _ => DecodeError
      end
  | ScanError => DecodeError
  | ScanUnmodelled => NotModelled
  end.

End Json.


(** ** Server configurations ([src/config/mcp_config.py]) *)

Import Py.

Inductive MCPTransportType : Type := STDIO | SSE | HTTP.

Module MCPServerConfig.

Record t : Type := mk {
  name : string;
  command : string;
  args : list string;
  env : pydict string;
  transport : MCPTransportType;
  url : option string;
  enabled : bool;
  description : option string
}.

(** [MCPTransportType.value] *)
Definition transport_value (tr : MCPTransportType) : string :=
  match tr with
  | STDIO => "stdio"
  | SSE => "sse"
  | HTTP => "http"
  end.

(** [MCPTransportType(v)] *)
Definition transport_of_value (v : json) : outcome MCPTransportType :=
  match v with
  | JStr s =>
      if String.eqb s "stdio" then Ret STDIO
      else if String.eqb s "sse" then Ret SSE
      else if String.eqb s "http" then Ret HTTP
      else Raise (ValueError v)
  | _ => Raise (ValueError v)
  end.

Definition json_of_optstr (o : option string) : json :=
  match o with
  | Some s => JStr s
  | None => JNull
  end.

Definition to_dict (c : t) : json :=
  JObj [("name", JStr (name c));
        ("command", JStr (command c));
        ("args", JArr (map JStr (args c)));
        ("env", JObj (map (fun kv => (fst kv, JStr (snd kv))) (env c)));
        ("transport", JStr (transport_value (transport c)));
        ("url", json_of_optstr (url c));
        ("enabled", JBool (enabled c));
        ("description", json_of_optstr (description c))].

Definition field_names : list string :=
  ["name"; "command"; "args"; "env"; "transport"; "url"; "enabled"; "description"].

(** The typed reading of the keyword arguments.  The dataclass stores
    whatever it is given; a value of another type than the annotation is
    outside the embedding. *)
Definition as_str (v : json) : outcome string :=
  match v with JStr s => Ret s | _ => Unmodelled end.

Definition as_optstr (v : json) : outcome (option string) :=
  match v with JStr s => Ret (Some s) | JNull => Ret None | _ => Unmodelled end.

Definition as_bool (v : json) : outcome bool :=
  match v with JBool b => Ret b | _ => Unmodelled end.

(** [args]; [None] becomes the empty list in [__post_init__] *)
Definition as_args (v : json) : outcome (list string) :=
  match v with
  | JArr l => omap as_str l
  | JNull => Ret []
  | _ => Unmodelled
  end.

(** [env]; [None] becomes the empty dictionary in [__post_init__] *)
Definition as_env (v : json) : outcome (pydict string) :=
  match v with
  | JObj d => omap (fun kv => obind (as_str (snd kv)) (fun s => Ret (fst kv, s))) d
  | JNull => Ret []
  | _ => Unmodelled
  end.

Definition field {A} (d : pydict json) (k : string) (dflt : A)
    (read : json -> outcome A) : outcome A :=
  match dict_get k d with
  | Some v => read v
  | None => Ret dflt
  end.

Definition from_dict (data : json) : outcome t :=
  obind (py_in "transport" data) (fun has_transport =>
  obind (if has_transport
         then obind (py_getitem data "transport") (fun v =>
              obind (transport_of_value v) (fun tr => Ret (Some tr)))
         else Ret None) (fun tr =>
  match data with
  | JObj d =>
      if forallb (fun k => existsb (String.eqb k) field_names) (dict_keys d)
         && dict_contains "name" d && dict_contains "command" d
      then
        obind (field d "name" EmptyString as_str) (fun name_ =>
        obind (field d "command" EmptyString as_str) (fun command_ =>
        obind (field d "args" [] as_args) (fun args_ =>
        obind (field d "env" [] as_env) (fun env_ =>
        obind (field d "url" None as_optstr) (fun url_ =>
        obind (field d "enabled" true as_bool) (fun enabled_ =>
        obind (field d "description" None as_optstr) (fun description_ =>
        Ret (mk name_ command_ args_ env_ (default STDIO tr) url_ enabled_
                description_))))))))
      else Raise (TypeError_arguments data)
  | _ => Raise (TypeError_arguments data)
  end)).

(** [config.enabled = b] *)
Definition set_enabled (b : bool) (c : t) : t :=
  mk (name c) (command c) (args c) (env c) (transport c) (url c) b (description c).

End MCPServerConfig.

(** [MCP_SERVER_CONFIGS] of [defaults.py] *)
Definition MCP_SERVER_CONFIGS : pydict json :=
  [("filesystem",
    JObj [("name", JStr "filesystem");
          ("command", JStr "npx");
          ("args", JArr [JStr "-y"; JStr "@modelcontextprotocol/server-filesystem";
                         JStr "/Users/hemantapatil/Documents/"]);
          ("env", JObj []);
          ("transport", JStr "stdio");
          ("enabled", JBool true);
          ("description", JStr "Access local filesystem")]);
   ("math_tool",
    JObj [("name", JStr "My Math Tool");
          ("command",
           JStr "/Users/hemantapatil/Documents/dev/ai_class/math_mcp/.venv/bin/python");
          ("args",
           JArr [JStr "/Users/hemantapatil/Documents/dev/ai_class/math_mcp/math_server.py"]);
          ("env",
           JObj [("workingDirectory",
                  JStr "/Users/hemantapatil/Documents/dev/ai_class/math_mcp")]);
          ("transport", JStr "stdio");
          ("enabled", JBool true);
          ("description", JStr "Mathematical operations")]);
   ("weather",
    JObj [("name", JStr "weather");
          ("command",
           JStr "/Users/hemantapatil/Documents/dev/ai_class/weather_mcp/.venv/bin/python");
          ("args",
           JArr [JStr "/Users/hemantapatil/Documents/dev/ai_class/weather_mcp/weather.py"]);
          ("env",
           JObj [("workingDirectory",
                  JStr "/Users/hemantapatil/Documents/dev/ai_class/weather_mcp")]);
          ("transport", JStr "stdio");
          ("enabled", JBool true);
          ("description", JStr "Get Weather Information")]);
   ("usda",
    JObj [("name", JStr "USDA");
          ("command",
           JStr "/Users/hemantapatil/Documents/dev/ai_class/mcp_postgres/.venv/bin/python");
          ("args",
           JArr [JStr "/Users/hemantapatil/Documents/dev/ai_class/mcp_postgres/main.py"]);
          ("env",
           JObj [("workingDirectory",
                  JStr "/Users/hemantapatil/Documents/dev/ai_class/mcp_postgres")]);
          ("transport", JStr "stdio");
          ("enabled", JBool true);
          ("description", JStr "USDA Food and Nutrition Database")])].

(** The files the configuration manager writes.  A write that fails is
    swallowed by [_save_config], so it shows only here. *)
Record filesystem : Type := {
  files : pydict string;
  read_only : bool
}.

Module MCPConfigManager.

Record t : Type := mk {
  config_file : string;
  servers : pydict MCPServerConfig.t
}.

(** the document both [_save_config] and [export_config] serialize *)
Definition document (m : t) : json :=
  JObj [("servers",
         JObj (dict_of_pairs
                 (map (fun kv => (fst kv, MCPServerConfig.to_dict (snd kv)))
                      (servers m))))].

Definition _save_config (m : t) (fs : filesystem) : filesystem :=
  if read_only fs then fs
  else {| files := dict_set (config_file m) (Json.dumps_indent2 (document m)) (files fs);
          read_only := false |}.

Definition get_enabled_servers (m : t) : pydict MCPServerConfig.t :=
  dict_of_pairs (List.filter (fun kv => MCPServerConfig.enabled (snd kv)) (servers m)).

Definition export_config (m : t) : string :=
  Json.dumps_indent2 (document m).

(** The loop of [import_config] over the items of the [servers] document. *)
Fixpoint import_servers (items : pydict json) (acc : pydict MCPServerConfig.t)
  : outcome (pydict MCPServerConfig.t) :=
  match items with
  | [] => Ret acc
  | (name, config) :: r =>
      obind (MCPServerConfig.from_dict config) (fun c =>
      import_servers r (dict_set name c acc))
  end.

(** [import_config]: the success flag, the manager and the file system
    afterwards.  Every exception is caught and reported as [false]. *)
Definition import_config (m : t) (json_data : string) (fs : filesystem)
  : outcome (bool * t * filesystem) :=
  match Json.loads json_data with
  | Json.NotModelled => Unmodelled
  | Json.DecodeError => Ret (false, m, fs)
  | Json.Loaded data =>
      let parsed :=
        obind (py_get data "servers" (JObj [])) (fun sv =>
        match sv with
        | JObj items => import_servers items []
        | _ => Raise (AttributeError sv "items")
        end) in
      match parsed with
      | Ret servers_ =>
          let m' := mk (config_file m) servers_ in
          Ret (true, m', _save_config m' fs)
      | Raise _ => Ret (false, m, fs)
      | Unmodelled => Unmodelled
      end
  end.

(** *** The rest of the manager *)

(** The exceptions [_load_config] catches: [json.JSONDecodeError],
    [KeyError] and [ValueError]. *)
Definition caught_on_load (e : py_exn) : bool :=
  match e with
  | JSONDecodeError _ | KeyError _ | ValueError _ => true
  | _ => false
  end.

(** The [MCPServerConfig(...)] call of [_create_default_config] for one entry
    of [MCP_SERVER_CONFIGS]; the keyword arguments are evaluated in the
    order they are written. *)
Definition default_server (config : json) : outcome MCPServerConfig.t :=
  obind (py_getitem config "name") (fun name_v =>
  obind (py_getitem config "command") (fun command_v =>
  obind (py_get config "args" (JArr [])) (fun args_v =>
  obind (py_get config "env" (JObj [])) (fun env_v =>
  obind (py_get config "transport" (JStr "stdio")) (fun transport_v =>
  obind (MCPServerConfig.transport_of_value transport_v) (fun transport_ =>
  obind (py_get config "enabled" (JBool true)) (fun enabled_v =>
  obind (py_get config "description" (JStr EmptyString)) (fun description_v =>
  obind (MCPServerConfig.as_str name_v) (fun name_ =>
  obind (MCPServerConfig.as_str command_v) (fun command_ =>
  obind (MCPServerConfig.as_args args_v) (fun args_ =>
  obind (MCPServerConfig.as_env env_v) (fun env_ =>
  obind (MCPServerConfig.as_bool enabled_v) (fun enabled_ =>
  obind (MCPServerConfig.as_optstr description_v) (fun description_ =>
  Ret (MCPServerConfig.mk name_ command_ args_ env_ transport_ None enabled_
                          description_))))))))))))))).

(** The loop of [_create_default_config]. *)
Fixpoint default_servers (configs : pydict json) (acc : pydict MCPServerConfig.t)
  : outcome (pydict MCPServerConfig.t) :=
  match configs with
  | [] => Ret acc
  | (name, config) :: r =>
      obind (default_server config) (fun c => default_servers r (dict_set name c acc))
  end.

Definition _create_default_config (m : t) (fs : filesystem) : outcome (t * filesystem) :=
  obind (default_servers MCP_SERVER_CONFIGS []) (fun servers_ =>
  let m' := mk (config_file m) servers_ in
  Ret (m', _save_config m' fs)).

(** [_load_config]: the file is read when it exists; of the exceptions met on
    the way, those of [caught_on_load] leave the manager with no server, the
    others leave [__init__]. *)
Definition _load_config (m : t) (fs : filesystem) : outcome (t * filesystem) :=
  match dict_get (config_file m) (files fs) with
  | Some text =>
      let loaded :=
        match Json.loads text with
        | Json.NotModelled => Unmodelled
        | Json.DecodeError => Raise (JSONDecodeError text)
        | Json.Loaded data =>
            obind (py_get data "servers" (JObj [])) (fun sv =>
            match sv with
            | JObj items => import_servers items []
            | _ => Raise (AttributeError sv "items")
            end)
        end in
      match loaded with
      | Ret servers_ => Ret (mk (config_file m) servers_, fs)
      | Raise e =>
          if caught_on_load e then Ret (mk (config_file m) [], fs) else Raise e
      | Unmodelled => Unmodelled
      end
  | None => _create_default_config m fs
  end.

(** [MCPConfigManager(config_file)] *)
Definition new (config_file : string) (fs : filesystem) : outcome (t * filesystem) :=
  _load_config (mk config_file []) fs.

Definition add_server (server : MCPServerConfig.t) (m : t) (fs : filesystem)
  : t * filesystem :=
  let m' := mk (config_file m)
               (dict_set (MCPServerConfig.name server) server (servers m)) in
  (m', _save_config m' fs).

Definition remove_server (name : string) (m : t) (fs : filesystem)
  : bool * t * filesystem :=
  if dict_contains name (servers m) then
    let m' := mk (config_file m) (dict_del name (servers m)) in
    (true, m', _save_config m' fs)
  else (false, m, fs).

Definition update_server (name : string) (server : MCPServerConfig.t) (m : t)
    (fs : filesystem) : bool * t * filesystem :=
  if dict_contains name (servers m) then
    let m' := mk (config_file m) (dict_set name server (servers m)) in
    (true, m', _save_config m' fs)
  else (false, m, fs).

Definition get_server (name : string) (m : t) : option MCPServerConfig.t :=
  dict_get name (servers m).

(** [self.servers.copy()]: the same entries in a dictionary of their own *)
Definition get_all_servers (m : t) : pydict MCPServerConfig.t := servers m.

(** [self.servers[name].enabled = True]: the entry keeps its place *)
Definition enable_server (name : string) (m : t) (fs : filesystem)
  : bool * t * filesystem :=
  match dict_get name (servers m) with
  | Some server =>
      let m' := mk (config_file m)
                   (dict_set name (MCPServerConfig.set_enabled true server) (servers m)) in
      (true, m', _save_config m' fs)
  | None => (false, m, fs)
  end.

Definition disable_server (name : string) (m : t) (fs : filesystem)
  : bool * t * filesystem :=
  match dict_get name (servers m) with
  | Some server =>
      let m' := mk (config_file m)
                   (dict_set name (MCPServerConfig.set_enabled false server) (servers m)) in
      (true, m', _save_config m' fs)
  | None => (false, m, fs)
  end.

Definition validate_server_config (m : t) (server : MCPServerConfig.t) : list string :=
  (if String.eqb (MCPServerConfig.name server) EmptyString
      || String.eqb (strip (MCPServerConfig.name server)) EmptyString
   then ["Server name is required"] else [])
  ++ (if String.eqb (MCPServerConfig.command server) EmptyString
         || String.eqb (strip (MCPServerConfig.command server)) EmptyString
      then ["Server command is required"] else [])
  ++ (match MCPServerConfig.transport server with
      | HTTP =>
          match MCPServerConfig.url server with
          | Some u => if String.eqb u EmptyString
                      then ["URL is required for HTTP transport"] else []
          | None => ["URL is required for HTTP transport"]
          end
      | _ => []
      end)
  ++ (if dict_contains (MCPServerConfig.name server) (servers m)
      then ["Server with name '" +:+ MCPServerConfig.name server +:+ "' already exists"]
      else []).

End MCPConfigManager.

(** ** The runtime the client talks to *)

(** What a spawned provider will do: the lines it prints, and whether it
    ignores the request to terminate. *)
Record child : Type := {
  output : list string;
  ignores_sigterm : bool
}.

(** The parts of the environment the program only reads. *)
Record runtime : Type := {
  uuid4 : nat -> string;
  (** the outcome of the n-th [subprocess.Popen]; [None] when the process
      cannot be created *)
  popen : nat -> list string -> option (pydict string) -> option child;
  os_environ : pydict string;
  (** [str(e)] *)
  exc_str : py_exn -> string
}.

Inductive proc_state : Type := Running | Terminated | Killed.

Record child_process : Type := {
  stdout : list string;
  stdin : list string;
  sigterm_ignored : bool;
  state : proc_state
}.

Record MCPTool : Type := {
  tool_name : string;
  tool_description : json;
  inputSchema : json;
  tool_server_name : string
}.

Record MCPResource : Type := {
  uri : string;
  resource_name : json;
  resource_description : json;
  mimeType : json;
  resource_server_name : string
}.

(** One record per [logger] call of the modelled methods, with the values
    the message is formatted from. *)
Inductive log_record : Type :=
| LogTransportNotImplemented (tr : MCPTransportType)
| LogInitializeFailed (server : string) (response : option json)
| LogConnected (server : string)
| LogStdioFailed (server : string) (e : py_exn)
| LogRequestFailed (server : string) (e : py_exn)
| LogToolCallFailed (tool server : string) (e : py_exn)
| LogClientInitialized (successes total : nat)
| LogAvailableTools (n : nat)
| LogAvailableResources (n : nat)
| LogClientInitFailed (e : py_exn)
| LogClientDisconnected.

Record world : Type := {
  uuids_drawn : nat;
  procs : list child_process;
  (** the dictionaries that are handed out by reference, by object identity *)
  tool_dicts : list (pydict MCPTool);
  resource_dicts : list (pydict MCPResource);
  log : list log_record
}.

Definition empty_world : world :=
  {| uuids_drawn := 0; procs := []; tool_dicts := []; resource_dicts := []; log := [] |}.

Definition set_uuids_drawn (n : nat) (w : world) : world :=
  {| uuids_drawn := n; procs := procs w; tool_dicts := tool_dicts w;
     resource_dicts := resource_dicts w; log := log w |}.

Definition set_procs (ps : list child_process) (w : world) : world :=
  {| uuids_drawn := uuids_drawn w; procs := ps; tool_dicts := tool_dicts w;
     resource_dicts := resource_dicts w; log := log w |}.

Definition set_tool_dicts (ds : list (pydict MCPTool)) (w : world) : world :=
  {| uuids_drawn := uuids_drawn w; procs := procs w; tool_dicts := ds;
     resource_dicts := resource_dicts w; log := log w |}.

Definition set_resource_dicts (ds : list (pydict MCPResource)) (w : world) : world :=
  {| uuids_drawn := uuids_drawn w; procs := procs w; tool_dicts := tool_dicts w;
     resource_dicts := ds; log := log w |}.

Definition set_log (l : list log_record) (w : world) : world :=
  {| uuids_drawn := uuids_drawn w; procs := procs w; tool_dicts := tool_dicts w;
     resource_dicts := resource_dicts w; log := l |}.

(** *** Computations: state passing with exceptions *)

Definition M (S A : Type) : Type := S -> outcome A * S.

Definition ret {S A} (a : A) : M S A := fun s => (Ret a, s).

Definition raise {S A} (e : py_exn) : M S A := fun s => (Raise e, s).

Definition bind {S A B} (m : M S A) (k : A -> M S B) : M S B :=
  fun s =>
    match m s with
    | (Ret a, s') => k a s'
    | (Raise e, s') => (Raise e, s')
    | (Unmodelled, s') => (Unmodelled, s')
    end.

Notation "x <- m ;; k" := (bind m (fun x => k))
  (at level 100, m at next level, right associativity).
Notation "m ;;; k" := (bind m (fun _ => k))
  (at level 100, right associativity).

(** [try: m except Exception as e: handler e] *)
Definition try_except {S A} (m : M S A) (handler : py_exn -> M S A) : M S A :=
  fun s =>
    match m s with
    | (Raise e, s') => handler e s'
    | r => r
    end.

(** a pure step that may raise *)
Definition lift {S A} (o : outcome A) : M S A := fun s => (o, s).

Definition get_state {S} : M S S := fun s => (Ret s, s).

Definition modify {S} (f : S -> S) : M S unit := fun s => (Ret tt, f s).

(** run a computation on the world inside a larger state *)
Definition in_world {S A} (m : M world A) : M (S * world) A :=
  fun sw =>
    let '(o, w') := m (snd sw) in (o, (fst sw, w')).

(** *** Primitive effects *)

Definition logger (r : log_record) : M world unit :=
  modify (fun w => set_log (log w ++ [r]) w).

(** [str(uuid.uuid4())] *)
Definition new_uuid (rt : runtime) : M world string :=
  fun w => (Ret (uuid4 rt (uuids_drawn w)), set_uuids_drawn (S (uuids_drawn w)) w).

Definition update_proc (pid : nat) (f : child_process -> child_process) (w : world) : world :=
  match procs w !! pid with
  | Some p => set_procs (<[pid := f p]> (procs w)) w
  | None => w
  end.

(** [subprocess.Popen(argv, ..., env=env)]: the handle of the new process *)
Definition Popen (rt : runtime) (argv : list string) (env : option (pydict string))
  : M world nat :=
  fun w =>
    match popen rt (List.length (procs w)) argv env with
    | Some ch =>
        (Ret (List.length (procs w)),
         set_procs (procs w ++ [{| stdout := output ch; stdin := [];
                                   sigterm_ignored := ignores_sigterm ch;
                                   state := Running |}]) w)
    | None => (Raise (OSError argv), w)
    end.

(** [process.stdin.write(text); process.stdin.flush()] *)
Definition stdin_write (pid : nat) (text : string) : M world unit :=
  modify (update_proc pid (fun p =>
    {| stdout := stdout p; stdin := stdin p ++ [text];
       sigterm_ignored := sigterm_ignored p; state := state p |})).

(** [process.stdout.readline()]: the empty string once the stream has ended *)
Definition stdout_readline (pid : nat) : M world string :=
  fun w =>
    match procs w !! pid with
    | Some p =>
        match stdout p with
        | line :: rest =>
            (Ret line,
             update_proc pid (fun p =>
               {| stdout := rest; stdin := stdin p;
                  sigterm_ignored := sigterm_ignored p; state := state p |}) w)
        | [] => (Ret EmptyString, w)
        end
    | None => (Ret EmptyString, w)
    end.

Definition set_state (st : proc_state) (p : child_process) : child_process :=
  {| stdout := stdout p; stdin := stdin p;
     sigterm_ignored := sigterm_ignored p; state := st |}.

(** [process.terminate()] *)
Definition terminate (pid : nat) : M world unit :=
  modify (update_proc pid (fun p =>
    match state p with
    | Running => if sigterm_ignored p then p else set_state Terminated p
    | _ => p
    end)).

(** [process.wait(timeout=5)], and [process.kill()] when the wait times out *)
Definition wait_or_kill (pid : nat) : M world unit :=
  modify (update_proc pid (fun p =>
    match state p with
    | Running => set_state Killed p
    | _ => p
    end)).

(** ** One server connection ([MCPServerConnection]) *)

Module MCPServerConnection.

Record t : Type := mk {
  config : MCPServerConfig.t;
  process : option nat;
  tools : pydict MCPTool;
  resources : pydict MCPResource;
  _initialized : bool
}.

(** [MCPServerConnection(server_config)] *)
Definition new (server_config : MCPServerConfig.t) : t :=
  mk server_config None [] [] false.

Definition set_process (p : option nat) (c : t) : t :=
  mk (config c) p (tools c) (resources c) (_initialized c).

Definition set_tools (d : pydict MCPTool) (c : t) : t :=
  mk (config c) (process c) d (resources c) (_initialized c).

Definition set_resources (d : pydict MCPResource) (c : t) : t :=
  mk (config c) (process c) (tools c) d (_initialized c).

Definition set_initialized (b : bool) (c : t) : t :=
  mk (config c) (process c) (tools c) (resources c) b.

Definition server_name (c : t) : string := MCPServerConfig.name (config c).

End MCPServerConnection.

Import MCPServerConnection.

Definition newline : string := String "010" EmptyString.

Definition jsonrpc_member : string * json := ("jsonrpc", JStr "2.0").

(** The reply to a request the server sends to the client. *)
Definition _handle_server_request (c : t) (request : pydict json) : M world unit :=
  let method := get_or_none "method" request in
  let request_id := get_or_none "id" request in
  match process c with
  | None => ret tt
  | Some pid =>
      if py_eq method (JStr "roots/list") then
        let response :=
          JObj [jsonrpc_member; ("id", request_id);
                ("result", JObj [("roots", JArr [])])] in
        stdin_write pid (Json.dumps response +:+ newline)
      else
        let error_response :=
          JObj [jsonrpc_member; ("id", request_id);
                ("error", JObj [("code", JNum (-32601));
                                ("message", JStr ("Method not found: " +:+ py_str method))])] in
        stdin_write pid (Json.dumps error_response +:+ newline)
  end.

(** The reading loop of [_send_request].  Every round reads one line, so the
    number of lines the process has still to print bounds the rounds. *)
Fixpoint await_response (fuel : nat) (c : t) (pid : nat) (request_id : json)
  : M world (option json) :=
  match fuel with
  | O => lift Unmodelled
  | S fuel' =>
      response_line <- stdout_readline pid ;;
      if String.eqb response_line EmptyString then ret None
      else
        match Json.loads (strip response_line) with
        | Json.NotModelled => lift Unmodelled
        | Json.DecodeError => raise (JSONDecodeError (strip response_line))
        | Json.Loaded (JObj members) =>
            if truthy (get_or_none "method" members) && dict_contains "id" members then
              _handle_server_request c members ;;;
              await_response fuel' c pid request_id
            else if py_eq (get_or_none "id" members) request_id
            then ret (Some (JObj members))
            else await_response fuel' c pid request_id
        | Json.Loaded response => raise (AttributeError response "get")
        end
  end.

Definition pending_lines (pid : nat) (w : world) : nat :=
  match procs w !! pid with
  | Some p => List.length (stdout p)
  | None => 0
  end.

Definition _send_request (c : t) (request : pydict json) : M world (option json) :=
  match process c with
  | None => ret None
  | Some pid =>
      try_except
        (stdin_write pid (Json.dumps (JObj request) +:+ newline) ;;;
         w <- get_state ;;
         await_response (S (pending_lines pid w)) c pid (get_or_none "id" request))
        (fun e => logger (LogRequestFailed (server_name c) e) ;;; ret None)
  end.

Definition _send_notification (c : t) (notification : pydict json) : M world unit :=
  match process c with
  | None => ret tt
  | Some pid => stdin_write pid (Json.dumps (JObj notification) +:+ newline)
  end.

(** [self.tools[tool.name] = tool] for one item of [tools/list] *)
Definition add_tool (tool_data : json) : M (t * world) unit :=
  name_ <- lift (py_getitem tool_data "name") ;;
  description_ <- lift (py_get tool_data "description" (JStr EmptyString)) ;;
  schema <- lift (py_get tool_data "inputSchema" (JObj [])) ;;
  match name_ with
  | JStr n =>
      modify (fun cw : t * world =>
        (set_tools (dict_set n {| tool_name := n; tool_description := description_;
                                  inputSchema := schema;
                                  tool_server_name := server_name (fst cw) |}
                             (tools (fst cw))) (fst cw), snd cw))
  | JArr _ | JObj _ => raise (TypeError_unhashable name_)
  | _ => lift Unmodelled
  end.

(** [self.resources[resource.uri] = resource] for one item of
    [resources/list] *)
Definition add_resource (resource_data : json) : M (t * world) unit :=
  uri_ <- lift (py_getitem resource_data "uri") ;;
  name_ <- lift (py_getitem resource_data "name") ;;
  description_ <- lift (py_get resource_data "description" JNull) ;;
  mime <- lift (py_get resource_data "mimeType" JNull) ;;
  match uri_ with
  | JStr u =>
      modify (fun cw : t * world =>
        (set_resources (dict_set u {| uri := u; resource_name := name_;
                                      resource_description := description_;
                                      mimeType := mime;
                                      resource_server_name := server_name (fst cw) |}
                                 (resources (fst cw))) (fst cw), snd cw))
  | JArr _ | JObj _ => raise (TypeError_unhashable uri_)
  | _ => lift Unmodelled
  end.

Fixpoint for_each {S A} (body : A -> M S unit) (l : list A) : M S unit :=
  match l with
  | [] => ret tt
  | x :: r => body x ;;; for_each body r
  end.

(** the listing of one kind of capability: the member [key] of the
    response's [result], iterated; nothing when there is no usable response *)
Definition listed (response : option json) (key : string) : outcome (list json) :=
  match response with
  | Some resp =>
      obind (if truthy resp then py_in "result" resp else Ret false) (fun has_result =>
      if has_result : bool then
        obind (py_getitem resp "result") (fun result =>
        obind (py_get result key (JArr [])) py_iter)
      else Ret [])
  | None => Ret []
  end.

Definition _discover_capabilities (rt : runtime) : M (t * world) unit :=
  c <- (cw <- get_state ;; ret (fst cw)) ;;
  id1 <- in_world (new_uuid rt) ;;
  tools_response <- in_world (_send_request c
      [jsonrpc_member; ("id", JStr id1); ("method", JStr "tools/list")]) ;;
  tools_data <- lift (listed tools_response "tools") ;;
  for_each add_tool tools_data ;;;
  id2 <- in_world (new_uuid rt) ;;
  resources_response <- in_world (_send_request c
      [jsonrpc_member; ("id", JStr id2); ("method", JStr "resources/list")]) ;;
  resources_data <- lift (listed resources_response "resources") ;;
  for_each add_resource resources_data.

Definition init_request (id : string) : pydict json :=
  [jsonrpc_member; ("id", JStr id); ("method", JStr "initialize");
   ("params", JObj [("protocolVersion", JStr "2024-11-05");
                    ("capabilities", JObj [("roots", JObj [("listChanged", JBool true)]);
                                           ("sampling", JObj [])]);
                    ("clientInfo", JObj [("name", JStr "HemPa-MCP-Client");
                                         ("version", JStr "1.0.0")])])].

(** [not response or "error" in response] *)
Definition initialize_refused (response : option json) : outcome bool :=
  match response with
  | Some resp => if truthy resp then py_in "error" resp else Ret true
  | None => Ret true
  end.

Definition _connect_stdio (rt : runtime) : M (t * world) bool :=
  try_except
    (c0 <- (cw <- get_state ;; ret (fst cw)) ;;
     let env := MCPServerConfig.env (config c0) in
     pid <- in_world (Popen rt (MCPServerConfig.command (config c0)
                                  :: MCPServerConfig.args (config c0))
                               (match env with
                                | [] => None
                                | _ => Some (dict_update (os_environ rt) env)
                                end)) ;;
     modify (fun cw : t * world => (set_process (Some pid) (fst cw), snd cw)) ;;;
     c <- (cw <- get_state ;; ret (fst cw)) ;;
     id <- in_world (new_uuid rt) ;;
     response <- in_world (_send_request c (init_request id)) ;;
     refused <- lift (initialize_refused response) ;;
     if refused : bool then
       in_world (logger (LogInitializeFailed (server_name c) response)) ;;;
       ret false
     else
       in_world (_send_notification c
                   [jsonrpc_member; ("method", JStr "notifications/initialized")]) ;;;
       _discover_capabilities rt ;;;
       modify (fun cw : t * world => (set_initialized true (fst cw), snd cw)) ;;;
       in_world (logger (LogConnected (server_name c))) ;;;
       ret true)
    (fun e =>
       c <- (cw <- get_state ;; ret (fst cw)) ;;
       in_world (logger (LogStdioFailed (server_name c) e)) ;;;
       match process c with
       | Some pid => in_world (terminate pid)
       | None => ret tt
       end ;;;
       ret false).

Definition connect (rt : runtime) : M (t * world) bool :=
  c <- (cw <- get_state ;; ret (fst cw)) ;;
  match MCPServerConfig.transport (config c) with
  | STDIO => _connect_stdio rt
  | tr => in_world (logger (LogTransportNotImplemented tr)) ;;; ret false
  end.

(** the text [call_tool] makes of a [tools/call] response *)
Definition content_text (items : list json) : outcome string :=
  obind (omap (fun item =>
           obind (py_get item "type" JNull) (fun ty =>
           if py_eq ty (JStr "text")
           then obind (py_get item "text" (JStr EmptyString)) (fun x => Ret [x])
           else Ret [])) items) (fun chunks =>
  py_join newline (List.concat chunks)).

Definition call_tool (rt : runtime) (c : t) (tool_name : string) (arguments : json)
  : M world (bool * string) :=
  if negb (_initialized c) || negb (dict_contains tool_name (tools c)) then
    ret (false, "Tool " +:+ tool_name +:+ " not available on server " +:+ server_name c)
  else
    try_except
      (id <- new_uuid rt ;;
       response <- _send_request c
         [jsonrpc_member; ("id", JStr id); ("method", JStr "tools/call");
          ("params", JObj [("name", JStr tool_name); ("arguments", arguments)])] ;;
       match response with
       | None => ret (false, "No response from server")
       | Some resp =>
           if negb (truthy resp) then ret (false, "No response from server")
           else
             has_error <- lift (py_in "error" resp) ;;
             if has_error : bool then
               error <- lift (py_getitem resp "error") ;;
               message <- lift (py_get error "message" (JStr "Unknown error")) ;;
               ret (false, "Server error: " +:+ py_str message)
             else
               has_result <- lift (py_in "result" resp) ;;
               if has_result : bool then
                 result <- lift (py_getitem resp "result") ;;
                 has_content <- lift (py_in "content" result) ;;
                 if has_content : bool then
                   content_items <- lift (py_getitem result "content") ;;
                   items <- lift (py_iter content_items) ;;
                   text <- lift (content_text items) ;;
                   ret (true, text)
                 else ret (true, Json.dumps_indent2 result)
               else ret (false, "No result in response")
       end)
      (fun e =>
         logger (LogToolCallFailed tool_name (server_name c) e) ;;;
         ret (false, "Tool execution error: " +:+ exc_str rt e)).

Definition disconnect : M (t * world) unit :=
  c <- (cw <- get_state ;; ret (fst cw)) ;;
  match process c with
  | Some pid =>
      in_world (terminate pid) ;;;
      in_world (wait_or_kill pid) ;;;
      modify (fun cw : t * world => (set_process None (fst cw), snd cw))
  | None => ret tt
  end ;;;
  modify (fun cw : t * world => (set_initialized false (fst cw), snd cw)).

(** *** Reading a resource *)

(** The record of the [logger] call of [read_resource]; these records are
    kept in a list of their own, beside the world. *)
Inductive read_log_record : Type :=
| LogResourceReadFailed (resource_uri server : string) (e : py_exn).

(** run a computation on the second component of a larger state *)
Definition in_snd {S X A} (m : M X A) : M (S * X) A :=
  fun sx =>
    let '(o, x') := m (snd sx) in (o, (fst sx, x')).

Definition read_resource (rt : runtime) (c : t) (resource_uri : string)
  : M (list read_log_record * world) (bool * string) :=
  if negb (_initialized c) || negb (dict_contains resource_uri (resources c)) then
    ret (false, "Resource " +:+ resource_uri +:+ " not available on server "
                +:+ server_name c)
  else
    try_except
      (id <- in_world (new_uuid rt) ;;
       response <- in_world (_send_request c
         [jsonrpc_member; ("id", JStr id); ("method", JStr "resources/read");
          ("params", JObj [("uri", JStr resource_uri)])]) ;;
       match response with
       | None => ret (false, "No response from server")
       | Some resp =>
           if negb (truthy resp) then ret (false, "No response from server")
           else
             has_error <- lift (py_in "error" resp) ;;
             if has_error : bool then
               error <- lift (py_getitem resp "error") ;;
               message <- lift (py_get error "message" (JStr "Unknown error")) ;;
               ret (false, "Server error: " +:+ py_str message)
             else
               has_result <- lift (py_in "result" resp) ;;
               if has_result : bool then
                 result <- lift (py_getitem resp "result") ;;
                 has_contents <- lift (py_in "contents" result) ;;
                 if has_contents : bool then
                   contents <- lift (py_getitem result "contents") ;;
                   items <- lift (py_iter contents) ;;
                   text <- lift (content_text items) ;;
                   ret (true, text)
                 else ret (true, Json.dumps_indent2 result)
               else ret (false, "No result in response")
       end)
      (fun e =>
         modify (fun lw : list read_log_record * world =>
                   (fst lw ++ [LogResourceReadFailed resource_uri (server_name c) e],
                    snd lw)) ;;;
         ret (false, "Resource read error: " +:+ exc_str rt e)).

(** ** The registry ([DynamicMCPClient]) *)

Definition tools_at (ref : nat) (w : world) : pydict MCPTool :=
  default [] (tool_dicts w !! ref).

Definition resources_at (ref : nat) (w : world) : pydict MCPResource :=
  default [] (resource_dicts w !! ref).

Module DynamicMCPClient.

Record t : Type := mk {
  config_manager : MCPConfigManager.t;
  server_connections : pydict MCPServerConnection.t;
  (** the two catalogs are dictionary objects, held by reference *)
  available_tools : nat;
  available_resources : nat;
  _initialized : bool
}.

Definition set_server_connections (d : pydict MCPServerConnection.t) (r : t) : t :=
  mk (config_manager r) d (available_tools r) (available_resources r) (_initialized r).

Definition set_initialized (b : bool) (r : t) : t :=
  mk (config_manager r) (server_connections r) (available_tools r)
     (available_resources r) b.

(** [DynamicMCPClient(config_manager)]: two fresh, empty catalogs *)
Definition new (config_manager : MCPConfigManager.t) : M world t :=
  fun w =>
    (Ret (mk config_manager [] (List.length (tool_dicts w))
             (List.length (resource_dicts w)) false),
     set_resource_dicts (resource_dicts w ++ [[]])
       (set_tool_dicts (tool_dicts w ++ [[]]) w)).

Definition _connect_server (rt : runtime) : M (MCPServerConnection.t * world) bool :=
  connect rt.

(** [asyncio.gather] over the connection tasks, with [return_exceptions] on.  No task
    ever suspends (the pipes are read with blocking calls), so the tasks run
    to completion one after the other, in the order they were created.  The
    connections come back as the tasks left them, with one result each; a
    task that raised counts as a result that is not [True]. *)
Fixpoint gather (rt : runtime) (tasks : pydict MCPServerConnection.t)
  : M world (pydict MCPServerConnection.t * list bool) :=
  match tasks with
  | [] => ret ([], [])
  | (server_name, connection) :: rest =>
      fun w =>
        match try_except (_connect_server rt) (fun _ => ret false) (connection, w) with
        | (Ret b, (connection', w')) =>
            (tail <- gather rt rest ;;
             ret ((server_name, connection') :: fst tail, b :: snd tail)) w'
        | (Raise e, (_, w')) => (Raise e, w')
        | (Unmodelled, (_, w')) => (Unmodelled, w')
        end
  end.

(** [catalog.update(entries)] on a dictionary object of the store *)
Definition update_tools (ref : nat) (entries : pydict MCPTool) : M world unit :=
  modify (fun w => set_tool_dicts (<[ref := dict_update (tools_at ref w) entries]> (tool_dicts w)) w).

Definition update_resources (ref : nat) (entries : pydict MCPResource) : M world unit :=
  modify (fun w =>
    set_resource_dicts (<[ref := dict_update (resources_at ref w) entries]> (resource_dicts w)) w).

(** the body of the aggregation loop: an initialized connection adds its
    tools and resources to the two catalogs *)
Definition collect (r : t) (connection : MCPServerConnection.t) : M (t * world) unit :=
  if MCPServerConnection._initialized connection then
    in_world (update_tools (available_tools r) (tools connection)) ;;;
    in_world (update_resources (available_resources r) (resources connection))
  else ret tt.

Definition initialize (rt : runtime) : M (t * world) bool :=
  try_except
    (r <- (rw <- get_state ;; ret (fst rw)) ;;
     let enabled_servers := MCPConfigManager.get_enabled_servers (config_manager r) in
     let connections :=
       map (fun kv => (fst kv, MCPServerConnection.new (snd kv))) enabled_servers in
     settled <- in_world (gather rt connections) ;;
     let results := snd settled in
     modify (fun rw : t * world =>
       (set_server_connections (dict_update (server_connections (fst rw)) (fst settled))
                               (fst rw), snd rw)) ;;;
     r <- (rw <- get_state ;; ret (fst rw)) ;;
     for_each (collect r) (dict_values (server_connections r)) ;;;
     modify (fun rw : t * world => (set_initialized true (fst rw), snd rw)) ;;;
     let success_count := List.length (List.filter (fun b : bool => b) results) in
     let total_count := List.length enabled_servers in
     w <- (rw <- get_state ;; ret (snd rw)) ;;
     in_world (logger (LogClientInitialized success_count total_count)) ;;;
     in_world (logger (LogAvailableTools (List.length (tools_at (available_tools r) w)))) ;;;
     in_world (logger (LogAvailableResources
                         (List.length (resources_at (available_resources r) w)))) ;;;
     ret (0 <? success_count))
    (fun e => in_world (logger (LogClientInitFailed e)) ;;; ret false).

(** [catalog.copy()]: a new dictionary object with the same entries *)
Definition copy_tools (ref : nat) : M world nat :=
  fun w => (Ret (List.length (tool_dicts w)),
            set_tool_dicts (tool_dicts w ++ [tools_at ref w]) w).

Definition copy_resources (ref : nat) : M world nat :=
  fun w => (Ret (List.length (resource_dicts w)),
            set_resource_dicts (resource_dicts w ++ [resources_at ref w]) w).

(** the reference of the dictionary handed to the caller *)
Definition get_available_tools (rt : runtime) : M (t * world) nat :=
  r <- (rw <- get_state ;; ret (fst rw)) ;;
  (if negb (_initialized r) then initialize rt ;;; ret tt else ret tt) ;;;
  in_world (copy_tools (available_tools r)).

Definition get_available_resources (rt : runtime) : M (t * world) nat :=
  r <- (rw <- get_state ;; ret (fst rw)) ;;
  (if negb (_initialized r) then initialize rt ;;; ret tt else ret tt) ;;;
  in_world (copy_resources (available_resources r)).

Definition execute_tool (rt : runtime) (tool_name : string) (parameters : json)
  : M (t * world) (bool * string) :=
  rw <- get_state ;;
  let r := fst rw in
  match dict_get tool_name (tools_at (available_tools r) (snd rw)) with
  | None => ret (false, "Tool " +:+ tool_name +:+ " not found")
  | Some tool =>
      match dict_get (tool_server_name tool) (server_connections r) with
      | Some connection =>
          if MCPServerConnection._initialized connection
          then in_world (call_tool rt connection tool_name parameters)
          else ret (false, "Server " +:+ tool_server_name tool +:+ " not connected")
      | None => ret (false, "Server " +:+ tool_server_name tool +:+ " not connected")
      end
  end.

Definition read_resource (rt : runtime) (resource_uri : string)
  : M (t * (list read_log_record * world)) (bool * string) :=
  rlw <- get_state ;;
  let r := fst rlw in
  match dict_get resource_uri (resources_at (available_resources r) (snd (snd rlw))) with
  | None => ret (false, "Resource " +:+ resource_uri +:+ " not found")
  | Some resource =>
      match dict_get (resource_server_name resource) (server_connections r) with
      | Some connection =>
          if MCPServerConnection._initialized connection
          then in_snd (read_resource rt connection resource_uri)
          else ret (false, "Server " +:+ resource_server_name resource +:+ " not connected")
      | None =>
          ret (false, "Server " +:+ resource_server_name resource +:+ " not connected")
      end
  end.

Definition capability_patterns : pydict (list string) :=
  [("weather", ["forecast"; "weather"; "alerts"; "temperature"; "climate"]);
   ("math", ["add"; "sub"; "multiply"; "calculate"; "solve"; "equation"]);
   ("search", ["search"; "find"; "lookup"]);
   ("filesystem", ["list_files"; "read_file"; "write_file"; "file"]);
   ("database", ["query"; "table"; "sql"; "database"]);
   ("usda", ["food"; "nutrition"; "usda"]);
   ("food", ["food"; "nutrition"; "usda"]);
   ("nutrition", ["food"; "nutrition"; "usda"])].

(** [has_capability] over the tool names in the order the catalog yields
    them *)
Definition has_capability_of (tool_names : list string) (capability : string) : bool :=
  let capability_lower := lower capability in
  if match dict_get capability_lower capability_patterns with
     | Some patterns =>
         existsb (fun tool_name =>
                    existsb (fun pattern => substring_of pattern (lower tool_name)) patterns)
                 tool_names
     | None => false
     end
  then true
  else if existsb (fun tool_name => substring_of capability_lower (lower tool_name))
                  tool_names
  then true
  else false.

Definition has_capability (r : t) (w : world) (capability : string) : bool :=
  has_capability_of (dict_keys (tools_at (available_tools r) w)) capability.

(** the loop of [cleanup]: every connection object is disconnected in place *)
Fixpoint disconnect_each (connections : pydict MCPServerConnection.t)
  : M world (pydict MCPServerConnection.t) :=
  match connections with
  | [] => ret []
  | (server_name, connection) :: rest =>
      fun w =>
        match disconnect (connection, w) with
        | (Ret _, (connection', w')) =>
            (tail <- disconnect_each rest ;; ret ((server_name, connection') :: tail)) w'
        | (Raise e, (_, w')) => (Raise e, w')
        | (Unmodelled, (_, w')) => (Unmodelled, w')
        end
  end.

Definition cleanup : M (t * world) unit :=
  r <- (rw <- get_state ;; ret (fst rw)) ;;
  _ <- in_world (disconnect_each (server_connections r)) ;;
  modify (fun rw : t * world => (set_server_connections [] (fst rw), snd rw)) ;;;
  in_world (modify (fun w =>
    set_tool_dicts (<[available_tools r := []]> (tool_dicts w)) w)) ;;;
  in_world (modify (fun w =>
    set_resource_dicts (<[available_resources r := []]> (resource_dicts w)) w)) ;;;
  modify (fun rw : t * world => (set_initialized false (fst rw), snd rw)) ;;;
  in_world (logger LogClientDisconnected).

End DynamicMCPClient.

(** ** Notions the statements below are phrased with *)

(** The topics [has_capability] knows by name. *)
Definition known_topics : list string :=
  ["weather"; "math"; "search"; "filesystem"; "database"; "usda"; "food"; "nutrition"].

(** [p] occurs in [s], as a proposition: [s] is [a ++ p ++ b]. *)
Definition occurs_in (p s : string) : Prop :=
  exists a b, s = a +:+ p +:+ b.

(** Is [c] a capital letter, among the code points below 256: one of A to
    Z, or an accented capital, from 192 to 222 but for the multiplication
    sign at 215? *)
Definition is_capital (c : ascii) : bool :=
  let n := code c in
  ((65 <=? n) && (n <=? 90)) || ((192 <=? n) && (n <=? 222) && negb (n =? 215)).

(** Do the characters [a] and [b] differ at most by case: they are the
    same, or one is a capital and the other its small letter, which stands
    32 code points higher? *)
Definition same_letter (a b : ascii) : bool :=
  Ascii.eqb a b
  || (is_capital a && (code b =? code a + 32))
  || (is_capital b && (code a =? code b + 32)).

(** Are [s] and [t] the same string but for the case of their letters? *)
Fixpoint same_ignoring_case (s t : string) : bool :=
  match s, t with
  | EmptyString, EmptyString => true
  | String a s', String b t' => same_letter a b && same_ignoring_case s' t'
  | _, _ => false
  end.

(** Is the child process behind the handle [pid] still running? *)
Definition alive (pid : nat) (w : world) : bool :=
  match procs w !! pid with
  | Some p => match state p with Running => true | _ => false end
  | None => false
  end.

(** What [disconnect] does to the process table: the request to terminate,
    then the forced end of a process that has not exited. *)
Definition reap (pid : nat) (w : world) : world :=
  snd (wait_or_kill pid (snd (terminate pid w))).

(** A connection after [disconnect]. *)
Definition disconnected (c : MCPServerConnection.t) : MCPServerConnection.t :=
  set_initialized false (set_process None c).

(** [post m s Q]: running [m] from [s] ends in an outcome and a state that
    satisfy [Q]. *)
Definition post {S A} (m : M S A) (s : S) (Q : outcome A -> S -> Prop) : Prop :=
  Q (fst (m s)) (snd (m s)).

Definition is_initialize_record (r : log_record) : bool :=
  match r with
  | LogClientInitialized _ _ => true
  | _ => false
  end.

(** How many runs of [initialize] have completed: each logs its summary
    line once. *)
Definition initialize_runs (w : world) : nat :=
  List.length (List.filter is_initialize_record (log w)).

(** What a connection leaves alone in the world: the dictionary store and
    the count of completed [initialize] runs. *)
Definition frame (w w' : world) : Prop :=
  tool_dicts w' = tool_dicts w /\
  resource_dicts w' = resource_dicts w /\
  initialize_runs w' = initialize_runs w.

(** Every tool a connection holds is filed under its own name and carries
    the name of the connection's configuration. *)
Definition tools_ok (c : MCPServerConnection.t) : Prop :=
  Forall (fun kt => tool_name (snd kt) = fst kt /\
                    tool_server_name (snd kt) = server_name c) (tools c).

(** The catalog the aggregation loop of [initialize] builds from [acc]. *)
Definition aggregate_tools (connections : list MCPServerConnection.t)
    (acc : pydict MCPTool) : pydict MCPTool :=
  fold_left (fun acc c => if _initialized c then dict_update acc (tools c) else acc)
            connections acc.

Definition aggregate_resources (connections : list MCPServerConnection.t)
    (acc : pydict MCPResource) : pydict MCPResource :=
  fold_left (fun acc c => if _initialized c then dict_update acc (resources c) else acc)
            connections acc.

(** What running a connection's own methods keeps of it: its configuration
    and flag, the shape of its tool map, and the world's [frame]. *)
Definition conn_kept (c0 : MCPServerConnection.t) (w0 : world)
    (cw : MCPServerConnection.t * world) : Prop :=
  config (fst cw) = config c0 /\
  _initialized (fst cw) = _initialized c0 /\
  tools_ok (fst cw) /\
  frame w0 (snd cw).

(** What [connect] promises of a connection that started as [c0] in the world
    [w0]: it never raises; it answers [true] only with the flag set, and
    [false] only with the flag as it was. *)
Definition connect_outcome (c0 : MCPServerConnection.t) (w0 : world)
    (o : outcome bool) (cw : MCPServerConnection.t * world) : Prop :=
  config (fst cw) = config c0 /\ tools_ok (fst cw) /\ frame w0 (snd cw) /\
  match o with
  | Ret true => _initialized (fst cw) = true
  | Ret false => _initialized (fst cw) = _initialized c0
  | Raise _ => False
  | Unmodelled => True
  end.

(** How [gather] settles its tasks: one connection and one result per task,
    in order, each connection keeping its name and configuration, and
    initialized exactly when its result is [true] or it was so before. *)
Inductive settled :
  pydict MCPServerConnection.t -> pydict MCPServerConnection.t -> list bool -> Prop :=
| settled_nil : settled [] [] []
| settled_cons name c0 c b tasks connections results :
    config c = config c0 ->
    tools_ok c ->
    _initialized c = (if b : bool then true else _initialized c0) ->
    settled tasks connections results ->
    settled ((name, c0) :: tasks) ((name, c) :: connections) (b :: results).

(** The enabled servers attempted one after the other from the world [w]:
    each is given a new connection, on which [connect] is run in the world
    the attempt before it left, whatever that attempt answered.  The
    connections are listed as the attempts left them, under the keys of
    their servers, with what each attempt answered. *)
Inductive attempts (rt : runtime) :
  world -> pydict MCPServerConfig.t -> pydict MCPServerConnection.t -> list bool ->
  world -> Prop :=
| attempts_nil w : attempts rt w [] [] [] w
| attempts_cons w key cfg enabled b c w1 connections results w' :
    connect rt (MCPServerConnection.new cfg, w) = (Ret b, (c, w1)) ->
    attempts rt w1 enabled connections results w' ->
    attempts rt w ((key, cfg) :: enabled) ((key, c) :: connections) (b :: results) w'.

(** One round of the aggregation loop of [initialize], on the catalogs
    behind the references [tools_ref] and [resources_ref]. *)
Definition absorb (tools_ref resources_ref : nat) (w : world)
    (c : MCPServerConnection.t) : world :=
  if _initialized c then
    snd (DynamicMCPClient.update_resources resources_ref (resources c)
           (snd (DynamicMCPClient.update_tools tools_ref (tools c) w)))
  else w.

(** The registry and the world [initialize] leaves, given how [gather]
    settled the connections. *)
Definition initialized_registry (r : DynamicMCPClient.t)
    (connections : pydict MCPServerConnection.t) : DynamicMCPClient.t :=
  DynamicMCPClient.set_initialized true
    (DynamicMCPClient.set_server_connections
       (dict_update (DynamicMCPClient.server_connections r) connections) r).

Definition aggregated_world (r : DynamicMCPClient.t)
    (connections : pydict MCPServerConnection.t) (w : world) : world :=
  fold_left (absorb (DynamicMCPClient.available_tools r)
                    (DynamicMCPClient.available_resources r))
    (dict_values (dict_update (DynamicMCPClient.server_connections r) connections)) w.

Definition initialized_world (r : DynamicMCPClient.t)
    (connections : pydict MCPServerConnection.t) (results : list bool)
    (enabled : nat) (w : world) : world :=
  let w1 := aggregated_world r connections w in
  snd (logger (LogAvailableResources
                 (List.length (resources_at (DynamicMCPClient.available_resources r) w1)))
      (snd (logger (LogAvailableTools
                      (List.length (tools_at (DynamicMCPClient.available_tools r) w1)))
           (snd (logger (LogClientInitialized
                           (List.length (List.filter (fun b : bool => b) results))
                           enabled) w1))))).

(** The connection tasks [initialize] creates. *)
Definition connection_tasks (m : MCPConfigManager.t) : pydict MCPServerConnection.t :=
  map (fun kv => (fst kv, MCPServerConnection.new (snd kv)))
      (MCPConfigManager.get_enabled_servers m).

Inductive getter : Type := GetTools | GetResources.

(** A caller invoking the two getters in some order, dropping the results. *)
Fixpoint run_getters (rt : runtime) (calls : list getter)
  : M (DynamicMCPClient.t * world) unit :=
  match calls with
  | [] => ret tt
  | GetTools :: rest =>
      DynamicMCPClient.get_available_tools rt ;;; run_getters rt rest
  | GetResources :: rest =>
      DynamicMCPClient.get_available_resources rt ;;; run_getters rt rest
  end.

(** ** Documents the codec round-trips *)

(** A document as CPython holds it: no dictionary in it has a key twice. *)
Unset Elimination Schemes.
Inductive json_wf : json -> Prop :=
| wf_null : json_wf JNull
| wf_bool b : json_wf (JBool b)
| wf_num z : json_wf (JNum z)
| wf_str s : json_wf (JStr s)
| wf_arr items : Forall json_wf items -> json_wf (JArr items)
| wf_obj members :
    dict_wf members -> Forall (fun kv => json_wf (snd kv)) members ->
    json_wf (JObj members).
Set Elimination Schemes.

(** The number of nodes of a document, which bounds the fuel the decoder
    needs for it. *)
Fixpoint json_size (v : json) : nat :=
  match v with
  | JArr items => S (list_sum (map (fun x => S (json_size x)) items))
  | JObj members => S (list_sum (map (fun kv => S (json_size (snd kv))) members))
  | _ => 1
  end.

(** The text after a number does not continue it. *)
Definition follow_ok (rest : string) : Prop :=
  Json.float_follows rest = false /\ Json.starts_with_digit rest = false.

(** Whatever the layout and whatever follows, the decoder reads the text of
    [v] back as [v], given fuel for every node of it. *)
Definition round_trips (v : json) : Prop :=
  forall indent level fuel rest,
    json_size v <= fuel -> follow_ok rest ->
    Json.scan_once fuel (Json.encode indent level v +:+ rest) = Json.ScanOk v rest.

(** the value the digits of [u] add to [acc], read left to right *)
Fixpoint uint_val (acc : Z) (u : Decimal.uint) : Z :=
  match u with
  | Decimal.Nil => acc
  | Decimal.D0 l => uint_val (acc * 10 + 0) l
  | Decimal.D1 l => uint_val (acc * 10 + 1) l
  | Decimal.D2 l => uint_val (acc * 10 + 2) l
  | Decimal.D3 l => uint_val (acc * 10 + 3) l
  | Decimal.D4 l => uint_val (acc * 10 + 4) l
  | Decimal.D5 l => uint_val (acc * 10 + 5) l
  | Decimal.D6 l => uint_val (acc * 10 + 6) l
  | Decimal.D7 l => uint_val (acc * 10 + 7) l
  | Decimal.D8 l => uint_val (acc * 10 + 8) l
  | Decimal.D9 l => uint_val (acc * 10 + 9) l
  end%Z.

(** The text of the members of an object from just after the opening quote
    of the first key [k], as the encoder writes it. *)
Fixpoint members_after_quote (enc : json -> string) (sep : string)
    (k : string) (v : json) (more : pydict json) : string :=
  Json.escape k +:+
  String dquote (": " +:+ enc v +:+
                 match more with
                 | [] => EmptyString
                 | (k', v') :: more' =>
                     sep +:+ String dquote (members_after_quote enc sep k' v' more')
                 end).

(** ** Messages on the wire *)

(** The test [_send_request] applies to an incoming message to decide that
    it is a request from the server: a truthy [method], and an [id] key. *)
Definition is_server_request (message : pydict json) : bool :=
  truthy (get_or_none "method" message) && dict_contains "id" message.

(** The answer to a [roots/list] request: an empty list of roots. *)
Definition roots_reply (id : json) : json :=
  JObj [jsonrpc_member; ("id", id); ("result", JObj [("roots", JArr [])])].

(** The JSON-RPC error that answers any other method. *)
Definition method_not_found (id method : json) : json :=
  JObj [jsonrpc_member; ("id", id);
        ("error", JObj [("code", JNum (-32601));
                        ("message", JStr ("Method not found: " +:+ py_str method))])].

(** The line sent back for a request from the server. *)
Definition answer (message : pydict json) : string :=
  Json.dumps
    (if py_eq (get_or_none "method" message) (JStr "roots/list")
     then roots_reply (get_or_none "id" message)
     else method_not_found (get_or_none "id" message) (get_or_none "method" message))
  +:+ newline.

(** The world with the state of the process [pid] replaced. *)
Definition with_proc (pid : nat) (p : child_process) (w : world) : world :=
  set_procs (<[pid := p]> (procs w)) w.

(** An incoming line, the message it decodes to, and what the reading loop
    does with it while it waits for the response to [request_id]: it is a
    request from the server, or some other message for someone else. *)
Definition passes_by (request_id : json) (lm : string * pydict json) : Prop :=
  Json.loads (strip (fst lm)) = Json.Loaded (JObj (snd lm)) /\
  (is_server_request (snd lm) = true \/
   py_eq (get_or_none "id" (snd lm)) request_id = false).

(** The answers the reading loop writes for the messages that pass by. *)
Definition answers (incoming : list (string * pydict json)) : list string :=
  map answer (List.filter is_server_request (map snd incoming)).

(** ** Reading a [tools/call] response *)

(** The [tools/call] request [call_tool] sends under the identifier [id]. *)
Definition tools_call_request (id tool_name : string) (arguments : json) : pydict json :=
  [jsonrpc_member; ("id", JStr id); ("method", JStr "tools/call");
   ("params", JObj [("name", JStr tool_name); ("arguments", arguments)])].

(** A content item of type [text] with the string [text]. *)
Definition text_item (item : json) (text : string) : Prop :=
  exists members,
    item = JObj members /\
    dict_get "type" members = Some (JStr "text") /\
    dict_get "text" members = Some (JStr text).

(** What [call_tool] makes of a response object, case by case. *)
Inductive reads_as : pydict json -> bool * string -> Prop :=
| reads_error members error :
    dict_get "error" members = Some (JObj error) ->
    reads_as members
      (false, "Server error: "
              +:+ py_str (default (JStr "Unknown error") (dict_get "message" error)))
| reads_content members result items texts :
    dict_get "error" members = None ->
    dict_get "result" members = Some (JObj result) ->
    dict_get "content" result = Some (JArr items) ->
    Forall2 text_item items texts ->
    reads_as members (true, join newline texts)
| reads_result members result :
    dict_get "error" members = None ->
    dict_get "result" members = Some (JObj result) ->
    dict_get "content" result = None ->
    reads_as members (true, Json.dumps_indent2 (JObj result))
| reads_neither members :
    members <> [] ->
    dict_get "error" members = None ->
    dict_get "result" members = None ->
    reads_as members (false, "No result in response").

(** A response object [call_tool] cannot read, and the exception it meets
    on it: an [error] that is no object; or, without an [error], a [result]
    that is null, a boolean or a number. *)
Inductive misreads_as : pydict json -> py_exn -> Prop :=
| misreads_error members error :
    dict_get "error" members = Some error ->
    (forall fields, error <> JObj fields) ->
    misreads_as members (AttributeError error "get")
| misreads_result members result :
    dict_get "error" members = None ->
    dict_get "result" members = Some result ->
    result = JNull \/ (exists b, result = JBool b) \/ (exists z, result = JNum z) ->
    misreads_as members (TypeError_not_container result).

(** The cases of [call_tool]: refused at once, leaving the world as it
    was; or sent under a newly drawn identifier, and then left without a
    response, read from the response object that [_send_request] hands
    back, or failed on a response object it cannot read, the failure being
    logged. *)
Inductive call_tool_case (rt : runtime) (c : MCPServerConnection.t)
    (tool_name : string) (arguments : json) (w : world)
  : bool * string -> world -> Prop :=
| call_refused :
    _initialized c = false \/ dict_get tool_name (tools c) = None ->
    call_tool_case rt c tool_name arguments w
      (false, "Tool " +:+ tool_name +:+ " not available on server " +:+ server_name c) w
| call_unanswered w' :
    _initialized c = true ->
    dict_contains tool_name (tools c) = true ->
    _send_request c
      (tools_call_request (uuid4 rt (uuids_drawn w)) tool_name arguments)
      (set_uuids_drawn (S (uuids_drawn w)) w)
      = (Ret None, w') ->
    call_tool_case rt c tool_name arguments w (false, "No response from server") w'
| call_answered members w' result :
    _initialized c = true ->
    dict_contains tool_name (tools c) = true ->
    _send_request c
      (tools_call_request (uuid4 rt (uuids_drawn w)) tool_name arguments)
      (set_uuids_drawn (S (uuids_drawn w)) w)
      = (Ret (Some (JObj members)), w') ->
    reads_as members result ->
    call_tool_case rt c tool_name arguments w result w'
| call_failed members w' e :
    _initialized c = true ->
    dict_contains tool_name (tools c) = true ->
    _send_request c
      (tools_call_request (uuid4 rt (uuids_drawn w)) tool_name arguments)
      (set_uuids_drawn (S (uuids_drawn w)) w)
      = (Ret (Some (JObj members)), w') ->
    misreads_as members e ->
    call_tool_case rt c tool_name arguments w
      (false, "Tool execution error: " +:+ exc_str rt e)
      (snd (logger (LogToolCallFailed tool_name (server_name c) e) w')).

(** ** Providers to run the program against *)

Definition demo_uuid (n : nat) : string := "uuid-" +:+ str_of_Z (Z.of_nat n).

Definition demo_line (v : json) : string := Json.dumps v +:+ newline.

(** the response to the request that carried the [n]-th identifier *)
Definition demo_reply (n : nat) (members : pydict json) : string :=
  demo_line (JObj (jsonrpc_member :: ("id", JStr (demo_uuid n)) :: members)).

Definition demo_tool (name : string) : json :=
  JObj [("name", JStr name);
        ("description", JStr ("the " +:+ name +:+ " tool"));
        ("inputSchema", JObj [("type", JStr "object")])].

(** A provider that completes the handshake started with the [first]-th
    identifier, lists [tool_names] and no resource, and then prints [later]. *)
Definition demo_provider (first : nat) (tool_names : list string) (later : list string)
  : child :=
  {| output :=
       [demo_reply first [("result", JObj [("protocolVersion", JStr "2024-11-05")])];
        demo_reply (S first) [("result", JObj [("tools", JArr (map demo_tool tool_names))])];
        demo_reply (S (S first)) [("result", JObj [("resources", JArr [])])]]
       ++ later;
     ignores_sigterm := false |}.

Definition demo_config (name command : string) : MCPServerConfig.t :=
  MCPServerConfig.mk name command [] [] STDIO None true None.

Definition demo_runtime (spawn : string -> option child) : runtime :=
  {| uuid4 := demo_uuid;
     popen := fun _ argv _ => match argv with command :: _ => spawn command | [] => None end;
     os_environ := [("PATH", "/usr/bin")];
     exc_str := fun _ => "error" |}.

(** Three configured servers; the second cannot be spawned. *)
Definition three_servers : MCPConfigManager.t :=
  MCPConfigManager.mk "mcp_config.json"
    [("alpha", demo_config "alpha" "run-alpha");
     ("beta", demo_config "beta" "run-beta");
     ("gamma", demo_config "gamma" "run-gamma")].

Definition three_servers_runtime : runtime :=
  demo_runtime (fun command =>
    if String.eqb command "run-alpha" then Some (demo_provider 0 ["add"; "sub"] [])
    else if String.eqb command "run-gamma" then Some (demo_provider 3 ["get_forecast"] [])
    else None).

(** The configuration the program ships with ([MCP_SERVER_CONFIGS] of
    [defaults.py], as [_create_default_config] loads it): two servers are
    filed under a key that differs from their name. *)
Definition shipped_defaults : MCPConfigManager.t :=
  MCPConfigManager.mk "mcp_config.json"
    [("filesystem",
      MCPServerConfig.mk "filesystem" "npx"
        ["-y"; "@modelcontextprotocol/server-filesystem"; "/Users/hemantapatil/Documents/"]
        [] STDIO None true (Some "Access local filesystem"));
     ("math_tool",
      MCPServerConfig.mk "My Math Tool"
        "/Users/hemantapatil/Documents/dev/ai_class/math_mcp/.venv/bin/python"
        ["/Users/hemantapatil/Documents/dev/ai_class/math_mcp/math_server.py"]
        [("workingDirectory", "/Users/hemantapatil/Documents/dev/ai_class/math_mcp")]
        STDIO None true (Some "Mathematical operations"));
     ("weather",
      MCPServerConfig.mk "weather"
        "/Users/hemantapatil/Documents/dev/ai_class/weather_mcp/.venv/bin/python"
        ["/Users/hemantapatil/Documents/dev/ai_class/weather_mcp/weather.py"]
        [("workingDirectory", "/Users/hemantapatil/Documents/dev/ai_class/weather_mcp")]
        STDIO None true (Some "Get Weather Information"));
     ("usda",
      MCPServerConfig.mk "USDA"
        "/Users/hemantapatil/Documents/dev/ai_class/mcp_postgres/.venv/bin/python"
        ["/Users/hemantapatil/Documents/dev/ai_class/mcp_postgres/main.py"]
        [("workingDirectory", "/Users/hemantapatil/Documents/dev/ai_class/mcp_postgres")]
        STDIO None true (Some "USDA Food and Nutrition Database"))].

(** All four shipped servers start and complete the handshake; the math
    server and the USDA server both offer a tool called [add]. *)
Definition shipped_defaults_runtime : runtime :=
  demo_runtime (fun command =>
    if String.eqb command "npx"
    then Some (demo_provider 0 ["list_files"; "read_file"] [])
    else if substring_of "math_mcp" command
    then Some (demo_provider 3 ["add"; "sub"] [])
    else if substring_of "weather_mcp" command
    then Some (demo_provider 6 ["get_forecast"] [])
    else if substring_of "mcp_postgres" command
    then Some (demo_provider 9 ["search_foods"; "add"] [])
    else None).

(** A connection in the middle of a session: initialized, with the tool
    [add] on file, talking to the process with handle 0. *)
Definition session_connection : MCPServerConnection.t :=
  MCPServerConnection.mk (demo_config "alpha" "run-alpha") (Some 0)
    [("add", {| tool_name := "add"; tool_description := JStr "the add tool";
                inputSchema := JObj [("type", JStr "object")];
                tool_server_name := "alpha" |})]
    [] true.

(** The world of that session when the provider is about to print [lines]. *)
Definition session_world (lines : list string) : world :=
  {| uuids_drawn := 0;
     procs := [{| stdout := lines; stdin := []; sigterm_ignored := false;
                  state := Running |}];
     tool_dicts := []; resource_dicts := []; log := [] |}.

Definition stdin_of (pid : nat) (w : world) : list string :=
  match procs w !! pid with
  | Some p => stdin p
  | None => []
  end.

Definition stdout_of (pid : nat) (w : world) : list string :=
  match procs w !! pid with
  | Some p => stdout p
  | None => []
  end.

Definition add_arguments : json := JObj [("a", JNum 1); ("b", JNum 3)].

Definition add_request : pydict json := tools_call_request (demo_uuid 0) "add" add_arguments.

(** The provider's answer to [add_request]. *)
Definition add_response : pydict json :=
  [jsonrpc_member; ("id", JStr (demo_uuid 0));
   ("result", JObj [("content", JArr [JObj [("type", JStr "text"); ("text", JStr "4")]])])].

(** Messages a provider may print before it answers. *)
Definition roots_list_request : pydict json :=
  [jsonrpc_member; ("id", JNum 7); ("method", JStr "roots/list")].

Definition sampling_request : pydict json :=
  [jsonrpc_member; ("id", JNum 8); ("method", JStr "sampling/createMessage")].

Definition progress_notification : pydict json :=
  [jsonrpc_member; ("method", JStr "notifications/progress")].

Definition stale_response : pydict json :=
  [jsonrpc_member; ("id", JStr "stale"); ("result", JObj [])].

(** A request whose [method] is the empty string. *)
Definition empty_method_request : pydict json :=
  [jsonrpc_member; ("id", JNum 7); ("method", JStr EmptyString)].

(** A request from the server that happens to carry the pending id. *)
Definition same_id_request : pydict json :=
  [jsonrpc_member; ("id", JStr (demo_uuid 0)); ("method", JStr "ping")].

(** Responses a provider may give to [add_request]. *)
Definition error_response : pydict json :=
  [jsonrpc_member; ("id", JStr (demo_uuid 0));
   ("error", JObj [("code", JNum (-32000)); ("message", JStr "boom")])].

Definition raw_response : pydict json :=
  [jsonrpc_member; ("id", JStr (demo_uuid 0)); ("result", JObj [("sum", JNum 4)])].

Definition empty_response : pydict json :=
  [jsonrpc_member; ("id", JStr (demo_uuid 0))].

Definition two_texts_response : pydict json :=
  [jsonrpc_member; ("id", JStr (demo_uuid 0));
   ("result", JObj [("content", JArr [JObj [("type", JStr "text"); ("text", JStr "4")];
                                      JObj [("type", JStr "text"); ("text", JStr "four")]])])].

(** Responses [call_tool] cannot read: a [result] that is a number, and an
    [error] that is a string. *)
Definition number_response : pydict json :=
  [jsonrpc_member; ("id", JStr (demo_uuid 0)); ("result", JNum 4)].

Definition text_error_response : pydict json :=
  [jsonrpc_member; ("id", JStr (demo_uuid 0)); ("error", JStr "boom")].

(** No configured server can be spawned. *)
Definition no_server_runtime : runtime := demo_runtime (fun _ => None).

(** ** Notions for the configuration manager *)

(** A value [MCPTransportType] accepts. *)
Definition valid_transport (v : json) : Prop :=
  exists tr, v = JStr (MCPServerConfig.transport_value tr).

(** The shape of every table of servers: no key twice, in the table and in
    the environment of each server. *)
Definition servers_wf (d : pydict MCPServerConfig.t) : Prop :=
  dict_wf d /\ Forall (fun kv => dict_wf (MCPServerConfig.env (snd kv))) d.

(** How reading the text of a configuration file fails, and with which
    exception: the text is no JSON document; the document is no object; its
    [servers] member is no object; or [from_dict] rejects one of the entries,
    the ones before it being accepted. *)
Inductive load_failure (text : string) : py_exn -> Prop :=
| load_undecodable :
    Json.loads text = Json.DecodeError ->
    load_failure text (JSONDecodeError text)
| load_not_an_object data :
    Json.loads text = Json.Loaded data ->
    (forall members, data <> JObj members) ->
    load_failure text (AttributeError data "get")
| load_servers_not_an_object members sv :
    Json.loads text = Json.Loaded (JObj members) ->
    dict_get "servers" members = Some sv ->
    (forall items, sv <> JObj items) ->
    load_failure text (AttributeError sv "items")
| load_rejected_entry members before key entry after e :
    Json.loads text = Json.Loaded (JObj members) ->
    dict_get "servers" members = Some (JObj (before ++ (key, entry) :: after)) ->
    Forall (fun kv => exists c, MCPServerConfig.from_dict (snd kv) = Ret c) before ->
    MCPServerConfig.from_dict entry = Raise e ->
    load_failure text e.

(** ** Notions for reading a resource *)

(** The [resources/read] request [read_resource] sends under the identifier
    [id]. *)
Definition resources_read_request (id resource_uri : string) : pydict json :=
  [jsonrpc_member; ("id", JStr id); ("method", JStr "resources/read");
   ("params", JObj [("uri", JStr resource_uri)])].

(** The texts taken from a list of items: an item whose [type] is [text]
    gives its [text], the empty string when it has none; any other item is
    passed over. *)
Inductive selects_texts : list json -> list string -> Prop :=
| selects_nil : selects_texts [] []
| selects_text members text items texts :
    dict_get "type" members = Some (JStr "text") ->
    default (JStr EmptyString) (dict_get "text" members) = JStr text ->
    selects_texts items texts ->
    selects_texts (JObj members :: items) (text :: texts)
| selects_skip members items texts :
    py_eq (get_or_none "type" members) (JStr "text") = false ->
    selects_texts items texts ->
    selects_texts (JObj members :: items) texts.

(** What [read_resource] makes of a response object, case by case. *)
Inductive reads_resource_as : pydict json -> bool * string -> Prop :=
| resource_error members error :
    dict_get "error" members = Some (JObj error) ->
    reads_resource_as members
      (false, "Server error: "
              +:+ py_str (default (JStr "Unknown error") (dict_get "message" error)))
| resource_contents members result items texts :
    dict_get "error" members = None ->
    dict_get "result" members = Some (JObj result) ->
    dict_get "contents" result = Some (JArr items) ->
    selects_texts items texts ->
    reads_resource_as members (true, join newline texts)
| resource_result members result :
    dict_get "error" members = None ->
    dict_get "result" members = Some (JObj result) ->
    dict_get "contents" result = None ->
    reads_resource_as members (true, Json.dumps_indent2 (JObj result))
| resource_neither members :
    members <> [] ->
    dict_get "error" members = None ->
    dict_get "result" members = None ->
    reads_resource_as members (false, "No result in response").

(** The cases of [read_resource]: refused at once; or sent under a newly
    drawn identifier, and then left without a response or read from the
    response object that [_send_request] hands back. *)
Inductive read_resource_case (rt : runtime) (c : MCPServerConnection.t)
    (resource_uri : string) (lw : list read_log_record * world)
  : bool * string -> list read_log_record * world -> Prop :=
| read_refused :
    _initialized c = false \/ dict_get resource_uri (resources c) = None ->
    read_resource_case rt c resource_uri lw
      (false, "Resource " +:+ resource_uri +:+ " not available on server "
              +:+ server_name c) lw
| read_unanswered w' :
    _initialized c = true ->
    dict_contains resource_uri (resources c) = true ->
    _send_request c
      (resources_read_request (uuid4 rt (uuids_drawn (snd lw))) resource_uri)
      (set_uuids_drawn (S (uuids_drawn (snd lw))) (snd lw))
      = (Ret None, w') ->
    read_resource_case rt c resource_uri lw (false, "No response from server") (fst lw, w')
| read_answered members w' result :
    _initialized c = true ->
    dict_contains resource_uri (resources c) = true ->
    _send_request c
      (resources_read_request (uuid4 rt (uuids_drawn (snd lw))) resource_uri)
      (set_uuids_drawn (S (uuids_drawn (snd lw))) (snd lw))
      = (Ret (Some (JObj members)), w') ->
    reads_resource_as members result ->
    read_resource_case rt c resource_uri lw result (fst lw, w').

(** A connection in the middle of a session that holds one resource. *)
Definition resource_connection : MCPServerConnection.t :=
  MCPServerConnection.mk (demo_config "alpha" "run-alpha") (Some 0) []
    [("file:///notes.txt",
      {| uri := "file:///notes.txt"; resource_name := JStr "notes";
         resource_description := JNull; mimeType := JStr "text/plain";
         resource_server_name := "alpha" |})]
    true.

(** The provider's answer to the read: one item of type [text], and one
    that carries no [type]. *)
Definition contents_response : pydict json :=
  [jsonrpc_member; ("id", JStr (demo_uuid 0));
   ("result",
    JObj [("contents",
           JArr [JObj [("type", JStr "text"); ("text", JStr "remember")];
                 JObj [("uri", JStr "file:///notes.txt"); ("text", JStr "the milk")]])])].

(** ** Notions for the pipes of a provider *)

(** The process [p] after the client has read its output down to [unread]
    and written the lines [written]. *)
Definition proc_after (p : child_process) (unread written : list string) : child_process :=
  {| stdout := unread; stdin := stdin p ++ written;
     sigterm_ignored := sigterm_ignored p; state := state p |}.

(** A line the reading loop cannot take for a message, and the exception it
    meets on it: a text that is no JSON, or a JSON value that is no object. *)
Inductive unreadable (line : string) : py_exn -> Prop :=
| unreadable_text :
    line <> EmptyString ->
    Json.loads (strip line) = Json.DecodeError ->
    unreadable line (JSONDecodeError (strip line))
| unreadable_value v :
    Json.loads (strip line) = Json.Loaded v ->
    (forall members, v <> JObj members) ->
    unreadable line (AttributeError v "get").

(** ** Notions for the handshake *)

(** The line [line] is the response to the request that carried [id]: it
    decodes to the object [members], which is no request of the server and
    bears that identifier. *)
Definition answers_request (line id : string) (members : pydict json) : Prop :=
  Json.loads (strip line) = Json.Loaded (JObj members) /\
  is_server_request members = false /\
  py_eq (get_or_none "id" members) (JStr id) = true.

(** The tool [_discover_capabilities] files for the entry [d] of a
    [tools/list] result named [n]. *)
Definition tool_of (server n : string) (d : pydict json) : MCPTool :=
  {| tool_name := n;
     tool_description := default (JStr EmptyString) (dict_get "description" d);
     inputSchema := default (JObj []) (dict_get "inputSchema" d);
     tool_server_name := server |}.

(** The resource it files for the entry [d] of a [resources/list] result
    with the URI [u]. *)
Definition resource_of (server u : string) (d : pydict json) : MCPResource :=
  {| uri := u;
     resource_name := get_or_none "name" d;
     resource_description := get_or_none "description" d;
     mimeType := get_or_none "mimeType" d;
     resource_server_name := server |}.

(** The entries of a [tools/list] result, each with the string its [name]
    holds; and those of a [resources/list] result, each with the string its
    [uri] holds and with a [name]. *)
Definition tool_entries_ok (entries : list (string * pydict json)) : Prop :=
  Forall (fun nd => dict_get "name" (snd nd) = Some (JStr (fst nd))) entries.

Definition resource_entries_ok (entries : list (string * pydict json)) : Prop :=
  Forall (fun ud => dict_get "uri" (snd ud) = Some (JStr (fst ud)) /\
                    dict_get "name" (snd ud) <> None) entries.

Definition entry_objects (entries : list (string * pydict json)) : list json :=
  map (fun nd => JObj (snd nd)) entries.

(** ** Notions for the table of processes *)

(** Between [w] and [w'] no process was started, and none but the process
    [pid] was written to, read from or signalled. *)
Definition only_proc (pid : nat) (w w' : world) : Prop :=
  List.length (procs w') = List.length (procs w) /\
  forall q, q <> pid -> procs w' !! q = procs w !! q.

(** Between [w] and [w'] at most [k] processes were started, and the
    processes of [w] are as they were. *)
Definition spawned (k : nat) (w w' : world) : Prop :=
  (forall q, q < List.length (procs w) -> procs w' !! q = procs w !! q) /\
  List.length (procs w) <= List.length (procs w') /\
  List.length (procs w') <= List.length (procs w) + k.

(** * Theorems *)

(** ** Strings *)

Lemma startswith_spec p s : startswith p s = true <-> exists b, s = p +:+ b.
Proof.
  revert s; induction p as [|a p IH]; intros s; simpl.
  - split; eauto.
  - destruct s as [|c s]; simpl.
    + split; [discriminate | intros [b Hb]; discriminate].
    + rewrite andb_true_iff, IH; split.
      * intros [Hac [b ->]]. apply Ascii.eqb_eq in Hac as ->. eauto.
      * intros [b Hb]. injection Hb as -> ->. split; [apply Ascii.eqb_refl | eauto].
Qed.

Lemma substring_of_spec p s : substring_of p s = true <-> occurs_in p s.
Proof.
  unfold occurs_in. induction s as [|c s IH]; simpl.
  - rewrite orb_false_r, startswith_spec. split.
    + intros [b Hb]. exists EmptyString, b. exact Hb.
    + intros [a [b Hab]]. destruct a; simpl in Hab; [eauto | discriminate].
  - rewrite orb_true_iff, startswith_spec, IH. split.
    + intros [[b Hb] | [a [b Hab]]].
      * exists EmptyString, b. exact Hb.
      * exists (String c a), b. simpl. now rewrite Hab.
    + intros [a [b Hab]]. destruct a as [|c' a]; simpl in Hab.
      * left; eauto.
      * injection Hab as -> ->. right; eauto.
Qed.

Lemma existsb_Permutation {A} (f : A -> bool) (l l' : list A) :
  Permutation l l' -> existsb f l = existsb f l'.
Proof.
  induction 1 as [|x l l' _ IH|x y l|l l' l'' _ IH1 _ IH2]; simpl; try congruence.
  destruct (f x), (f y); reflexivity.
Qed.

Lemma existsb_map {A B} (g : A -> B) (f : B -> bool) (l : list A) :
  existsb f (map g l) = existsb (fun x => f (g x)) l.
Proof. induction l; simpl; congruence. Qed.

Lemma topic_patterns topic patterns :
  dict_get topic DynamicMCPClient.capability_patterns = Some patterns ->
  In topic known_topics.
Proof.
  unfold DynamicMCPClient.capability_patterns, known_topics. simpl.
  repeat match goal with
         | |- context [String.eqb topic ?k] =>
             destruct (String.eqb_spec topic k) as [->|_]; [tauto |]
         end.
  discriminate.
Qed.

Lemma known_topic_patterns topic :
  In topic known_topics ->
  exists patterns, dict_get topic DynamicMCPClient.capability_patterns = Some patterns.
Proof.
  unfold known_topics. simpl.
  intros H; repeat (destruct H as [<- | H]; [eexists; reflexivity |]). destruct H.
Qed.

Lemma same_letter_lower (a b : ascii) :
  same_letter a b = Ascii.eqb (lower_char a) (lower_char b).
Proof.
  assert (Hall : forall c, In c (map ascii_of_nat (seq 0 256))).
  { intros c. rewrite <- (ascii_nat_embedding c). apply in_map. apply in_seq.
    pose proof (nat_ascii_bounded c). lia. }
  assert (H : forallb (fun a => forallb (fun b =>
                Bool.eqb (same_letter a b) (Ascii.eqb (lower_char a) (lower_char b)))
                (map ascii_of_nat (seq 0 256))) (map ascii_of_nat (seq 0 256)) = true)
    by (vm_compute; reflexivity).
  rewrite forallb_forall in H. specialize (H a (Hall a)).
  rewrite forallb_forall in H. specialize (H b (Hall b)).
  now apply Bool.eqb_prop.
Qed.

Lemma lower_char_twice (c : ascii) : lower_char (lower_char c) = lower_char c.
Proof. destruct c as [[] [] [] [] [] [] [] []]; reflexivity. Qed.

Lemma lower_twice (s : string) : lower (lower s) = lower s.
Proof. induction s as [|c s IH]; simpl; [reflexivity |]. now rewrite lower_char_twice, IH. Qed.

Lemma same_ignoring_case_lower (s t : string) :
  same_ignoring_case s t = true <-> lower s = lower t.
Proof.
  revert t. induction s as [|a s IH]; intros [|b t]; simpl; try (split; congruence).
  rewrite andb_true_iff, same_letter_lower, Ascii.eqb_eq, IH.
  split; [intros [-> ->]; reflexivity | intros [= -> ->]; auto].
Qed.

Lemma lower_app (a b : string) : lower (a +:+ b) = lower a +:+ lower b.
Proof. induction a as [|c a IH]; simpl; [reflexivity |]. now rewrite IH. Qed.

Lemma lower_split (a b : string) :
  forall s, lower s = a +:+ b ->
            exists a' b', s = a' +:+ b' /\ lower a' = a /\ lower b' = b.
Proof.
  induction a as [|c a IH]; intros s H.
  - exists EmptyString, s. auto.
  - destruct s as [|c' s]; [discriminate H |]. simpl in H. injection H as Hc Hs.
    destruct (IH s Hs) as (a' & b' & -> & Ha & Hb).
    exists (String c' a'), b'. simpl. rewrite Hc, Ha. auto.
Qed.

(** A lowercased pattern occurs in the lowercased name exactly when the
    name holds the pattern in some mix of cases. *)
Lemma occurs_in_lower (p s : string) :
  occurs_in (lower p) (lower s) <->
  exists fragment, same_ignoring_case fragment p = true /\ occurs_in fragment s.
Proof.
  split.
  - intros (a & b & H). apply lower_split in H as (a' & rest & -> & Ha & Hrest).
    apply lower_split in Hrest as (f & b' & -> & Hf & Hb).
    exists f. split; [now apply same_ignoring_case_lower |].
    now exists a', b'.
  - intros (f & Hf & a & b & ->). apply same_ignoring_case_lower in Hf.
    exists (lower a), (lower b). now rewrite !lower_app, Hf.
Qed.

(** The table of [has_capability], entry by entry. *)
Lemma keyword_table topic patterns :
  dict_get topic DynamicMCPClient.capability_patterns = Some patterns <->
  In (topic, patterns)
     [("weather", ["forecast"; "weather"; "alerts"; "temperature"; "climate"]);
      ("math", ["add"; "sub"; "multiply"; "calculate"; "solve"; "equation"]);
      ("search", ["search"; "find"; "lookup"]);
      ("filesystem", ["list_files"; "read_file"; "write_file"; "file"]);
      ("database", ["query"; "table"; "sql"; "database"]);
      ("usda", ["food"; "nutrition"; "usda"]);
      ("food", ["food"; "nutrition"; "usda"]);
      ("nutrition", ["food"; "nutrition"; "usda"])].
Proof.
  split.
  - unfold DynamicMCPClient.capability_patterns. cbn [dict_get].
    repeat match goal with
           | |- context [String.eqb topic ?k] =>
               destruct (String.eqb_spec topic k) as [->|_];
               [intros [= <-]; cbn; tauto |]
           end.
    discriminate.
  - intros H. repeat (destruct H as [[= <- <-] | H]; [reflexivity |]). destruct H.
Qed.

(** The topics and the keywords of the table are in lower case. *)
Lemma keyword_table_lower topic patterns :
  dict_get topic DynamicMCPClient.capability_patterns = Some patterns ->
  lower topic = topic /\ forall pattern, In pattern patterns -> lower pattern = pattern.
Proof.
  intros H. apply keyword_table in H.
  repeat (destruct H as [[= <- <-] | H];
          [split; [reflexivity |];
           intros pattern Hp; repeat (destruct Hp as [<- | Hp]; [reflexivity |]); destruct Hp |]).
  destruct H.
Qed.

(** What [has_capability] computes, in terms of the lowercased topic and the
    lowercased tool names. *)
Lemma has_capability_of_lowered (tool_names : list string) (capability : string) :
  DynamicMCPClient.has_capability_of tool_names capability = true <->
    (exists patterns tool_name pattern,
        dict_get (lower capability) DynamicMCPClient.capability_patterns = Some patterns /\
        In tool_name tool_names /\ In pattern patterns /\
        occurs_in pattern (lower tool_name))
    \/ (exists tool_name, In tool_name tool_names /\
                          occurs_in (lower capability) (lower tool_name)).
Proof.
  unfold DynamicMCPClient.has_capability_of.
  set (direct := existsb (fun tool_name =>
                   substring_of (lower capability) (lower tool_name)) tool_names).
  assert (Hdirect : direct = true <->
            exists tool_name, In tool_name tool_names /\
                              occurs_in (lower capability) (lower tool_name)).
  { unfold direct. rewrite existsb_exists.
    split; intros [tn [Hin Hocc]]; exists tn; split; auto;
      now apply substring_of_spec. }
  destruct (dict_get (lower capability) DynamicMCPClient.capability_patterns)
    as [patterns|] eqn:Hp.
  - set (keyed := existsb (fun tool_name =>
                    existsb (fun pattern => substring_of pattern (lower tool_name))
                            patterns) tool_names).
    assert (Hkeyed : keyed = true <->
              exists tool_name pattern, In tool_name tool_names /\
                In pattern patterns /\ occurs_in pattern (lower tool_name)).
    { unfold keyed. rewrite existsb_exists. split.
      - intros [tn [Hin Hex]]. apply existsb_exists in Hex as [pt [Hin' Hocc]].
        exists tn, pt. rewrite substring_of_spec in Hocc. auto.
      - intros [tn [pt [Hin [Hin' Hocc]]]]. exists tn. split; [auto |].
        apply existsb_exists. exists pt. rewrite substring_of_spec. auto. }
    destruct keyed.
    + split; [intros _ | reflexivity]. left.
      destruct (proj1 Hkeyed eq_refl) as [tn [pt H]]. exists patterns, tn, pt. tauto.
    + destruct direct.
      * split; [intros _ | reflexivity]. right. now apply (proj1 Hdirect).
      * split; [discriminate |].
        intros [[ps [tn [pt [Hps H]]]] | H].
        -- assert (ps = patterns) as -> by congruence.
           apply (proj2 Hkeyed). eauto.
        -- now apply (proj2 Hdirect).
  - destruct direct.
    + split; [intros _ | reflexivity]. right. now apply (proj1 Hdirect).
    + split; [discriminate |].
      intros [[ps [tn [pt [Hps _]]]] | H]; [congruence |].
      now apply (proj2 Hdirect).
Qed.

Lemma has_capability_of_same_lower (names names' : list string) (capability capability' : string) :
  lower capability' = lower capability ->
  map lower names' = map lower names ->
  DynamicMCPClient.has_capability_of names' capability' =
  DynamicMCPClient.has_capability_of names capability.
Proof.
  intros Hc Hn. unfold DynamicMCPClient.has_capability_of.
  rewrite Hc.
  rewrite <- (existsb_map lower (fun n => substring_of (lower capability) n) names').
  rewrite <- (existsb_map lower (fun n => substring_of (lower capability) n) names).
  rewrite Hn.
  destruct (dict_get _ _) as [patterns|]; [| reflexivity].
  rewrite <- (existsb_map lower (fun n => existsb (fun pattern => substring_of pattern n) patterns) names').
  rewrite <- (existsb_map lower (fun n => existsb (fun pattern => substring_of pattern n) patterns) names).
  now rewrite Hn.
Qed.

(** C7.  [has_capability] answers true exactly when the topic is, but for
    the case of its letters, one of the eight known topics and some tool
    name holds, in any mix of cases, one of the keywords listed for that
    topic; or some tool name holds the topic itself, in any mix of cases.
    The answer does not depend on the order in which the catalog yields its
    names, nor on the case of the letters of the topic or of the names.  So
    a tool [Get_FORECAST] answers the topic [Weather], by the keyword
    [forecast], and a tool [ReadNotes] the topic [NOTES], while a tool
    [get_forecast] does not answer the topic [math]. *)
Theorem has_capability_spec (r : DynamicMCPClient.t) (w : world) (capability : string) :
  let tool_names := dict_keys (tools_at (DynamicMCPClient.available_tools r) w) in
  (DynamicMCPClient.has_capability r w capability = true <->
     (exists topic patterns tool_name pattern fragment,
        In (topic, patterns)
           [("weather", ["forecast"; "weather"; "alerts"; "temperature"; "climate"]);
            ("math", ["add"; "sub"; "multiply"; "calculate"; "solve"; "equation"]);
            ("search", ["search"; "find"; "lookup"]);
            ("filesystem", ["list_files"; "read_file"; "write_file"; "file"]);
            ("database", ["query"; "table"; "sql"; "database"]);
            ("usda", ["food"; "nutrition"; "usda"]);
            ("food", ["food"; "nutrition"; "usda"]);
            ("nutrition", ["food"; "nutrition"; "usda"])] /\
        same_ignoring_case capability topic = true /\
        In tool_name tool_names /\ In pattern patterns /\
        same_ignoring_case fragment pattern = true /\
        occurs_in fragment tool_name)
     \/ (exists tool_name fragment,
           In tool_name tool_names /\
           same_ignoring_case fragment capability = true /\
           occurs_in fragment tool_name))
  /\ (forall names', Permutation tool_names names' ->
        DynamicMCPClient.has_capability_of names' capability =
        DynamicMCPClient.has_capability r w capability)
  /\ (forall capability' names',
        same_ignoring_case capability' capability = true ->
        Forall2 (fun name' name => same_ignoring_case name' name = true) names' tool_names ->
        DynamicMCPClient.has_capability_of names' capability' =
        DynamicMCPClient.has_capability r w capability)
  /\ (DynamicMCPClient.has_capability_of ["Get_FORECAST"] "Weather" = true
      /\ DynamicMCPClient.has_capability_of ["ReadNotes"] "NOTES" = true
      /\ DynamicMCPClient.has_capability_of ["get_forecast"] "math" = false
      /\ DynamicMCPClient.has_capability_of ["get_forecast"] "Forecasts" = false).
Proof.
  intros tool_names. unfold DynamicMCPClient.has_capability. fold tool_names.
  split; [| split; [| split]].
  - rewrite has_capability_of_lowered. split.
    + intros [(patterns & tn & pt & Hget & Hin & Hpt & Hocc) | (tn & Hin & Hocc)].
      * left. destruct (keyword_table_lower _ _ Hget) as [_ Hlow].
        rewrite <- (Hlow pt Hpt) in Hocc.
        apply occurs_in_lower in Hocc as (fragment & Hsame & Hfrag).
        exists (lower capability), patterns, tn, pt, fragment.
        split; [now apply keyword_table |].
        split; [apply same_ignoring_case_lower; now rewrite lower_twice |]. auto.
      * right. apply occurs_in_lower in Hocc as (fragment & Hsame & Hfrag).
        exists tn, fragment. auto.
    + intros [(topic & patterns & tn & pt & fragment & Htable & Htopic & Hin & Hpt
               & Hsame & Hfrag)
             | (tn & fragment & Hin & Hsame & Hfrag)].
      * left. apply keyword_table in Htable.
        destruct (keyword_table_lower _ _ Htable) as [Htl Hlow].
        apply same_ignoring_case_lower in Htopic. rewrite Htl in Htopic.
        exists patterns, tn, pt. rewrite Htopic.
        split; [exact Htable |]. split; [exact Hin |]. split; [exact Hpt |].
        rewrite <- (Hlow pt Hpt). apply occurs_in_lower. now exists fragment.
      * right. exists tn. split; [exact Hin |]. apply occurs_in_lower. now exists fragment.
  - intros names' Hperm. unfold DynamicMCPClient.has_capability_of.
    rewrite <- (existsb_Permutation _ _ _ Hperm).
    destruct (dict_get _ _); [| reflexivity].
    now rewrite <- (existsb_Permutation _ _ _ Hperm).
  - intros capability' names' Hc Hn. apply has_capability_of_same_lower.
    + now apply same_ignoring_case_lower.
    + induction Hn as [|name' name names' names Hsame _ IH]; [reflexivity |].
      cbn [map]. apply same_ignoring_case_lower in Hsame. now rewrite Hsame, IH.
  - repeat split; reflexivity.
Qed.

(** ** Dictionaries *)

Section DictFacts.
Context {V : Type}.
Implicit Types (d : pydict V) (k : string) (v : V).

Lemma dict_get_None k d : dict_get k d = None <-> ~ In k (dict_keys d).
Proof.
  induction d as [|[k' v'] d IH]; simpl; [tauto |].
  destruct (String.eqb_spec k k') as [->|Hne].
  - split; [discriminate | tauto].
  - rewrite IH. split; [intros H [H1|H1]; congruence | tauto].
Qed.

Lemma dict_get_In k v d : dict_get k d = Some v -> In (k, v) d.
Proof.
  induction d as [|[k' v'] d IH]; simpl; [discriminate |].
  destruct (String.eqb_spec k k') as [->|Hne]; [intros [= ->]; auto | auto].
Qed.

Lemma dict_get_Some_key k v d : dict_get k d = Some v -> In k (dict_keys d).
Proof. intros H. apply dict_get_In in H. apply (in_map fst) in H. exact H. Qed.

Lemma In_dict_get k v d : dict_wf d -> In (k, v) d -> dict_get k d = Some v.
Proof.
  unfold dict_wf. induction d as [|[k' v'] d IH]; simpl; [tauto |].
  intros Hnd [Heq | Hin].
  - injection Heq as -> ->. now rewrite String.eqb_refl.
  - apply NoDup_cons in Hnd as [Hk' Hnd].
    destruct (String.eqb_spec k k') as [->|Hne]; [| auto].
    exfalso. apply Hk', list_elem_of_In. apply (in_map fst) in Hin. exact Hin.
Qed.

Lemma dict_get_set_eq k v d : dict_get k (dict_set k v d) = Some v.
Proof.
  induction d as [|[k' v'] d IH]; simpl.
  - now rewrite String.eqb_refl.
  - destruct (String.eqb_spec k k') as [->|Hne]; simpl.
    + now rewrite String.eqb_refl.
    + destruct (String.eqb_spec k k'); [contradiction | exact IH].
Qed.

Lemma dict_get_set_ne k k' v d : k <> k' -> dict_get k (dict_set k' v d) = dict_get k d.
Proof.
  intros Hne. induction d as [|[k0 v0] d IH]; simpl.
  - destruct (String.eqb_spec k k'); [contradiction | reflexivity].
  - destruct (String.eqb_spec k' k0) as [->|Hne0]; simpl.
    + destruct (String.eqb_spec k k0); [contradiction | reflexivity].
    + destruct (String.eqb_spec k k0); [reflexivity | exact IH].
Qed.

Lemma dict_keys_set k v d :
  dict_keys (dict_set k v d) =
  if dict_contains k d then dict_keys d else dict_keys d ++ [k].
Proof.
  unfold dict_contains. induction d as [|[k' v'] d IH]; simpl; [reflexivity |].
  destruct (String.eqb_spec k k') as [->|Hne]; simpl; [reflexivity |].
  rewrite IH. now destruct (dict_get k d).
Qed.

Lemma dict_wf_set k v d : dict_wf d -> dict_wf (dict_set k v d).
Proof.
  unfold dict_wf. intros Hnd. rewrite dict_keys_set. unfold dict_contains.
  destruct (dict_get k d) eqn:Hk; [exact Hnd |].
  apply dict_get_None in Hk. apply NoDup_app. repeat split; auto.
  - intros x Hx [<-|[]]%list_elem_of_In. apply Hk. now apply list_elem_of_In.
  - apply NoDup_singleton.
Qed.

Lemma dict_wf_update d other : dict_wf d -> dict_wf (dict_update d other).
Proof.
  unfold dict_update. revert d.
  induction other as [|[k v] other IH]; simpl; intros d Hd; [exact Hd |].
  apply IH. now apply dict_wf_set.
Qed.

Lemma dict_wf_of_pairs (pairs : list (string * V)) : dict_wf (dict_of_pairs pairs).
Proof. apply dict_wf_update. constructor. Qed.

Lemma dict_update_cons d k v other :
  dict_update d ((k, v) :: other) = dict_update (dict_set k v d) other.
Proof. reflexivity. Qed.

(** a key of [other] wins over [d]; the last occurrence in [other] wins *)
Lemma dict_get_update k d other :
  dict_get k (dict_update d other) =
  match dict_get k (rev other) with
  | Some v => Some v
  | None => dict_get k d
  end.
Proof.
  revert d. induction other as [|[k' v'] other IH]; intros d; [reflexivity |].
  rewrite dict_update_cons, IH. change (rev ((k', v') :: other)) with (rev other ++ [(k', v')]).
  assert (Hrev : dict_get k (rev other ++ [(k', v')]) =
                 match dict_get k (rev other) with
                 | Some v => Some v
                 | None => if String.eqb k k' then Some v' else None
                 end).
  { generalize (rev other) as l. induction l as [|[k0 v0] l IHl]; simpl; [reflexivity |].
    destruct (String.eqb k k0); [reflexivity | exact IHl]. }
  rewrite Hrev. destruct (dict_get k (rev other)); [reflexivity |].
  destruct (String.eqb_spec k k') as [->|Hne].
  - apply dict_get_set_eq.
  - now apply dict_get_set_ne.
Qed.

End DictFacts.

(** ** Routing a call: [execute_tool] *)

(** C1.  [execute_tool] reports a tool that is not in the aggregated catalog
    as not found; reports the owning server as not connected when no
    connection is recorded under the tool's server name or that connection
    is not initialized; and otherwise hands back whatever the owning
    connection's [call_tool] produces.  With only [add] and [sub] in the
    catalog, asking for [multiply] gives [(false, "Tool multiply not found")]. *)
Theorem execute_tool_spec (rt : runtime) (tool_name : string) (parameters : json)
    (r : DynamicMCPClient.t) (w : world) :
  let catalog := tools_at (DynamicMCPClient.available_tools r) w in
  let connections := DynamicMCPClient.server_connections r in
  (dict_get tool_name catalog = None ->
   DynamicMCPClient.execute_tool rt tool_name parameters (r, w) =
   (Ret (false, "Tool " +:+ tool_name +:+ " not found"), (r, w)))
  /\ (forall tool,
        dict_get tool_name catalog = Some tool ->
        dict_get (tool_server_name tool) connections = None \/
        (exists connection,
            dict_get (tool_server_name tool) connections = Some connection /\
            _initialized connection = false) ->
        DynamicMCPClient.execute_tool rt tool_name parameters (r, w) =
        (Ret (false, "Server " +:+ tool_server_name tool +:+ " not connected"), (r, w)))
  /\ (forall tool connection,
        dict_get tool_name catalog = Some tool ->
        dict_get (tool_server_name tool) connections = Some connection ->
        _initialized connection = true ->
        DynamicMCPClient.execute_tool rt tool_name parameters (r, w) =
        (fst (call_tool rt connection tool_name parameters w),
         (r, snd (call_tool rt connection tool_name parameters w))))
  /\ (dict_keys catalog = ["add"; "sub"] ->
      DynamicMCPClient.execute_tool rt "multiply" parameters (r, w) =
      (Ret (false, "Tool multiply not found"), (r, w))).
Proof.
  intros catalog connections.
  unfold DynamicMCPClient.execute_tool, bind, get_state, ret; simpl.
  fold catalog connections.
  split; [| split; [| split]].
  - intros ->. reflexivity.
  - intros tool -> [-> | [connection [-> ->]]]; reflexivity.
  - intros tool connection -> -> ->. unfold in_world; simpl.
    now destruct (call_tool rt connection tool_name parameters w).
  - intros Hkeys.
    assert (dict_get "multiply" catalog = None) as Hnone.
    { apply dict_get_None. rewrite Hkeys. simpl.
      intros [H|[H|[]]]; discriminate. }
    unfold DynamicMCPClient.execute_tool, bind, get_state, ret; simpl.
    fold catalog. now rewrite Hnone.
Qed.

(** ** Child processes *)

Lemma lookup_update_proc pid f w q :
  procs (update_proc pid f w) !! q =
  if decide (q = pid) then f <$> (procs w !! pid) else procs w !! q.
Proof.
  unfold update_proc. destruct (procs w !! pid) as [p|] eqn:Hp; simpl.
  - destruct (decide (q = pid)) as [->|Hne].
    + apply list_lookup_insert_eq. now apply lookup_lt_Some in Hp.
    + now apply list_lookup_insert_ne.
  - destruct (decide (q = pid)) as [->|Hne]; [exact Hp | reflexivity].
Qed.

Lemma update_proc_tool_dicts pid f w : tool_dicts (update_proc pid f w) = tool_dicts w.
Proof. unfold update_proc. now destruct (procs w !! pid). Qed.

Lemma update_proc_resource_dicts pid f w :
  resource_dicts (update_proc pid f w) = resource_dicts w.
Proof. unfold update_proc. now destruct (procs w !! pid). Qed.

Lemma update_proc_log pid f w : log (update_proc pid f w) = log w.
Proof. unfold update_proc. now destruct (procs w !! pid). Qed.

Lemma update_proc_uuids pid f w : uuids_drawn (update_proc pid f w) = uuids_drawn w.
Proof. unfold update_proc. now destruct (procs w !! pid). Qed.

Lemma alive_reap pid w : alive pid (reap pid w) = false.
Proof.
  unfold alive, reap, wait_or_kill, terminate, modify; simpl.
  rewrite lookup_update_proc. rewrite decide_True by reflexivity.
  rewrite lookup_update_proc. rewrite decide_True by reflexivity.
  destruct (procs w !! pid) as [[out inp ignored st]|]; simpl; [| reflexivity].
  destruct st, ignored; reflexivity.
Qed.

Lemma alive_reap_other pid q w : alive q w = false -> alive q (reap pid w) = false.
Proof.
  destruct (decide (q = pid)) as [->|Hne]; [intros _; apply alive_reap |].
  unfold alive, reap, wait_or_kill, terminate, modify; simpl.
  rewrite !lookup_update_proc. now rewrite !decide_False by assumption.
Qed.

Lemma reap_tool_dicts pid w : tool_dicts (reap pid w) = tool_dicts w.
Proof.
  unfold reap, wait_or_kill, terminate, modify; simpl.
  now rewrite !update_proc_tool_dicts.
Qed.

Lemma reap_resource_dicts pid w : resource_dicts (reap pid w) = resource_dicts w.
Proof.
  unfold reap, wait_or_kill, terminate, modify; simpl.
  now rewrite !update_proc_resource_dicts.
Qed.

(** ** Disconnecting *)

Lemma disconnect_run c w :
  disconnect (c, w) =
  (Ret tt, (disconnected c, match process c with Some pid => reap pid w | None => w end)).
Proof.
  unfold disconnect, disconnected, reap, bind, get_state, ret, modify, in_world; simpl.
  destruct c as [cfg [pid|] tl rs ini]; simpl.
  - destruct (terminate pid w) as [o1 w1] eqn:H1. unfold terminate, modify in H1.
    injection H1 as <- <-. simpl.
    unfold wait_or_kill, modify. simpl. reflexivity.
  - reflexivity.
Qed.

Lemma disconnect_each_run connections w :
  exists connections' w',
    DynamicMCPClient.disconnect_each connections w = (Ret connections', w') /\
    map fst connections' = map fst connections /\
    Forall (fun kc => process (snd kc) = None /\ _initialized (snd kc) = false) connections' /\
    tool_dicts w' = tool_dicts w /\ resource_dicts w' = resource_dicts w /\
    (forall q, alive q w = false -> alive q w' = false) /\
    (forall name c pid, In (name, c) connections -> process c = Some pid ->
                        alive pid w' = false).
Proof.
  revert w. induction connections as [|[name c] rest IH]; intros w; simpl.
  - exists [], w. unfold ret. repeat split; auto. intros ? ? ? [].
  - rewrite disconnect_run.
    set (w1 := match process c with Some pid => reap pid w | None => w end).
    destruct (IH w1) as (cs' & w' & Hrun & Hkeys & Hall & Htd & Hrd & Hmono & Hdead).
    exists ((name, disconnected c) :: cs'), w'.
    unfold bind, ret. rewrite Hrun. simpl.
    assert (Hm1 : forall q, alive q w = false -> alive q w1 = false).
    { intros q Hq. unfold w1. destruct (process c); [now apply alive_reap_other | exact Hq]. }
    repeat split.
    + now rewrite Hkeys.
    + constructor; [simpl; auto | exact Hall].
    + rewrite Htd. unfold w1. destruct (process c); [apply reap_tool_dicts | reflexivity].
    + rewrite Hrd. unfold w1. destruct (process c); [apply reap_resource_dicts | reflexivity].
    + intros q Hq. auto.
    + intros name' c' pid [Heq | Hin] Hpid.
      * injection Heq as <- <-. apply Hmono. unfold w1. rewrite Hpid. apply alive_reap.
      * eapply Hdead; eauto.
Qed.

(** C9.  [cleanup] always completes; afterwards every connection the
    registry held has been disconnected (its process is no longer running,
    its handle is dropped and its flag is cleared), the connection map and
    both aggregated catalogs are empty, and the registry's flag is cleared.
    [disconnect] clears the connection's flag, and a second [disconnect]
    changes nothing and raises nothing. *)
Theorem cleanup_spec (r : DynamicMCPClient.t) (w : world) :
  (exists r' w' connections' w1,
      DynamicMCPClient.cleanup (r, w) = (Ret tt, (r', w')) /\
      DynamicMCPClient.disconnect_each (DynamicMCPClient.server_connections r) w
        = (Ret connections', w1) /\
      map fst connections' = map fst (DynamicMCPClient.server_connections r) /\
      Forall (fun kc => process (snd kc) = None /\ _initialized (snd kc) = false)
             connections' /\
      (forall name c pid,
          In (name, c) (DynamicMCPClient.server_connections r) ->
          process c = Some pid -> alive pid w' = false) /\
      DynamicMCPClient.server_connections r' = [] /\
      tools_at (DynamicMCPClient.available_tools r') w' = [] /\
      resources_at (DynamicMCPClient.available_resources r') w' = [] /\
      DynamicMCPClient._initialized r' = false)
  /\ (forall (c : MCPServerConnection.t) (w0 : world),
        exists c' w0',
          disconnect (c, w0) = (Ret tt, (c', w0')) /\
          _initialized c' = false /\
          disconnect (c', w0') = (Ret tt, (c', w0'))).
Proof.
  split.
  - destruct (disconnect_each_run (DynamicMCPClient.server_connections r) w)
      as (cs' & w1 & Hrun & Hkeys & Hall & Htd & Hrd & Hmono & Hdead).
    unfold DynamicMCPClient.cleanup, bind, get_state, ret, modify, in_world, logger; simpl.
    rewrite Hrun; simpl.
    eexists _, _, cs', w1. split; [reflexivity |].
    split; [reflexivity |]. split; [exact Hkeys |]. split; [exact Hall |].
    split.
    { intros name c pid Hin Hpid. unfold alive; simpl. eapply Hdead; eauto. }
    split; [reflexivity |].
    unfold tools_at, resources_at; simpl.
    split; [| split; [| reflexivity]].
    + destruct (decide (DynamicMCPClient.available_tools r < List.length (tool_dicts w1))).
      * now rewrite list_lookup_insert_eq.
      * rewrite list_insert_ge by lia. now rewrite lookup_ge_None_2 by lia.
    + destruct (decide (DynamicMCPClient.available_resources r
                        < List.length (resource_dicts w1))).
      * now rewrite list_lookup_insert_eq.
      * rewrite list_insert_ge by lia. now rewrite lookup_ge_None_2 by lia.
  - intros c w0. rewrite disconnect_run.
    eexists _, _. split; [reflexivity |]. split; [reflexivity |].
    rewrite disconnect_run. reflexivity.
Qed.

(** ** Reasoning about computations *)

Section Post.
Context {S : Type}.

Lemma post_ret {A} (a : A) (s : S) Q : Q (Ret a) s -> post (ret a) s Q.
Proof. exact id. Qed.

Lemma post_raise {A} e (s : S) (Q : outcome A -> S -> Prop) :
  Q (Raise e) s -> post (raise e) s Q.
Proof. exact id. Qed.

Lemma post_lift {A} (o : outcome A) (s : S) Q : Q o s -> post (lift o) s Q.
Proof. exact id. Qed.

Lemma post_get_state (s : S) Q : Q (Ret s) s -> post get_state s Q.
Proof. exact id. Qed.

Lemma post_modify (f : S -> S) (s : S) Q : Q (Ret tt) (f s) -> post (modify f) s Q.
Proof. exact id. Qed.

Lemma post_bind {A B} (m : M S A) (k : A -> M S B) (s : S) Q :
  post m s (fun o s' =>
    match o with
    | Ret a => post (k a) s' Q
    | Raise e => Q (Raise e) s'
    | Unmodelled => Q Unmodelled s'
    end) ->
  post (bind m k) s Q.
Proof. unfold post, bind. destruct (m s) as [[a|e|] s']; simpl; auto. Qed.

Lemma post_try_except {A} (m : M S A) (h : py_exn -> M S A) (s : S) Q :
  post m s (fun o s' =>
    match o with
    | Raise e => post (h e) s' Q
    | _ => Q o s'
    end) ->
  post (try_except m h) s Q.
Proof. unfold post, try_except. destruct (m s) as [[a|e|] s']; simpl; auto. Qed.

Lemma post_mono {A} (m : M S A) (s : S) (Q Q' : outcome A -> S -> Prop) :
  post m s Q -> (forall o s', Q o s' -> Q' o s') -> post m s Q'.
Proof. unfold post. auto. Qed.

End Post.

Lemma post_in_world {S A} (m : M world A) (sw : S * world) Q :
  post m (snd sw) (fun o w' => Q o (fst sw, w')) -> post (in_world m) sw Q.
Proof. unfold post, in_world. destruct (m (snd sw)) as [o w']. simpl. auto. Qed.

(** ** What a connection leaves alone *)

Lemma frame_refl w : frame w w.
Proof. unfold frame. auto. Qed.

Lemma frame_trans w1 w2 w3 : frame w1 w2 -> frame w2 w3 -> frame w1 w3.
Proof. unfold frame. intros (-> & -> & ->) (-> & -> & ->). auto. Qed.

Lemma frame_update_proc pid f w : frame w (update_proc pid f w).
Proof.
  unfold frame, initialize_runs.
  now rewrite update_proc_tool_dicts, update_proc_resource_dicts, update_proc_log.
Qed.

Lemma frame_logger r w :
  is_initialize_record r = false -> frame w (snd (logger r w)).
Proof.
  intros Hr. unfold frame, initialize_runs, logger, modify; simpl.
  repeat split. rewrite List.filter_app, length_app. simpl. rewrite Hr. simpl. lia.
Qed.

Lemma frame_set_uuids n w : frame w (set_uuids_drawn n w).
Proof. unfold frame, initialize_runs. auto. Qed.

Ltac wp :=
  repeat first
    [ apply post_bind
    | apply post_try_except
    | apply post_in_world
    | apply post_ret
    | apply post_raise
    | apply post_lift
    | apply post_get_state
    | apply post_modify ].

Lemma stdin_write_frame pid text w : frame w (snd (stdin_write pid text w)).
Proof. apply frame_update_proc. Qed.

Lemma stdout_readline_post pid w Q :
  (forall line w', frame w w' -> Q (Ret line) w') ->
  post (stdout_readline pid) w Q.
Proof.
  intros HQ. unfold post, stdout_readline.
  destruct (procs w !! pid) as [p|]; simpl; [| apply HQ, frame_refl].
  destruct (stdout p); simpl; [apply HQ, frame_refl | apply HQ, frame_update_proc].
Qed.

Lemma handle_server_request_post c request w Q :
  (forall w', frame w w' -> Q (Ret tt) w') ->
  post (_handle_server_request c request) w Q.
Proof.
  intros HQ. unfold _handle_server_request.
  destruct (process c); [| apply post_ret, HQ, frame_refl].
  destruct (py_eq _ _); apply HQ, stdin_write_frame.
Qed.

(** The reading loop never leaves with anything but a response object, the
    end of the stream, an exception, or an input outside the embedding. *)
Lemma await_response_post fuel c pid request_id w :
  post (await_response fuel c pid request_id) w (fun o w' =>
    frame w w' /\
    forall response, o = Ret (Some response) -> exists members, response = JObj members).
Proof.
  revert w. induction fuel as [|fuel IH]; intros w; simpl.
  - apply post_lift. split; [apply frame_refl | discriminate].
  - apply post_bind, stdout_readline_post. intros line w1 Hf1.
    destruct (String.eqb line EmptyString).
    { apply post_ret. split; [exact Hf1 | discriminate]. }
    destruct (Json.loads (strip line)) as [[| | | | |members]| |];
      try (apply post_raise; split; [exact Hf1 | discriminate]);
      try (apply post_lift; split; [exact Hf1 | discriminate]).
    destruct (truthy _ && dict_contains _ _).
    + apply post_bind, handle_server_request_post. intros w2 Hf2.
      eapply post_mono; [apply IH |]. simpl. intros o w3 [Hf3 Hobj].
      split; [eauto using frame_trans | exact Hobj].
    + destruct (py_eq _ _).
      * apply post_ret. split; [exact Hf1 |]. intros response [= <-]. eauto.
      * eapply post_mono; [apply IH |]. simpl. intros o w3 [Hf3 Hobj].
        split; [eauto using frame_trans | exact Hobj].
Qed.

Lemma send_request_post c request w :
  post (_send_request c request) w (fun o w' =>
    frame w w' /\
    (forall e, o <> Raise e) /\
    forall response, o = Ret (Some response) -> exists members, response = JObj members).
Proof.
  unfold _send_request. destruct (process c) as [pid|].
  - pose proof (stdin_write_frame pid (Json.dumps (JObj request) +:+ newline) w) as Hf0.
    apply post_try_except, post_bind. unfold stdin_write in *. apply post_modify.
    apply post_bind, post_get_state.
    eapply post_mono; [apply await_response_post |]. cbv beta.
    intros o w' [Hf Hobj].
    destruct o as [a|e|].
    + split; [eauto using frame_trans |]. split; [discriminate | exact Hobj].
    + apply post_bind. unfold logger. apply post_modify, post_ret.
      split; [| split; discriminate].
      eapply frame_trans; [eapply frame_trans; [exact Hf0 | exact Hf] |].
      now apply (frame_logger (LogRequestFailed (server_name c) e)).
    + split; [eauto using frame_trans |]. split; discriminate.
  - apply post_ret. split; [apply frame_refl |]. split; discriminate.
Qed.

Lemma send_notification_frame c notification w :
  frame w (snd (_send_notification c notification w)).
Proof.
  unfold _send_notification. destruct (process c); [apply stdin_write_frame | apply frame_refl].
Qed.

(** ** What connecting keeps and what it establishes *)

Lemma Forall_dict_set {V} (P : string * V -> Prop) k v (d : pydict V) :
  Forall P d -> P (k, v) -> Forall P (dict_set k v d).
Proof.
  intros Hd Hkv. induction Hd as [|[k' v'] d Hx Hd IH]; simpl.
  - constructor; [exact Hkv | constructor].
  - destruct (String.eqb_spec k k') as [<-|Hne]; constructor; auto.
Qed.

Lemma conn_kept_frame c0 w0 c w w' :
  conn_kept c0 w0 (c, w) -> frame w w' -> conn_kept c0 w0 (c, w').
Proof.
  unfold conn_kept; simpl. intros (Hc & Hi & Ht & Hf) Hf'.
  eauto using frame_trans.
Qed.

Lemma add_tool_post c0 w0 tool_data cw :
  conn_kept c0 w0 cw ->
  post (add_tool tool_data) cw (fun _ cw' => conn_kept c0 w0 cw').
Proof.
  intros Hk. unfold add_tool.
  apply post_bind, post_lift. destruct (py_getitem tool_data "name") as [name_| |]; [| exact Hk ..].
  apply post_bind, post_lift. destruct (py_get tool_data "description" _) as [d| |]; [| exact Hk ..].
  apply post_bind, post_lift. destruct (py_get tool_data "inputSchema" _) as [sch| |]; [| exact Hk ..].
  destruct name_; try (apply post_lift; exact Hk); try (apply post_raise; exact Hk).
  apply post_modify. destruct cw as [c w]. destruct Hk as (Hc & Hi & Ht & Hf).
  unfold conn_kept; simpl in *.
  split; [exact Hc | split; [exact Hi | split; [| exact Hf]]].
  unfold tools_ok in *; simpl. apply Forall_dict_set; [exact Ht | simpl; auto].
Qed.

Lemma add_resource_post c0 w0 resource_data cw :
  conn_kept c0 w0 cw ->
  post (add_resource resource_data) cw (fun _ cw' => conn_kept c0 w0 cw').
Proof.
  intros Hk. unfold add_resource.
  apply post_bind, post_lift. destruct (py_getitem resource_data "uri") as [uri_| |]; [| exact Hk ..].
  apply post_bind, post_lift. destruct (py_getitem resource_data "name") as [name_| |]; [| exact Hk ..].
  apply post_bind, post_lift. destruct (py_get resource_data "description" _) as [d| |]; [| exact Hk ..].
  apply post_bind, post_lift. destruct (py_get resource_data "mimeType" _) as [mt| |]; [| exact Hk ..].
  destruct uri_; try (apply post_lift; exact Hk); try (apply post_raise; exact Hk).
  apply post_modify. destruct cw as [c w]. exact Hk.
Qed.

Lemma for_each_post {S A} (I : S -> Prop) (body : A -> M S unit) (l : list A) s :
  (forall x s', I s' -> post (body x) s' (fun _ s'' => I s'')) ->
  I s -> post (for_each body l) s (fun _ s' => I s').
Proof.
  intros Hbody. revert s. induction l as [|x l IH]; intros s Hs; simpl.
  - apply post_ret, Hs.
  - apply post_bind. eapply post_mono; [apply Hbody, Hs |]. cbv beta.
    intros [[]|e|] s' Hs'; auto.
Qed.

Lemma send_request_kept c0 w0 c request (cw : MCPServerConnection.t * world)
    (Q : outcome (option json) -> MCPServerConnection.t * world -> Prop) :
  conn_kept c0 w0 cw ->
  (forall o w', conn_kept c0 w0 (fst cw, w') -> (forall e, o <> Raise e) -> Q o (fst cw, w')) ->
  post (in_world (_send_request c request)) cw Q.
Proof.
  intros Hk HQ. apply post_in_world.
  eapply post_mono; [apply send_request_post |]. cbv beta.
  intros o w' (Hf & Hne & _). apply HQ; [| exact Hne].
  destruct cw as [c1 w1]. eapply conn_kept_frame; eauto.
Qed.

Lemma new_uuid_kept rt c0 w0 (cw : MCPServerConnection.t * world)
    (Q : outcome string -> MCPServerConnection.t * world -> Prop) :
  conn_kept c0 w0 cw ->
  (forall id w', conn_kept c0 w0 (fst cw, w') -> Q (Ret id) (fst cw, w')) ->
  post (in_world (new_uuid rt)) cw Q.
Proof.
  intros Hk HQ. apply post_in_world. unfold post, new_uuid; simpl.
  apply HQ. destruct cw as [c1 w1]. eapply conn_kept_frame; eauto. apply frame_set_uuids.
Qed.

Lemma discover_capabilities_post rt c0 w0 cw :
  conn_kept c0 w0 cw ->
  post (_discover_capabilities rt) cw (fun _ cw' => conn_kept c0 w0 cw').
Proof.
  intros Hk. unfold _discover_capabilities.
  apply post_bind, post_bind, post_get_state, post_ret.
  apply post_bind, (new_uuid_kept rt c0 w0); [exact Hk |]. intros id1 w1 Hk1.
  apply post_bind, (send_request_kept c0 w0); [exact Hk1 |]. intros o1 w2 Hk2 Hne1. simpl fst in *.
  destruct o1 as [tools_response|e|]; [| now destruct (Hne1 e) | exact Hk2].
  apply post_bind, post_lift.
  destruct (listed tools_response "tools") as [tools_data| |]; [| exact Hk2 ..].
  apply post_bind.
  eapply post_mono; [apply (for_each_post (conn_kept c0 w0)); [| exact Hk2] |].
  { intros x s' Hs'. now apply add_tool_post. }
  cbv beta. intros [[]|e|] [c3 w3] Hk3; [| exact Hk3 ..].
  apply post_bind, (new_uuid_kept rt c0 w0); [exact Hk3 |]. intros id2 w4 Hk4.
  apply post_bind, (send_request_kept c0 w0); [exact Hk4 |]. intros o2 w5 Hk5 Hne2. simpl fst in *.
  destruct o2 as [resources_response|e|]; [| now destruct (Hne2 e) | exact Hk5].
  apply post_bind, post_lift.
  destruct (listed resources_response "resources") as [resources_data| |]; [| exact Hk5 ..].
  eapply post_mono; [apply (for_each_post (conn_kept c0 w0)); [| exact Hk5] |].
  { intros x s' Hs'. now apply add_resource_post. }
  cbv beta. auto.
Qed.

Lemma logger_kept c0 w0 r (cw : MCPServerConnection.t * world)
    (Q : outcome unit -> MCPServerConnection.t * world -> Prop) :
  is_initialize_record r = false ->
  conn_kept c0 w0 cw ->
  (forall w', conn_kept c0 w0 (fst cw, w') -> Q (Ret tt) (fst cw, w')) ->
  post (in_world (logger r)) cw Q.
Proof.
  intros Hr Hk HQ. apply post_in_world. unfold post.
  change (fst (logger r (snd cw))) with (@Ret unit tt).
  apply HQ. destruct cw as [c1 w1]. eapply conn_kept_frame; eauto. now apply frame_logger.
Qed.

Lemma Popen_frame rt argv env w : frame w (snd (Popen rt argv env w)).
Proof.
  unfold Popen. destruct (popen rt _ argv env); simpl; [| apply frame_refl].
  unfold frame, initialize_runs. auto.
Qed.

Lemma terminate_frame pid w : frame w (snd (terminate pid w)).
Proof. apply frame_update_proc. Qed.

(** [connect] never raises.  It answers [true] only with the connection's
    flag set, and [false] only with the flag as it was. *)
Lemma connect_stdio_post rt c0 w0 :
  tools_ok c0 ->
  post (_connect_stdio rt) (c0, w0) (connect_outcome c0 w0).
Proof.
  intros Hok.
  assert (Hk0 : conn_kept c0 w0 (c0, w0)).
  { unfold conn_kept; simpl. auto using frame_refl. }
  assert (Hhandler : forall e cw, conn_kept c0 w0 cw ->
    post (c <- (cw <- get_state ;; ret (fst cw)) ;;
          in_world (logger (LogStdioFailed (server_name c) e)) ;;;
          match process c with
          | Some pid => in_world (terminate pid)
          | None => ret tt
          end ;;;
          ret false) cw (connect_outcome c0 w0)).
  { intros e cw Hk. apply post_bind, post_bind, post_get_state, post_ret.
    apply post_bind, (logger_kept c0 w0); [reflexivity | exact Hk |]. intros w1 Hk1.
    apply post_bind.
    assert (Hfin : forall w', conn_kept c0 w0 (fst cw, w') ->
              post (ret false) (fst cw, w') (connect_outcome c0 w0)).
    { intros w' (Hc & Hi & Ht & Hf). apply post_ret. unfold connect_outcome. simpl. auto. }
    destruct (process (fst cw)) as [pid|].
    - apply post_in_world. unfold post. simpl fst. simpl snd.
      change (fst (terminate pid w1)) with (@Ret unit tt).
      apply Hfin. eapply conn_kept_frame; [exact Hk1 | apply terminate_frame].
    - apply post_ret, Hfin, Hk1. }
  unfold _connect_stdio. apply post_try_except. unfold connect_outcome in *.
  apply post_bind, post_bind, post_get_state, post_ret. simpl fst.
  apply post_bind, post_in_world. simpl fst; simpl snd.
  match goal with |- post (Popen rt ?argv ?env) _ _ =>
    pose proof (Popen_frame rt argv env w0) as Hfp;
    unfold post; destruct (Popen rt argv env w0) as [[pid|e|] w1] eqn:HP
  end; simpl in Hfp |- *.
  2: { apply Hhandler. eapply conn_kept_frame; eauto. }
  2: { unfold Popen in HP. destruct (popen rt _ _ _); discriminate. }
  apply post_bind, post_modify. simpl fst; simpl snd.
  assert (Hk1 : conn_kept c0 w0 (set_process (Some pid) c0, w1)).
  { destruct Hk0 as (Hc & Hi & Ht & Hf). unfold conn_kept; simpl. auto. }
  apply post_bind, post_bind, post_get_state, post_ret. simpl fst.
  apply post_bind, (new_uuid_kept rt c0 w0); [exact Hk1 |]. intros id w2 Hk2. simpl fst in *.
  apply post_bind, (send_request_kept c0 w0); [exact Hk2 |]. intros o w3 Hk3 Hne. simpl fst in *.
  destruct o as [response|e|]; [| now destruct (Hne e) |].
  2: { destruct Hk3 as (Hc & Hi & Ht & Hf). simpl in *. auto. }
  apply post_bind, post_lift.
  destruct (initialize_refused response) as [refused|e|].
  2: { apply Hhandler, Hk3. }
  2: { destruct Hk3 as (Hc & Hi & Ht & Hf). simpl in *. auto. }
  destruct refused.
  - apply post_bind, (logger_kept c0 w0); [reflexivity | exact Hk3 |]. intros w4 Hk4.
    apply post_ret. destruct Hk4 as (Hc & Hi & Ht & Hf). simpl in *. auto.
  - apply post_bind, post_in_world. simpl fst; simpl snd.
    unfold post.
    match goal with |- context [_send_notification ?c ?n w3] =>
      pose proof (send_notification_frame c n w3) as Hfn;
      assert (Hret : fst (_send_notification c n w3) = Ret tt)
        by (unfold _send_notification; destruct (process c); reflexivity);
      rewrite Hret
    end.
    assert (Hk4 := conn_kept_frame _ _ _ _ _ Hk3 Hfn).
    apply post_bind.
    eapply post_mono; [apply (discover_capabilities_post rt c0 w0), Hk4 |]. cbv beta.
    intros [[]|e|] [c5 w5] Hk5.
    2: { apply Hhandler, Hk5. }
    2: { destruct Hk5 as (Hc & Hi & Ht & Hf). simpl in *. auto. }
    apply post_bind, post_modify. simpl fst; simpl snd.
    assert (Hk6 : config (set_initialized true c5) = config c0 /\
                  tools_ok (set_initialized true c5) /\ frame w0 w5).
    { destruct Hk5 as (Hc & Hi & Ht & Hf). simpl in *. auto. }
    apply post_bind, post_in_world. unfold post. simpl.
    destruct Hk6 as (Hc & Ht & Hf). repeat split; auto.
    all: try (eapply frame_trans; [exact Hf |];
              apply (frame_logger (LogConnected _)); reflexivity).
Qed.

Lemma connect_post rt c0 w0 :
  tools_ok c0 -> post (connect rt) (c0, w0) (connect_outcome c0 w0).
Proof.
  intros Hok. unfold connect.
  apply post_bind, post_bind, post_get_state, post_ret. simpl fst.
  assert (Hk0 : conn_kept c0 w0 (c0, w0)).
  { unfold conn_kept; simpl. auto using frame_refl. }
  destruct (MCPServerConfig.transport (config c0)).
  - now apply connect_stdio_post.
  - apply post_bind, (logger_kept c0 w0); [reflexivity | exact Hk0 |]. intros w1 Hk1.
    apply post_ret. destruct Hk1 as (Hc & Hi & Ht & Hf). unfold connect_outcome. simpl in *. auto.
  - apply post_bind, (logger_kept c0 w0); [reflexivity | exact Hk0 |]. intros w1 Hk1.
    apply post_ret. destruct Hk1 as (Hc & Hi & Ht & Hf). unfold connect_outcome. simpl in *. auto.
Qed.

(** ** Initializing the registry *)

Lemma gather_post rt tasks w :
  Forall (fun kc => tools_ok (snd kc)) tasks ->
  post (DynamicMCPClient.gather rt tasks) w (fun o w' =>
    frame w w' /\
    match o with
    | Ret settled_ => settled tasks (fst settled_) (snd settled_)
    | Raise _ => False
    | Unmodelled => True
    end).
Proof.
  intros Hok. revert w. induction Hok as [|[name c0] tasks Hc0 Hok IH]; intros w; simpl.
  - apply post_ret. split; [apply frame_refl | constructor].
  - unfold post. unfold try_except, DynamicMCPClient._connect_server.
    pose proof (connect_post rt c0 w Hc0) as Hc. unfold post, connect_outcome in Hc.
    destruct (connect rt (c0, w)) as [[b|e|] [c w1]]; simpl in Hc;
      destruct Hc as (Hcfg & Htok & Hf & Hres); [| contradiction | simpl; auto].
    specialize (IH w1). unfold post in IH. unfold bind, ret.
    destruct (DynamicMCPClient.gather rt tasks w1) as [[[cs bs]|e|] w2]; simpl in IH |- *;
      destruct IH as [Hf2 Hs]; [| contradiction | eauto using frame_trans].
    split; [eauto using frame_trans |].
    constructor; auto. destruct b; auto.
Qed.

Lemma aggregation_loop r (connections : list MCPServerConnection.t)
    (rw : DynamicMCPClient.t * world) :
  for_each (DynamicMCPClient.collect r) connections rw
  = (Ret tt, (fst rw, fold_left (absorb (DynamicMCPClient.available_tools r)
                                        (DynamicMCPClient.available_resources r))
                                connections (snd rw))).
Proof.
  revert rw. induction connections as [|c cs IH]; intros [r0 w]; simpl; [reflexivity |].
  unfold bind at 1. unfold DynamicMCPClient.collect at 1. unfold absorb at 2.
  destruct (_initialized c); simpl; rewrite IH; reflexivity.
Qed.

(** [initialize], run: it never raises, and what it leaves is determined by
    how [gather] settled the connection tasks. *)
Lemma initialize_run rt r w :
  let tasks := connection_tasks (DynamicMCPClient.config_manager r) in
  DynamicMCPClient.initialize rt (r, w) =
  match DynamicMCPClient.gather rt tasks w with
  | (Ret settled_, w1) =>
      (Ret (0 <? List.length (List.filter (fun b : bool => b) (snd settled_))),
       (initialized_registry r (fst settled_),
        initialized_world r (fst settled_) (snd settled_) (List.length tasks) w1))
  | (Raise e, w1) => (Ret false, (r, snd (logger (LogClientInitFailed e) w1)))
  | (Unmodelled, w1) => (Unmodelled, (r, w1))
  end.
Proof.
  intros tasks.
  unfold DynamicMCPClient.initialize, try_except, bind, get_state, ret, modify, in_world.
  cbn -[DynamicMCPClient.gather for_each dict_update MCPConfigManager.get_enabled_servers
        logger tools_at resources_at List.filter DynamicMCPClient.collect].
  fold (connection_tasks (DynamicMCPClient.config_manager r)). fold tasks.
  destruct (DynamicMCPClient.gather rt tasks w) as [[[cs bs]|e|] w1]; [| reflexivity ..].
  cbn -[DynamicMCPClient.gather for_each dict_update MCPConfigManager.get_enabled_servers
        logger tools_at resources_at List.filter DynamicMCPClient.collect].
  rewrite aggregation_loop.
  cbn -[DynamicMCPClient.gather for_each dict_update MCPConfigManager.get_enabled_servers
        logger tools_at resources_at List.filter absorb].
  unfold tasks, connection_tasks. rewrite length_map.
  reflexivity.
Qed.

Lemma update_tools_lookup ref entries w q :
  tools_at q (snd (DynamicMCPClient.update_tools ref entries w)) =
  if decide (q = ref /\ ref < List.length (tool_dicts w))
  then dict_update (tools_at ref w) entries
  else tools_at q w.
Proof.
  unfold DynamicMCPClient.update_tools, modify, tools_at; simpl.
  destruct (decide (q = ref /\ ref < List.length (tool_dicts w))) as [[-> Hlt]|Hn].
  - now rewrite list_lookup_insert_eq.
  - destruct (decide (q = ref)) as [->|Hne].
    + rewrite list_insert_ge; [reflexivity | lia].
    + now rewrite list_lookup_insert_ne.
Qed.

Lemma update_resources_lookup ref entries w q :
  resources_at q (snd (DynamicMCPClient.update_resources ref entries w)) =
  if decide (q = ref /\ ref < List.length (resource_dicts w))
  then dict_update (resources_at ref w) entries
  else resources_at q w.
Proof.
  unfold DynamicMCPClient.update_resources, modify, resources_at; simpl.
  destruct (decide (q = ref /\ ref < List.length (resource_dicts w))) as [[-> Hlt]|Hn].
  - now rewrite list_lookup_insert_eq.
  - destruct (decide (q = ref)) as [->|Hne].
    + rewrite list_insert_ge; [reflexivity | lia].
    + now rewrite list_lookup_insert_ne.
Qed.

(** What the aggregation loop keeps of the world. *)
Lemma absorb_kept tref rref w c :
  let w' := absorb tref rref w c in
  List.length (tool_dicts w') = List.length (tool_dicts w) /\
  List.length (resource_dicts w') = List.length (resource_dicts w) /\
  procs w' = procs w /\ log w' = log w /\ uuids_drawn w' = uuids_drawn w.
Proof.
  unfold absorb. destruct (_initialized c); [| auto].
  unfold DynamicMCPClient.update_tools, DynamicMCPClient.update_resources, modify; simpl.
  rewrite !length_insert. auto.
Qed.

Lemma aggregate_kept tref rref connections w :
  let w' := fold_left (absorb tref rref) connections w in
  List.length (tool_dicts w') = List.length (tool_dicts w) /\
  List.length (resource_dicts w') = List.length (resource_dicts w) /\
  procs w' = procs w /\ log w' = log w /\ uuids_drawn w' = uuids_drawn w.
Proof.
  revert w. induction connections as [|c cs IH]; intros w; simpl; [auto |].
  destruct (IH (absorb tref rref w c)) as (H1 & H2 & H3 & H4 & H5).
  destruct (absorb_kept tref rref w c) as (K1 & K2 & K3 & K4 & K5).
  simpl in *. repeat split; congruence.
Qed.

Lemma tools_at_update_resources ref entries w q :
  tools_at q (snd (DynamicMCPClient.update_resources ref entries w)) = tools_at q w.
Proof. reflexivity. Qed.

Lemma tools_at_absorb tref rref w c :
  tref < List.length (tool_dicts w) ->
  tools_at tref (absorb tref rref w c) =
  if _initialized c then dict_update (tools_at tref w) (tools c) else tools_at tref w.
Proof.
  intros Hlt. unfold absorb. destruct (_initialized c); [| reflexivity].
  rewrite tools_at_update_resources, update_tools_lookup.
  now rewrite decide_True by auto.
Qed.

Lemma tools_at_aggregate tref rref connections w :
  tref < List.length (tool_dicts w) ->
  tools_at tref (fold_left (absorb tref rref) connections w) =
  aggregate_tools connections (tools_at tref w).
Proof.
  revert w. induction connections as [|c cs IH]; intros w Hlt; simpl; [reflexivity |].
  rewrite IH.
  - now rewrite tools_at_absorb.
  - destruct (absorb_kept tref rref w c) as (K1 & _). simpl in K1. lia.
Qed.

Lemma tools_at_invalid ref w : List.length (tool_dicts w) <= ref -> tools_at ref w = [].
Proof. intros H. unfold tools_at. now rewrite lookup_ge_None_2. Qed.

Lemma resources_at_invalid ref w :
  List.length (resource_dicts w) <= ref -> resources_at ref w = [].
Proof. intros H. unfold resources_at. now rewrite lookup_ge_None_2. Qed.

Lemma resources_at_absorb tref rref w c :
  rref < List.length (resource_dicts w) ->
  resources_at rref (absorb tref rref w c) =
  if _initialized c then dict_update (resources_at rref w) (resources c)
  else resources_at rref w.
Proof.
  intros Hlt. unfold absorb. destruct (_initialized c); [| reflexivity].
  rewrite update_resources_lookup. rewrite decide_True.
  - unfold resources_at, DynamicMCPClient.update_tools, modify. reflexivity.
  - split; [reflexivity |]. unfold DynamicMCPClient.update_tools, modify. simpl. exact Hlt.
Qed.

Lemma resources_at_aggregate tref rref connections w :
  rref < List.length (resource_dicts w) ->
  resources_at rref (fold_left (absorb tref rref) connections w) =
  aggregate_resources connections (resources_at rref w).
Proof.
  revert w. induction connections as [|c cs IH]; intros w Hlt; simpl; [reflexivity |].
  rewrite IH.
  - now rewrite resources_at_absorb.
  - destruct (absorb_kept tref rref w c) as (_ & K2 & _). simpl in K2. lia.
Qed.

(** Every entry of the aggregated catalog was there before or comes from an
    initialized connection. *)
Lemma aggregate_tools_origin connections acc name tool :
  dict_get name (aggregate_tools connections acc) = Some tool ->
  dict_get name acc = Some tool \/
  exists c, In c connections /\ _initialized c = true /\ In (name, tool) (tools c).
Proof.
  unfold aggregate_tools. revert acc.
  induction connections as [|c cs IH]; intros acc; simpl; [auto |].
  intros H. apply IH in H as [H | (c' & Hin & Hi & Ht)]; [| eauto 6].
  destruct (_initialized c) eqn:Hini; [| auto].
  rewrite dict_get_update in H.
  destruct (dict_get name (rev (tools c))) as [tool'|] eqn:Hrev; [| auto].
  injection H as ->. right. exists c. split; [auto |]. split; [exact Hini |].
  apply dict_get_In in Hrev. now apply in_rev.
Qed.

Lemma aggregate_resources_origin connections acc name res :
  dict_get name (aggregate_resources connections acc) = Some res ->
  dict_get name acc = Some res \/
  exists c, In c connections /\ _initialized c = true /\ In (name, res) (resources c).
Proof.
  unfold aggregate_resources. revert acc.
  induction connections as [|c cs IH]; intros acc; simpl; [auto |].
  intros H. apply IH in H as [H | (c' & Hin & Hi & Ht)]; [| eauto 6].
  destruct (_initialized c) eqn:Hini; [| auto].
  rewrite dict_get_update in H.
  destruct (dict_get name (rev (resources c))) as [res'|] eqn:Hrev; [| auto].
  injection H as ->. right. exists c. split; [auto |]. split; [exact Hini |].
  apply dict_get_In in Hrev. now apply in_rev.
Qed.

Lemma aggregate_tools_none connections acc :
  Forall (fun c => _initialized c = false) connections ->
  aggregate_tools connections acc = acc.
Proof.
  unfold aggregate_tools. intros H. revert acc.
  induction H as [|c cs Hc H IH]; intros acc; simpl; [reflexivity |].
  now rewrite Hc, IH.
Qed.

Lemma aggregate_resources_none connections acc :
  Forall (fun c => _initialized c = false) connections ->
  aggregate_resources connections acc = acc.
Proof.
  unfold aggregate_resources. intros H. revert acc.
  induction H as [|c cs Hc H IH]; intros acc; simpl; [reflexivity |].
  now rewrite Hc, IH.
Qed.

(** What a completed [initialize] leaves in the world. *)
Lemma initialized_world_facts r connections results enabled w :
  let w' := initialized_world r connections results enabled w in
  let connections' :=
    dict_values (dict_update (DynamicMCPClient.server_connections r) connections) in
  List.length (tool_dicts w') = List.length (tool_dicts w) /\
  List.length (resource_dicts w') = List.length (resource_dicts w) /\
  procs w' = procs w /\
  initialize_runs w' = S (initialize_runs w) /\
  tools_at (DynamicMCPClient.available_tools r) w' =
    (if decide (DynamicMCPClient.available_tools r < List.length (tool_dicts w))
     then aggregate_tools connections' (tools_at (DynamicMCPClient.available_tools r) w)
     else []) /\
  resources_at (DynamicMCPClient.available_resources r) w' =
    (if decide (DynamicMCPClient.available_resources r < List.length (resource_dicts w))
     then aggregate_resources connections'
            (resources_at (DynamicMCPClient.available_resources r) w)
     else []).
Proof.
  intros w' connections'. unfold w', initialized_world, aggregated_world.
  fold connections'.
  set (tref := DynamicMCPClient.available_tools r).
  set (rref := DynamicMCPClient.available_resources r).
  set (w1 := fold_left (absorb tref rref) connections' w).
  destruct (aggregate_kept tref rref connections' w) as (K1 & K2 & K3 & K4 & K5).
  fold w1 in K1, K2, K3, K4, K5.
  unfold logger, modify; simpl.
  split; [exact K1 |]. split; [exact K2 |]. split; [exact K3 |].
  split.
  { unfold initialize_runs; simpl. rewrite !List.filter_app, !length_app. simpl.
    rewrite K4. lia. }
  unfold tools_at, resources_at; simpl.
  fold (tools_at tref w1). fold (resources_at rref w1).
  split.
  - destruct (decide (tref < List.length (tool_dicts w))).
    + now apply tools_at_aggregate.
    + apply tools_at_invalid. lia.
  - destruct (decide (rref < List.length (resource_dicts w))).
    + now apply resources_at_aggregate.
    + apply resources_at_invalid. lia.
Qed.

Lemma connection_tasks_ok m : Forall (fun kc => tools_ok (snd kc)) (connection_tasks m).
Proof.
  unfold connection_tasks. apply Forall_map. apply Forall_forall. intros x _.
  unfold tools_ok. simpl. constructor.
Qed.

Lemma connection_tasks_fresh m :
  Forall (fun kc => _initialized (snd kc) = false) (connection_tasks m).
Proof.
  unfold connection_tasks. apply Forall_map. apply Forall_forall. intros x _. reflexivity.
Qed.

(** [initialize] never raises; when it completes, [gather] settled every
    task and the registry and world are the ones described above. *)
Lemma initialize_completed rt r w o r' w' :
  DynamicMCPClient.initialize rt (r, w) = (o, (r', w')) ->
  o <> Unmodelled ->
  let tasks := connection_tasks (DynamicMCPClient.config_manager r) in
  exists connections results w1,
    DynamicMCPClient.gather rt tasks w = (Ret (connections, results), w1) /\
    settled tasks connections results /\
    frame w w1 /\
    o = Ret (0 <? List.length (List.filter (fun b : bool => b) results)) /\
    r' = initialized_registry r connections /\
    w' = initialized_world r connections results (List.length tasks) w1.
Proof.
  intros Hrun Hne tasks. rewrite initialize_run in Hrun. fold tasks in Hrun.
  pose proof (gather_post rt tasks w (connection_tasks_ok _)) as Hg. unfold post in Hg.
  destruct (DynamicMCPClient.gather rt tasks w) as [[[cs bs]|e|] w1]; simpl in Hg;
    destruct Hg as [Hf Hs]; [| contradiction |].
  - exists cs, bs, w1. injection Hrun as <- <- <-.
    split; [reflexivity |]. split; [exact Hs |]. split; [exact Hf |]. auto.
  - injection Hrun as <- _ _. congruence.
Qed.

Lemma dict_set_fresh {V} k (v : V) (d : pydict V) :
  ~ In k (dict_keys d) -> dict_set k v d = d ++ [(k, v)].
Proof.
  induction d as [|[k' v'] d IH]; simpl; [reflexivity |].
  intros Hn. destruct (String.eqb_spec k k') as [->|Hne]; [tauto |].
  rewrite IH; [reflexivity | tauto].
Qed.

Lemma dict_update_fresh {V} (d other : pydict V) :
  dict_wf (d ++ other) -> dict_update d other = d ++ other.
Proof.
  unfold dict_wf, dict_keys. revert d.
  induction other as [|[k v] other IH]; intros d Hwf.
  - now rewrite app_nil_r.
  - rewrite dict_update_cons.
    assert (Hk : ~ In k (dict_keys d)).
    { rewrite map_app in Hwf. apply NoDup_app in Hwf as (_ & Hdis & _).
      intros Hin. apply (Hdis k); [now apply list_elem_of_In | simpl; left]. }
    rewrite (dict_set_fresh _ _ _ Hk).
    rewrite IH; rewrite <- app_assoc; [reflexivity | exact Hwf].
Qed.

Lemma dict_of_pairs_wf {V} (l : pydict V) : dict_wf l -> dict_of_pairs l = l.
Proof. intros H. unfold dict_of_pairs. now rewrite dict_update_fresh. Qed.

Lemma settled_keys tasks connections results :
  settled tasks connections results -> dict_keys connections = dict_keys tasks.
Proof. induction 1; simpl; congruence. Qed.

Lemma settled_configs tasks connections results :
  settled tasks connections results ->
  Forall2 (fun t kc => config (snd kc) = config (snd t)) tasks connections.
Proof. induction 1; constructor; auto. Qed.

Lemma settled_results tasks connections results :
  settled tasks connections results ->
  Forall (fun kc => _initialized (snd kc) = false) tasks ->
  ((0 <? List.length (List.filter (fun b : bool => b) results)) = true <->
   exists name c, In (name, c) connections /\ _initialized c = true).
Proof.
  induction 1 as [|name c0 c b tasks cs bs Hcfg Hok Hini Hs IH]; intros Hfresh.
  - simpl. split; [discriminate | intros (? & ? & [] & _)].
  - apply Forall_cons in Hfresh as [Hc0 Hfresh]. simpl in Hc0.
    specialize (IH Hfresh). destruct b; simpl.
    + split; [intros _ | reflexivity]. exists name, c. auto.
    + rewrite IH. rewrite Hc0 in Hini. split.
      * intros (n & c' & Hin & Hi). exists n, c'. auto.
      * intros (n & c' & [Heq | Hin] & Hi); [| eauto].
        injection Heq as <- <-. congruence.
Qed.

Lemma connection_tasks_keys m :
  dict_keys (connection_tasks m) = dict_keys (MCPConfigManager.get_enabled_servers m).
Proof.
  unfold connection_tasks, dict_keys. rewrite map_map. reflexivity.
Qed.

Lemma new_registry m w00 r0 w0 :
  DynamicMCPClient.new m w00 = (Ret r0, w0) ->
  DynamicMCPClient.config_manager r0 = m /\
  DynamicMCPClient.server_connections r0 = [] /\
  DynamicMCPClient._initialized r0 = false /\
  DynamicMCPClient.available_tools r0 < List.length (tool_dicts w0) /\
  DynamicMCPClient.available_resources r0 < List.length (resource_dicts w0) /\
  tools_at (DynamicMCPClient.available_tools r0) w0 = [] /\
  resources_at (DynamicMCPClient.available_resources r0) w0 = [].
Proof.
  unfold DynamicMCPClient.new. intros [= <- <-]. simpl.
  rewrite !length_app. simpl. repeat split; try lia.
  - unfold tools_at; simpl. now rewrite lookup_app_r, Nat.sub_diag by lia.
  - unfold resources_at; simpl. now rewrite lookup_app_r, Nat.sub_diag by lia.
Qed.

(** The state [initialize] leaves when it starts from a registry that holds
    no connection yet. *)
Lemma initialize_first rt r0 w0 o r w :
  DynamicMCPClient.server_connections r0 = [] ->
  DynamicMCPClient.initialize rt (r0, w0) = (o, (r, w)) ->
  o <> Unmodelled ->
  let tasks := connection_tasks (DynamicMCPClient.config_manager r0) in
  let connections := DynamicMCPClient.server_connections r in
  exists results,
    settled tasks connections results /\
    o = Ret (0 <? List.length (List.filter (fun b : bool => b) results)) /\
    DynamicMCPClient._initialized r = true /\
    DynamicMCPClient.available_tools r = DynamicMCPClient.available_tools r0 /\
    DynamicMCPClient.available_resources r = DynamicMCPClient.available_resources r0 /\
    DynamicMCPClient.config_manager r = DynamicMCPClient.config_manager r0 /\
    List.length (tool_dicts w) = List.length (tool_dicts w0) /\
    List.length (resource_dicts w) = List.length (resource_dicts w0) /\
    initialize_runs w = S (initialize_runs w0) /\
    tools_at (DynamicMCPClient.available_tools r0) w =
      (if decide (DynamicMCPClient.available_tools r0 < List.length (tool_dicts w0))
       then aggregate_tools (dict_values connections)
              (tools_at (DynamicMCPClient.available_tools r0) w0)
       else []) /\
    resources_at (DynamicMCPClient.available_resources r0) w =
      (if decide (DynamicMCPClient.available_resources r0 < List.length (resource_dicts w0))
       then aggregate_resources (dict_values connections)
              (resources_at (DynamicMCPClient.available_resources r0) w0)
       else []).
Proof.
  intros Hnil Hrun Hne tasks connections.
  destruct (initialize_completed _ _ _ _ _ _ Hrun Hne)
    as (cs & bs & w1 & Hg & Hs & (Hf1 & Hf2 & Hf3) & Ho & Hr & Hw).
  fold tasks in Hg, Hs, Hw.
  assert (Hcs : dict_update (DynamicMCPClient.server_connections r0) cs = cs).
  { rewrite Hnil. apply dict_of_pairs_wf. unfold dict_wf.
    rewrite (settled_keys _ _ _ Hs). unfold tasks. rewrite connection_tasks_keys.
    apply dict_wf_of_pairs. }
  assert (Hconn : connections = cs).
  { unfold connections. rewrite Hr. simpl. exact Hcs. }
  destruct (initialized_world_facts r0 cs bs (List.length tasks) w1)
    as (K1 & K2 & K3 & K4 & K5 & K6).
  rewrite Hcs in K5, K6. rewrite <- Hw in K1, K2, K3, K4, K5, K6.
  unfold tools_at at 2 in K5. unfold resources_at at 2 in K6.
  rewrite Hf1 in K1, K5. rewrite Hf2 in K2, K6. rewrite Hf3 in K4.
  exists bs. rewrite Hconn. rewrite Hr. simpl.
  repeat split; auto.
Qed.

Lemma initialize_kept rt r w o r' w' :
  DynamicMCPClient.initialize rt (r, w) = (o, (r', w')) ->
  o <> Unmodelled ->
  (exists b, o = Ret b) /\
  DynamicMCPClient._initialized r' = true /\
  DynamicMCPClient.available_tools r' = DynamicMCPClient.available_tools r /\
  DynamicMCPClient.available_resources r' = DynamicMCPClient.available_resources r /\
  List.length (tool_dicts w') = List.length (tool_dicts w) /\
  List.length (resource_dicts w') = List.length (resource_dicts w) /\
  initialize_runs w' = S (initialize_runs w).
Proof.
  intros Hrun Hne.
  destruct (initialize_completed _ _ _ _ _ _ Hrun Hne)
    as (cs & bs & w1 & Hg & Hs & (Hf1 & Hf2 & Hf3) & Ho & Hr & Hw).
  destruct (initialized_world_facts r cs bs
              (List.length (connection_tasks (DynamicMCPClient.config_manager r))) w1)
    as (K1 & K2 & K3 & K4 & _).
  rewrite <- Hw in K1, K2, K4. rewrite Hf1 in K1. rewrite Hf2 in K2. rewrite Hf3 in K4.
  subst r'. simpl. eauto 10.
Qed.

Lemma copy_tools_lookup ref w q :
  tools_at q (snd (DynamicMCPClient.copy_tools ref w)) =
  if decide (q = List.length (tool_dicts w)) then tools_at ref w else tools_at q w.
Proof.
  unfold DynamicMCPClient.copy_tools, tools_at at 1; simpl.
  destruct (decide (q = List.length (tool_dicts w))) as [->|Hne].
  - now rewrite lookup_app_r, Nat.sub_diag by lia.
  - destruct (decide (q < List.length (tool_dicts w))).
    + now rewrite lookup_app_l by lia.
    + unfold tools_at. rewrite !lookup_ge_None_2; [reflexivity | lia |].
      rewrite length_app. simpl. lia.
Qed.

Lemma copy_resources_lookup ref w q :
  resources_at q (snd (DynamicMCPClient.copy_resources ref w)) =
  if decide (q = List.length (resource_dicts w)) then resources_at ref w
  else resources_at q w.
Proof.
  unfold DynamicMCPClient.copy_resources, resources_at at 1; simpl.
  destruct (decide (q = List.length (resource_dicts w))) as [->|Hne].
  - now rewrite lookup_app_r, Nat.sub_diag by lia.
  - destruct (decide (q < List.length (resource_dicts w))).
    + now rewrite lookup_app_l by lia.
    + unfold resources_at. rewrite !lookup_ge_None_2; [reflexivity | lia |].
      rewrite length_app. simpl. lia.
Qed.

(** A getter on an initialized registry only copies. *)
Lemma get_available_tools_initialized rt r w :
  DynamicMCPClient._initialized r = true ->
  DynamicMCPClient.get_available_tools rt (r, w) =
  (Ret (List.length (tool_dicts w)),
   (r, snd (DynamicMCPClient.copy_tools (DynamicMCPClient.available_tools r) w))).
Proof.
  intros Hi. unfold DynamicMCPClient.get_available_tools, bind, get_state, ret, in_world.
  simpl. rewrite Hi. reflexivity.
Qed.

Lemma get_available_resources_initialized rt r w :
  DynamicMCPClient._initialized r = true ->
  DynamicMCPClient.get_available_resources rt (r, w) =
  (Ret (List.length (resource_dicts w)),
   (r, snd (DynamicMCPClient.copy_resources (DynamicMCPClient.available_resources r) w))).
Proof.
  intros Hi. unfold DynamicMCPClient.get_available_resources, bind, get_state, ret, in_world.
  simpl. rewrite Hi. reflexivity.
Qed.

(** A getter on a registry that was never initialized runs [initialize]
    first, then copies. *)
Lemma get_available_tools_lazy rt r w :
  DynamicMCPClient._initialized r = false ->
  DynamicMCPClient.get_available_tools rt (r, w) =
  match DynamicMCPClient.initialize rt (r, w) with
  | (Ret _, (r1, w1)) =>
      (Ret (List.length (tool_dicts w1)),
       (r1, snd (DynamicMCPClient.copy_tools (DynamicMCPClient.available_tools r) w1)))
  | (Raise e, s1) => (Raise e, s1)
  | (Unmodelled, s1) => (Unmodelled, s1)
  end.
Proof.
  intros Hi. unfold DynamicMCPClient.get_available_tools, bind, get_state, ret, in_world.
  cbn -[DynamicMCPClient.initialize DynamicMCPClient.copy_tools]. rewrite Hi.
  cbn -[DynamicMCPClient.initialize DynamicMCPClient.copy_tools].
  destruct (DynamicMCPClient.initialize rt (r, w)) as [[b|e|] [r1 w1]]; reflexivity.
Qed.

Lemma get_available_resources_lazy rt r w :
  DynamicMCPClient._initialized r = false ->
  DynamicMCPClient.get_available_resources rt (r, w) =
  match DynamicMCPClient.initialize rt (r, w) with
  | (Ret _, (r1, w1)) =>
      (Ret (List.length (resource_dicts w1)),
       (r1, snd (DynamicMCPClient.copy_resources
                   (DynamicMCPClient.available_resources r) w1)))
  | (Raise e, s1) => (Raise e, s1)
  | (Unmodelled, s1) => (Unmodelled, s1)
  end.
Proof.
  intros Hi. unfold DynamicMCPClient.get_available_resources, bind, get_state, ret, in_world.
  cbn -[DynamicMCPClient.initialize DynamicMCPClient.copy_resources]. rewrite Hi.
  cbn -[DynamicMCPClient.initialize DynamicMCPClient.copy_resources].
  destruct (DynamicMCPClient.initialize rt (r, w)) as [[b|e|] [r1 w1]]; reflexivity.
Qed.

Lemma copy_tools_kept ref w :
  procs (snd (DynamicMCPClient.copy_tools ref w)) = procs w /\
  log (snd (DynamicMCPClient.copy_tools ref w)) = log w /\
  initialize_runs (snd (DynamicMCPClient.copy_tools ref w)) = initialize_runs w /\
  resource_dicts (snd (DynamicMCPClient.copy_tools ref w)) = resource_dicts w /\
  List.length (tool_dicts (snd (DynamicMCPClient.copy_tools ref w)))
    = S (List.length (tool_dicts w)).
Proof.
  unfold DynamicMCPClient.copy_tools, initialize_runs; simpl.
  rewrite length_app; simpl. repeat split; lia.
Qed.

Lemma copy_resources_kept ref w :
  procs (snd (DynamicMCPClient.copy_resources ref w)) = procs w /\
  log (snd (DynamicMCPClient.copy_resources ref w)) = log w /\
  initialize_runs (snd (DynamicMCPClient.copy_resources ref w)) = initialize_runs w /\
  tool_dicts (snd (DynamicMCPClient.copy_resources ref w)) = tool_dicts w /\
  List.length (resource_dicts (snd (DynamicMCPClient.copy_resources ref w)))
    = S (List.length (resource_dicts w)).
Proof.
  unfold DynamicMCPClient.copy_resources, initialize_runs; simpl.
  rewrite length_app; simpl. repeat split; lia.
Qed.

(** C10.  A run of [initialize] that completes sets the registry's flag,
    whatever it returns.  When it returns [false] on a registry that held
    nothing before, no connection is initialized, and a later
    [get_available_tools] or [get_available_resources] only copies: it
    hands out an empty catalog and no further run of [initialize] takes
    place. *)
Theorem initialize_sets_flag (rt : runtime) (r0 : DynamicMCPClient.t) (w0 : world)
    (o : outcome bool) (r : DynamicMCPClient.t) (w : world) :
  DynamicMCPClient.initialize rt (r0, w0) = (o, (r, w)) ->
  o <> Unmodelled ->
  (exists b, o = Ret b) /\
  DynamicMCPClient._initialized r = true /\
  (o = Ret false ->
   DynamicMCPClient.server_connections r0 = [] ->
   tools_at (DynamicMCPClient.available_tools r0) w0 = [] ->
   resources_at (DynamicMCPClient.available_resources r0) w0 = [] ->
   (forall name c,
       In (name, c) (DynamicMCPClient.server_connections r) -> _initialized c = false) /\
   (exists ref w',
       DynamicMCPClient.get_available_tools rt (r, w) = (Ret ref, (r, w')) /\
       tools_at ref w' = [] /\
       initialize_runs w' = initialize_runs w /\ procs w' = procs w /\ log w' = log w) /\
   (exists ref w',
       DynamicMCPClient.get_available_resources rt (r, w) = (Ret ref, (r, w')) /\
       resources_at ref w' = [] /\
       initialize_runs w' = initialize_runs w /\ procs w' = procs w /\ log w' = log w)).
Proof.
  intros Hrun Hne.
  destruct (initialize_kept _ _ _ _ _ _ Hrun Hne) as (Hb & Hi & Hta & Hra & _).
  split; [exact Hb |]. split; [exact Hi |].
  intros Ho Hnil Htools Hres.
  destruct (initialize_first _ _ _ _ _ _ Hnil Hrun Hne)
    as (bs & Hs & Ho' & _ & _ & _ & _ & _ & _ & _ & Kt & Kr).
  assert (Hnone : forall name c,
             In (name, c) (DynamicMCPClient.server_connections r) -> _initialized c = false).
  { intros name c Hin. destruct (_initialized c) eqn:Hc; [| reflexivity].
    assert (Htrue : (0 <? List.length (List.filter (fun b : bool => b) bs)) = true).
    { apply (settled_results _ _ _ Hs (connection_tasks_fresh _)). eauto. }
    congruence. }
  assert (Hall : Forall (fun c => _initialized c = false)
                        (dict_values (DynamicMCPClient.server_connections r))).
  { apply Forall_forall. intros c Hin. unfold dict_values in Hin.
    apply list_elem_of_In, in_map_iff in Hin as ([name c'] & <- & Hin). eauto. }
  assert (Ht : tools_at (DynamicMCPClient.available_tools r) w = []).
  { rewrite Hta, Kt.
    destruct (decide (DynamicMCPClient.available_tools r0 < _)); [| reflexivity].
    now rewrite aggregate_tools_none. }
  assert (Hr : resources_at (DynamicMCPClient.available_resources r) w = []).
  { rewrite Hra, Kr.
    destruct (decide (DynamicMCPClient.available_resources r0 < _)); [| reflexivity].
    now rewrite aggregate_resources_none. }
  split; [exact Hnone |]. split.
  - rewrite (get_available_tools_initialized _ _ _ Hi).
    eexists _, _. split; [reflexivity |].
    rewrite copy_tools_lookup, decide_True by reflexivity.
    destruct (copy_tools_kept (DynamicMCPClient.available_tools r) w) as (K1 & K2 & K3 & _).
    auto.
  - rewrite (get_available_resources_initialized _ _ _ Hi).
    eexists _, _. split; [reflexivity |].
    rewrite copy_resources_lookup, decide_True by reflexivity.
    destruct (copy_resources_kept (DynamicMCPClient.available_resources r) w)
      as (K1 & K2 & K3 & _).
    auto.
Qed.

(** Run against providers none of which can be spawned. *)
Lemma initialize_sets_flag_witness :
  let start := DynamicMCPClient.new three_servers empty_world in
  let r0 := match fst start with Ret r0 => r0 | _ => DynamicMCPClient.mk three_servers [] 0 0 false end in
  let done := DynamicMCPClient.initialize no_server_runtime (r0, snd start) in
  fst done = Ret false /\
  DynamicMCPClient._initialized (fst (snd done)) = true /\
  exists ref w',
    DynamicMCPClient.get_available_tools no_server_runtime (snd done)
      = (Ret ref, (fst (snd done), w')) /\
    tools_at ref w' = [].
Proof.
  intros start r0 done.
  assert (Hrun : DynamicMCPClient.initialize no_server_runtime (r0, snd start)
                 = (fst done, (fst (snd done), snd (snd done)))).
  { vm_compute. reflexivity. }
  assert (Hne : fst done <> Unmodelled) by (vm_compute; discriminate).
  destruct (initialize_sets_flag _ _ _ _ _ _ Hrun Hne) as (_ & Hflag & Hlater).
  split; [vm_compute; reflexivity |]. split; [exact Hflag |].
  destruct Hlater as (_ & (ref & w' & Hget & Hempty & _) & _);
    try (vm_compute; reflexivity).
  exists ref, w'. split; [| exact Hempty].
  rewrite <- Hget. vm_compute. reflexivity.
Defined.

(** ** The getters *)

Lemma getter_step rt g r w o r' w' :
  run_getters rt [g] (r, w) = (o, (r', w')) ->
  o <> Unmodelled ->
  o = Ret tt /\
  DynamicMCPClient._initialized r' = true /\
  initialize_runs w' =
    initialize_runs w + (if DynamicMCPClient._initialized r then 0 else 1).
Proof.
  intros Hrun Hne.
  assert (Hinit : DynamicMCPClient._initialized r = false ->
            forall o1 r1 w1, DynamicMCPClient.initialize rt (r, w) = (o1, (r1, w1)) ->
            match o1 with
            | Ret _ => DynamicMCPClient._initialized r1 = true /\
                       initialize_runs w1 = S (initialize_runs w)
            | Raise _ => False
            | Unmodelled => True
            end).
  { intros Hi o1 r1 w1 Hinit. destruct o1 as [b|e|]; [| | exact I].
    - assert (Hne1 : Ret b <> Unmodelled) by discriminate.
      destruct (initialize_kept _ _ _ _ _ _ Hinit Hne1) as (_ & Hi1 & _ & _ & _ & _ & Hruns).
      auto.
    - assert (Hne1 : @Raise bool e <> Unmodelled) by discriminate.
      destruct (initialize_kept _ _ _ _ _ _ Hinit Hne1) as ([b Hb] & _). discriminate. }
  unfold run_getters, bind, ret in Hrun.
  destruct g.
  - destruct (DynamicMCPClient._initialized r) eqn:Hi.
    + rewrite (get_available_tools_initialized _ _ _ Hi) in Hrun.
      injection Hrun as <- <- <-.
      destruct (copy_tools_kept (DynamicMCPClient.available_tools r) w) as (_ & _ & K & _).
      split; [reflexivity |]. split; [exact Hi |]. unfold initialize_runs in *; simpl in *; lia.
    + rewrite (get_available_tools_lazy _ _ _ Hi) in Hrun.
      destruct (DynamicMCPClient.initialize rt (r, w)) as [o1 [r1 w1]] eqn:Hrun1.
      specialize (Hinit eq_refl _ _ _ eq_refl).
      destruct o1 as [b|e|]; [| contradiction |].
      * injection Hrun as <- <- <-. destruct Hinit as [Hi1 Hruns].
        destruct (copy_tools_kept (DynamicMCPClient.available_tools r) w1)
          as (_ & _ & K & _).
        split; [reflexivity |]. split; [exact Hi1 |]. unfold initialize_runs in *; simpl in *; lia.
      * injection Hrun as <- _ _. congruence.
  - destruct (DynamicMCPClient._initialized r) eqn:Hi.
    + rewrite (get_available_resources_initialized _ _ _ Hi) in Hrun.
      injection Hrun as <- <- <-.
      destruct (copy_resources_kept (DynamicMCPClient.available_resources r) w)
        as (_ & _ & K & _).
      split; [reflexivity |]. split; [exact Hi |]. unfold initialize_runs in *; simpl in *; lia.
    + rewrite (get_available_resources_lazy _ _ _ Hi) in Hrun.
      destruct (DynamicMCPClient.initialize rt (r, w)) as [o1 [r1 w1]] eqn:Hrun1.
      specialize (Hinit eq_refl _ _ _ eq_refl).
      destruct o1 as [b|e|]; [| contradiction |].
      * injection Hrun as <- <- <-. destruct Hinit as [Hi1 Hruns].
        destruct (copy_resources_kept (DynamicMCPClient.available_resources r) w1)
          as (_ & _ & K & _).
        split; [reflexivity |]. split; [exact Hi1 |]. unfold initialize_runs in *; simpl in *; lia.
      * injection Hrun as <- _ _. congruence.
Qed.

Lemma run_getters_cons rt g calls rw :
  run_getters rt (g :: calls) rw =
  match run_getters rt [g] rw with
  | (Ret _, rw') => run_getters rt calls rw'
  | (Raise e, rw') => (Raise e, rw')
  | (Unmodelled, rw') => (Unmodelled, rw')
  end.
Proof.
  destruct g; simpl; unfold bind, ret;
    match goal with |- context [?f rt rw] => destruct (f rt rw) as [[a|e|] rw'] end;
    reflexivity.
Qed.

Lemma run_getters_count rt calls r w o r' w' :
  run_getters rt calls (r, w) = (o, (r', w')) ->
  o <> Unmodelled ->
  calls <> [] ->
  DynamicMCPClient._initialized r' = true /\
  initialize_runs w' =
    initialize_runs w + (if DynamicMCPClient._initialized r then 0 else 1).
Proof.
  revert r w. induction calls as [|g calls IH]; intros r w Hrun Hne Hnil; [congruence |].
  rewrite run_getters_cons in Hrun.
  destruct (run_getters rt [g] (r, w)) as [o1 [r1 w1]] eqn:Hstep.
  destruct o1 as [[]|e|].
  - assert (Hne1 : Ret tt <> Unmodelled) by discriminate.
    destruct (getter_step _ _ _ _ _ _ _ Hstep Hne1) as (_ & Hi1 & Hruns1).
    destruct calls as [|g' calls'].
    + simpl in Hrun. injection Hrun as <- <- <-. auto.
    + assert (Hcons : g' :: calls' <> []) by discriminate.
      destruct (IH _ _ Hrun Hne Hcons) as (Hi' & Hruns').
      rewrite Hi1 in Hruns'. split; [exact Hi' | lia].
  - assert (Hne1 : @Raise unit e <> Unmodelled) by discriminate.
    destruct (getter_step _ _ _ _ _ _ _ Hstep Hne1) as (Habs & _). discriminate.
  - injection Hrun as <- _ _. congruence.
Qed.

(** C8.  Each getter hands the caller a dictionary object of its own: it
    is not the registry's catalog, it holds the catalog's entries, and
    whatever the caller stores in it leaves the registry's catalog as it
    was.  Over any non-empty sequence of getter calls that starts on a
    registry that was never initialized, [initialize] runs exactly once;
    on an initialized registry it does not run at all. *)
Theorem getters_spec (rt : runtime) :
  (forall r w ref r' w',
      DynamicMCPClient.available_tools r < List.length (tool_dicts w) ->
      DynamicMCPClient.get_available_tools rt (r, w) = (Ret ref, (r', w')) ->
      ref <> DynamicMCPClient.available_tools r' /\
      tools_at ref w' = tools_at (DynamicMCPClient.available_tools r') w' /\
      forall d,
        tools_at (DynamicMCPClient.available_tools r')
                 (set_tool_dicts (<[ref := d]> (tool_dicts w')) w')
        = tools_at (DynamicMCPClient.available_tools r') w')
  /\ (forall r w ref r' w',
        DynamicMCPClient.available_resources r < List.length (resource_dicts w) ->
        DynamicMCPClient.get_available_resources rt (r, w) = (Ret ref, (r', w')) ->
        ref <> DynamicMCPClient.available_resources r' /\
        resources_at ref w' = resources_at (DynamicMCPClient.available_resources r') w' /\
        forall d,
          resources_at (DynamicMCPClient.available_resources r')
                       (set_resource_dicts (<[ref := d]> (resource_dicts w')) w')
          = resources_at (DynamicMCPClient.available_resources r') w')
  /\ (forall calls r w o r' w',
        run_getters rt calls (r, w) = (o, (r', w')) ->
        o <> Unmodelled ->
        calls <> [] ->
        DynamicMCPClient._initialized r' = true /\
        initialize_runs w' =
          initialize_runs w + (if DynamicMCPClient._initialized r then 0 else 1)).
Proof.
  split; [| split].
  - intros r w ref r' w' Hvalid Hget.
    assert (Hcopy : exists w1,
               DynamicMCPClient.available_tools r' = DynamicMCPClient.available_tools r /\
               List.length (tool_dicts w1) = List.length (tool_dicts w) /\
               ref = List.length (tool_dicts w1) /\
               w' = snd (DynamicMCPClient.copy_tools (DynamicMCPClient.available_tools r) w1)).
    { destruct (DynamicMCPClient._initialized r) eqn:Hi.
      - rewrite (get_available_tools_initialized _ _ _ Hi) in Hget.
        injection Hget as <- <- <-. exists w. auto.
      - rewrite (get_available_tools_lazy _ _ _ Hi) in Hget.
        destruct (DynamicMCPClient.initialize rt (r, w)) as [o1 [r1 w1]] eqn:Hinit.
        destruct o1 as [b|e|]; [| discriminate ..].
        assert (Hne1 : Ret b <> Unmodelled) by discriminate.
        destruct (initialize_kept _ _ _ _ _ _ Hinit Hne1) as (_ & _ & Ht & _ & Hl & _).
        injection Hget as <- <- <-. exists w1. auto. }
    destruct Hcopy as (w1 & Hsame & Hlen & -> & ->). rewrite Hsame.
    split; [lia |]. split.
    + rewrite !copy_tools_lookup. rewrite decide_True by reflexivity.
      now rewrite decide_False by lia.
    + intros d. unfold tools_at; simpl. now rewrite list_lookup_insert_ne by lia.
  - intros r w ref r' w' Hvalid Hget.
    assert (Hcopy : exists w1,
               DynamicMCPClient.available_resources r'
                 = DynamicMCPClient.available_resources r /\
               List.length (resource_dicts w1) = List.length (resource_dicts w) /\
               ref = List.length (resource_dicts w1) /\
               w' = snd (DynamicMCPClient.copy_resources
                           (DynamicMCPClient.available_resources r) w1)).
    { destruct (DynamicMCPClient._initialized r) eqn:Hi.
      - rewrite (get_available_resources_initialized _ _ _ Hi) in Hget.
        injection Hget as <- <- <-. exists w. auto.
      - rewrite (get_available_resources_lazy _ _ _ Hi) in Hget.
        destruct (DynamicMCPClient.initialize rt (r, w)) as [o1 [r1 w1]] eqn:Hinit.
        destruct o1 as [b|e|]; [| discriminate ..].
        assert (Hne1 : Ret b <> Unmodelled) by discriminate.
        destruct (initialize_kept _ _ _ _ _ _ Hinit Hne1) as (_ & _ & _ & Hr & _ & Hl & _).
        injection Hget as <- <- <-. exists w1. auto. }
    destruct Hcopy as (w1 & Hsame & Hlen & -> & ->). rewrite Hsame.
    split; [lia |]. split.
    + rewrite !copy_resources_lookup. rewrite decide_True by reflexivity.
      now rewrite decide_False by lia.
    + intros d. unfold resources_at; simpl. now rewrite list_lookup_insert_ne by lia.
  - intros calls r w o r' w'. apply run_getters_count.
Qed.

(** ** Partial failure *)

(** A provider that cannot be spawned makes [connect] answer [false]; the
    connection stays as it was created. *)
Lemma connect_spawn_failure rt cfg w :
  MCPServerConfig.transport cfg = STDIO ->
  popen rt (List.length (procs w))
        (MCPServerConfig.command cfg :: MCPServerConfig.args cfg)
        (match MCPServerConfig.env cfg with
         | [] => None
         | _ => Some (dict_update (os_environ rt) (MCPServerConfig.env cfg))
         end) = None ->
  connect rt (MCPServerConnection.new cfg, w) =
  (Ret false,
   (MCPServerConnection.new cfg,
    snd (logger (LogStdioFailed (MCPServerConfig.name cfg)
                   (OSError (MCPServerConfig.command cfg :: MCPServerConfig.args cfg))) w))).
Proof.
  intros Htr Hpopen.
  unfold connect, _connect_stdio, try_except, bind, get_state, ret, in_world, Popen.
  cbn -[logger dict_update]. rewrite Htr. cbn -[logger dict_update].
  rewrite Hpopen. reflexivity.
Qed.

Lemma execute_tool_unknown rt name parameters r w :
  dict_get name (tools_at (DynamicMCPClient.available_tools r) w) = None ->
  DynamicMCPClient.execute_tool rt name parameters (r, w) =
  (Ret (false, "Tool " +:+ name +:+ " not found"), (r, w)).
Proof.
  intros Hnone. unfold DynamicMCPClient.execute_tool, bind, get_state, ret; simpl.
  now rewrite Hnone.
Qed.

(** [gather] runs [connect] on every task, in order, whatever the tasks
    before it answered. *)
Lemma gather_attempts rt enabled :
  forall w connections results w',
    DynamicMCPClient.gather rt
      (map (fun kv => (fst kv, MCPServerConnection.new (snd kv))) enabled) w
    = (Ret (connections, results), w') ->
    attempts rt w enabled connections results w'.
Proof.
  induction enabled as [|[key cfg] enabled IH]; intros w connections results w' Hg.
  - cbn in Hg. injection Hg as <- <- <-. constructor.
  - cbn [map fst snd DynamicMCPClient.gather] in Hg.
    destruct (try_except (DynamicMCPClient._connect_server rt) (fun _ => ret false)
                (MCPServerConnection.new cfg, w)) as [[b|e|] [c1 w1]] eqn:Hc;
      try discriminate Hg.
    unfold bind in Hg.
    destruct (DynamicMCPClient.gather rt _ w1) as [[[cs bs]|e|] w2] eqn:Hrest;
      try discriminate Hg.
    unfold ret in Hg. cbn [fst snd] in Hg. injection Hg as <- <- <-.
    apply attempts_cons with (w1 := w1); [| now apply IH].
    unfold try_except, DynamicMCPClient._connect_server in Hc.
    assert (Hok : tools_ok (MCPServerConnection.new cfg)) by (unfold tools_ok; constructor).
    pose proof (connect_post rt _ w Hok) as Hp. unfold post, connect_outcome in Hp.
    destruct (connect rt (MCPServerConnection.new cfg, w)) as [[b'|e|] [c' w'']];
      [exact Hc | cbn in Hp; tauto | discriminate Hc].
Qed.

Lemma settled_flags tasks connections results :
  settled tasks connections results ->
  Forall (fun kc => _initialized (snd kc) = false) tasks ->
  Forall2 (fun kc b => _initialized (snd kc) = b) connections results.
Proof.
  induction 1 as [|name c0 c b tasks connections results _ _ Hflag _ IH]; intros Hfresh;
    constructor.
  - cbn [snd]. rewrite Hflag. pose proof (Forall_inv Hfresh) as H0. cbn [snd] in H0.
    rewrite H0. now destruct b.
  - apply IH. exact (Forall_inv_tail Hfresh).
Qed.

Lemma some_success (results : list bool) :
  (0 <? List.length (List.filter (fun b : bool => b) results)) = true <-> In true results.
Proof.
  induction results as [|[] results IH]; cbn.
  - split; [discriminate | tauto].
  - split; auto.
  - rewrite IH. split; [auto | intros [H | H]; [discriminate H | exact H]].
Qed.

(** Every name an initialized connection offers is in the catalog the
    aggregation loop builds. *)
Lemma aggregate_tools_covers connections :
  forall acc name,
    dict_get name acc <> None \/
    (exists c, In c connections /\ _initialized c = true /\ dict_get name (tools c) <> None) ->
    dict_get name (aggregate_tools connections acc) <> None.
Proof.
  unfold aggregate_tools.
  induction connections as [|c connections IH]; intros acc name H; cbn [fold_left].
  - destruct H as [H | (c & [] & _)]. exact H.
  - apply IH.
    destruct H as [Hacc | (c' & [<- | Hin] & Hi & Hname)].
    + left. destruct (_initialized c); [| exact Hacc].
      rewrite dict_get_update. now destruct (dict_get name (rev (tools c))).
    + left. rewrite Hi, dict_get_update.
      destruct (dict_get name (rev (tools c))) eqn:Hrev; [discriminate |].
      exfalso. apply Hname. apply dict_get_None. apply dict_get_None in Hrev.
      intros Hk. apply Hrev. unfold dict_keys in *. rewrite map_rev. now apply in_rev in Hk.
    + right. now exists c'.
Qed.

(** C5.  Starting from a newly created registry, a run of [initialize]
    that completes has attempted every enabled server, in order: each was
    given a new connection on which [connect] was run, in the world the
    attempt before it left and whatever that attempt answered, and the
    registry holds the connections as the attempts left them, under the
    keys of their servers.  A connection is initialized exactly when its
    attempt answered [true].  [connect] never raises, and a provider that
    cannot be spawned only makes the attempt answer [false], the connection
    staying as it was created and the world gaining one log record.
    [initialize] returns [true] exactly when some attempt answered [true],
    and logs the count of those attempts against the count of enabled
    servers.  The catalog holds exactly the names that the initialized
    connections offer, each entry being the tool of one of them; and
    [execute_tool] for a name that no initialized connection offers returns
    [(false, "Tool <name> not found")], leaving the state as it was. *)
Theorem initialize_partial_failure (rt : runtime) (m : MCPConfigManager.t)
    (w00 : world) (r0 : DynamicMCPClient.t) (w0 : world)
    (o : outcome bool) (r : DynamicMCPClient.t) (w : world) :
  DynamicMCPClient.new m w00 = (Ret r0, w0) ->
  DynamicMCPClient.initialize rt (r0, w0) = (o, (r, w)) ->
  o <> Unmodelled ->
  let enabled := MCPConfigManager.get_enabled_servers m in
  let connections := DynamicMCPClient.server_connections r in
  let catalog := tools_at (DynamicMCPClient.available_tools r) w in
  exists results w1,
    attempts rt w0 enabled connections results w1 /\
    Forall2 (fun kc b => _initialized (snd kc) = b) connections results /\
    (forall cfg w2 e, fst (connect rt (MCPServerConnection.new cfg, w2)) <> Raise e) /\
    (forall cfg w2,
        MCPServerConfig.transport cfg = STDIO ->
        popen rt (List.length (procs w2))
              (MCPServerConfig.command cfg :: MCPServerConfig.args cfg)
              (match MCPServerConfig.env cfg with
               | [] => None
               | _ => Some (dict_update (os_environ rt) (MCPServerConfig.env cfg))
               end) = None ->
        connect rt (MCPServerConnection.new cfg, w2) =
        (Ret false,
         (MCPServerConnection.new cfg,
          set_log (log w2 ++ [LogStdioFailed (MCPServerConfig.name cfg)
                                (OSError (MCPServerConfig.command cfg
                                          :: MCPServerConfig.args cfg))]) w2))) /\
    (exists b, o = Ret b /\ (b = true <-> In true results)) /\
    procs w = procs w1 /\
    log w = log w1 ++ [LogClientInitialized
                         (List.length (List.filter (fun b : bool => b) results))
                         (List.length enabled);
                       LogAvailableTools (List.length catalog);
                       LogAvailableResources
                         (List.length (resources_at
                                         (DynamicMCPClient.available_resources r) w))] /\
    (forall name tool,
        dict_get name catalog = Some tool ->
        exists server c,
          In (server, c) connections /\ _initialized c = true /\ In (name, tool) (tools c)) /\
    (forall server c name,
        In (server, c) connections -> _initialized c = true ->
        dict_get name (tools c) <> None ->
        dict_get name catalog <> None) /\
    (forall name parameters,
        (forall server c, In (server, c) connections -> _initialized c = true ->
                          dict_get name (tools c) = None) ->
        DynamicMCPClient.execute_tool rt name parameters (r, w) =
        (Ret (false, "Tool " +:+ name +:+ " not found"), (r, w))).
Proof.
  intros Hnew Hrun Hne enabled connections catalog.
  destruct (new_registry _ _ _ _ Hnew) as (Hm & Hnil & Hi0 & Hvt & Hvr & Ht0 & Hr0).
  destruct (initialize_completed _ _ _ _ _ _ Hrun Hne)
    as (cs & bs & w1 & Hg & Hs & (Hf1 & Hf2 & Hf3) & Ho & Hr & Hw).
  rewrite Hm in Hg, Hs, Hw.
  assert (Hcs : dict_update (DynamicMCPClient.server_connections r0) cs = cs).
  { rewrite Hnil. apply dict_of_pairs_wf. unfold dict_wf.
    rewrite (settled_keys _ _ _ Hs). rewrite connection_tasks_keys.
    apply dict_wf_of_pairs. }
  assert (Hconn : connections = cs).
  { unfold connections. rewrite Hr. simpl. exact Hcs. }
  assert (Htref : DynamicMCPClient.available_tools r = DynamicMCPClient.available_tools r0)
    by (rewrite Hr; reflexivity).
  assert (Hrref : DynamicMCPClient.available_resources r
                  = DynamicMCPClient.available_resources r0)
    by (rewrite Hr; reflexivity).
  destruct (initialized_world_facts r0 cs bs (List.length (connection_tasks m)) w1)
    as (_ & _ & K3 & _ & K5 & _).
  rewrite Hcs in K5. rewrite <- Hw in K3, K5.
  rewrite Hf1 in K5. rewrite decide_True in K5 by exact Hvt.
  assert (Hacc : tools_at (DynamicMCPClient.available_tools r0) w1 = []).
  { unfold tools_at. rewrite Hf1. exact Ht0. }
  rewrite Hacc in K5. rewrite <- Htref in K5. fold catalog in K5. rewrite <- Hconn in K5.
  assert (Horigin : forall name tool,
             dict_get name catalog = Some tool ->
             exists server c,
               In (server, c) connections /\ _initialized c = true /\ In (name, tool) (tools c)).
  { intros name tool Hget. rewrite K5 in Hget.
    apply aggregate_tools_origin in Hget as [Hget | (c & Hin & Hc & Htool)];
      [discriminate |].
    unfold dict_values in Hin. apply in_map_iff in Hin as ([server c'] & <- & Hin).
    exists server, c'. auto. }
  exists bs, w1.
  split.
  { rewrite Hconn. apply gather_attempts. exact Hg. }
  split.
  { rewrite Hconn. apply (settled_flags _ _ _ Hs). apply connection_tasks_fresh. }
  split.
  { intros cfg w2 e Heq.
    assert (Hok : tools_ok (MCPServerConnection.new cfg)) by (unfold tools_ok; constructor).
    pose proof (connect_post rt _ w2 Hok) as Hp. unfold post, connect_outcome in Hp.
    rewrite Heq in Hp. tauto. }
  split.
  { intros cfg w2 Htr Hpopen. now rewrite connect_spawn_failure. }
  split.
  { eexists. split; [exact Ho |]. apply some_success. }
  split; [exact K3 |].
  split.
  { unfold catalog. rewrite Hw, Htref, Hrref.
    unfold initialized_world, logger, modify. cbn [snd log set_log].
    unfold aggregated_world. rewrite Hcs.
    destruct (aggregate_kept (DynamicMCPClient.available_tools r0)
                (DynamicMCPClient.available_resources r0) (dict_values cs) w1)
      as (_ & _ & _ & Hlog & _).
    rewrite Hlog. rewrite <- !app_assoc. cbn [app].
    unfold connection_tasks, enabled. rewrite length_map. reflexivity. }
  split; [exact Horigin |].
  split.
  { intros server c name Hin Hc Hname. rewrite K5. apply aggregate_tools_covers.
    right. exists c. split; [| auto].
    unfold dict_values. apply in_map_iff. now exists (server, c). }
  intros name parameters Hnone.
  apply execute_tool_unknown. fold catalog.
  destruct (dict_get name catalog) as [tool|] eqn:Hget; [| reflexivity].
  destruct (Horigin _ _ Hget) as (server & c & Hin & Hc & Htool).
  specialize (Hnone _ _ Hin Hc). apply dict_get_None in Hnone.
  exfalso. apply Hnone. apply (in_map fst) in Htool. exact Htool.
Qed.

(** Three configured servers, the second of which cannot be spawned: the
    first and the third are connected all the same. *)
Lemma initialize_partial_failure_witness :
  let start := DynamicMCPClient.new three_servers empty_world in
  let r0 := match fst start with
            | Ret r0 => r0
            | _ => DynamicMCPClient.mk three_servers [] 0 0 false
            end in
  let done := DynamicMCPClient.initialize three_servers_runtime (r0, snd start) in
  fst done = Ret true /\
  dict_keys (DynamicMCPClient.server_connections (fst (snd done)))
    = ["alpha"; "beta"; "gamma"] /\
  map (fun kc => _initialized (snd kc))
      (DynamicMCPClient.server_connections (fst (snd done))) = [true; false; true] /\
  dict_keys (tools_at (DynamicMCPClient.available_tools (fst (snd done))) (snd (snd done)))
    = ["add"; "sub"; "get_forecast"] /\
  DynamicMCPClient.execute_tool three_servers_runtime "beta_tool" (JObj []) (snd done)
    = (Ret (false, "Tool beta_tool not found"), snd done).
Proof.
  intros start r0 done.
  assert (Hnew : DynamicMCPClient.new three_servers empty_world = (Ret r0, snd start))
    by (vm_compute; reflexivity).
  assert (Hrun : DynamicMCPClient.initialize three_servers_runtime (r0, snd start)
                 = (fst done, (fst (snd done), snd (snd done))))
    by (vm_compute; reflexivity).
  assert (Hne : fst done <> Unmodelled) by (vm_compute; discriminate).
  destruct (initialize_partial_failure _ _ _ _ _ _ _ _ Hnew Hrun Hne)
    as (results & w1 & _ & _ & _ & _ & _ & _ & _ & _ & _ & Hexec).
  split; [vm_compute; reflexivity |].
  split; [vm_compute; reflexivity |].
  split; [vm_compute; reflexivity |].
  split; [vm_compute; reflexivity |].
  specialize (Hexec "beta_tool" (JObj [])).
  replace (snd done) with (fst (snd done), snd (snd done)) by (vm_compute; reflexivity).
  apply Hexec. intros server c Hin Hc.
  let v := eval vm_compute in (DynamicMCPClient.server_connections (fst (snd done))) in
  assert (Hcs : DynamicMCPClient.server_connections (fst (snd done)) = v)
    by (vm_compute; reflexivity);
  rewrite Hcs in Hin.
  destruct Hin as [Heq | [Heq | [Heq | []]]]; injection Heq as <- <-;
    first [discriminate Hc | vm_compute; reflexivity].
Defined.

(** ** Colliding tool names *)

(** The aggregated catalog never holds a name twice. *)
Lemma aggregate_tools_wf connections acc :
  dict_wf acc -> dict_wf (aggregate_tools connections acc).
Proof.
  unfold aggregate_tools. revert acc.
  induction connections as [|c cs IH]; intros acc Hacc; simpl; [exact Hacc |].
  apply IH. destruct (_initialized c); [now apply dict_wf_update | exact Hacc].
Qed.

(** Last writer wins: the entry under [name] is the one of the last
    initialized connection that offers the name. *)
Lemma aggregate_tools_last before c after acc name tool :
  _initialized c = true ->
  dict_get name (rev (tools c)) = Some tool ->
  (forall c', In c' after -> _initialized c' = true -> dict_get name (tools c') = None) ->
  dict_get name (aggregate_tools (before ++ c :: after) acc) = Some tool.
Proof.
  intros Hc Htool Hafter. unfold aggregate_tools. rewrite fold_left_app. simpl.
  rewrite Hc.
  set (acc1 := dict_update _ (tools c)).
  assert (H1 : dict_get name acc1 = Some tool).
  { unfold acc1. rewrite dict_get_update, Htool. reflexivity. }
  clearbody acc1. revert acc1 H1.
  induction after as [|c' after IH]; intros acc1 H1; simpl; [exact H1 |].
  apply IH; [intros; apply Hafter; simpl; auto |].
  destruct (_initialized c') eqn:Hc'; [| exact H1].
  rewrite dict_get_update.
  assert (Hnone : dict_get name (rev (tools c')) = None).
  { apply dict_get_None. intros Hin. unfold dict_keys in Hin. rewrite map_rev in Hin.
    apply in_rev in Hin.
    assert (Hn : dict_get name (tools c') = None) by (apply Hafter; simpl; auto).
    apply dict_get_None in Hn. contradiction. }
  now rewrite Hnone.
Qed.

(** C4, on the configuration the program ships with.  The catalog
    [initialize] builds holds the colliding name [add] once, taken from the
    connection aggregated last (the USDA server's), and that connection is
    initialized and offers the tool; yet [execute_tool] does not route the
    call to it: the connection is recorded under the key [usda] while the
    tool names its server [USDA], so the call is refused as not connected
    and nothing is sent to any provider. *)
Theorem execute_tool_misroutes_shipped_defaults :
  let start := DynamicMCPClient.new shipped_defaults empty_world in
  let r0 := match fst start with
            | Ret r0 => r0
            | _ => DynamicMCPClient.mk shipped_defaults [] 0 0 false
            end in
  let done := DynamicMCPClient.initialize shipped_defaults_runtime (r0, snd start) in
  let r := fst (snd done) in
  let w := snd (snd done) in
  let catalog := tools_at (DynamicMCPClient.available_tools r) w in
  fst done = Ret true /\
  map (fun kc => (fst kc, server_name (snd kc), _initialized (snd kc), dict_keys (tools (snd kc))))
      (DynamicMCPClient.server_connections r)
    = [("filesystem", "filesystem", true, ["list_files"; "read_file"]);
       ("math_tool", "My Math Tool", true, ["add"; "sub"]);
       ("weather", "weather", true, ["get_forecast"]);
       ("usda", "USDA", true, ["search_foods"; "add"])] /\
  map (fun kt => (fst kt, tool_server_name (snd kt))) catalog
    = [("list_files", "filesystem"); ("read_file", "filesystem"); ("add", "USDA");
       ("sub", "My Math Tool"); ("get_forecast", "weather"); ("search_foods", "USDA")] /\
  DynamicMCPClient.execute_tool shipped_defaults_runtime "add"
    (JObj [("a", JNum 1); ("b", JNum 3)]) (r, w)
    = (Ret (false, "Server USDA not connected"), (r, w)).
Proof.
  vm_compute. repeat split; reflexivity.
Qed.

(** ** Requests from the server while a response is awaited *)

Lemma update_proc_with_proc pid f w p :
  procs w !! pid = Some p -> update_proc pid f w = with_proc pid (f p) w.
Proof. intros H. unfold update_proc, with_proc. now rewrite H. Qed.

Lemma with_proc_lookup pid p' w p :
  procs w !! pid = Some p -> procs (with_proc pid p' w) !! pid = Some p'.
Proof.
  intros H. unfold with_proc; simpl. apply list_lookup_insert_eq.
  now apply lookup_lt_Some in H.
Qed.

Lemma with_proc_twice pid p1 p2 w :
  with_proc pid p2 (with_proc pid p1 w) = with_proc pid p2 w.
Proof. unfold with_proc, set_procs; simpl. now rewrite list_insert_insert_eq. Qed.

Lemma loads_nonempty line v :
  Json.loads (strip line) = Json.Loaded v -> String.eqb line EmptyString = false.
Proof. destruct line; [discriminate | reflexivity]. Qed.

Lemma handle_server_request_run c pid message w p :
  process c = Some pid ->
  procs w !! pid = Some p ->
  _handle_server_request c message w =
  (Ret tt, with_proc pid {| stdout := stdout p; stdin := stdin p ++ [answer message];
                            sigterm_ignored := sigterm_ignored p; state := state p |} w).
Proof.
  intros Hc Hp. unfold _handle_server_request, answer, roots_reply, method_not_found.
  rewrite Hc.
  destruct (py_eq (get_or_none "method" message) (JStr "roots/list"));
    unfold stdin_write, modify; now rewrite (update_proc_with_proc _ _ _ _ Hp).
Qed.

(** The reading loop, run over the messages that pass by and up to the
    awaited response. *)
Lemma await_response_run c pid request_id incoming final_line final rest :
  process c = Some pid ->
  Forall (passes_by request_id) incoming ->
  Json.loads (strip final_line) = Json.Loaded (JObj final) ->
  is_server_request final = false ->
  py_eq (get_or_none "id" final) request_id = true ->
  forall fuel w p,
    List.length incoming < fuel ->
    procs w !! pid = Some p ->
    stdout p = map fst incoming ++ final_line :: rest ->
    await_response fuel c pid request_id w =
    (Ret (Some (JObj final)),
     with_proc pid {| stdout := rest; stdin := stdin p ++ answers incoming;
                      sigterm_ignored := sigterm_ignored p; state := state p |} w).
Proof.
  intros Hc Hpass Hfinal Hnot Hid.
  induction Hpass as [|[line message] incoming [Hload Hkind] Hpass IH];
    intros fuel w p Hfuel Hp Hout.
  - destruct fuel as [|fuel]; [simpl in Hfuel; lia |]. simpl in Hout |- *.
    unfold bind, stdout_readline. rewrite Hp, Hout.
    rewrite (loads_nonempty _ _ Hfinal), Hfinal.
    unfold is_server_request in Hnot. rewrite Hnot, Hid. unfold ret.
    rewrite (update_proc_with_proc _ _ _ _ Hp). unfold answers. simpl.
    now rewrite app_nil_r.
  - destruct fuel as [|fuel]; [simpl in Hfuel; lia |].
    simpl in Hout, Hfuel, Hload, Hkind.
    cbn [await_response]. unfold bind at 1. unfold stdout_readline. rewrite Hp, Hout.
    rewrite (loads_nonempty _ _ Hload), Hload.
    rewrite (update_proc_with_proc _ _ _ _ Hp).
    set (p1 := {| stdout := map fst incoming ++ final_line :: rest; stdin := stdin p;
                  sigterm_ignored := sigterm_ignored p; state := state p |}).
    assert (Hp1 : procs (with_proc pid p1 w) !! pid = Some p1)
      by (eapply with_proc_lookup; eauto).
    fold (is_server_request message).
    destruct (is_server_request message) eqn:Hreq.
    + unfold bind. rewrite (handle_server_request_run _ _ _ _ _ Hc Hp1).
      rewrite with_proc_twice.
      set (p2 := {| stdout := stdout p1; stdin := stdin p1 ++ [answer message];
                    sigterm_ignored := sigterm_ignored p1; state := state p1 |}).
      assert (Hp2 : procs (with_proc pid p2 w) !! pid = Some p2)
        by (eapply with_proc_lookup; eauto).
      rewrite (IH fuel _ p2); [| lia | exact Hp2 | reflexivity].
      rewrite with_proc_twice. unfold answers. simpl. rewrite Hreq. simpl.
      now rewrite <- app_assoc.
    + destruct Hkind as [Habs | Hother]; [discriminate |]. rewrite Hother.
      rewrite (IH fuel _ p1); [| lia | exact Hp1 | reflexivity].
      rewrite with_proc_twice. unfold answers. simpl. rewrite Hreq. reflexivity.
Qed.

(** C2, as the code has it.  While [_send_request] waits for the response
    to its own request, every incoming message that has a truthy [method]
    and an [id] key is answered, in order, before the wait resumes:
    [roots/list] with an empty list of roots, any other method with the
    JSON-RPC error -32601.  Other messages for someone else are skipped.
    The loop reads on until a message that is no such request and carries
    the pending id arrives; that message is what the caller receives, and
    the lines after it are left unread. *)
Theorem send_request_interleaving (c : MCPServerConnection.t) (pid : nat)
    (request : pydict json) (w : world) (p : child_process)
    (incoming : list (string * pydict json))
    (final_line : string) (final : pydict json) (rest : list string) :
  process c = Some pid ->
  procs w !! pid = Some p ->
  stdout p = map fst incoming ++ final_line :: rest ->
  Forall (passes_by (get_or_none "id" request)) incoming ->
  Json.loads (strip final_line) = Json.Loaded (JObj final) ->
  is_server_request final = false ->
  py_eq (get_or_none "id" final) (get_or_none "id" request) = true ->
  _send_request c request w =
  (Ret (Some (JObj final)),
   with_proc pid
     {| stdout := rest;
        stdin := stdin p ++ (Json.dumps (JObj request) +:+ newline) :: answers incoming;
        sigterm_ignored := sigterm_ignored p; state := state p |} w)
  /\ Forall (fun message =>
       exists reply, answer message = Json.dumps reply +:+ newline /\
         (get_or_none "method" message = JStr "roots/list" ->
          reply = roots_reply (get_or_none "id" message)) /\
         (py_eq (get_or_none "method" message) (JStr "roots/list") = false ->
          reply = method_not_found (get_or_none "id" message)
                                   (get_or_none "method" message)))
      (List.filter is_server_request (map snd incoming)).
Proof.
  intros Hc Hp Hout Hpass Hfinal Hnot Hid. split.
  - unfold _send_request. rewrite Hc. unfold try_except, bind, stdin_write, modify, get_state.
    rewrite (update_proc_with_proc _ _ _ _ Hp).
    set (p1 := {| stdout := stdout p;
                  stdin := stdin p ++ [Json.dumps (JObj request) +:+ newline];
                  sigterm_ignored := sigterm_ignored p; state := state p |}).
    assert (Hp1 : procs (with_proc pid p1 w) !! pid = Some p1)
      by (eapply with_proc_lookup; eauto).
    rewrite (await_response_run c pid _ incoming final_line final rest Hc Hpass Hfinal
               Hnot Hid _ _ p1); [| | exact Hp1 | exact Hout].
    + rewrite with_proc_twice. simpl. now rewrite <- app_assoc.
    + unfold pending_lines. rewrite Hp1. simpl. rewrite Hout, length_app, length_map.
      simpl. lia.
  - apply Forall_forall. intros message _. unfold answer.
    eexists. split; [reflexivity |]. split.
    + intros ->. reflexivity.
    + intros ->. reflexivity.
Qed.

(** A provider that asks for the roots, asks for a sample, reports
    progress and repeats a stale response before it answers the call. *)
Lemma send_request_interleaving_witness :
  let incoming := [(demo_line (JObj roots_list_request), roots_list_request);
                   (demo_line (JObj sampling_request), sampling_request);
                   (demo_line (JObj progress_notification), progress_notification);
                   (demo_line (JObj stale_response), stale_response)] in
  let lines := map fst incoming ++ demo_line (JObj add_response) :: ["trailing"] in
  let done := _send_request session_connection add_request (session_world lines) in
  fst done = Ret (Some (JObj add_response)) /\
  stdin_of 0 (snd done) =
    [demo_line (JObj add_request);
     demo_line (roots_reply (JNum 7));
     demo_line (method_not_found (JNum 8) (JStr "sampling/createMessage"))] /\
  stdout_of 0 (snd done) = ["trailing"].
Proof.
  intros incoming lines done.
  assert (Hpass : Forall (passes_by (get_or_none "id" add_request)) incoming).
  { unfold incoming.
    repeat (apply List.Forall_cons;
            [split; [vm_compute; reflexivity | vm_compute; auto] |]).
    apply List.Forall_nil. }
  destruct (send_request_interleaving session_connection 0 add_request
              (session_world lines)
              {| stdout := lines; stdin := []; sigterm_ignored := false; state := Running |}
              incoming (demo_line (JObj add_response)) add_response ["trailing"]
              eq_refl eq_refl eq_refl Hpass) as [Hrun _];
    try (vm_compute; reflexivity).
  unfold done. rewrite Hrun. vm_compute. repeat split; reflexivity.
Defined.

(** C2 as stated fails twice.  A request whose [method] is the empty string
    carries a [method] and an [id] that is not the pending one, yet nothing
    is written in answer to it.  And a request from the server that carries
    the pending id is answered with the error -32601 instead of being handed
    to the caller, who receives the message after it. *)
Lemma send_request_counterexample :
  (dict_contains "method" empty_method_request = true /\
   dict_contains "id" empty_method_request = true /\
   py_eq (get_or_none "id" empty_method_request) (get_or_none "id" add_request) = false /\
   let done := _send_request session_connection add_request
                 (session_world [demo_line (JObj empty_method_request);
                                 demo_line (JObj add_response)]) in
   fst done = Ret (Some (JObj add_response)) /\
   stdin_of 0 (snd done) = [demo_line (JObj add_request)])
  /\
  (dict_contains "method" same_id_request = true /\
   py_eq (get_or_none "id" same_id_request) (get_or_none "id" add_request) = true /\
   let done := _send_request session_connection add_request
                 (session_world [demo_line (JObj same_id_request);
                                 demo_line (JObj add_response)]) in
   fst done = Ret (Some (JObj add_response)) /\
   fst done <> Ret (Some (JObj same_id_request)) /\
   stdin_of 0 (snd done) =
     [demo_line (JObj add_request);
      demo_line (method_not_found (JStr (demo_uuid 0)) (JStr "ping"))]).
Proof.
  vm_compute. repeat split; try reflexivity. discriminate.
Qed.

(** ** Calling a tool *)

Lemma content_text_items items texts :
  Forall2 text_item items texts -> content_text items = Ret (join newline texts).
Proof.
  intros H. unfold content_text.
  assert (Hmap : omap (fun item =>
             obind (py_get item "type" JNull) (fun ty =>
             if py_eq ty (JStr "text")
             then obind (py_get item "text" (JStr EmptyString)) (fun x => Ret [x])
             else Ret [])) items = Ret (map (fun text => [JStr text]) texts)).
  { induction H as [|item text items texts (members & -> & Hty & Htx) H IH]; simpl;
      [reflexivity |].
    rewrite Hty; simpl. rewrite Htx; simpl. now rewrite IH. }
  rewrite Hmap. simpl. unfold py_join.
  assert (Hstrs : forall i, expect_strs i (List.concat (map (fun text => [JStr text]) texts))
                            = Ret texts).
  { clear. induction texts as [|text texts IH]; intros i; simpl; [reflexivity |].
    now rewrite IH. }
  now rewrite Hstrs.
Qed.

(** C3, as the code has it.  [call_tool] refuses at once, leaving the
    world untouched, when the connection is not initialized or does not
    hold the tool.  Otherwise it sends one request and reads what comes
    back.  No response yields the failure [No response from server].  An
    [error] that is an object yields a failure whose text is [Server error: ]
    followed by the error's message ([Unknown error] when it has none).
    Without an [error], a [result] that is an object with a [content] list
    of text items yields their texts joined with newlines, and one that is
    an object without [content] yields its serialization; a response with
    neither yields the failure [No result in response].  An [error] that is
    no object, and a [result] that is null, a boolean or a number, make the
    call fail with [Tool execution error: ] followed by the text of the
    exception, which is logged. *)
Theorem call_tool_cases (rt : runtime) (c : MCPServerConnection.t)
    (tool_name : string) (arguments : json) (w : world)
    (result : bool * string) (w' : world) :
  call_tool_case rt c tool_name arguments w result w' ->
  call_tool rt c tool_name arguments w = (Ret result, w').
Proof.
  intros [Hrefused
         | w1 Hi Hc Hsend
         | members w1 res Hi Hc Hsend Hreads
         | members w1 e Hi Hc Hsend Hmis]; unfold call_tool.
  - assert (Hguard : negb (_initialized c) || negb (dict_contains tool_name (tools c)) = true).
    { unfold dict_contains. destruct Hrefused as [-> | ->]; [reflexivity |].
      apply orb_true_r. }
    now rewrite Hguard.
  - rewrite Hi, Hc. simpl negb. simpl orb. cbv iota.
    unfold try_except, bind, new_uuid, lift.
    cbn -[_send_request py_in py_getitem py_get py_iter content_text Json.dumps_indent2
          truthy String.append].
    fold (tools_call_request (uuid4 rt (uuids_drawn w)) tool_name arguments).
    rewrite Hsend. reflexivity.
  - rewrite Hi, Hc. simpl negb. simpl orb. cbv iota.
    unfold try_except, bind, new_uuid, lift.
    cbn -[_send_request py_in py_getitem py_get py_iter content_text Json.dumps_indent2
          truthy String.append].
    fold (tools_call_request (uuid4 rt (uuids_drawn w)) tool_name arguments).
    rewrite Hsend.
    assert (Htruthy : truthy (JObj members) = true).
    { destruct Hreads; destruct members; try discriminate; try congruence; reflexivity. }
    rewrite Htruthy.
    cbn -[py_iter content_text Json.dumps_indent2 String.append dict_get].
    unfold dict_contains.
    destruct Hreads as [members error Herr
                       | members rs items texts Herr Hres Hcontent Hitems
                       | members rs Herr Hres Hcontent
                       | members Hne Herr Hres].
    + rewrite Herr. reflexivity.
    + rewrite Herr, Hres. cbn -[content_text String.append dict_get].
      unfold dict_contains. rewrite Hcontent. cbn -[content_text String.append].
      now rewrite (content_text_items _ _ Hitems).
    + rewrite Herr, Hres. cbn -[Json.dumps_indent2 String.append dict_get].
      unfold dict_contains. now rewrite Hcontent.
    + now rewrite Herr, Hres.
  - rewrite Hi, Hc. simpl negb. simpl orb. cbv iota.
    unfold try_except, bind, new_uuid, lift.
    cbn -[_send_request py_in py_getitem py_get py_iter content_text Json.dumps_indent2
          truthy String.append].
    fold (tools_call_request (uuid4 rt (uuids_drawn w)) tool_name arguments).
    rewrite Hsend.
    assert (Htruthy : truthy (JObj members) = true).
    { destruct Hmis; destruct members; try discriminate; reflexivity. }
    rewrite Htruthy.
    cbn -[py_iter content_text Json.dumps_indent2 String.append dict_get logger].
    unfold dict_contains.
    destruct Hmis as [members error Herr Hshape | members rs Herr Hres Hshape].
    + rewrite Herr. cbn -[String.append logger].
      destruct error as [| b | z | t | l | fields];
        try reflexivity. now contradiction (Hshape fields).
    + rewrite Herr, Hres. cbn -[String.append logger dict_get].
      destruct Hshape as [-> | [[b ->] | [z ->]]]; reflexivity.
Qed.

(** One run per case: a connection that is not initialized, a provider
    that prints nothing more, the four kinds of response [call_tool] reads
    and the two it cannot read. *)
Lemma call_tool_cases_witness :
  call_tool no_server_runtime (MCPServerConnection.new (demo_config "alpha" "run-alpha"))
    "add" add_arguments empty_world
    = (Ret (false, "Tool add not available on server alpha"), empty_world) /\
  fst (call_tool no_server_runtime session_connection "add" add_arguments
         (session_world []))
    = Ret (false, "No response from server") /\
  fst (call_tool no_server_runtime session_connection "add" add_arguments
         (session_world [demo_line (JObj error_response)]))
    = Ret (false, "Server error: boom") /\
  fst (call_tool no_server_runtime session_connection "add" add_arguments
         (session_world [demo_line (JObj two_texts_response)]))
    = Ret (true, "4" +:+ newline +:+ "four") /\
  fst (call_tool no_server_runtime session_connection "add" add_arguments
         (session_world [demo_line (JObj raw_response)]))
    = Ret (true, Json.dumps_indent2 (JObj [("sum", JNum 4)])) /\
  fst (call_tool no_server_runtime session_connection "add" add_arguments
         (session_world [demo_line (JObj empty_response)]))
    = Ret (false, "No result in response") /\
  fst (call_tool no_server_runtime session_connection "add" add_arguments
         (session_world [demo_line (JObj text_error_response)]))
    = Ret (false, "Tool execution error: "
                  +:+ exc_str no_server_runtime (AttributeError (JStr "boom") "get")) /\
  fst (call_tool no_server_runtime session_connection "add" add_arguments
         (session_world [demo_line (JObj number_response)]))
    = Ret (false, "Tool execution error: "
                  +:+ exc_str no_server_runtime (TypeError_not_container (JNum 4))).
Proof.
  assert (call_tool_answered_run :
    forall (response : pydict json) (result : bool * string),
      reads_as response result ->
      _send_request session_connection
        (tools_call_request (uuid4 no_server_runtime 0) "add" add_arguments)
        (set_uuids_drawn 1 (session_world [demo_line (JObj response)]))
      = (Ret (Some (JObj response)),
         snd (_send_request session_connection
                (tools_call_request (uuid4 no_server_runtime 0) "add" add_arguments)
                (set_uuids_drawn 1 (session_world [demo_line (JObj response)])))) ->
      fst (call_tool no_server_runtime session_connection "add" add_arguments
             (session_world [demo_line (JObj response)])) = Ret result).
  { intros response result Hreads Hsend.
    erewrite call_tool_cases; [reflexivity |].
    eapply call_answered; [reflexivity | reflexivity | exact Hsend | exact Hreads]. }
  assert (call_tool_failed_run :
    forall (response : pydict json) (e : py_exn),
      misreads_as response e ->
      _send_request session_connection
        (tools_call_request (uuid4 no_server_runtime 0) "add" add_arguments)
        (set_uuids_drawn 1 (session_world [demo_line (JObj response)]))
      = (Ret (Some (JObj response)),
         snd (_send_request session_connection
                (tools_call_request (uuid4 no_server_runtime 0) "add" add_arguments)
                (set_uuids_drawn 1 (session_world [demo_line (JObj response)])))) ->
      fst (call_tool no_server_runtime session_connection "add" add_arguments
             (session_world [demo_line (JObj response)]))
      = Ret (false, "Tool execution error: " +:+ exc_str no_server_runtime e)).
  { intros response e Hmis Hsend.
    erewrite call_tool_cases; [reflexivity |].
    eapply call_failed; [reflexivity | reflexivity | exact Hsend | exact Hmis]. }
  split.
  { apply call_tool_cases. apply call_refused. left. reflexivity. }
  split.
  { erewrite call_tool_cases; [reflexivity |].
    eapply call_unanswered; [reflexivity | reflexivity |]. vm_compute. reflexivity. }
  split.
  { apply (call_tool_answered_run error_response); [| vm_compute; reflexivity].
    exact (reads_error error_response
             [("code", JNum (-32000)); ("message", JStr "boom")] eq_refl). }
  split.
  { apply (call_tool_answered_run two_texts_response (true, join newline ["4"; "four"]));
      [| vm_compute; reflexivity].
    eapply (reads_content two_texts_response); [reflexivity .. |].
    repeat constructor; eexists; repeat split; reflexivity. }
  split.
  { apply (call_tool_answered_run raw_response); [| vm_compute; reflexivity].
    exact (reads_result raw_response [("sum", JNum 4)] eq_refl eq_refl eq_refl). }
  split.
  { apply (call_tool_answered_run empty_response); [| vm_compute; reflexivity].
    apply (reads_neither empty_response); [discriminate | reflexivity ..]. }
  split.
  { apply (call_tool_failed_run text_error_response); [| vm_compute; reflexivity].
    apply (misreads_error text_error_response (JStr "boom")); [reflexivity | discriminate]. }
  apply (call_tool_failed_run number_response); [| vm_compute; reflexivity].
  apply (misreads_result number_response (JNum 4)); [reflexivity | reflexivity |].
  right. right. now exists 4%Z.
Defined.

(** C3 as stated fails on a [result] that lacks [content] and is a number:
    the response carries no [error] and the result [4], whose serialization
    is [4], yet the call is not answered [(True, "4")] but fails, since the
    membership test on a number raises. *)
Lemma call_tool_counterexample :
  dict_get "error" number_response = None /\
  dict_get "result" number_response = Some (JNum 4) /\
  Json.dumps_indent2 (JNum 4) = "4" /\
  _send_request session_connection add_request
    (set_uuids_drawn 1 (session_world [demo_line (JObj number_response)]))
    = (Ret (Some (JObj number_response)),
       set_uuids_drawn 1
         {| uuids_drawn := 0;
            procs := [{| stdout := [];
                         stdin := [Json.dumps (JObj add_request) +:+ newline];
                         sigterm_ignored := false; state := Running |}];
            tool_dicts := []; resource_dicts := []; log := [] |}) /\
  fst (call_tool no_server_runtime session_connection "add" add_arguments
         (session_world [demo_line (JObj number_response)]))
    = Ret (false, "Tool execution error: "
                  +:+ exc_str no_server_runtime (TypeError_not_container (JNum 4))) /\
  fst (call_tool no_server_runtime session_connection "add" add_arguments
         (session_world [demo_line (JObj number_response)]))
    <> Ret (true, "4").
Proof.
  vm_compute. repeat split; try reflexivity. discriminate.
Qed.

(** ** The JSON codec: what is written can be read back *)

Lemma str_app_cons (x : ascii) (a b : string) : String x a +:+ b = String x (a +:+ b).
Proof. reflexivity. Qed.

Lemma str_app_nil_l (b : string) : EmptyString +:+ b = b.
Proof. reflexivity. Qed.

Lemma str_app_assoc (a b c : string) : (a +:+ b) +:+ c = a +:+ (b +:+ c).
Proof.
  induction a as [|x a IH]; [reflexivity |].
  now rewrite !str_app_cons, IH.
Qed.

Lemma str_app_nil_r (a : string) : a +:+ EmptyString = a.
Proof.
  induction a as [|x a IH]; [reflexivity |].
  now rewrite str_app_cons, IH.
Qed.

Lemma str_length_app (a b : string) :
  String.length (a +:+ b) = String.length a + String.length b.
Proof.
  induction a as [|x a IH]; [reflexivity |].
  rewrite str_app_cons. simpl. now rewrite IH.
Qed.

(** *** Strings *)

Lemma scanstring_escape_char c r :
  Json.scanstring (Json.escape_char c +:+ r) = Json.scan_cons c (Json.scanstring r).
Proof.
  destruct c as [[] [] [] [] [] [] [] []]; reflexivity.
Qed.

Lemma scanstring_escape s rest :
  Json.scanstring (Json.escape s +:+ String dquote rest) = Json.ScanOk s rest.
Proof.
  induction s as [|c s IH].
  - reflexivity.
  - change (Json.escape (String c s)) with (Json.escape_char c +:+ Json.escape s).
    now rewrite str_app_assoc, scanstring_escape_char, IH.
Qed.

Lemma encode_str_shape s :
  Json.encode_str s = String dquote (Json.escape s +:+ String dquote EmptyString).
Proof. reflexivity. Qed.

(** *** Numbers *)

Lemma scan_digits_uint u acc rest :
  Json.starts_with_digit rest = false ->
  Json.scan_digits acc (NilEmpty.string_of_uint u +:+ rest) = (uint_val acc u, rest).
Proof.
  intros Hrest. revert acc.
  induction u as [|u IH|u IH|u IH|u IH|u IH|u IH|u IH|u IH|u IH|u IH]; intros acc;
    try (cbn [NilEmpty.string_of_uint uint_val]; rewrite str_app_cons;
         cbn [Json.scan_digits]; change (Json.is_digit _) with true; cbv iota;
         rewrite IH; reflexivity).
  cbn [NilEmpty.string_of_uint uint_val]. rewrite str_app_nil_l.
  destruct rest as [|c rest]; [reflexivity |].
  simpl in Hrest. simpl. now rewrite Hrest.
Qed.

Lemma uint_val_of_uint_acc u acc :
  uint_val (Z.pos acc) u = Z.pos (Pos.of_uint_acc u acc).
Proof.
  revert acc.
  induction u as [|u IH|u IH|u IH|u IH|u IH|u IH|u IH|u IH|u IH|u IH]; intros acc;
    cbn [uint_val Pos.of_uint_acc]; [reflexivity | ..];
    rewrite <- IH; f_equal; lia.
Qed.

Lemma uint_val_of_uint u : uint_val 0 u = Z.of_N (Pos.of_uint u).
Proof.
  induction u as [|u IH|u IH|u IH|u IH|u IH|u IH|u IH|u IH|u IH|u IH];
    cbn [uint_val Pos.of_uint]; [reflexivity | exact IH | ..];
    first [ apply (uint_val_of_uint_acc u 1) | apply (uint_val_of_uint_acc u 2)
          | apply (uint_val_of_uint_acc u 3) | apply (uint_val_of_uint_acc u 4)
          | apply (uint_val_of_uint_acc u 5) | apply (uint_val_of_uint_acc u 6)
          | apply (uint_val_of_uint_acc u 7) | apply (uint_val_of_uint_acc u 8)
          | apply (uint_val_of_uint_acc u 9) ].
Qed.

Lemma uint_val_to_uint p : uint_val 0 (Pos.to_uint p) = Z.pos p.
Proof. now rewrite uint_val_of_uint, DecimalPos.Unsigned.of_to. Qed.

(** the decimal digits of a positive number do not start with a zero *)
Lemma to_uint_head p : forall u, Pos.to_uint p <> Decimal.D0 u.
Proof.
  intros u Hu.
  assert (Hn : Decimal.unorm (Pos.to_uint p) = Pos.to_uint p).
  { rewrite <- (DecimalPos.Unsigned.to_of (Pos.to_uint p)).
    now rewrite DecimalPos.Unsigned.of_to. }
  rewrite Hu in Hn. rewrite DecimalFacts.unorm_D0 in Hn.
  assert (Hlen : Decimal.nb_digits (Decimal.nzhead u) <= Decimal.nb_digits u)
    by apply DecimalFacts.nb_digits_nzhead.
  unfold Decimal.unorm in Hn.
  destruct (Decimal.nzhead u) eqn:Hz;
    [injection Hn as <-; apply (DecimalPos.Unsigned.to_uint_nonzero p); exact Hu | ..];
    first [discriminate Hn | rewrite Hn in Hlen; simpl in Hlen; lia].
Qed.

(** *** Documents *)

Lemma json_induction (P : json -> Prop) :
  P JNull -> (forall b, P (JBool b)) -> (forall z, P (JNum z)) ->
  (forall s, P (JStr s)) ->
  (forall items, Forall P items -> P (JArr items)) ->
  (forall members, Forall (fun kv => P (snd kv)) members -> P (JObj members)) ->
  forall v, P v.
Proof.
  intros Hnull Hbool Hnum Hstr Harr Hobj.
  fix IH 1. intros [| b | z | s | items | members].
  - exact Hnull.
  - apply Hbool.
  - apply Hnum.
  - apply Hstr.
  - apply Harr. induction items as [|x items IHitems].
    + apply List.Forall_nil.
    + apply List.Forall_cons; [apply IH | exact IHitems].
  - apply Hobj. induction members as [|[k x] members IHmembers].
    + apply List.Forall_nil.
    + apply List.Forall_cons; [apply IH | exact IHmembers].
Qed.

Lemma skip_ws_solid c r : Json.is_ws c = false -> Json.skip_ws (String c r) = String c r.
Proof. intros H. cbn [Json.skip_ws]. now rewrite H. Qed.

Lemma skip_ws_spaces n s : Json.skip_ws (Json.spaces n +:+ s) = Json.skip_ws s.
Proof.
  induction n as [|n IH]; [reflexivity |].
  cbn [Json.spaces]. rewrite str_app_cons. exact IH.
Qed.

Lemma skip_ws_newline_indent indent level s :
  Json.skip_ws (Json.newline_indent indent level +:+ s) = Json.skip_ws s.
Proof.
  destruct indent as [n|]; [| reflexivity].
  cbn [Json.newline_indent]. rewrite str_app_cons.
  exact (skip_ws_spaces _ s).
Qed.

Lemma to_uint_not_nil p : Pos.to_uint p <> Decimal.Nil.
Proof.
  intros Hu.
  assert (Hn : Decimal.unorm (Pos.to_uint p) = Pos.to_uint p).
  { rewrite <- (DecimalPos.Unsigned.to_of (Pos.to_uint p)).
    now rewrite DecimalPos.Unsigned.of_to. }
  rewrite Hu in Hn. discriminate Hn.
Qed.

(** a number in canonical decimal notation: some digits, no leading zero *)
Lemma scan_once_uint u fuel rest :
  u <> Decimal.Nil -> (forall u', u <> Decimal.D0 u') -> follow_ok rest ->
  Json.scan_once (S fuel) (NilEmpty.string_of_uint u +:+ rest)
  = Json.ScanOk (JNum (uint_val 0 u)) rest
  /\ Json.scan_once (S fuel) (String "-" (NilEmpty.string_of_uint u +:+ rest))
     = Json.ScanOk (JNum (- uint_val 0 u)) rest.
Proof.
  intros Hnil Hzero [Hfloat Hdigit].
  destruct u as [|u|u|u|u|u|u|u|u|u|u];
    [now contradiction Hnil | now contradiction (Hzero u) | ..];
    cbn [NilEmpty.string_of_uint]; rewrite str_app_cons;
    cbn -[Json.scan_digits Json.float_follows uint_val];
    rewrite (scan_digits_uint u _ rest Hdigit), Hfloat; split; reflexivity.
Qed.

Lemma scan_once_number z fuel rest :
  follow_ok rest ->
  Json.scan_once (S fuel) (str_of_Z z +:+ rest) = Json.ScanOk (JNum z) rest.
Proof.
  intros Hrest. destruct z as [|p|p].
  - destruct Hrest as [Hfloat _].
    change (str_of_Z 0) with "0". rewrite str_app_cons, str_app_nil_l.
    cbn -[Json.float_follows]. now rewrite Hfloat.
  - change (str_of_Z (Z.pos p)) with (NilEmpty.string_of_uint (Pos.to_uint p)).
    destruct (scan_once_uint (Pos.to_uint p) fuel rest
                (to_uint_not_nil p) (to_uint_head p) Hrest) as [-> _].
    now rewrite uint_val_to_uint.
  - change (str_of_Z (Z.neg p))
      with (String "-" (NilEmpty.string_of_uint (Pos.to_uint p))).
    rewrite str_app_cons.
    destruct (scan_once_uint (Pos.to_uint p) fuel rest
                (to_uint_not_nil p) (to_uint_head p) Hrest) as [_ ->].
    now rewrite uint_val_to_uint.
Qed.

Lemma scan_once_str s fuel rest :
  Json.scan_once (S fuel) (Json.encode_str s +:+ rest) = Json.ScanOk (JStr s) rest.
Proof.
  rewrite encode_str_shape, str_app_cons, str_app_assoc, str_app_cons, str_app_nil_l.
  cbn [Json.scan_once]. change (Ascii.eqb dquote dquote) with true. cbv iota.
  now rewrite scanstring_escape.
Qed.

Lemma string_of_uint_head u :
  u <> Decimal.Nil ->
  exists c r, NilEmpty.string_of_uint u = String c r
              /\ Json.is_ws c = false /\ Ascii.eqb c "]" = false.
Proof.
  intros Hnil. destruct u; [now contradiction Hnil | ..];
    eexists _, _; (split; [reflexivity | split; reflexivity]).
Qed.

Lemma str_of_Z_head z :
  exists c r, str_of_Z z = String c r
              /\ Json.is_ws c = false /\ Ascii.eqb c "]" = false.
Proof.
  destruct z as [|p|p].
  - now exists "0"%char, EmptyString.
  - exact (string_of_uint_head _ (to_uint_not_nil p)).
  - exists "-"%char, (NilEmpty.string_of_uint (Pos.to_uint p)). now split.
Qed.

Lemma encode_head indent level v :
  exists c r, Json.encode indent level v = String c r
              /\ Json.is_ws c = false /\ Ascii.eqb c "]" = false.
Proof.
  destruct v as [| [|] | z | s | [|x items] | [|kv members]];
    try (eexists _, _; (split; [reflexivity | split; reflexivity])).
  apply str_of_Z_head.
Qed.

Lemma skip_ws_encode indent level v rest :
  Json.skip_ws (Json.encode indent level v +:+ rest)
  = Json.encode indent level v +:+ rest.
Proof.
  destruct (encode_head indent level v) as (c & r & -> & Hc & _).
  rewrite str_app_cons. now apply skip_ws_solid.
Qed.
Lemma join_cons sep a b l : join sep (a :: b :: l) = a +:+ sep +:+ join sep (b :: l).
Proof. reflexivity. Qed.

Lemma join_single sep a : join sep [a] = a.
Proof. reflexivity. Qed.

Lemma follow_ok_solid c r :
  Json.is_digit c = false -> Json.float_follows (String c r) = false ->
  follow_ok (String c r).
Proof. intros Hd Hf. split; [exact Hf | exact Hd]. Qed.

Lemma follow_ok_close indent level c rest :
  c = "]"%char \/ c = "}"%char ->
  follow_ok (Json.newline_indent indent level +:+ String c rest).
Proof. intros [-> | ->]; destruct indent; split; reflexivity. Qed.

(** the separator between two items: a comma, then white space only *)
Lemma separator_shape indent level s :
  exists r,
    (Json.item_separator indent +:+ Json.newline_indent indent level) +:+ s
    = String "," r
    /\ Json.skip_ws r = Json.skip_ws s.
Proof.
  destruct indent as [n|]; eexists; (split; [reflexivity |]).
  - exact (skip_ws_spaces _ s).
  - reflexivity.
Qed.

Lemma skip_ws_join sep indent level x items rest :
  Json.skip_ws (join sep (map (Json.encode indent level) (x :: items)) +:+ rest)
  = join sep (map (Json.encode indent level) (x :: items)) +:+ rest.
Proof.
  destruct items as [|y items]; cbn [map].
  - rewrite join_single. apply skip_ws_encode.
  - rewrite join_cons, str_app_assoc. apply skip_ws_encode.
Qed.

Lemma scan_items_encode indent level items :
  forall acc fuel rest x,
    Forall round_trips (x :: items) ->
    list_sum (map (fun x => S (json_size x)) (x :: items)) <= fuel ->
    Json.scan_items fuel acc
      (join (Json.item_separator indent +:+ Json.newline_indent indent (S level))
            (map (Json.encode indent (S level)) (x :: items))
       +:+ Json.newline_indent indent level +:+ String "]" rest)
    = Json.ScanOk (JArr (rev acc ++ x :: items)) rest.
Proof.
  induction items as [|y items IH]; intros acc fuel rest x HF Hfuel;
    destruct fuel as [|f]; try (cbn in Hfuel; lia);
    pose proof (Forall_inv HF) as Hx; pose proof (Forall_inv_tail HF) as Hrest.
  - cbn [map]. rewrite join_single. cbn [Json.scan_items].
    rewrite (Hx indent (S level) f);
      [| cbn in Hfuel; lia | apply follow_ok_close; now left].
    rewrite skip_ws_newline_indent. reflexivity.
  - change (map (Json.encode indent (S level)) (x :: y :: items))
      with (Json.encode indent (S level) x
            :: Json.encode indent (S level) y
            :: map (Json.encode indent (S level)) items).
    rewrite join_cons.
    change (Json.encode indent (S level) y
            :: map (Json.encode indent (S level)) items)
      with (map (Json.encode indent (S level)) (y :: items)).
    rewrite !str_app_assoc.
    rewrite <- (str_app_assoc (Json.item_separator indent)).
    destruct (separator_shape indent (S level)
                (join (Json.item_separator indent
                       +:+ Json.newline_indent indent (S level))
                      (map (Json.encode indent (S level)) (y :: items))
                 +:+ Json.newline_indent indent level +:+ String "]" rest))
      as (r & -> & Hskip).
    cbn [Json.scan_items].
    rewrite (Hx indent (S level) f);
      [| cbn in Hfuel; cbn; lia | now apply follow_ok_solid].
    cbn [Json.skip_ws]. change (Json.is_ws ",") with false. cbv iota.
    change (Ascii.eqb "," "]") with false. change (Ascii.eqb "," ",") with true.
    cbv iota. rewrite Hskip, skip_ws_join.
    rewrite (IH (x :: acc) f rest y Hrest); [| cbn in Hfuel; cbn; lia].
    cbn [rev]. now rewrite <- app_assoc.
Qed.
(** both sides of an equation between texts, associated to the right *)
Ltac str_norm :=
  repeat (progress rewrite ?str_app_assoc, ?str_app_cons, ?str_app_nil_l).

Lemma join_map_cons {A} (f : A -> string) sep a b l :
  join sep (map f (a :: b :: l)) = f a +:+ sep +:+ join sep (map f (b :: l)).
Proof. reflexivity. Qed.

Lemma join_members (enc : json -> string) sep more :
  forall k v,
    join sep (map (fun kv => Json.encode_str (fst kv) +:+ ": " +:+ enc (snd kv))
                  ((k, v) :: more))
    = String dquote (members_after_quote enc sep k v more).
Proof.
  induction more as [|[k' v'] more IH]; intros k v.
  - cbn [map fst snd members_after_quote]. rewrite join_single.
    rewrite encode_str_shape, str_app_nil_r. now str_norm.
  - rewrite join_map_cons, IH. cbn [members_after_quote fst snd].
    rewrite encode_str_shape. now str_norm.
Qed.

Lemma scan_members_encode indent level more :
  forall acc fuel rest k v,
    Forall (fun kv => round_trips (snd kv)) ((k, v) :: more) ->
    list_sum (map (fun kv => S (json_size (snd kv))) ((k, v) :: more)) <= fuel ->
    Json.scan_members fuel acc
      (members_after_quote (Json.encode indent (S level))
         (Json.item_separator indent +:+ Json.newline_indent indent (S level))
         k v more
       +:+ Json.newline_indent indent level +:+ String "}" rest)
    = Json.ScanOk (JObj (dict_of_pairs (rev acc ++ (k, v) :: more))) rest.
Proof.
  induction more as [|[k' v'] more IH]; intros acc fuel rest k v HF Hfuel;
    destruct fuel as [|f]; try (cbn in Hfuel; lia);
    pose proof (Forall_inv HF) as Hv; pose proof (Forall_inv_tail HF) as Hrest;
    cbn [snd] in Hv;
    cbn [members_after_quote]; rewrite str_app_assoc, str_app_cons;
    cbn [Json.scan_members]; rewrite scanstring_escape;
    rewrite !str_app_assoc, !str_app_cons, !str_app_nil_l;
    cbn [Json.skip_ws]; change (Json.is_ws ":") with false; cbv iota;
    change (Ascii.eqb ":" ":") with true; cbv iota;
    cbn [Json.skip_ws]; change (Json.is_ws " ") with true; cbv iota;
    rewrite skip_ws_encode.
  - rewrite (Hv indent (S level) f);
      [| cbn in Hfuel; lia | apply follow_ok_close; now right].
    rewrite skip_ws_newline_indent. reflexivity.
  - rewrite <- (str_app_assoc (Json.item_separator indent)).
    match goal with
    | |- context [(Json.item_separator indent
                   +:+ Json.newline_indent indent (S level)) +:+ ?s] =>
        destruct (separator_shape indent (S level) s) as (r & -> & Hskip)
    end.
    rewrite (Hv indent (S level) f);
      [| cbn in Hfuel; cbn; lia | now apply follow_ok_solid].
    cbn [Json.skip_ws]. change (Json.is_ws ",") with false. cbv iota.
    change (Ascii.eqb "," "}") with false. change (Ascii.eqb "," ",") with true.
    cbv iota. rewrite Hskip.
    cbn [Json.skip_ws]. change (Json.is_ws dquote) with false. cbv iota.
    change (Ascii.eqb dquote dquote) with true. cbv iota.
    rewrite (IH ((k, v) :: acc) f rest k' v' Hrest); [| cbn in Hfuel; cbn; lia].
    cbn [rev]. now rewrite <- app_assoc.
Qed.

Lemma join_head sep indent level x items rest :
  exists c r,
    join sep (map (Json.encode indent level) (x :: items)) +:+ rest = String c r
    /\ Json.is_ws c = false /\ Ascii.eqb c "]" = false.
Proof.
  destruct (encode_head indent level x) as (c & r & Hc & Hws & Hclose).
  destruct items as [|y items].
  - exists c, (r +:+ rest). cbn [map]. now rewrite join_single, Hc, str_app_cons.
  - eexists c, _. rewrite join_map_cons, str_app_assoc, Hc, str_app_cons.
    now split.
Qed.
Lemma Forall_round_trips {A} (f : A -> json) (l : list A) :
  Forall (fun a => json_wf (f a) -> round_trips (f a)) l ->
  Forall (fun a => json_wf (f a)) l ->
  Forall (fun a => round_trips (f a)) l.
Proof.
  induction l as [|a l IH]; intros HP Hwf; [apply List.Forall_nil |].
  apply List.Forall_cons.
  - exact (Forall_inv HP (Forall_inv Hwf)).
  - exact (IH (Forall_inv_tail HP) (Forall_inv_tail Hwf)).
Qed.

(** The decoder reads back every document the encoder writes. *)
Lemma scan_once_encode v : json_wf v -> round_trips v.
Proof.
  induction v as [| b | z | s | items IH | members IH] using json_induction;
    intros Hwf indent level fuel rest Hfuel Hrest;
    (destruct fuel as [|f]; [cbn in Hfuel; lia |]).
  - reflexivity.
  - destruct b; reflexivity.
  - now apply scan_once_number.
  - apply scan_once_str.
  - destruct items as [|x items]; [reflexivity |].
    assert (HF : Forall round_trips (x :: items)).
    { apply (Forall_round_trips (fun a => a)); [exact IH |]. now inversion Hwf. }
    change (Json.encode indent level (JArr (x :: items)))
      with ("[" +:+ Json.newline_indent indent (S level)
            +:+ join (Json.item_separator indent
                      +:+ Json.newline_indent indent (S level))
                     (map (Json.encode indent (S level)) (x :: items))
            +:+ Json.newline_indent indent level +:+ "]").
    str_norm. cbn [Json.scan_once].
    change (Ascii.eqb "[" dquote) with false. change (Ascii.eqb "[" "{") with false.
    change (Ascii.eqb "[" "[") with true. cbv iota.
    rewrite skip_ws_newline_indent, skip_ws_join.
    match goal with
    | |- context [join ?sep (map _ (x :: items)) +:+ ?t] =>
        destruct (join_head sep indent (S level) x items t)
          as (c & r & E & _ & Hclose)
    end.
    rewrite E, Hclose, <- E.
    apply (scan_items_encode indent level items [] f rest x HF).
    cbn [json_size] in Hfuel. lia.
  - destruct members as [|[k x] members]; [reflexivity |].
    assert (Hd : dict_wf ((k, x) :: members)) by now inversion Hwf.
    assert (HF : Forall (fun kv => round_trips (snd kv)) ((k, x) :: members)).
    { apply (Forall_round_trips snd); [exact IH |]. now inversion Hwf. }
    change (Json.encode indent level (JObj ((k, x) :: members)))
      with ("{" +:+ Json.newline_indent indent (S level)
            +:+ join (Json.item_separator indent
                      +:+ Json.newline_indent indent (S level))
                     (map (fun kv => Json.encode_str (fst kv) +:+ ": "
                                     +:+ Json.encode indent (S level) (snd kv))
                          ((k, x) :: members))
            +:+ Json.newline_indent indent level +:+ "}").
    rewrite join_members. str_norm. cbn [Json.scan_once].
    change (Ascii.eqb "{" dquote) with false. change (Ascii.eqb "{" "{") with true.
    cbv iota. rewrite skip_ws_newline_indent.
    cbn [Json.skip_ws]. change (Json.is_ws dquote) with false. cbv iota.
    change (Ascii.eqb dquote "}") with false.
    change (Ascii.eqb dquote dquote) with true. cbv iota.
    rewrite (scan_members_encode indent level members [] f rest k x HF);
      [| cbn [json_size] in Hfuel; lia].
    cbn [rev app]. now rewrite dict_of_pairs_wf.
Qed.

Lemma list_sum_join_length {A} (f : A -> string) (size : A -> nat) sep (l : list A) :
  (forall a, List.In a l -> size a <= String.length (f a)) ->
  1 <= String.length sep ->
  list_sum (map (fun a => S (size a)) l) <= S (String.length (join sep (map f l))).
Proof.
  intros Hle Hsep. induction l as [|a l IH]; [cbn; lia |].
  destruct l as [|b l].
  - cbn [map]. rewrite join_single.
    specialize (Hle a (or_introl eq_refl)). cbn. lia.
  - rewrite join_map_cons, !str_length_app.
    pose proof (Hle a (or_introl eq_refl)).
    assert (list_sum (map (fun a => S (size a)) (b :: l))
            <= S (String.length (join sep (map f (b :: l))))).
    { apply IH. intros a' Ha'. apply Hle. now right. }
    change (list_sum (map (fun a => S (size a)) (a :: b :: l)))
      with (S (size a) + list_sum (map (fun a => S (size a)) (b :: l))).
    lia.
Qed.

Lemma separator_length indent level :
  1 <= String.length (Json.item_separator indent +:+ Json.newline_indent indent level).
Proof. destruct indent; rewrite str_length_app; cbn; lia. Qed.

Lemma json_size_length v :
  forall indent level, json_size v <= String.length (Json.encode indent level v).
Proof.
  induction v as [| b | z | s | items IH | members IH] using json_induction;
    intros indent level.
  - cbn. lia.
  - destruct b; cbn; lia.
  - destruct (str_of_Z_head z) as (c & r & E & _).
    change (Json.encode indent level (JNum z)) with (str_of_Z z).
    rewrite E. cbn. lia.
  - cbn. lia.
  - destruct items as [|x items]; [cbn; lia |].
    change (Json.encode indent level (JArr (x :: items)))
      with ("[" +:+ Json.newline_indent indent (S level)
            +:+ join (Json.item_separator indent
                      +:+ Json.newline_indent indent (S level))
                     (map (Json.encode indent (S level)) (x :: items))
            +:+ Json.newline_indent indent level +:+ "]").
    rewrite !str_length_app. cbn [json_size].
    pose proof (list_sum_join_length (Json.encode indent (S level)) json_size
                  (Json.item_separator indent +:+ Json.newline_indent indent (S level))
                  (x :: items)) as H.
    cbn [String.length].
    assert (list_sum (map (fun a => S (json_size a)) (x :: items))
            <= S (String.length
                    (join (Json.item_separator indent
                           +:+ Json.newline_indent indent (S level))
                          (map (Json.encode indent (S level)) (x :: items))))).
    { apply H; [| apply separator_length].
      intros a Ha. rewrite List.Forall_forall in IH. now apply IH. }
    lia.
  - destruct members as [|kv members]; [cbn; lia |].
    change (Json.encode indent level (JObj (kv :: members)))
      with ("{" +:+ Json.newline_indent indent (S level)
            +:+ join (Json.item_separator indent
                      +:+ Json.newline_indent indent (S level))
                     (map (fun kv => Json.encode_str (fst kv) +:+ ": "
                                     +:+ Json.encode indent (S level) (snd kv))
                          (kv :: members))
            +:+ Json.newline_indent indent level +:+ "}").
    rewrite !str_length_app. cbn [json_size].
    pose proof (list_sum_join_length
                  (fun kv => Json.encode_str (fst kv) +:+ ": "
                             +:+ Json.encode indent (S level) (snd kv))
                  (fun kv => json_size (snd kv))
                  (Json.item_separator indent +:+ Json.newline_indent indent (S level))
                  (kv :: members)) as H.
    cbn [String.length].
    match type of H with
    | _ -> _ -> ?concl => assert (Hsum : concl)
    end.
    { apply H; [| apply separator_length].
      intros a Ha. rewrite List.Forall_forall in IH.
      rewrite !str_length_app. specialize (IH a Ha indent (S level)). lia. }
    lia.
Qed.

(** [json.loads(json.dumps(v, indent=2)) == v], and the same without
    [indent] *)
Lemma loads_encode indent v :
  json_wf v -> Json.loads (Json.encode indent 0 v) = Json.Loaded v.
Proof.
  intros Hwf. unfold Json.loads.
  rewrite <- (str_app_nil_r (Json.encode indent 0 v)) at 2.
  rewrite skip_ws_encode.
  rewrite (scan_once_encode v Hwf indent 0); [reflexivity | | split; reflexivity].
  pose proof (json_size_length v indent 0). lia.
Qed.
(** ** Export and import of the server configurations *)

Lemma omap_as_str l : omap MCPServerConfig.as_str (map JStr l) = Ret l.
Proof. induction l as [|s l IH]; [reflexivity |]. cbn. now rewrite IH. Qed.

Lemma omap_as_env (d : pydict string) :
  omap (fun kv : string * json =>
          obind (MCPServerConfig.as_str (snd kv)) (fun s => Ret (fst kv, s)))
       (map (fun kv => (fst kv, JStr (snd kv))) d)
  = Ret d.
Proof. induction d as [|[k s] d IH]; [reflexivity |]. cbn. now rewrite IH. Qed.

Lemma from_dict_to_dict c :
  MCPServerConfig.from_dict (MCPServerConfig.to_dict c) = Ret c.
Proof.
  destruct c as [name_ command_ args_ env_ transport_ url_ enabled_ description_].
  unfold MCPServerConfig.from_dict, MCPServerConfig.to_dict, MCPServerConfig.field.
  cbn -[omap]. rewrite omap_as_str, omap_as_env.
  destruct transport_, url_, description_; reflexivity.
Qed.

Lemma json_wf_to_dict c :
  dict_wf (MCPServerConfig.env c) -> json_wf (MCPServerConfig.to_dict c).
Proof.
  intros Henv. apply wf_obj.
  - unfold dict_wf. cbn. apply (bool_decide_unpack _). vm_compute. reflexivity.
  - repeat apply List.Forall_cons; cbn [snd]; try apply List.Forall_nil;
      try (constructor; fail).
    + apply wf_arr. induction (MCPServerConfig.args c);
        [apply List.Forall_nil | apply List.Forall_cons; [constructor | assumption]].
    + apply wf_obj.
      * unfold dict_wf, dict_keys in *. now rewrite map_map.
      * induction (MCPServerConfig.env c) as [|kv d IH];
          [apply List.Forall_nil | apply List.Forall_cons; [constructor |]].
        apply IH. unfold dict_wf, dict_keys in Henv. cbn in Henv.
        now apply NoDup_cons in Henv.
    + destruct (MCPServerConfig.url c); constructor.
    + destruct (MCPServerConfig.description c); constructor.
Qed.

Lemma document_servers m :
  dict_wf (MCPConfigManager.servers m) ->
  MCPConfigManager.document m
  = JObj [("servers",
           JObj (map (fun kv => (fst kv, MCPServerConfig.to_dict (snd kv)))
                     (MCPConfigManager.servers m)))].
Proof.
  intros Hwf. unfold MCPConfigManager.document.
  rewrite dict_of_pairs_wf; [reflexivity |].
  unfold dict_wf, dict_keys in *. now rewrite map_map.
Qed.

Lemma json_wf_document m :
  dict_wf (MCPConfigManager.servers m) ->
  Forall (fun kv => dict_wf (MCPServerConfig.env (snd kv))) (MCPConfigManager.servers m) ->
  json_wf (MCPConfigManager.document m).
Proof.
  intros Hwf Henv. rewrite (document_servers m Hwf).
  apply wf_obj.
  - unfold dict_wf. cbn. apply (bool_decide_unpack _). vm_compute. reflexivity.
  - apply List.Forall_cons; [| apply List.Forall_nil]. cbn [snd].
    apply wf_obj.
    + unfold dict_wf, dict_keys in *. now rewrite map_map.
    + clear Hwf. induction Henv as [|kv l Hkv _ IH]; [apply List.Forall_nil |].
      apply List.Forall_cons; [| exact IH]. now apply json_wf_to_dict.
Qed.

Lemma import_servers_to_dict l :
  forall acc,
    MCPConfigManager.import_servers
      (map (fun kv => (fst kv, MCPServerConfig.to_dict (snd kv))) l) acc
    = Ret (dict_update acc l).
Proof.
  induction l as [|[k c] l IH]; intros acc; [reflexivity |].
  cbn [map fst snd MCPConfigManager.import_servers].
  rewrite from_dict_to_dict. cbn [obind]. now rewrite IH.
Qed.

(** C6.  Export followed by import reproduces the server configurations:
    the importing manager ends with exactly the entries of the exporting
    one, under the same keys and in the same order, every field of every
    entry unchanged (name, command, args, env, transport, url, enabled,
    description); the call returns [True] and saves them.  The hypotheses
    are the shape of every Python dictionary: no key twice. *)
Theorem export_import_round_trip m0 m fs :
  dict_wf (MCPConfigManager.servers m) ->
  Forall (fun kv => dict_wf (MCPServerConfig.env (snd kv)))
         (MCPConfigManager.servers m) ->
  MCPConfigManager.import_config m0 (MCPConfigManager.export_config m) fs
  = Ret (true,
         MCPConfigManager.mk (MCPConfigManager.config_file m0)
                             (MCPConfigManager.servers m),
         MCPConfigManager._save_config
           (MCPConfigManager.mk (MCPConfigManager.config_file m0)
                                (MCPConfigManager.servers m)) fs).
Proof.
  intros Hwf Henv.
  unfold MCPConfigManager.import_config, MCPConfigManager.export_config,
    Json.dumps_indent2.
  rewrite (loads_encode (Some 2) _ (json_wf_document m Hwf Henv)).
  rewrite (document_servers m Hwf).
  change (py_get (JObj [("servers", ?sv)]) "servers" (JObj [])) with (Ret sv).
  cbn [obind]. rewrite import_servers_to_dict.
  change (dict_update [] (MCPConfigManager.servers m))
    with (dict_of_pairs (MCPConfigManager.servers m)).
  now rewrite (dict_of_pairs_wf _ Hwf).
Qed.

Lemma export_import_round_trip_witness :
  MCPConfigManager.import_config (MCPConfigManager.mk "other.json" [])
    (MCPConfigManager.export_config shipped_defaults)
    {| files := []; read_only := false |}
  = Ret (true,
         MCPConfigManager.mk "other.json" (MCPConfigManager.servers shipped_defaults),
         MCPConfigManager._save_config
           (MCPConfigManager.mk "other.json" (MCPConfigManager.servers shipped_defaults))
           {| files := []; read_only := false |}).
Proof.
  apply (export_import_round_trip (MCPConfigManager.mk "other.json" [])
           shipped_defaults {| files := []; read_only := false |}).
  - apply (bool_decide_unpack _). vm_compute. reflexivity.
  - repeat apply List.Forall_cons; try apply List.Forall_nil;
      apply (bool_decide_unpack _); vm_compute; reflexivity.
Defined.

(** * Further properties of the configuration manager *)

(** ** Deleting a key *)

Lemma dict_get_del_ne {V} k k' (d : pydict V) :
  k <> k' -> dict_get k (dict_del k' d) = dict_get k d.
Proof.
  intros Hne. induction d as [|[k0 v0] d IH]; [reflexivity |].
  cbn [dict_del dict_get].
  destruct (String.eqb_spec k' k0) as [->|Hk0].
  - destruct (String.eqb_spec k k0) as [->|_]; [contradiction | reflexivity].
  - cbn [dict_get]. now rewrite IH.
Qed.

Lemma dict_keys_del_subset {V} k k' (d : pydict V) :
  In k (dict_keys (dict_del k' d)) -> In k (dict_keys d).
Proof.
  induction d as [|[k0 v0] d IH]; [intros [] |].
  cbn [dict_del]. destruct (String.eqb k' k0).
  - intros H. right. exact H.
  - cbn. intros [H | H]; [now left | right; now apply IH].
Qed.

Lemma dict_wf_del {V} k (d : pydict V) : dict_wf d -> dict_wf (dict_del k d).
Proof.
  unfold dict_wf. induction d as [|[k0 v0] d IH]; [intros H; exact H |].
  cbn [dict_del dict_keys map fst]. rewrite NoDup_cons. intros [Hk0 Hd].
  destruct (String.eqb k k0); [exact Hd |].
  cbn [map fst]. apply NoDup_cons. split; [| now apply IH].
  rewrite list_elem_of_In. intros Hin. apply Hk0. rewrite list_elem_of_In.
  exact (dict_keys_del_subset _ _ _ Hin).
Qed.

Lemma dict_get_del_eq {V} k (d : pydict V) :
  dict_wf d -> dict_get k (dict_del k d) = None.
Proof.
  unfold dict_wf. induction d as [|[k0 v0] d IH]; [reflexivity |].
  cbn [dict_del dict_keys map fst]. rewrite NoDup_cons. intros [Hk0 Hd].
  destruct (String.eqb_spec k k0) as [->|Hne].
  - apply dict_get_None. intros Hin. apply Hk0. now rewrite list_elem_of_In.
  - cbn [dict_get]. destruct (String.eqb_spec k k0) as [->|_]; [contradiction |].
    now apply IH.
Qed.

Lemma dict_contains_get {V} k (d : pydict V) :
  dict_contains k d = true <-> exists v, dict_get k d = Some v.
Proof.
  unfold dict_contains. destruct (dict_get k d) as [v|].
  - split; [eauto | reflexivity].
  - split; [discriminate | intros [v Hv]; discriminate].
Qed.

(** ** [to_dict] and [from_dict] *)

(** X1.  [from_dict] undoes [to_dict]: every configuration is read back
    unchanged from its dictionary form, so two configurations with the same
    dictionary form are equal, and the form lists the eight fields in the
    order of their declaration. *)
Theorem to_dict_from_dict (c : MCPServerConfig.t) :
  MCPServerConfig.from_dict (MCPServerConfig.to_dict c) = Ret c
  /\ (forall c', MCPServerConfig.to_dict c' = MCPServerConfig.to_dict c -> c' = c)
  /\ exists members,
       MCPServerConfig.to_dict c = JObj members /\
       dict_keys members = MCPServerConfig.field_names.
Proof.
  split; [apply from_dict_to_dict | split].
  - intros c' Heq.
    assert (H : Ret c' = Ret c)
      by (rewrite <- (from_dict_to_dict c'), <- (from_dict_to_dict c); now rewrite Heq).
    now injection H.
  - eexists. split; reflexivity.
Qed.

Lemma transport_of_value_invalid v :
  ~ valid_transport v ->
  MCPServerConfig.transport_of_value v = Raise (ValueError v).
Proof.
  intros H. destruct v as [| b | z | s | l | d]; try reflexivity.
  unfold MCPServerConfig.transport_of_value.
  destruct (String.eqb_spec s "stdio") as [->|_]; [exfalso; apply H; now exists STDIO |].
  destruct (String.eqb_spec s "sse") as [->|_]; [exfalso; apply H; now exists SSE |].
  destruct (String.eqb_spec s "http") as [->|_]; [exfalso; apply H; now exists HTTP |].
  reflexivity.
Qed.

Lemma classic_transport v : valid_transport v \/ ~ valid_transport v.
Proof.
  destruct v as [| b | z | s | l | d];
    try (right; intros [tr Htr]; destruct tr; discriminate Htr).
  destruct (String.eqb_spec s "stdio") as [->|H1]; [left; now exists STDIO |].
  destruct (String.eqb_spec s "sse") as [->|H2]; [left; now exists SSE |].
  destruct (String.eqb_spec s "http") as [->|H3]; [left; now exists HTTP |].
  right. intros [tr Htr]. injection Htr as ->. destruct tr; contradiction.
Qed.

Lemma transport_of_value_valid tr :
  MCPServerConfig.transport_of_value (JStr (MCPServerConfig.transport_value tr)) = Ret tr.
Proof. destruct tr; reflexivity. Qed.

Lemma from_dict_transport_first (d : pydict json) (v : json) (e : py_exn) :
  dict_get "transport" d = Some v ->
  MCPServerConfig.transport_of_value v = Raise e ->
  MCPServerConfig.from_dict (JObj d) = Raise e.
Proof.
  intros Hget Hbad. unfold MCPServerConfig.from_dict.
  cbn [py_in obind]. unfold dict_contains. rewrite Hget. cbn [py_getitem obind].
  rewrite Hget. cbn [obind]. now rewrite Hbad.
Qed.

(** X2.  A dictionary whose [transport] is not one of [stdio], [sse] and
    [http] makes [from_dict] raise [ValueError], whatever else it holds:
    the transport is converted before any other field is looked at. *)
Theorem from_dict_invalid_transport (d : pydict json) (v : json) :
  dict_get "transport" d = Some v ->
  ~ valid_transport v ->
  MCPServerConfig.from_dict (JObj d) = Raise (ValueError v).
Proof.
  intros Hget Hbad. apply (from_dict_transport_first d v); [exact Hget |].
  now apply transport_of_value_invalid.
Qed.

Lemma from_dict_invalid_transport_witness :
  MCPServerConfig.from_dict
    (JObj [("name", JStr "n"); ("transport", JStr "pipe"); ("color", JNum 1)])
  = Raise (ValueError (JStr "pipe")).
Proof.
  apply (from_dict_invalid_transport
           [("name", JStr "n"); ("transport", JStr "pipe"); ("color", JNum 1)]
           (JStr "pipe")).
  - reflexivity.
  - intros [tr Htr]. destruct tr; discriminate Htr.
Defined.

Lemma from_dict_transport_ok (d : pydict json) :
  dict_get "transport" d = None \/
  (exists tr, dict_get "transport" d = Some (JStr (MCPServerConfig.transport_value tr))) ->
  exists tr : option MCPTransportType,
    (tr = None <-> dict_get "transport" d = None) /\
    MCPServerConfig.from_dict (JObj d) =
    (if forallb (fun k => existsb (String.eqb k) MCPServerConfig.field_names) (dict_keys d)
        && dict_contains "name" d && dict_contains "command" d
     then
       obind (MCPServerConfig.field d "name" EmptyString MCPServerConfig.as_str) (fun name_ =>
       obind (MCPServerConfig.field d "command" EmptyString MCPServerConfig.as_str) (fun command_ =>
       obind (MCPServerConfig.field d "args" [] MCPServerConfig.as_args) (fun args_ =>
       obind (MCPServerConfig.field d "env" [] MCPServerConfig.as_env) (fun env_ =>
       obind (MCPServerConfig.field d "url" None MCPServerConfig.as_optstr) (fun url_ =>
       obind (MCPServerConfig.field d "enabled" true MCPServerConfig.as_bool) (fun enabled_ =>
       obind (MCPServerConfig.field d "description" None MCPServerConfig.as_optstr)
         (fun description_ =>
       Ret (MCPServerConfig.mk name_ command_ args_ env_ (default STDIO tr) url_ enabled_
              description_))))))))
     else Raise (TypeError_arguments (JObj d))).
Proof.
  intros [Hnone | [tr Hsome]]; unfold MCPServerConfig.from_dict;
    cbn [py_in obind]; unfold dict_contains at 1.
  - rewrite Hnone. cbn [obind]. exists None. split; [tauto | reflexivity].
  - rewrite Hsome. cbn [py_getitem obind]. rewrite Hsome. cbn [obind].
    rewrite transport_of_value_valid. cbn [obind]. exists (Some tr).
    split; [| reflexivity]. split; [discriminate | congruence].
Qed.

(** X3.  With the transport absent or valid, [from_dict] raises [TypeError]
    as soon as the dictionary lacks [name] or [command] or holds a key that
    is no field of the configuration. *)
Theorem from_dict_bad_fields (d : pydict json) :
  dict_get "transport" d = None \/
  (exists tr, dict_get "transport" d = Some (JStr (MCPServerConfig.transport_value tr))) ->
  dict_get "name" d = None \/ dict_get "command" d = None \/
  (exists k, In k (dict_keys d) /\ ~ In k MCPServerConfig.field_names) ->
  MCPServerConfig.from_dict (JObj d) = Raise (TypeError_arguments (JObj d)).
Proof.
  intros Htr Hbad. destruct (from_dict_transport_ok d Htr) as (tr & _ & ->).
  assert (Hguard : forallb (fun k => existsb (String.eqb k) MCPServerConfig.field_names)
                           (dict_keys d)
                   && dict_contains "name" d && dict_contains "command" d = false).
  { destruct Hbad as [Hn | [Hc | (k & Hin & Hout)]].
    - unfold dict_contains at 1. rewrite Hn. rewrite andb_false_r. reflexivity.
    - unfold dict_contains at 2. rewrite Hc. apply andb_false_r.
    - assert (Hall : forallb (fun k => existsb (String.eqb k) MCPServerConfig.field_names)
                             (dict_keys d) = false).
      { apply not_true_is_false. intros Hall. rewrite forallb_forall in Hall.
        specialize (Hall k Hin). apply existsb_exists in Hall as (f & Hf & Heq).
        apply String.eqb_eq in Heq as ->. contradiction. }
      now rewrite Hall. }
  now rewrite Hguard.
Qed.

Lemma from_dict_bad_fields_witness :
  MCPServerConfig.from_dict
    (JObj [("name", JStr "n"); ("command", JStr "c"); ("env_vars", JObj [])])
  = Raise (TypeError_arguments
             (JObj [("name", JStr "n"); ("command", JStr "c"); ("env_vars", JObj [])])).
Proof.
  apply (from_dict_bad_fields
           [("name", JStr "n"); ("command", JStr "c"); ("env_vars", JObj [])]).
  - left. reflexivity.
  - right. right. exists "env_vars". split; [cbn; tauto |].
    cbn. intros H. repeat (destruct H as [H | H]; [discriminate H |]). exact H.
Defined.

(** X4.  A field the dictionary does not mention takes its default: no
    [transport] gives [STDIO], no [args] the empty list, no [env] the empty
    dictionary, no [url] and no [description] [None], no [enabled] [True];
    [name] and [command] are the strings given. *)
Theorem from_dict_defaults (d : pydict json) (c : MCPServerConfig.t) :
  MCPServerConfig.from_dict (JObj d) = Ret c ->
  dict_get "name" d = Some (JStr (MCPServerConfig.name c)) /\
  dict_get "command" d = Some (JStr (MCPServerConfig.command c)) /\
  (dict_get "transport" d = None -> MCPServerConfig.transport c = STDIO) /\
  (dict_get "args" d = None -> MCPServerConfig.args c = []) /\
  (dict_get "env" d = None -> MCPServerConfig.env c = []) /\
  (dict_get "url" d = None -> MCPServerConfig.url c = None) /\
  (dict_get "enabled" d = None -> MCPServerConfig.enabled c = true) /\
  (dict_get "description" d = None -> MCPServerConfig.description c = None).
Proof.
  intros Hc.
  assert (Htr : dict_get "transport" d = None \/
                exists tr, dict_get "transport" d
                           = Some (JStr (MCPServerConfig.transport_value tr))).
  { destruct (dict_get "transport" d) as [v|] eqn:Hv; [right | now left].
    destruct (classic_transport v) as [[tr ->] | Hbad]; [now exists tr |].
    rewrite (from_dict_transport_first d v _ Hv (transport_of_value_invalid v Hbad)) in Hc.
    discriminate Hc. }
  destruct (from_dict_transport_ok d Htr) as (tr & Htrnone & Heq).
  rewrite Heq in Hc. clear Heq.
  destruct (forallb _ _ && dict_contains "name" d && dict_contains "command" d) eqn:Hg;
    [| discriminate Hc].
  apply andb_prop in Hg as [Hg Hcmd]. apply andb_prop in Hg as [_ Hname].
  apply dict_contains_get in Hname as [nv Hnv], Hcmd as [cv Hcv].
  unfold MCPServerConfig.field in Hc. rewrite Hnv, Hcv in Hc.
  destruct nv as [| | | n | |]; try discriminate Hc.
  destruct cv as [| | | cm | |]; try discriminate Hc.
  cbn [MCPServerConfig.as_str obind] in Hc.
  destruct (match dict_get "args" d with
            | Some v => MCPServerConfig.as_args v | None => Ret [] end) as [a| |] eqn:Ha;
    try discriminate Hc.
  destruct (match dict_get "env" d with
            | Some v => MCPServerConfig.as_env v | None => Ret [] end) as [e| |] eqn:He;
    try discriminate Hc.
  destruct (match dict_get "url" d with
            | Some v => MCPServerConfig.as_optstr v | None => Ret None end) as [u| |] eqn:Hu;
    try discriminate Hc.
  destruct (match dict_get "enabled" d with
            | Some v => MCPServerConfig.as_bool v | None => Ret true end) as [en| |] eqn:Hen;
    try discriminate Hc.
  destruct (match dict_get "description" d with
            | Some v => MCPServerConfig.as_optstr v | None => Ret None end) as [ds| |] eqn:Hds;
    try discriminate Hc.
  cbn [obind] in Hc. injection Hc as <-. cbn.
  split; [exact Hnv |]. split; [exact Hcv |].
  split; [intros H; apply Htrnone in H; now subst tr |].
  split; [intros H; rewrite H in Ha; now injection Ha |].
  split; [intros H; rewrite H in He; now injection He |].
  split; [intros H; rewrite H in Hu; now injection Hu |].
  split; [intros H; rewrite H in Hen; now injection Hen |].
  intros H. rewrite H in Hds. now injection Hds.
Qed.

(** ** Loading and saving the configuration file *)

Lemma import_servers_rejected before key entry after e :
  forall acc,
    Forall (fun kv => exists c, MCPServerConfig.from_dict (snd kv) = Ret c) before ->
    MCPServerConfig.from_dict entry = Raise e ->
    MCPConfigManager.import_servers (before ++ (key, entry) :: after) acc = Raise e.
Proof.
  induction before as [|[k x] before IH]; intros acc Hok He.
  - cbn [app MCPConfigManager.import_servers]. now rewrite He.
  - pose proof (Forall_inv Hok) as [c Hc]. cbn [snd] in Hc.
    cbn [app MCPConfigManager.import_servers]. rewrite Hc. cbn [obind].
    apply IH; [exact (Forall_inv_tail Hok) | exact He].
Qed.

(** the document of a table of servers is read back as that table *)
Lemma read_document m :
  servers_wf (MCPConfigManager.servers m) ->
  Json.loads (Json.dumps_indent2 (MCPConfigManager.document m))
    = Json.Loaded (MCPConfigManager.document m)
  /\ obind (py_get (MCPConfigManager.document m) "servers" (JObj [])) (fun sv =>
       match sv with
       | JObj items => MCPConfigManager.import_servers items []
       | _ => Raise (AttributeError sv "items")
       end) = Ret (MCPConfigManager.servers m).
Proof.
  intros [Hwf Henv]. split.
  - exact (loads_encode (Some 2) _ (json_wf_document m Hwf Henv)).
  - rewrite (document_servers m Hwf).
    change (py_get (JObj [("servers", ?sv)]) "servers" (JObj [])) with (Ret sv).
    cbn [obind]. rewrite import_servers_to_dict.
    change (dict_update [] (MCPConfigManager.servers m))
      with (dict_of_pairs (MCPConfigManager.servers m)).
    now rewrite (dict_of_pairs_wf _ Hwf).
Qed.

Lemma load_config_document m0 m fs :
  dict_get (MCPConfigManager.config_file m0) (files fs)
    = Some (Json.dumps_indent2 (MCPConfigManager.document m)) ->
  servers_wf (MCPConfigManager.servers m) ->
  MCPConfigManager._load_config m0 fs
  = Ret (MCPConfigManager.mk (MCPConfigManager.config_file m0) (MCPConfigManager.servers m),
         fs).
Proof.
  intros Hfile Hwf. unfold MCPConfigManager._load_config. rewrite Hfile.
  destruct (read_document m Hwf) as [-> ->]. reflexivity.
Qed.

Lemma save_config_file m fs :
  read_only fs = false ->
  dict_get (MCPConfigManager.config_file m) (files (MCPConfigManager._save_config m fs))
  = Some (MCPConfigManager.export_config m).
Proof.
  intros Hrw. unfold MCPConfigManager._save_config. rewrite Hrw. cbn [files].
  apply dict_get_set_eq.
Qed.

(** X5.  What [_save_config] writes, [_load_config] reads back: on a file
    system that takes the write, a manager constructed on the saved file
    holds exactly the servers that were saved, and writes nothing. *)
Theorem save_load_round_trip (m : MCPConfigManager.t) (fs : filesystem) :
  read_only fs = false ->
  servers_wf (MCPConfigManager.servers m) ->
  MCPConfigManager.new (MCPConfigManager.config_file m)
                       (MCPConfigManager._save_config m fs)
  = Ret (m, MCPConfigManager._save_config m fs).
Proof.
  intros Hrw Hwf. unfold MCPConfigManager.new.
  rewrite (load_config_document _ m); [now destruct m | | exact Hwf].
  exact (save_config_file m fs Hrw).
Qed.

Lemma save_load_round_trip_witness :
  MCPConfigManager.new "mcp_config.json"
    (MCPConfigManager._save_config shipped_defaults {| files := []; read_only := false |})
  = Ret (shipped_defaults,
         MCPConfigManager._save_config shipped_defaults
           {| files := []; read_only := false |}).
Proof.
  apply (save_load_round_trip shipped_defaults {| files := []; read_only := false |}).
  - reflexivity.
  - split.
    + apply (bool_decide_unpack _). vm_compute. reflexivity.
    + repeat apply List.Forall_cons; try apply List.Forall_nil;
        apply (bool_decide_unpack _); vm_compute; reflexivity.
Defined.

(** X6.  A configuration file that cannot be read decides by the exception
    it meets.  A text that is no JSON, or an entry whose transport is
    unknown, leaves the manager with no server at all and the file as it is;
    a document or an entry of the wrong shape raises out of the constructor,
    since only [JSONDecodeError], [KeyError] and [ValueError] are caught. *)
Theorem load_config_failure (file : string) (fs : filesystem) (text : string)
    (e : py_exn) :
  dict_get file (files fs) = Some text ->
  load_failure text e ->
  MCPConfigManager.new file fs =
  if MCPConfigManager.caught_on_load e
  then Ret (MCPConfigManager.mk file [], fs)
  else Raise e.
Proof.
  intros Hfile Hfail. unfold MCPConfigManager.new, MCPConfigManager._load_config.
  cbn [MCPConfigManager.config_file]. rewrite Hfile.
  destruct Hfail as [Hload | data Hload Hdata | members sv Hload Hsv Hno
                    | members before key entry after e Hload Hsv Hok He];
    rewrite Hload.
  - reflexivity.
  - destruct data as [| | | | |members]; try reflexivity.
    now contradiction (Hdata members).
  - cbn [py_get obind]. rewrite Hsv. cbn [default]. cbv beta iota delta [id].
    destruct sv as [| | | | |items]; try reflexivity.
    now contradiction (Hno items).
  - cbn [py_get obind]. rewrite Hsv. cbn [default]. cbv beta iota delta [id].
    rewrite (import_servers_rejected before key entry after e [] Hok He).
    reflexivity.
Qed.

Lemma from_dict_defaults_witness :
  MCPServerConfig.from_dict (JObj [("command", JStr "run"); ("name", JStr "n")])
    = Ret (MCPServerConfig.mk "n" "run" [] [] STDIO None true None)
  /\ MCPServerConfig.transport (MCPServerConfig.mk "n" "run" [] [] STDIO None true None)
     = STDIO.
Proof.
  split; [reflexivity |].
  apply (from_dict_defaults [("command", JStr "run"); ("name", JStr "n")]
           (MCPServerConfig.mk "n" "run" [] [] STDIO None true None));
    reflexivity.
Defined.

Lemma load_config_failure_witness :
  let good := MCPServerConfig.to_dict (MCPServerConfig.mk "a" "run" [] [] STDIO None true None) in
  let bad := JObj [("name", JStr "b"); ("command", JStr "run"); ("transport", JStr "pipe")] in
  let odd := JObj [("name", JStr "b"); ("command", JStr "run"); ("env_vars", JObj [])] in
  let file_of entry :=
    {| files := [("mcp_config.json",
                  Json.dumps_indent2 (JObj [("servers", JObj [("a", good); ("b", entry)])]))];
       read_only := false |} in
  MCPConfigManager.new "mcp_config.json" (file_of bad)
    = Ret (MCPConfigManager.mk "mcp_config.json" [], file_of bad)
  /\ MCPConfigManager.new "mcp_config.json" (file_of odd)
     = Raise (TypeError_arguments odd).
Proof.
  intros good bad odd file_of. split.
  - apply (load_config_failure "mcp_config.json" (file_of bad)
             (Json.dumps_indent2 (JObj [("servers", JObj [("a", good); ("b", bad)])]))
             (ValueError (JStr "pipe"))); [reflexivity |].
    apply (load_rejected_entry _ [("servers", JObj [("a", good); ("b", bad)])]
             [("a", good)] "b" bad []).
    + vm_compute. reflexivity.
    + reflexivity.
    + apply List.Forall_cons; [eexists; reflexivity | apply List.Forall_nil].
    + reflexivity.
  - apply (load_config_failure "mcp_config.json" (file_of odd)
             (Json.dumps_indent2 (JObj [("servers", JObj [("a", good); ("b", odd)])]))
             (TypeError_arguments odd)); [reflexivity |].
    apply (load_rejected_entry _ [("servers", JObj [("a", good); ("b", odd)])]
             [("a", good)] "b" odd []).
    + vm_compute. reflexivity.
    + reflexivity.
    + apply List.Forall_cons; [eexists; reflexivity | apply List.Forall_nil].
    + reflexivity.
Defined.

Lemma default_servers_shipped :
  MCPConfigManager.default_servers MCP_SERVER_CONFIGS []
  = Ret (MCPConfigManager.servers shipped_defaults).
Proof. reflexivity. Qed.

Lemma shipped_defaults_wf : servers_wf (MCPConfigManager.servers shipped_defaults).
Proof.
  split.
  - apply (bool_decide_unpack _). vm_compute. reflexivity.
  - repeat apply List.Forall_cons; try apply List.Forall_nil;
      apply (bool_decide_unpack _); vm_compute; reflexivity.
Qed.

(** X7.  Constructed where the configuration file does not exist, the
    manager holds the four servers of [MCP_SERVER_CONFIGS], under its keys
    and in its order, each without a URL, and saves them; if the file
    system takes the write, the next manager constructed on the same file
    reads the same servers back and writes nothing. *)
Theorem new_without_file (file : string) (fs : filesystem) :
  dict_get file (files fs) = None ->
  let defaults := MCPConfigManager.mk file (MCPConfigManager.servers shipped_defaults) in
  let fs' := MCPConfigManager._save_config defaults fs in
  MCPConfigManager.new file fs = Ret (defaults, fs')
  /\ dict_keys (MCPConfigManager.servers defaults) = dict_keys MCP_SERVER_CONFIGS
  /\ Forall (fun kv => MCPServerConfig.url (snd kv) = None)
            (MCPConfigManager.servers defaults)
  /\ (read_only fs = false -> MCPConfigManager.new file fs' = Ret (defaults, fs'))
  /\ (read_only fs = true -> fs' = fs).
Proof.
  intros Hfile defaults fs'. split; [| split; [| split; [| split]]].
  - unfold MCPConfigManager.new, MCPConfigManager._load_config.
    cbn [MCPConfigManager.config_file]. rewrite Hfile.
    unfold MCPConfigManager._create_default_config.
    rewrite default_servers_shipped. reflexivity.
  - reflexivity.
  - repeat apply List.Forall_cons; try apply List.Forall_nil; reflexivity.
  - intros Hrw. unfold MCPConfigManager.new.
    rewrite (load_config_document _ defaults); [reflexivity | | exact shipped_defaults_wf].
    exact (save_config_file defaults fs Hrw).
  - intros Hro. unfold fs', MCPConfigManager._save_config. now rewrite Hro.
Qed.

Lemma new_without_file_witness :
  MCPConfigManager.new "mcp_config.json" {| files := []; read_only := false |}
  = Ret (shipped_defaults,
         MCPConfigManager._save_config shipped_defaults
           {| files := []; read_only := false |}).
Proof.
  exact (proj1 (new_without_file "mcp_config.json" {| files := []; read_only := false |}
                  eq_refl)).
Defined.

(** ** Editing the table of servers *)

Lemma strip_empty s : s = EmptyString -> strip s = EmptyString.
Proof. now intros ->. Qed.

Lemma dict_get_filter {V} (f : V -> bool) k (d : pydict V) :
  dict_wf d ->
  dict_get k (List.filter (fun kv => f (snd kv)) d) =
  match dict_get k d with
  | Some v => if f v then Some v else None
  | None => None
  end.
Proof.
  unfold dict_wf. induction d as [|[k0 v0] d IH]; [reflexivity |].
  cbn [dict_keys map fst]. rewrite NoDup_cons. intros [Hk0 Hd].
  cbn [List.filter snd dict_get].
  assert (Hnone : dict_get k0 d = None).
  { apply dict_get_None. intros Hin. apply Hk0. now rewrite list_elem_of_In. }
  destruct (f v0) eqn:Hf; cbn [dict_get].
  - destruct (String.eqb_spec k k0) as [->|_]; [now rewrite Hf | now apply IH].
  - rewrite (IH Hd). destruct (String.eqb_spec k k0) as [->|_]; [| reflexivity].
    now rewrite Hnone, Hf.
Qed.

Lemma dict_wf_filter {V} (f : string * V -> bool) (d : pydict V) :
  dict_wf d -> dict_wf (List.filter f d).
Proof.
  unfold dict_wf. induction d as [|[k0 v0] d IH]; [intros H; exact H |].
  cbn [dict_keys map fst]. rewrite NoDup_cons. intros [Hk0 Hd].
  cbn [List.filter]. destruct (f (k0, v0)); [| now apply IH].
  cbn [dict_keys map fst]. apply NoDup_cons. split; [| now apply IH].
  rewrite list_elem_of_In. intros Hin. apply Hk0. rewrite list_elem_of_In.
  unfold dict_keys in Hin. apply in_map_iff in Hin as ([k v] & <- & Hin).
  apply filter_In in Hin as [Hin _]. apply in_map_iff. now exists (k, v).
Qed.

(** the enabled servers are the entries whose flag is set *)
Lemma get_enabled_servers_lookup m k :
  dict_wf (MCPConfigManager.servers m) ->
  dict_get k (MCPConfigManager.get_enabled_servers m) =
  match dict_get k (MCPConfigManager.servers m) with
  | Some c => if MCPServerConfig.enabled c then Some c else None
  | None => None
  end.
Proof.
  intros Hwf. unfold MCPConfigManager.get_enabled_servers.
  rewrite dict_of_pairs_wf; [| now apply dict_wf_filter].
  now apply (dict_get_filter MCPServerConfig.enabled).
Qed.

(** X8.  [add_server] files the server under its own name: [get_server]
    then returns it, every other name answers as before, a name that was
    present keeps its place in the table while a new one goes last, and
    the file, when it can be written, holds what [export_config] gives. *)
Theorem add_server_get_server (server : MCPServerConfig.t) (m : MCPConfigManager.t)
    (fs : filesystem) :
  let m' := fst (MCPConfigManager.add_server server m fs) in
  let fs' := snd (MCPConfigManager.add_server server m fs) in
  MCPConfigManager.get_server (MCPServerConfig.name server) m' = Some server
  /\ (forall k, k <> MCPServerConfig.name server ->
                MCPConfigManager.get_server k m' = MCPConfigManager.get_server k m)
  /\ dict_keys (MCPConfigManager.servers m') =
     (if dict_contains (MCPServerConfig.name server) (MCPConfigManager.servers m)
      then dict_keys (MCPConfigManager.servers m)
      else dict_keys (MCPConfigManager.servers m) ++ [MCPServerConfig.name server])
  /\ (read_only fs = false ->
      dict_get (MCPConfigManager.config_file m) (files fs')
      = Some (MCPConfigManager.export_config m'))
  /\ (read_only fs = true -> fs' = fs).
Proof.
  cbn zeta. unfold MCPConfigManager.add_server, MCPConfigManager.get_server.
  cbn [fst snd MCPConfigManager.servers].
  split; [apply dict_get_set_eq | split; [| split; [| split]]].
  - intros k Hk. now apply dict_get_set_ne.
  - apply dict_keys_set.
  - intros Hrw.
    exact (save_config_file
             (MCPConfigManager.mk (MCPConfigManager.config_file m)
                (dict_set (MCPServerConfig.name server) server (MCPConfigManager.servers m)))
             fs Hrw).
  - intros Hro. unfold MCPConfigManager._save_config. now rewrite Hro.
Qed.

(** X9.  [remove_server] answers whether the name was present.  If it was,
    the name is gone afterwards, every other name answers as before and the
    table is saved; if it was not, neither the manager nor the file system
    changes. *)
Theorem remove_server_spec (name : string) (m : MCPConfigManager.t) (fs : filesystem) :
  dict_wf (MCPConfigManager.servers m) ->
  let result := MCPConfigManager.remove_server name m fs in
  let m' := snd (fst result) in
  fst (fst result) = dict_contains name (MCPConfigManager.servers m)
  /\ MCPConfigManager.get_server name m' = None
  /\ (forall k, k <> name ->
                MCPConfigManager.get_server k m' = MCPConfigManager.get_server k m)
  /\ dict_wf (MCPConfigManager.servers m')
  /\ (dict_contains name (MCPConfigManager.servers m) = true ->
      snd result = MCPConfigManager._save_config m' fs)
  /\ (dict_contains name (MCPConfigManager.servers m) = false ->
      m' = m /\ snd result = fs).
Proof.
  intros Hwf. cbn zeta. unfold MCPConfigManager.remove_server, MCPConfigManager.get_server.
  destruct (dict_contains name (MCPConfigManager.servers m)) eqn:Hc;
    cbn [fst snd MCPConfigManager.servers].
  - split; [reflexivity |]. split; [now apply dict_get_del_eq |].
    split; [intros k Hk; now apply dict_get_del_ne |].
    split; [now apply dict_wf_del |]. split; [reflexivity | discriminate].
  - split; [reflexivity |]. split.
    { unfold dict_contains in Hc.
      destruct (dict_get name (MCPConfigManager.servers m)); [discriminate | reflexivity]. }
    split; [reflexivity |]. split; [exact Hwf |]. split; [discriminate | now split].
Qed.

Lemma remove_server_spec_witness :
  fst (fst (MCPConfigManager.remove_server "weather" shipped_defaults
              {| files := []; read_only := false |})) = true
  /\ dict_keys (MCPConfigManager.servers
                  (snd (fst (MCPConfigManager.remove_server "weather" shipped_defaults
                               {| files := []; read_only := false |}))))
     = ["filesystem"; "math_tool"; "usda"]
  /\ MCPConfigManager.get_server "weather"
       (snd (fst (MCPConfigManager.remove_server "weather" shipped_defaults
                    {| files := []; read_only := false |}))) = None.
Proof.
  split; [reflexivity |]. split; [reflexivity |].
  exact (proj1 (proj2 (remove_server_spec "weather" shipped_defaults
                         {| files := []; read_only := false |}
                         (proj1 shipped_defaults_wf)))).
Defined.

(** X10.  [update_server] replaces the entry filed under [name] and nothing
    else: it never adds a key and never moves one, whatever the name the new
    configuration carries; a name that is not present changes nothing and
    writes nothing. *)
Theorem update_server_spec (name : string) (server : MCPServerConfig.t)
    (m : MCPConfigManager.t) (fs : filesystem) :
  let result := MCPConfigManager.update_server name server m fs in
  let m' := snd (fst result) in
  fst (fst result) = dict_contains name (MCPConfigManager.servers m)
  /\ dict_keys (MCPConfigManager.servers m') = dict_keys (MCPConfigManager.servers m)
  /\ (forall k, k <> name ->
                MCPConfigManager.get_server k m' = MCPConfigManager.get_server k m)
  /\ (dict_contains name (MCPConfigManager.servers m) = true ->
      MCPConfigManager.get_server name m' = Some server /\
      snd result = MCPConfigManager._save_config m' fs)
  /\ (dict_contains name (MCPConfigManager.servers m) = false ->
      m' = m /\ snd result = fs).
Proof.
  cbn zeta. unfold MCPConfigManager.update_server, MCPConfigManager.get_server.
  destruct (dict_contains name (MCPConfigManager.servers m)) eqn:Hc;
    cbn [fst snd MCPConfigManager.servers].
  - split; [reflexivity |]. split; [now rewrite dict_keys_set, Hc |].
    split; [intros k Hk; now apply dict_get_set_ne |].
    split; [intros _; split; [apply dict_get_set_eq | reflexivity] | discriminate].
  - split; [reflexivity |]. split; [reflexivity |]. split; [reflexivity |].
    split; [discriminate | now split].
Qed.

(** X11.  [disable_server] takes a server out of [get_enabled_servers] and
    [enable_server] puts it in, without touching any other entry, the keys
    of the table or their order; both answer whether the name was present,
    and change nothing when it was not. *)
Theorem enable_disable_server (name : string) (m : MCPConfigManager.t)
    (fs : filesystem) :
  dict_wf (MCPConfigManager.servers m) ->
  let off := MCPConfigManager.disable_server name m fs in
  let on := MCPConfigManager.enable_server name m fs in
  (fst (fst off) = dict_contains name (MCPConfigManager.servers m)
   /\ fst (fst on) = dict_contains name (MCPConfigManager.servers m))
  /\ (dict_keys (MCPConfigManager.servers (snd (fst off)))
        = dict_keys (MCPConfigManager.servers m)
      /\ dict_keys (MCPConfigManager.servers (snd (fst on)))
        = dict_keys (MCPConfigManager.servers m))
  /\ dict_get name (MCPConfigManager.get_enabled_servers (snd (fst off))) = None
  /\ (forall c, dict_get name (MCPConfigManager.servers m) = Some c ->
        dict_get name (MCPConfigManager.get_enabled_servers (snd (fst on)))
        = Some (MCPServerConfig.set_enabled true c))
  /\ (forall k, k <> name ->
        dict_get k (MCPConfigManager.servers (snd (fst off)))
          = dict_get k (MCPConfigManager.servers m)
        /\ dict_get k (MCPConfigManager.servers (snd (fst on)))
          = dict_get k (MCPConfigManager.servers m))
  /\ (dict_contains name (MCPConfigManager.servers m) = false ->
      off = (false, m, fs) /\ on = (false, m, fs)).
Proof.
  intros Hwf. cbn zeta.
  unfold MCPConfigManager.disable_server, MCPConfigManager.enable_server, dict_contains.
  destruct (dict_get name (MCPConfigManager.servers m)) as [c|] eqn:Hc;
    cbn [fst snd MCPConfigManager.servers].
  - assert (Hin : dict_contains name (MCPConfigManager.servers m) = true)
      by (unfold dict_contains; now rewrite Hc).
    split; [now split |].
    split; [split; now rewrite dict_keys_set, Hin |].
    split.
    { rewrite get_enabled_servers_lookup; cbn [MCPConfigManager.servers];
        [| now apply dict_wf_set].
      now rewrite dict_get_set_eq. }
    split.
    { intros c' [= <-].
      rewrite get_enabled_servers_lookup; cbn [MCPConfigManager.servers];
        [| now apply dict_wf_set].
      now rewrite dict_get_set_eq. }
    split; [intros k Hk; split; now apply dict_get_set_ne | discriminate].
  - split; [now split |]. split; [now split |].
    split; [rewrite get_enabled_servers_lookup by exact Hwf; now rewrite Hc |].
    split; [discriminate |]. split; [now split | now split].
Qed.

Lemma enable_disable_server_witness :
  dict_keys (MCPConfigManager.get_enabled_servers
               (snd (fst (MCPConfigManager.disable_server "usda" shipped_defaults
                            {| files := []; read_only := false |}))))
  = ["filesystem"; "math_tool"; "weather"]
  /\ dict_get "usda"
       (MCPConfigManager.get_enabled_servers
          (snd (fst (MCPConfigManager.disable_server "usda" shipped_defaults
                       {| files := []; read_only := false |})))) = None.
Proof.
  split; [reflexivity |].
  exact (proj1 (proj2 (proj2 (enable_disable_server "usda" shipped_defaults
                                {| files := []; read_only := false |}
                                (proj1 shipped_defaults_wf))))).
Defined.

(** ** Validating a configuration before it is added *)

(** X12.  [validate_server_config] reports each of its four complaints
    exactly when its cause holds: a name, or a command, that is empty or
    white space only; the HTTP transport without a URL; a name that is
    already a key of the table.  It reports nothing exactly when none
    holds. *)
Theorem validate_server_config_spec (m : MCPConfigManager.t) (server : MCPServerConfig.t) :
  let errors := MCPConfigManager.validate_server_config m server in
  (In "Server name is required" errors
     <-> strip (MCPServerConfig.name server) = EmptyString)
  /\ (In "Server command is required" errors
     <-> strip (MCPServerConfig.command server) = EmptyString)
  /\ (In "URL is required for HTTP transport" errors
     <-> MCPServerConfig.transport server = HTTP /\
         (MCPServerConfig.url server = None \/
          MCPServerConfig.url server = Some EmptyString))
  /\ (In ("Server with name '" +:+ MCPServerConfig.name server +:+ "' already exists") errors
     <-> dict_contains (MCPServerConfig.name server) (MCPConfigManager.servers m) = true)
  /\ (errors = []
     <-> strip (MCPServerConfig.name server) <> EmptyString /\
         strip (MCPServerConfig.command server) <> EmptyString /\
         (MCPServerConfig.transport server = HTTP ->
          exists u, MCPServerConfig.url server = Some u /\ u <> EmptyString) /\
         dict_get (MCPServerConfig.name server) (MCPConfigManager.servers m) = None).
Proof.
  cbn zeta. unfold MCPConfigManager.validate_server_config.
  set (exists_msg := "Server with name '" +:+ MCPServerConfig.name server
                     +:+ "' already exists").
  assert (Hmsg1 : exists_msg <> "Server name is required") by (now unfold exists_msg).
  assert (Hmsg2 : exists_msg <> "Server command is required") by (now unfold exists_msg).
  assert (Hmsg3 : exists_msg <> "URL is required for HTTP transport")
    by (now unfold exists_msg).
  assert (Hname : (String.eqb (MCPServerConfig.name server) EmptyString
                   || String.eqb (strip (MCPServerConfig.name server)) EmptyString) = true
                  <-> strip (MCPServerConfig.name server) = EmptyString).
  { rewrite orb_true_iff, !String.eqb_eq. split; [intros [H | H] | auto].
    - now apply strip_empty.
    - exact H. }
  assert (Hcmd : (String.eqb (MCPServerConfig.command server) EmptyString
                  || String.eqb (strip (MCPServerConfig.command server)) EmptyString) = true
                 <-> strip (MCPServerConfig.command server) = EmptyString).
  { rewrite orb_true_iff, !String.eqb_eq. split; [intros [H | H] | auto].
    - now apply strip_empty.
    - exact H. }
  destruct (String.eqb (MCPServerConfig.name server) EmptyString
            || String.eqb (strip (MCPServerConfig.name server)) EmptyString) eqn:E1;
  destruct (String.eqb (MCPServerConfig.command server) EmptyString
            || String.eqb (strip (MCPServerConfig.command server)) EmptyString) eqn:E2;
  destruct (MCPServerConfig.transport server) eqn:E3;
  destruct (MCPServerConfig.url server) as [u|] eqn:E4;
  try destruct (String.eqb_spec u EmptyString) as [->|Hu];
  unfold dict_contains;
  destruct (dict_get (MCPServerConfig.name server) (MCPConfigManager.servers m)) eqn:E5;
  cbn [app In];
  (split; [| split; [| split; [| split]]]);
  repeat match goal with
         | |- _ <-> _ => split
         | |- _ -> _ => intro
         | H : _ \/ _ |- _ => destruct H
         | H : _ /\ _ |- _ => destruct H
         | H : False |- _ => destruct H
         | H : exists _, _ |- _ => destruct H
         | H : ?x = ?x -> _ |- _ => specialize (H eq_refl)
         end;
  try discriminate; try congruence; try tauto;
  try (apply Hname; reflexivity); try (apply Hcmd; reflexivity);
  try (exfalso; match goal with
                | H : strip _ = EmptyString |- _ =>
                    first [apply Hname in H | apply Hcmd in H]; discriminate H
                end);
  try (repeat split; try discriminate; try congruence;
       try (intros Hs; first [apply Hname in Hs | apply Hcmd in Hs]; discriminate Hs);
       try (intros _; eexists; split; [reflexivity | assumption]); fail).
Qed.

(** X13.  A configuration that passes [validate_server_config] is a new
    entry for [add_server]: it goes to the end of the table under its own
    name, and every entry that was there stays as it was. *)
Theorem validated_add_server (m : MCPConfigManager.t) (server : MCPServerConfig.t)
    (fs : filesystem) :
  MCPConfigManager.validate_server_config m server = [] ->
  let m' := fst (MCPConfigManager.add_server server m fs) in
  MCPConfigManager.servers m'
    = MCPConfigManager.servers m ++ [(MCPServerConfig.name server, server)]
  /\ (forall k c, MCPConfigManager.get_server k m = Some c ->
                  MCPConfigManager.get_server k m' = Some c)
  /\ (dict_wf (MCPConfigManager.servers m) -> dict_wf (MCPConfigManager.servers m')).
Proof.
  intros Hvalid. cbn zeta.
  assert (Hnew : dict_get (MCPServerConfig.name server) (MCPConfigManager.servers m) = None).
  { unfold MCPConfigManager.validate_server_config in Hvalid.
    apply app_eq_nil in Hvalid as [_ Hvalid].
    apply app_eq_nil in Hvalid as [_ Hvalid].
    apply app_eq_nil in Hvalid as [_ Hvalid].
    unfold dict_contains in Hvalid.
    destruct (dict_get (MCPServerConfig.name server) (MCPConfigManager.servers m));
      [discriminate Hvalid | reflexivity]. }
  unfold MCPConfigManager.add_server, MCPConfigManager.get_server.
  cbn [fst MCPConfigManager.servers].
  split; [| split].
  - apply dict_set_fresh. now apply dict_get_None.
  - intros k c Hk. rewrite dict_get_set_ne; [exact Hk |]. congruence.
  - intros Hwf. now apply dict_wf_set.
Qed.

Lemma validated_add_server_witness :
  let server := MCPServerConfig.mk "notes" "run-notes" [] [] STDIO None true None in
  dict_keys (MCPConfigManager.servers
               (fst (MCPConfigManager.add_server server shipped_defaults
                       {| files := []; read_only := false |})))
  = ["filesystem"; "math_tool"; "weather"; "usda"; "notes"]
  /\ MCPConfigManager.servers
       (fst (MCPConfigManager.add_server server shipped_defaults
               {| files := []; read_only := false |}))
     = MCPConfigManager.servers shipped_defaults ++ [("notes", server)].
Proof.
  intros server. split; [reflexivity |].
  exact (proj1 (validated_add_server shipped_defaults server
                  {| files := []; read_only := false |} eq_refl)).
Defined.

(** ** Importing *)

Lemma import_servers_wf items :
  forall acc servers_,
    MCPConfigManager.import_servers items acc = Ret servers_ ->
    dict_wf acc -> dict_wf servers_.
Proof.
  induction items as [|[k x] items IH]; intros acc servers_ H Hacc.
  - cbn in H. now injection H as <-.
  - cbn [MCPConfigManager.import_servers] in H.
    destruct (MCPServerConfig.from_dict x) as [c| |]; try discriminate H.
    cbn [obind] in H. apply (IH _ _ H). now apply dict_wf_set.
Qed.

Lemma dict_get_app {V} k (a b : pydict V) :
  dict_get k (a ++ b) = match dict_get k a with Some v => Some v | None => dict_get k b end.
Proof.
  induction a as [|[k' v'] a IH]; simpl; [reflexivity |].
  destruct (String.eqb k k'); [reflexivity | exact IH].
Qed.

(** What the loop of [import_config] leaves under each key: the
    configuration read from the last entry the items hold under it, and
    what the table held before for a key the items do not mention. *)
Lemma import_servers_lookup items :
  forall acc servers_,
    MCPConfigManager.import_servers items acc = Ret servers_ ->
    forall k,
      match dict_get k (rev items) with
      | Some entry =>
          exists c, MCPServerConfig.from_dict entry = Ret c /\ dict_get k servers_ = Some c
      | None => dict_get k servers_ = dict_get k acc
      end.
Proof.
  induction items as [|[k0 x] items IH]; intros acc servers_ H k.
  - cbn in H. now injection H as <-.
  - cbn [MCPConfigManager.import_servers] in H.
    destruct (MCPServerConfig.from_dict x) as [c0| |] eqn:Hx; try discriminate H.
    cbn [obind] in H. specialize (IH _ _ H k).
    cbn [rev]. rewrite dict_get_app.
    destruct (dict_get k (rev items)) as [entry|]; [exact IH |].
    cbn [dict_get]. destruct (String.eqb_spec k k0) as [->|Hne].
    + exists c0. split; [exact Hx |]. rewrite IH. apply dict_get_set_eq.
    + rewrite IH. now apply dict_get_set_ne.
Qed.

(** X14.  [import_config] never raises and is all or nothing: when it
    answers [False] the manager and the file system are exactly as they
    were; when it answers [True] the table is replaced as a whole, not
    merged: under each key of the [servers] member it holds the
    configuration read from the member's last entry under that key, it holds
    nothing under any other key, whatever the table held before, and it is
    saved under the manager's own file name. *)
Theorem import_config_all_or_nothing (m : MCPConfigManager.t) (json_data : string)
    (fs : filesystem) :
  (forall e, MCPConfigManager.import_config m json_data fs <> Raise e)
  /\ (forall m' fs',
        MCPConfigManager.import_config m json_data fs = Ret (false, m', fs') ->
        m' = m /\ fs' = fs)
  /\ (forall m' fs',
        MCPConfigManager.import_config m json_data fs = Ret (true, m', fs') ->
        MCPConfigManager.config_file m' = MCPConfigManager.config_file m /\
        fs' = MCPConfigManager._save_config m' fs /\
        dict_wf (MCPConfigManager.servers m') /\
        exists data items,
          Json.loads json_data = Json.Loaded data /\
          py_get data "servers" (JObj []) = Ret (JObj items) /\
          (forall k entry,
              dict_get k (rev items) = Some entry ->
              exists c, MCPServerConfig.from_dict entry = Ret c /\
                        dict_get k (MCPConfigManager.servers m') = Some c) /\
          (forall k, dict_get k (rev items) = None ->
                     dict_get k (MCPConfigManager.servers m') = None)).
Proof.
  unfold MCPConfigManager.import_config.
  destruct (Json.loads json_data) as [data| |].
  - set (parsed := obind (py_get data "servers" (JObj [])) _).
    destruct parsed as [servers_|e|] eqn:Hparsed.
    + split; [discriminate |]. split; [discriminate |].
      intros m' fs' [= <- <-]. cbn [MCPConfigManager.config_file MCPConfigManager.servers].
      split; [reflexivity |]. split; [reflexivity |].
      unfold parsed in Hparsed.
      destruct (py_get data "servers" (JObj [])) as [sv| |] eqn:Hsv; try discriminate Hparsed.
      cbn [obind] in Hparsed.
      destruct sv as [| | | | |items]; try discriminate Hparsed.
      split; [apply (import_servers_wf items [] servers_ Hparsed); constructor |].
      exists data, items. split; [reflexivity |]. split; [exact Hsv |].
      pose proof (import_servers_lookup items [] servers_ Hparsed) as Hlook.
      split.
      * intros k entry Hk. specialize (Hlook k). now rewrite Hk in Hlook.
      * intros k Hk. specialize (Hlook k). now rewrite Hk in Hlook.
    + split; [discriminate |]. split; [now intros m' fs' [= <- <-] | discriminate].
    + split; [discriminate |]. split; discriminate.
  - split; [discriminate |]. split; [now intros m' fs' [= <- <-] | discriminate].
  - split; [discriminate |]. split; discriminate.
Qed.

(** ** Reading a resource *)

Lemma content_text_selects items texts :
  selects_texts items texts -> content_text items = Ret (join newline texts).
Proof.
  intros H. unfold content_text.
  assert (Hmap : exists chunks,
             omap (fun item =>
               obind (py_get item "type" JNull) (fun ty =>
               if py_eq ty (JStr "text")
               then obind (py_get item "text" (JStr EmptyString)) (fun x => Ret [x])
               else Ret [])) items = Ret chunks
             /\ List.concat chunks = map JStr texts).
  { induction H as [| members text items texts Hty Htx _ (chunks & IH & Hc)
                     | members items texts Hty _ (chunks & IH & Hc)].
    - exists []. split; reflexivity.
    - exists ([JStr text] :: chunks). cbn [omap py_get obind]. rewrite Hty. cbn [default].
      cbv beta iota delta [id]. change (py_eq (JStr "text") (JStr "text")) with true.
      cbv iota. cbn [py_get obind]. rewrite IH. cbn [obind].
      change (from_option (fun x : json => x) (JStr EmptyString) (dict_get "text" members))
        with (default (JStr EmptyString) (dict_get "text" members)).
      rewrite Htx.
      split; [reflexivity |]. cbn. now rewrite Hc.
    - exists ([] :: chunks). cbn [omap py_get obind].
      change (default JNull (dict_get "type" members)) with (get_or_none "type" members).
      rewrite Hty. cbn [obind]. rewrite IH. cbn [obind]. split; [reflexivity | exact Hc]. }
  destruct Hmap as (chunks & -> & Hc). cbn [obind]. rewrite Hc. unfold py_join.
  assert (Hstrs : forall i, expect_strs i (map JStr texts) = Ret texts).
  { clear. induction texts as [|text texts IH]; intros i; cbn; [reflexivity |].
    now rewrite IH. }
  now rewrite Hstrs.
Qed.

(** X15.  [read_resource] refuses at once, writing nothing, when the
    connection is not initialized or does not hold the URI.  Otherwise it
    sends one [resources/read] request and reads the answer: no response
    gives a failure; an [error] gives a failure whose text is [Server error: ]
    followed by the error's message; a [result] with [contents] gives the
    texts of the items whose [type] is [text], joined with newlines, the
    other items being passed over; a [result] without [contents] gives its
    serialization; a response with neither gives a failure. *)
Theorem read_resource_cases (rt : runtime) (c : MCPServerConnection.t)
    (resource_uri : string) (lw : list read_log_record * world)
    (result : bool * string) (lw' : list read_log_record * world) :
  read_resource_case rt c resource_uri lw result lw' ->
  read_resource rt c resource_uri lw = (Ret result, lw').
Proof.
  intros [Hrefused | w1 Hi Hc Hsend | members w1 res Hi Hc Hsend Hreads];
    unfold read_resource.
  - assert (Hguard : negb (_initialized c)
                     || negb (dict_contains resource_uri (resources c)) = true).
    { unfold dict_contains. destruct Hrefused as [-> | ->]; [reflexivity |].
      apply orb_true_r. }
    now rewrite Hguard.
  - rewrite Hi, Hc. cbn [negb orb]. cbv iota.
    unfold try_except, bind, in_world, new_uuid.
    cbn [fst snd].
    fold (resources_read_request (uuid4 rt (uuids_drawn (snd lw))) resource_uri).
    now rewrite Hsend.
  - rewrite Hi, Hc. cbn [negb orb]. cbv iota.
    unfold try_except, bind, in_world, new_uuid.
    cbn [fst snd].
    fold (resources_read_request (uuid4 rt (uuids_drawn (snd lw))) resource_uri).
    rewrite Hsend.
    assert (Htruthy : truthy (JObj members) = true).
    { destruct Hreads; destruct members; try discriminate; try congruence; reflexivity. }
    rewrite Htruthy. cbn [negb]. cbv iota. unfold lift, ret.
    cbn [py_in py_getitem]. unfold dict_contains.
    destruct Hreads as [members error Herr
                       | members rs items texts Herr Hres Hcontents Hitems
                       | members rs Herr Hres Hcontents
                       | members Hne Herr Hres].
    + rewrite Herr. reflexivity.
    + rewrite Herr, Hres. cbn [py_in py_getitem]. unfold dict_contains.
      rewrite Hcontents. cbn [py_iter].
      now rewrite (content_text_selects _ _ Hitems).
    + rewrite Herr, Hres. cbn [py_in py_getitem]. unfold dict_contains.
      now rewrite Hcontents.
    + now rewrite Herr, Hres.
Qed.

(** ** The reading loop, message by message *)

Lemma with_proc_same pid p w : procs w !! pid = Some p -> with_proc pid p w = w.
Proof.
  intros Hp. unfold with_proc, set_procs. rewrite (list_insert_id _ _ _ Hp).
  now destruct w.
Qed.

Lemma proc_after_nil p : proc_after p (stdout p) [] = p.
Proof. unfold proc_after. rewrite app_nil_r. now destruct p. Qed.

Lemma proc_after_after p unread written unread' written' :
  proc_after (proc_after p unread written) unread' written'
  = proc_after p unread' (written ++ written').
Proof. unfold proc_after. cbn. now rewrite app_assoc. Qed.

(** The reading loop passes over the messages that are not the awaited
    response, answering those that are requests. *)
Lemma await_response_skip c pid request_id incoming tail :
  process c = Some pid ->
  Forall (passes_by request_id) incoming ->
  forall n w p,
    procs w !! pid = Some p ->
    stdout p = map fst incoming ++ tail ->
    await_response (List.length incoming + n) c pid request_id w =
    await_response n c pid request_id
      (with_proc pid (proc_after p tail (answers incoming)) w).
Proof.
  intros Hc Hpass.
  induction Hpass as [|[line message] incoming [Hload Hkind] Hpass IH];
    intros n w p Hp Hout.
  - cbn [map app] in Hout. cbn [List.length Nat.add]. rewrite <- Hout.
    unfold answers. cbn [map List.filter]. rewrite proc_after_nil.
    now rewrite (with_proc_same _ _ _ Hp).
  - cbn [map fst snd app] in Hout, Hload, Hkind.
    cbn [List.length Nat.add await_response].
    unfold bind at 1. unfold stdout_readline. rewrite Hp, Hout.
    rewrite (loads_nonempty _ _ Hload), Hload.
    rewrite (update_proc_with_proc _ _ _ _ Hp).
    set (p1 := {| stdout := map fst incoming ++ tail; stdin := stdin p;
                  sigterm_ignored := sigterm_ignored p; state := state p |}).
    assert (Hp1 : procs (with_proc pid p1 w) !! pid = Some p1)
      by (eapply with_proc_lookup; eauto).
    fold (is_server_request message).
    destruct (is_server_request message) eqn:Hreq.
    + unfold bind. rewrite (handle_server_request_run _ _ _ _ _ Hc Hp1).
      rewrite with_proc_twice.
      set (p2 := {| stdout := stdout p1; stdin := stdin p1 ++ [answer message];
                    sigterm_ignored := sigterm_ignored p1; state := state p1 |}).
      assert (Hp2 : procs (with_proc pid p2 w) !! pid = Some p2)
        by (eapply with_proc_lookup; eauto).
      rewrite (IH n _ p2 Hp2 eq_refl). rewrite with_proc_twice.
      unfold answers. cbn [map List.filter snd]. rewrite Hreq. cbn [map].
      unfold proc_after, p2, p1. cbn. now rewrite <- app_assoc.
    + destruct Hkind as [Habs | Hother]; [discriminate |]. rewrite Hother.
      rewrite (IH n _ p1 Hp1 eq_refl). rewrite with_proc_twice.
      unfold answers. cbn [map List.filter snd]. rewrite Hreq. reflexivity.
Qed.

Lemma send_request_skip c pid request incoming tail w p :
  process c = Some pid ->
  procs w !! pid = Some p ->
  stdout p = map fst incoming ++ tail ->
  Forall (passes_by (get_or_none "id" request)) incoming ->
  _send_request c request w =
  try_except
    (await_response (S (List.length tail)) c pid (get_or_none "id" request))
    (fun e => logger (LogRequestFailed (server_name c) e) ;;; ret None)
    (with_proc pid
       (proc_after p tail ((Json.dumps (JObj request) +:+ newline) :: answers incoming)) w).
Proof.
  intros Hc Hp Hout Hpass. unfold _send_request. rewrite Hc.
  unfold try_except, bind at 1, stdin_write, modify.
  rewrite (update_proc_with_proc _ _ _ _ Hp).
  set (p1 := {| stdout := stdout p;
                stdin := stdin p ++ [Json.dumps (JObj request) +:+ newline];
                sigterm_ignored := sigterm_ignored p; state := state p |}).
  assert (Hp1 : procs (with_proc pid p1 w) !! pid = Some p1)
    by (eapply with_proc_lookup; eauto).
  unfold bind, get_state.
  assert (Hfuel : S (pending_lines pid (with_proc pid p1 w))
                  = List.length incoming + S (List.length tail)).
  { unfold pending_lines. rewrite Hp1. cbn [stdout p1]. rewrite Hout.
    rewrite length_app, length_map. lia. }
  rewrite Hfuel.
  rewrite (await_response_skip c pid _ incoming tail Hc Hpass _ _ p1 Hp1 Hout).
  rewrite with_proc_twice.
  replace (proc_after p1 tail (answers incoming))
    with (proc_after p tail ((Json.dumps (JObj request) +:+ newline) :: answers incoming));
    [reflexivity |].
  unfold proc_after, p1. cbn. now rewrite <- app_assoc.
Qed.

(** the stream has ended *)
Lemma await_response_end n c pid request_id w p :
  procs w !! pid = Some p -> stdout p = [] ->
  await_response (S n) c pid request_id w = (Ret None, w).
Proof.
  intros Hp Hout. cbn [await_response]. unfold bind, stdout_readline.
  now rewrite Hp, Hout.
Qed.

Lemma unreadable_nonempty line e : unreadable line e -> String.eqb line EmptyString = false.
Proof.
  intros [Hne _ | v Hload _].
  - now apply String.eqb_neq.
  - exact (loads_nonempty _ _ Hload).
Qed.

Lemma await_response_unreadable n c pid request_id w p line rest e :
  procs w !! pid = Some p -> stdout p = line :: rest ->
  unreadable line e ->
  await_response (S n) c pid request_id w
  = (Raise e, with_proc pid (proc_after p rest []) w).
Proof.
  intros Hp Hout Hbad. cbn [await_response]. unfold bind, stdout_readline.
  rewrite Hp, Hout. rewrite (unreadable_nonempty _ _ Hbad).
  rewrite (update_proc_with_proc _ _ _ _ Hp).
  unfold proc_after. rewrite app_nil_r.
  destruct Hbad as [_ Hload | v Hload Hv]; rewrite Hload.
  - reflexivity.
  - destruct v as [| | | | |members]; try reflexivity. now contradiction (Hv members).
Qed.

Lemma send_request_end c pid request incoming w p :
  process c = Some pid ->
  procs w !! pid = Some p ->
  stdout p = map fst incoming ->
  Forall (passes_by (get_or_none "id" request)) incoming ->
  _send_request c request w =
  (Ret None,
   with_proc pid
     (proc_after p [] ((Json.dumps (JObj request) +:+ newline) :: answers incoming)) w).
Proof.
  intros Hc Hp Hout Hpass.
  rewrite (send_request_skip c pid request incoming [] w p Hc Hp); [| | exact Hpass].
  - unfold try_except.
    erewrite await_response_end; [reflexivity | eapply with_proc_lookup; eauto | reflexivity].
  - now rewrite app_nil_r.
Qed.

Lemma send_request_garbled c pid request incoming line rest e w p :
  process c = Some pid ->
  procs w !! pid = Some p ->
  stdout p = map fst incoming ++ line :: rest ->
  Forall (passes_by (get_or_none "id" request)) incoming ->
  unreadable line e ->
  _send_request c request w =
  (Ret None,
   snd (logger (LogRequestFailed (server_name c) e)
          (with_proc pid
             (proc_after p rest
                ((Json.dumps (JObj request) +:+ newline) :: answers incoming)) w))).
Proof.
  intros Hc Hp Hout Hpass Hbad.
  rewrite (send_request_skip c pid request incoming (line :: rest) w p Hc Hp Hout Hpass).
  unfold try_except.
  erewrite await_response_unreadable;
    [| eapply with_proc_lookup; eauto | reflexivity | exact Hbad].
  rewrite with_proc_twice, proc_after_after, app_nil_r. reflexivity.
Qed.

Lemma send_request_answered c pid request incoming final_line final rest w p :
  process c = Some pid ->
  procs w !! pid = Some p ->
  stdout p = map fst incoming ++ final_line :: rest ->
  Forall (passes_by (get_or_none "id" request)) incoming ->
  Json.loads (strip final_line) = Json.Loaded (JObj final) ->
  is_server_request final = false ->
  py_eq (get_or_none "id" final) (get_or_none "id" request) = true ->
  _send_request c request w =
  (Ret (Some (JObj final)),
   with_proc pid
     (proc_after p rest ((Json.dumps (JObj request) +:+ newline) :: answers incoming)) w).
Proof.
  intros Hc Hp Hout Hpass Hfinal Hnot Hid.
  rewrite (send_request_skip c pid request incoming (final_line :: rest) w p Hc Hp Hout Hpass).
  unfold try_except.
  set (p1 := proc_after p (final_line :: rest)
               ((Json.dumps (JObj request) +:+ newline) :: answers incoming)).
  assert (Hp1 : procs (with_proc pid p1 w) !! pid = Some p1)
    by (eapply with_proc_lookup; eauto).
  rewrite (await_response_run c pid _ [] final_line final rest Hc (List.Forall_nil _)
             Hfinal Hnot Hid _ (with_proc pid p1 w) p1); [| cbn; lia | exact Hp1 | reflexivity].
  rewrite with_proc_twice. unfold answers at 1. cbn [map List.filter].
  fold (proc_after p1 rest []). unfold p1. now rewrite proc_after_after, app_nil_r.
Qed.

(** X16.  A line that is no JSON object breaks the request it arrives
    for, and only that: [_send_request] hands back [None] instead of
    raising, logs the exception, has answered the requests of the server
    that came before the line, and leaves every later line unread in the
    pipe, where the next request will find it. *)
Theorem send_request_unreadable_line (c : MCPServerConnection.t) (pid : nat)
    (request : pydict json) (w : world) (p : child_process)
    (incoming : list (string * pydict json)) (line : string) (rest : list string)
    (e : py_exn) :
  process c = Some pid ->
  procs w !! pid = Some p ->
  stdout p = map fst incoming ++ line :: rest ->
  Forall (passes_by (get_or_none "id" request)) incoming ->
  unreadable line e ->
  let done := _send_request c request w in
  fst done = Ret None
  /\ stdout_of pid (snd done) = rest
  /\ stdin_of pid (snd done)
     = stdin p ++ (Json.dumps (JObj request) +:+ newline) :: answers incoming
  /\ log (snd done) = log w ++ [LogRequestFailed (server_name c) e]
  /\ alive pid (snd done) = alive pid w.
Proof.
  intros Hc Hp Hout Hpass Hbad. cbn zeta.
  rewrite (send_request_garbled c pid request incoming line rest e w p Hc Hp Hout Hpass Hbad).
  cbn [fst snd]. unfold logger, modify, stdout_of, stdin_of, alive. cbn [snd].
  change (procs (set_log ?l ?w0)) with (procs w0).
  rewrite (with_proc_lookup _ _ _ _ Hp), Hp.
  repeat split; reflexivity.
Qed.

(** X17.  When the provider's output ends, or turns into a line that is no
    JSON object, before the response to a [tools/call] arrives, [call_tool]
    answers [(False, "No response from server")]: the failure is caught
    inside [_send_request] and never reaches [call_tool]'s own handler.  The
    request has been written once, after the lines already in the pipe. *)
Theorem call_tool_no_response (rt : runtime) (c : MCPServerConnection.t)
    (tool_name : string) (arguments : json) (w : world) (pid : nat)
    (p : child_process) (incoming : list (string * pydict json)) (tail : list string) :
  _initialized c = true ->
  dict_contains tool_name (tools c) = true ->
  process c = Some pid ->
  procs w !! pid = Some p ->
  stdout p = map fst incoming ++ tail ->
  Forall (passes_by (JStr (uuid4 rt (uuids_drawn w)))) incoming ->
  tail = [] \/ (exists line rest e, tail = line :: rest /\ unreadable line e) ->
  let done := call_tool rt c tool_name arguments w in
  fst done = Ret (false, "No response from server")
  /\ stdin_of pid (snd done)
     = stdin p
       ++ (Json.dumps (JObj (tools_call_request (uuid4 rt (uuids_drawn w))
                               tool_name arguments)) +:+ newline)
          :: answers incoming
  /\ uuids_drawn (snd done) = S (uuids_drawn w).
Proof.
  intros Hi Htool Hc Hp Hout Hpass Htail. cbn zeta.
  unfold call_tool. rewrite Hi, Htool. cbn [negb orb]. cbv iota.
  unfold try_except, bind, new_uuid.
  fold (tools_call_request (uuid4 rt (uuids_drawn w)) tool_name arguments).
  set (request := tools_call_request (uuid4 rt (uuids_drawn w)) tool_name arguments).
  set (w1 := set_uuids_drawn (S (uuids_drawn w)) w).
  assert (Hp1 : procs w1 !! pid = Some p) by exact Hp.
  assert (Hpass1 : Forall (passes_by (get_or_none "id" request)) incoming) by exact Hpass.
  destruct Htail as [-> | (line & rest & e & -> & Hbad)].
  - rewrite app_nil_r in Hout.
    rewrite (send_request_end c pid request incoming w1 p Hc Hp1 Hout Hpass1).
    unfold ret, stdin_of. cbn [fst snd].
    rewrite (with_proc_lookup _ _ _ _ Hp1). now split.
  - rewrite (send_request_garbled c pid request incoming line rest e w1 p
               Hc Hp1 Hout Hpass1 Hbad).
    unfold ret, stdin_of, logger, modify. cbn [fst snd].
    change (procs (set_log ?l ?w0)) with (procs w0).
    rewrite (with_proc_lookup _ _ _ _ Hp1). now split.
Qed.

Lemma call_tool_no_response_witness :
  fst (call_tool no_server_runtime session_connection "add" add_arguments
         (session_world [demo_line (JObj roots_list_request)]))
    = Ret (false, "No response from server")
  /\ fst (call_tool no_server_runtime session_connection "add" add_arguments
            (session_world ["Traceback (most recent call last):"; "later"]))
     = Ret (false, "No response from server").
Proof.
  split.
  - refine (proj1 (call_tool_no_response no_server_runtime session_connection "add"
                     add_arguments (session_world [demo_line (JObj roots_list_request)]) 0
                     {| stdout := [demo_line (JObj roots_list_request)]; stdin := [];
                        sigterm_ignored := false; state := Running |}
                     [(demo_line (JObj roots_list_request), roots_list_request)] []
                     eq_refl eq_refl eq_refl eq_refl eq_refl _ (or_introl eq_refl))).
    apply List.Forall_cons; [| apply List.Forall_nil].
    split; [vm_compute; reflexivity | left; reflexivity].
  - refine (proj1 (call_tool_no_response no_server_runtime session_connection "add"
                     add_arguments
                     (session_world ["Traceback (most recent call last):"; "later"]) 0
                     {| stdout := ["Traceback (most recent call last):"; "later"];
                        stdin := []; sigterm_ignored := false; state := Running |}
                     [] ["Traceback (most recent call last):"; "later"]
                     eq_refl eq_refl eq_refl eq_refl eq_refl (List.Forall_nil _) _)).
    right. exists "Traceback (most recent call last):", ["later"],
                 (JSONDecodeError (strip "Traceback (most recent call last):")).
    split; [reflexivity |].
    apply unreadable_text; [discriminate | vm_compute; reflexivity].
Defined.

Lemma send_request_unreadable_line_witness :
  let done := _send_request session_connection add_request
                (session_world [demo_line (JObj roots_list_request);
                                demo_line (JArr [JNum 1]);
                                demo_line (JObj add_response)]) in
  fst done = Ret None
  /\ stdout_of 0 (snd done) = [demo_line (JObj add_response)]
  /\ stdin_of 0 (snd done)
     = [demo_line (JObj add_request); demo_line (roots_reply (JNum 7))].
Proof.
  intros done.
  destruct (send_request_unreadable_line session_connection 0 add_request
              (session_world [demo_line (JObj roots_list_request);
                              demo_line (JArr [JNum 1]);
                              demo_line (JObj add_response)])
              {| stdout := [demo_line (JObj roots_list_request);
                            demo_line (JArr [JNum 1]);
                            demo_line (JObj add_response)];
                 stdin := []; sigterm_ignored := false; state := Running |}
              [(demo_line (JObj roots_list_request), roots_list_request)]
              (demo_line (JArr [JNum 1])) [demo_line (JObj add_response)]
              (AttributeError (JArr [JNum 1]) "get")
              eq_refl eq_refl eq_refl)
    as (H1 & H2 & H3 & _).
  - apply List.Forall_cons; [| apply List.Forall_nil].
    split; [vm_compute; reflexivity | left; reflexivity].
  - apply unreadable_value; [vm_compute; reflexivity | discriminate].
  - unfold done. split; [exact H1 |]. split; [exact H2 |]. rewrite H3.
    vm_compute. reflexivity.
Defined.

Lemma read_resource_cases_witness :
  fst (read_resource no_server_runtime resource_connection "file:///notes.txt"
         ([], session_world [demo_line (JObj contents_response)]))
    = Ret (true, "remember")
  /\ read_resource no_server_runtime resource_connection "file:///other.txt"
       ([], session_world [demo_line (JObj contents_response)])
     = (Ret (false, "Resource file:///other.txt not available on server alpha"),
        ([], session_world [demo_line (JObj contents_response)])).
Proof.
  split.
  - erewrite read_resource_cases; [reflexivity |].
    eapply (read_answered no_server_runtime resource_connection "file:///notes.txt"
              ([], session_world [demo_line (JObj contents_response)])
              contents_response
              (snd (_send_request resource_connection
                      (resources_read_request (demo_uuid 0) "file:///notes.txt")
                      (set_uuids_drawn 1
                         (session_world [demo_line (JObj contents_response)]))))
              (true, join newline ["remember"])).
    + reflexivity.
    + reflexivity.
    + vm_compute. reflexivity.
    + eapply (resource_contents contents_response); [reflexivity .. |].
      eapply selects_text; [reflexivity | reflexivity |].
      eapply selects_skip; [reflexivity | apply selects_nil].
  - apply read_resource_cases. apply read_refused. right. reflexivity.
Defined.

(** ** The handshake *)

(** the provider of a new connection, as [Popen] files it *)
Lemma spawned_lookup w p1 n :
  procs (set_uuids_drawn n (set_procs (procs w ++ [p1]) w)) !! List.length (procs w)
  = Some p1.
Proof. cbn [procs set_uuids_drawn set_procs]. now apply list_lookup_middle. Qed.

Lemma connect_refused rt cfg w ch response w3 :
  MCPServerConfig.transport cfg = STDIO ->
  popen rt (List.length (procs w))
        (MCPServerConfig.command cfg :: MCPServerConfig.args cfg)
        (match MCPServerConfig.env cfg with
         | [] => None
         | _ => Some (dict_update (os_environ rt) (MCPServerConfig.env cfg))
         end) = Some ch ->
  _send_request (set_process (Some (List.length (procs w))) (MCPServerConnection.new cfg))
    (init_request (uuid4 rt (uuids_drawn w)))
    (set_uuids_drawn (S (uuids_drawn w))
       (set_procs (procs w ++ [{| stdout := output ch; stdin := [];
                                  sigterm_ignored := ignores_sigterm ch;
                                  state := Running |}]) w))
    = (Ret response, w3) ->
  initialize_refused response = Ret true ->
  connect rt (MCPServerConnection.new cfg, w) =
  (Ret false,
   (set_process (Some (List.length (procs w))) (MCPServerConnection.new cfg),
    snd (logger (LogInitializeFailed (MCPServerConfig.name cfg) response) w3))).
Proof.
  intros Htr Hpopen Hsend Hrefused.
  unfold connect, bind at 1, bind at 1, get_state, ret. cbn [fst snd config
    MCPServerConnection.new]. rewrite Htr.
  unfold _connect_stdio, try_except.
  unfold bind at 1, bind at 1, get_state, ret. cbn [fst snd config MCPServerConnection.new].
  unfold bind at 1, in_world, Popen. cbn [fst snd]. rewrite Hpopen.
  unfold bind at 1, modify. cbn [fst snd].
  unfold bind at 1, bind at 1, get_state, ret. cbn [fst snd].
  unfold bind at 1, in_world, new_uuid. cbn [fst snd uuids_drawn set_procs].
  unfold bind at 1. cbn [fst snd]. rewrite Hsend.
  unfold bind at 1, lift. rewrite Hrefused.
  unfold bind, in_world, ret. cbn [fst snd]. reflexivity.
Qed.

(** X18.  A provider that starts and answers [initialize] with an error
    makes [connect] answer [False]; the connection stays uninitialized, yet
    it keeps the handle of the process, which [connect] does not terminate:
    the process has been sent the [initialize] request and nothing else, and
    the client sends it no signal until [disconnect] ends it. *)
Theorem refused_handshake_keeps_process (rt : runtime) (cfg : MCPServerConfig.t)
    (w : world) (ch : child) :
  MCPServerConfig.transport cfg = STDIO ->
  popen rt (List.length (procs w))
        (MCPServerConfig.command cfg :: MCPServerConfig.args cfg)
        (match MCPServerConfig.env cfg with
         | [] => None
         | _ => Some (dict_update (os_environ rt) (MCPServerConfig.env cfg))
         end) = Some ch ->
  (exists line rest members,
      output ch = line :: rest /\
      Json.loads (strip line) = Json.Loaded (JObj members) /\
      is_server_request members = false /\
      py_eq (get_or_none "id" members) (JStr (uuid4 rt (uuids_drawn w))) = true /\
      dict_contains "error" members = true) ->
  let pid := List.length (procs w) in
  let done := connect rt (MCPServerConnection.new cfg, w) in
  fst done = Ret false
  /\ fst (snd done) = set_process (Some pid) (MCPServerConnection.new cfg)
  /\ alive pid (snd (snd done)) = true
  /\ stdin_of pid (snd (snd done))
     = [Json.dumps (JObj (init_request (uuid4 rt (uuids_drawn w)))) +:+ newline]
  /\ (forall q, q < pid -> procs (snd (snd done)) !! q = procs w !! q)
  /\ alive pid (snd (snd (disconnect (snd done)))) = false.
Proof.
  intros Htr Hpopen Hout. cbn zeta.
  set (pid := List.length (procs w)).
  set (c1 := set_process (Some pid) (MCPServerConnection.new cfg)).
  set (p1 := {| stdout := output ch; stdin := []; sigterm_ignored := ignores_sigterm ch;
                state := Running |}).
  set (w2 := set_uuids_drawn (S (uuids_drawn w)) (set_procs (procs w ++ [p1]) w)).
  assert (Hp1 : procs w2 !! pid = Some p1) by apply spawned_lookup.
  assert (Hold : forall p' q, q < pid -> procs (with_proc pid p' w2) !! q = procs w !! q).
  { intros p' q Hq. unfold with_proc, w2. cbn [procs set_uuids_drawn set_procs].
    rewrite list_lookup_insert_ne by lia. now apply lookup_app_l. }
  assert (Hrun : exists response unread,
             _send_request c1 (init_request (uuid4 rt (uuids_drawn w))) w2
             = (Ret response,
                with_proc pid
                  (proc_after p1 unread
                     [Json.dumps (JObj (init_request (uuid4 rt (uuids_drawn w))))
                      +:+ newline]) w2)
             /\ initialize_refused response = Ret true).
  { destruct Hout as (line & rest & members & Hline & Hload & Hnot & Hid & Herr).
    exists (Some (JObj members)), rest. split.
    - exact (send_request_answered c1 pid (init_request (uuid4 rt (uuids_drawn w))) []
               line members rest w2 p1 eq_refl Hp1 Hline (List.Forall_nil _) Hload Hnot
               Hid).
    - cbn [initialize_refused py_in]. rewrite Herr.
      destruct members; [discriminate Herr | reflexivity]. }
  destruct Hrun as (response & unread & Hsend & Hrefused).
  rewrite (connect_refused rt cfg w ch response _ Htr Hpopen Hsend Hrefused).
  cbn [fst snd]. unfold logger, modify. cbn [snd].
  split; [reflexivity |]. split; [reflexivity |].
  unfold alive, stdin_of. change (procs (set_log ?l ?w0)) with (procs w0).
  rewrite (with_proc_lookup _ _ _ _ Hp1). cbn [proc_after state stdin p1 app].
  split; [reflexivity |]. split; [reflexivity |]. split; [intros q Hq; now apply Hold |].
  rewrite disconnect_run. cbn [snd process set_process MCPServerConnection.new]. apply alive_reap.
Qed.

Lemma refused_handshake_keeps_process_witness :
  let rt := demo_runtime (fun _ =>
              Some {| output := [demo_reply 0 [("error", JObj [("code", JNum (-32600));
                                                               ("message", JStr "no")])]];
                      ignores_sigterm := false |}) in
  let done := connect rt (MCPServerConnection.new (demo_config "alpha" "run-alpha"),
                          empty_world) in
  fst done = Ret false /\ alive 0 (snd (snd done)) = true
  /\ process (fst (snd done)) = Some 0 /\ _initialized (fst (snd done)) = false.
Proof.
  intros rt done.
  destruct (refused_handshake_keeps_process rt (demo_config "alpha" "run-alpha") empty_world
              {| output := [demo_reply 0 [("error", JObj [("code", JNum (-32600));
                                                          ("message", JStr "no")])]];
                 ignores_sigterm := false |} eq_refl eq_refl)
    as (H1 & H2 & H3 & _).
  - eexists _, _, _. split; [reflexivity |].
    split; [vm_compute; reflexivity |]. split; [reflexivity |]. split; reflexivity.
  - unfold done. split; [exact H1 |]. split; [exact H3 |]. rewrite H2. split; reflexivity.
Defined.

(** ** Transports other than STDIO *)

Lemma connect_unsupported rt c w :
  MCPServerConfig.transport (config c) <> STDIO ->
  connect rt (c, w) =
  (Ret false,
   (c, snd (logger (LogTransportNotImplemented (MCPServerConfig.transport (config c))) w))).
Proof.
  intros Htr. unfold connect, bind at 1, bind at 1, get_state, ret. cbn [fst snd].
  destruct (MCPServerConfig.transport (config c)); [now contradiction Htr | reflexivity ..].
Qed.

Lemma gather_unsupported rt tasks :
  forall w connections results w',
    DynamicMCPClient.gather rt tasks w = (Ret (connections, results), w') ->
    forall k c, In (k, c) tasks ->
                MCPServerConfig.transport (config c) <> STDIO ->
                In (k, c) connections.
Proof.
  induction tasks as [|[k0 c0] tasks IH]; intros w connections results w' Hg k c Hin Htr;
    [destruct Hin |].
  cbn [DynamicMCPClient.gather] in Hg.
  destruct (try_except (DynamicMCPClient._connect_server rt) (fun _ => ret false) (c0, w))
    as [[b|e|] [c0' w1]] eqn:Hconn; try discriminate Hg.
  unfold bind in Hg.
  destruct (DynamicMCPClient.gather rt tasks w1) as [[[conns rs]|e|] w2] eqn:Hrest;
    try discriminate Hg.
  unfold ret in Hg. cbn [fst snd] in Hg. injection Hg as <- <- <-.
  destruct Hin as [[= <- <-] | Hin].
  - left. unfold try_except, DynamicMCPClient._connect_server in Hconn.
    rewrite (connect_unsupported rt c0 w Htr) in Hconn. now injection Hconn as _ <- _.
  - right. exact (IH _ _ _ _ Hrest k c Hin Htr).
Qed.

(** X19.  A server whose transport is SSE or HTTP is recorded by
    [initialize] but never connected: whatever the runtime, its connection
    is left as it was constructed, with no process, no tool, no resource and
    the flag unset, so nothing in the catalog comes from it. *)
Theorem unsupported_transport_never_connects (rt : runtime) (m : MCPConfigManager.t)
    (w00 : world) (r0 : DynamicMCPClient.t) (w0 : world)
    (o : outcome bool) (r : DynamicMCPClient.t) (w : world)
    (key : string) (cfg : MCPServerConfig.t) :
  DynamicMCPClient.new m w00 = (Ret r0, w0) ->
  DynamicMCPClient.initialize rt (r0, w0) = (o, (r, w)) ->
  o <> Unmodelled ->
  dict_get key (MCPConfigManager.get_enabled_servers m) = Some cfg ->
  MCPServerConfig.transport cfg <> STDIO ->
  dict_get key (DynamicMCPClient.server_connections r) = Some (MCPServerConnection.new cfg)
  /\ (forall w1,
        fst (connect rt (MCPServerConnection.new cfg, w1)) = Ret false /\
        procs (snd (snd (connect rt (MCPServerConnection.new cfg, w1)))) = procs w1).
Proof.
  intros Hnew Hinit Ho Hkey Htr.
  destruct (new_registry m w00 r0 w0 Hnew) as (Hm & Hconn0 & _).
  destruct (initialize_completed rt r0 w0 o r w Hinit Ho)
    as (connections & results & w1 & Hg & Hsettled & _ & _ & Hr & _).
  rewrite Hm in Hg, Hsettled.
  assert (Hkeys : dict_keys connections
                  = dict_keys (MCPConfigManager.get_enabled_servers m)).
  { rewrite (settled_keys _ _ _ Hsettled). apply connection_tasks_keys. }
  assert (Hwf : dict_wf connections).
  { unfold dict_wf. rewrite Hkeys. apply dict_wf_of_pairs. }
  assert (Hconns : DynamicMCPClient.server_connections r = connections).
  { rewrite Hr. unfold initialized_registry. cbn. rewrite Hconn0.
    now apply dict_of_pairs_wf. }
  split.
  - rewrite Hconns. apply (In_dict_get _ _ _ Hwf).
    apply (gather_unsupported rt _ _ _ _ _ Hg); [| exact Htr].
    unfold connection_tasks. apply in_map_iff. exists (key, cfg).
    split; [reflexivity | now apply dict_get_In].
  - intros w1'. rewrite (connect_unsupported rt (MCPServerConnection.new cfg) w1' Htr).
    split; reflexivity.
Qed.

Lemma unsupported_transport_never_connects_witness :
  let remote := MCPServerConfig.mk "remote" "" [] [] SSE (Some "http://host/sse") true None in
  let m := MCPConfigManager.mk "mcp_config.json"
             [("alpha", demo_config "alpha" "run-alpha"); ("remote", remote)] in
  let start := DynamicMCPClient.new m empty_world in
  let r0 := match fst start with
            | Ret r0 => r0
            | _ => DynamicMCPClient.mk m [] 0 0 false
            end in
  let done := DynamicMCPClient.initialize three_servers_runtime (r0, snd start) in
  fst done = Ret true
  /\ dict_get "remote" (DynamicMCPClient.server_connections (fst (snd done)))
     = Some (MCPServerConnection.new remote).
Proof.
  intros remote m start r0 done.
  assert (Hdone : fst done = Ret true) by (vm_compute; reflexivity).
  split; [exact Hdone |].
  refine (proj1 (unsupported_transport_never_connects three_servers_runtime m empty_world
                   r0 (snd start) (fst done) (fst (snd done)) (snd (snd done))
                   "remote" remote eq_refl _ _ eq_refl _)).
  - unfold done. now destruct (DynamicMCPClient.initialize _ _) as [? [? ?]].
  - rewrite Hdone. discriminate.
  - discriminate.
Defined.

(** ** No exception leaves the client *)

Lemma try_except_caught {S A} (m : M S A) (h : py_exn -> M S A) s :
  (forall e s', exists a, fst (h e s') = Ret a) ->
  forall e, fst (try_except m h s) <> Raise e.
Proof.
  intros Hh e. unfold try_except. destruct (m s) as [[a|e'|] s'] eqn:Hm;
    cbn [fst]; try discriminate.
  destruct (Hh e' s') as [a Ha]. rewrite Ha. discriminate.
Qed.

Lemma send_request_no_raise c request w e : fst (_send_request c request w) <> Raise e.
Proof.
  pose proof (send_request_post c request w) as H. unfold post in H.
  destruct H as (_ & Hne & _). apply Hne.
Qed.

Lemma call_tool_no_raise rt c tool_name arguments w e :
  fst (call_tool rt c tool_name arguments w) <> Raise e.
Proof.
  unfold call_tool.
  destruct (negb (_initialized c) || negb (dict_contains tool_name (tools c)));
    [discriminate |].
  apply try_except_caught. intros e' s'. eexists. reflexivity.
Qed.

Lemma read_resource_no_raise rt c resource_uri lw e :
  fst (read_resource rt c resource_uri lw) <> Raise e.
Proof.
  unfold read_resource.
  destruct (negb (_initialized c) || negb (dict_contains resource_uri (resources c)));
    [discriminate |].
  apply try_except_caught. intros e' s'. eexists. reflexivity.
Qed.

(** X20.  No exception leaves [_send_request], [call_tool], [read_resource],
    [execute_tool] or the registry's [read_resource], whatever the
    connection, the arguments and the provider's output: a failure is turned
    into [None] or into a pair whose first component is [False]. *)
Theorem no_exception_escapes (rt : runtime) (e : py_exn) :
  (forall c request w, fst (_send_request c request w) <> Raise e)
  /\ (forall c tool_name arguments w, fst (call_tool rt c tool_name arguments w) <> Raise e)
  /\ (forall c resource_uri lw, fst (read_resource rt c resource_uri lw) <> Raise e)
  /\ (forall tool_name parameters rw,
        fst (DynamicMCPClient.execute_tool rt tool_name parameters rw) <> Raise e)
  /\ (forall resource_uri rlw,
        fst (DynamicMCPClient.read_resource rt resource_uri rlw) <> Raise e).
Proof.
  split; [intros; apply send_request_no_raise |].
  split; [intros; apply call_tool_no_raise |].
  split; [intros; apply read_resource_no_raise |].
  split.
  - intros tool_name parameters [r w].
    unfold DynamicMCPClient.execute_tool, bind, get_state, ret. cbn [fst snd].
    destruct (dict_get tool_name _) as [tool|]; [| discriminate].
    destruct (dict_get (tool_server_name tool) _) as [connection|]; [| discriminate].
    destruct (_initialized connection); [| discriminate].
    unfold in_world. cbn [fst snd].
    pose proof (call_tool_no_raise rt connection tool_name parameters w e) as H.
    destruct (call_tool rt connection tool_name parameters w) as [o w']. exact H.
  - intros resource_uri [r lw].
    unfold DynamicMCPClient.read_resource, bind, get_state, ret. cbn [fst snd].
    destruct (dict_get resource_uri _) as [resource|]; [| discriminate].
    destruct (dict_get (resource_server_name resource) _) as [connection|]; [| discriminate].
    destruct (_initialized connection); [| discriminate].
    unfold in_snd. cbn [fst snd].
    pose proof (read_resource_no_raise rt connection resource_uri lw e) as H.
    destruct (read_resource rt connection resource_uri lw) as [o lw']. exact H.
Qed.

(** ** Reading a resource through the registry *)

(** X21.  The registry's [read_resource] reports a URI that is not in the
    aggregated catalog as not found, and the owning server as not connected
    when no connection is recorded under the resource's server name or the
    connection is not initialized; in both cases nothing is sent or logged.
    Otherwise it hands back whatever the connection's [read_resource]
    produces. *)
Theorem registry_read_resource_spec (rt : runtime) (resource_uri : string)
    (r : DynamicMCPClient.t) (l : list read_log_record) (w : world) :
  let catalog := resources_at (DynamicMCPClient.available_resources r) w in
  let connections := DynamicMCPClient.server_connections r in
  (dict_get resource_uri catalog = None ->
   DynamicMCPClient.read_resource rt resource_uri (r, (l, w)) =
   (Ret (false, "Resource " +:+ resource_uri +:+ " not found"), (r, (l, w))))
  /\ (forall resource,
        dict_get resource_uri catalog = Some resource ->
        dict_get (resource_server_name resource) connections = None \/
        (exists connection,
            dict_get (resource_server_name resource) connections = Some connection /\
            _initialized connection = false) ->
        DynamicMCPClient.read_resource rt resource_uri (r, (l, w)) =
        (Ret (false, "Server " +:+ resource_server_name resource +:+ " not connected"),
         (r, (l, w))))
  /\ (forall resource connection,
        dict_get resource_uri catalog = Some resource ->
        dict_get (resource_server_name resource) connections = Some connection ->
        _initialized connection = true ->
        DynamicMCPClient.read_resource rt resource_uri (r, (l, w)) =
        (fst (read_resource rt connection resource_uri (l, w)),
         (r, snd (read_resource rt connection resource_uri (l, w))))).
Proof.
  intros catalog connections.
  unfold DynamicMCPClient.read_resource, bind, get_state, ret. cbn [fst snd].
  fold catalog connections.
  split; [| split].
  - intros ->. reflexivity.
  - intros resource -> [-> | [connection [-> ->]]]; reflexivity.
  - intros resource connection -> -> ->. unfold in_snd. cbn [fst snd].
    now destruct (read_resource rt connection resource_uri (l, w)).
Qed.

(** ** Edge cases of [has_capability] *)

Lemma substring_of_empty s : substring_of EmptyString s = true.
Proof. destruct s; reflexivity. Qed.

(** X22.  With no tool in the catalog [has_capability] is false for every
    topic, the known ones included; with at least one tool it is true for
    the empty topic, since the empty string occurs in every tool name. *)
Theorem has_capability_edges (r : DynamicMCPClient.t) (w : world) :
  (tools_at (DynamicMCPClient.available_tools r) w = [] ->
   forall capability, DynamicMCPClient.has_capability r w capability = false)
  /\ (tools_at (DynamicMCPClient.available_tools r) w <> [] ->
      DynamicMCPClient.has_capability r w EmptyString = true).
Proof.
  unfold DynamicMCPClient.has_capability, DynamicMCPClient.has_capability_of. split.
  - intros -> capability. cbn [dict_keys map existsb].
    now destruct (dict_get (lower capability) DynamicMCPClient.capability_patterns).
  - intros Hne. destruct (tools_at (DynamicMCPClient.available_tools r) w) as [|[k t] d];
      [now contradiction Hne |].
    cbn [lower dict_keys map fst existsb dict_get DynamicMCPClient.capability_patterns].
    rewrite substring_of_empty. reflexivity.
Qed.

(** ** Routing when every server is filed under its own name *)

Lemma settled_members tasks connections results :
  settled tasks connections results ->
  forall k c, In (k, c) connections ->
              tools_ok c /\ exists c0, In (k, c0) tasks /\ config c = config c0.
Proof.
  induction 1 as [|name c0 c b tasks connections results Hcfg Hok _ _ IH];
    intros k c' Hin; [destruct Hin |].
  destruct Hin as [[= <- <-] | Hin].
  - split; [exact Hok |]. exists c0. split; [now left | exact Hcfg].
  - destruct (IH k c' Hin) as (Hok' & c1 & Hin1 & Hcfg1).
    split; [exact Hok' |]. exists c1. split; [now right | exact Hcfg1].
Qed.

(** X23.  When every enabled server is filed under a key equal to its
    configured name, every tool of the catalog that [initialize] builds on a
    new registry is routed: the connection recorded under the tool's server
    name exists, is initialized and holds a tool of that name, and
    [execute_tool] hands the call to that connection's [call_tool]. *)
Theorem routing_under_own_names (rt : runtime) (m : MCPConfigManager.t)
    (w00 : world) (r0 : DynamicMCPClient.t) (w0 : world)
    (o : outcome bool) (r : DynamicMCPClient.t) (w : world)
    (name : string) (tool : MCPTool) :
  DynamicMCPClient.new m w00 = (Ret r0, w0) ->
  DynamicMCPClient.initialize rt (r0, w0) = (o, (r, w)) ->
  o <> Unmodelled ->
  Forall (fun kv => fst kv = MCPServerConfig.name (snd kv))
         (MCPConfigManager.get_enabled_servers m) ->
  dict_get name (tools_at (DynamicMCPClient.available_tools r) w) = Some tool ->
  exists connection,
    dict_get (tool_server_name tool) (DynamicMCPClient.server_connections r)
      = Some connection
    /\ _initialized connection = true
    /\ In (name, tool) (tools connection)
    /\ forall parameters,
         DynamicMCPClient.execute_tool rt name parameters (r, w) =
         (fst (call_tool rt connection name parameters w),
          (r, snd (call_tool rt connection name parameters w))).
Proof.
  intros Hnew Hinit Ho Hnames Htool.
  destruct (new_registry m w00 r0 w0 Hnew) as (Hm & Hconn0 & _ & Href & _ & Hempty & _).
  destruct (initialize_first rt r0 w0 o r w Hconn0 Hinit Ho)
    as (results & Hsettled & _ & _ & Hat & _ & _ & _ & _ & _ & Hcatalog & _).
  rewrite Hm in Hsettled. rewrite Hat in Htool. rewrite Hcatalog in Htool.
  destruct (decide (DynamicMCPClient.available_tools r0 < List.length (tool_dicts w0)));
    [| contradiction].
  rewrite Hempty in Htool.
  destruct (aggregate_tools_origin _ _ _ _ Htool) as [Habs | (c & Hc & Hi & Hin)];
    [discriminate Habs |].
  unfold dict_values in Hc. apply in_map_iff in Hc as ([k c'] & Heq & Hkc).
  cbn [snd] in Heq. subst c'.
  destruct (settled_members _ _ _ Hsettled k c Hkc) as (Hok & c0 & Hin0 & Hcfg).
  unfold connection_tasks in Hin0. apply in_map_iff in Hin0 as ([k' cfg] & Heq & Hcfg').
  cbn [fst snd] in Heq. injection Heq as -> <-.
  assert (Hk : k = MCPServerConfig.name cfg).
  { rewrite List.Forall_forall in Hnames. exact (Hnames (k, cfg) Hcfg'). }
  assert (Hserver : tool_server_name tool = k).
  { unfold tools_ok in Hok. rewrite List.Forall_forall in Hok.
    destruct (Hok (name, tool) Hin) as [_ Hs]. cbn [snd] in Hs. rewrite Hs.
    unfold server_name. rewrite Hcfg. cbn [config MCPServerConnection.new]. now rewrite Hk. }
  assert (Hwf : dict_wf (DynamicMCPClient.server_connections r)).
  { unfold dict_wf. rewrite (settled_keys _ _ _ Hsettled), connection_tasks_keys.
    apply dict_wf_of_pairs. }
  assert (Hget : dict_get (tool_server_name tool) (DynamicMCPClient.server_connections r)
                 = Some c).
  { rewrite Hserver. now apply In_dict_get. }
  exists c. split; [exact Hget |]. split; [exact Hi |]. split; [exact Hin |].
  intros parameters.
  unfold DynamicMCPClient.execute_tool, bind, get_state, ret. cbn [fst snd].
  rewrite Hat, Hcatalog, Hempty, Htool, Hget, Hi. unfold in_world. cbn [fst snd].
  now destruct (call_tool rt c name parameters w).
Qed.

Lemma routing_under_own_names_witness :
  let start := DynamicMCPClient.new three_servers empty_world in
  let r0 := match fst start with
            | Ret r0 => r0
            | _ => DynamicMCPClient.mk three_servers [] 0 0 false
            end in
  let done := DynamicMCPClient.initialize three_servers_runtime (r0, snd start) in
  exists connection,
    dict_get "alpha" (DynamicMCPClient.server_connections (fst (snd done)))
      = Some connection
    /\ _initialized connection = true.
Proof.
  intros start r0 done.
  assert (Hdone : fst done = Ret true) by (vm_compute; reflexivity).
  assert (Htool : dict_get "add"
                    (tools_at (DynamicMCPClient.available_tools (fst (snd done)))
                              (snd (snd done)))
                  = Some {| tool_name := "add"; tool_description := JStr "the add tool";
                            inputSchema := JObj [("type", JStr "object")];
                            tool_server_name := "alpha" |})
    by (vm_compute; reflexivity).
  destruct (routing_under_own_names three_servers_runtime three_servers empty_world
              r0 (snd start) (fst done) (fst (snd done)) (snd (snd done)) "add"
              {| tool_name := "add"; tool_description := JStr "the add tool";
                 inputSchema := JObj [("type", JStr "object")];
                 tool_server_name := "alpha" |} eq_refl)
    as (connection & Hget & Hi & _).
  - unfold done. now destruct (DynamicMCPClient.initialize _ _) as [? [? ?]].
  - rewrite Hdone. discriminate.
  - repeat apply List.Forall_cons; try apply List.Forall_nil; reflexivity.
  - exact Htool.
  - exists connection. split; [exact Hget | exact Hi].
Defined.

(** ** After [cleanup] *)

Lemma cleanup_run r w :
  exists connections' w1,
    DynamicMCPClient.disconnect_each (DynamicMCPClient.server_connections r) w
      = (Ret connections', w1)
    /\ DynamicMCPClient.cleanup (r, w) =
       (Ret tt,
        (DynamicMCPClient.set_initialized false
           (DynamicMCPClient.set_server_connections [] r),
         snd (logger LogClientDisconnected
                (set_resource_dicts
                   (<[DynamicMCPClient.available_resources r := []]> (resource_dicts w1))
                   (set_tool_dicts
                      (<[DynamicMCPClient.available_tools r := []]> (tool_dicts w1)) w1))))).
Proof.
  destruct (disconnect_each_run (DynamicMCPClient.server_connections r) w)
    as (cs' & w1 & Hrun & _).
  exists cs', w1. split; [exact Hrun |].
  unfold DynamicMCPClient.cleanup, bind, get_state, ret, modify, in_world. cbn [fst snd].
  rewrite Hrun. reflexivity.
Qed.

(** X24.  After [cleanup] the registry routes nothing and knows no topic:
    [execute_tool] reports every tool as not found and [has_capability] is
    false for every topic.  It is not closed for good: the flag is unset, so
    the next call of a getter runs [initialize] once more. *)
Theorem cleanup_then_use (rt : runtime) (r : DynamicMCPClient.t) (w : world) :
  let done := DynamicMCPClient.cleanup (r, w) in
  let r' := fst (snd done) in
  let w' := snd (snd done) in
  fst done = Ret tt
  /\ (forall tool_name parameters,
        DynamicMCPClient.execute_tool rt tool_name parameters (r', w') =
        (Ret (false, "Tool " +:+ tool_name +:+ " not found"), (r', w')))
  /\ (forall capability, DynamicMCPClient.has_capability r' w' capability = false)
  /\ (forall o r2 w2,
        DynamicMCPClient.get_available_tools rt (r', w') = (o, (r2, w2)) ->
        o <> Unmodelled ->
        DynamicMCPClient._initialized r2 = true /\
        initialize_runs w2 = S (initialize_runs w')).
Proof.
  cbn zeta. destruct (cleanup_run r w) as (cs' & w1 & _ & ->). cbn [fst snd].
  set (r' := DynamicMCPClient.set_initialized false
               (DynamicMCPClient.set_server_connections [] r)).
  set (w' := snd (logger LogClientDisconnected _)).
  assert (Hcatalog : tools_at (DynamicMCPClient.available_tools r') w' = []).
  { unfold tools_at, w', r', logger, modify. cbn.
    destruct (decide (DynamicMCPClient.available_tools r < List.length (tool_dicts w1))).
    - now rewrite list_lookup_insert_eq.
    - rewrite list_insert_ge by lia. now rewrite lookup_ge_None_2 by lia. }
  split; [reflexivity |]. split; [| split].
  - intros tool_name parameters. apply execute_tool_unknown. now rewrite Hcatalog.
  - intros capability.
    unfold DynamicMCPClient.has_capability, DynamicMCPClient.has_capability_of.
    rewrite Hcatalog. cbn [dict_keys map existsb].
    now destruct (dict_get (lower capability) DynamicMCPClient.capability_patterns).
  - intros o r2 w2 Hget Ho.
    rewrite (get_available_tools_lazy rt r' w' eq_refl) in Hget.
    destruct (DynamicMCPClient.initialize rt (r', w')) as [o1 [r1 w3]] eqn:Hinit.
    destruct o1 as [b|e|].
    + injection Hget as <- <- <-.
      destruct (initialize_kept rt r' w' (Ret b) r1 w3 Hinit) as (_ & Hflag & _ & _ & _ & _ & Hruns);
        [discriminate |].
      split; [exact Hflag |].
      destruct (copy_tools_kept (DynamicMCPClient.available_tools r) w3)
        as (_ & _ & Hcopy & _).
      unfold DynamicMCPClient.copy_tools in Hcopy. cbn [snd] in Hcopy.
      now rewrite Hcopy, Hruns.
    + destruct (initialize_kept rt r' w' (Raise e) r1 w3 Hinit) as ([b Hb] & _);
        [discriminate | discriminate Hb].
    + injection Hget as <- _ _. now contradiction Ho.
Qed.

(** ** A handshake that succeeds *)

Lemma for_each_add_tool entries :
  tool_entries_ok entries ->
  forall c w,
    for_each add_tool (entry_objects entries) (c, w) =
    (Ret tt,
     (set_tools (dict_update (tools c)
                   (map (fun nd => (fst nd, tool_of (server_name c) (fst nd) (snd nd)))
                        entries)) c, w)).
Proof.
  induction 1 as [|[n d] entries Hn _ IH]; intros c w.
  - cbn. now destruct c.
  - cbn [fst snd] in Hn. cbn [entry_objects map snd for_each].
    unfold bind at 1. unfold add_tool at 1.
    unfold bind at 1, lift. cbn [py_getitem]. rewrite Hn.
    unfold bind at 1. cbn [py_get]. unfold bind at 1. unfold modify.
    fold (entry_objects entries). rewrite IH.
    cbn [fst snd map tools set_tools]. rewrite dict_update_cons. reflexivity.
Qed.

Lemma for_each_add_resource entries :
  resource_entries_ok entries ->
  forall c w,
    for_each add_resource (entry_objects entries) (c, w) =
    (Ret tt,
     (set_resources (dict_update (resources c)
                       (map (fun ud => (fst ud, resource_of (server_name c) (fst ud) (snd ud)))
                            entries)) c, w)).
Proof.
  induction 1 as [|[u d] entries [Hu Hn] _ IH]; intros c w.
  - cbn. now destruct c.
  - cbn [fst snd] in Hu, Hn. cbn [entry_objects map snd for_each].
    unfold bind at 1. unfold add_resource at 1.
    unfold bind at 1, lift. cbn [py_getitem]. rewrite Hu.
    unfold bind at 1.
    destruct (dict_get "name" d) as [nm|] eqn:Hnm; [| now contradiction Hn].
    unfold bind at 1. cbn [py_get]. unfold bind at 1. unfold modify.
    fold (entry_objects entries). rewrite IH.
    cbn [fst snd map resources set_resources]. rewrite dict_update_cons.
    unfold resource_of, get_or_none. rewrite Hnm. reflexivity.
Qed.

Lemma listed_entries members result key items :
  members <> [] ->
  dict_get "result" members = Some (JObj result) ->
  dict_get key result = Some (JArr items) ->
  listed (Some (JObj members)) key = Ret items.
Proof.
  intros Hne Hres Hkey. unfold listed.
  assert (Ht : truthy (JObj members) = true) by (destruct members; [contradiction | reflexivity]).
  rewrite Ht. cbn [py_in obind]. unfold dict_contains. rewrite Hres. cbn [obind py_getitem].
  rewrite Hres. cbn [obind py_get]. rewrite Hkey. reflexivity.
Qed.

Lemma answers_request_nonempty line id members :
  answers_request line id members -> members <> [].
Proof. intros (_ & _ & Hid) ->. discriminate Hid. Qed.

Lemma send_request_next c pid id request line members rest w p :
  process c = Some pid ->
  procs w !! pid = Some p ->
  stdout p = line :: rest ->
  get_or_none "id" request = JStr id ->
  answers_request line id members ->
  _send_request c request w =
  (Ret (Some (JObj members)),
   with_proc pid (proc_after p rest [Json.dumps (JObj request) +:+ newline]) w).
Proof.
  intros Hc Hp Hout Hrid (Hload & Hnot & Hid). rewrite <- Hrid in Hid.
  exact (send_request_answered c pid request [] line members rest w p Hc Hp Hout
           (List.Forall_nil _) Hload Hnot Hid).
Qed.

(** X25.  A handshake that succeeds, step by step.  When the provider
    answers the three requests in turn, [connect] answers [True] and leaves
    the connection initialized, holding the process, one tool per entry of
    the [tools/list] result and one resource per entry of the
    [resources/list] result, each filed under its name or URI with the
    configured server name, a later entry replacing an earlier one of the
    same name.  The provider has been sent exactly four lines: [initialize],
    the [notifications/initialized] notification, [tools/list] and
    [resources/list], under three consecutive identifiers; what it printed
    after its three answers is left unread. *)
Theorem connect_handshake (rt : runtime) (cfg : MCPServerConfig.t) (w : world)
    (ch : child) (l0 l1 l2 : string) (later : list string)
    (m0 m1 m2 r1 r2 : pydict json) (tool_entries resource_entries : list (string * pydict json)) :
  MCPServerConfig.transport cfg = STDIO ->
  popen rt (List.length (procs w))
        (MCPServerConfig.command cfg :: MCPServerConfig.args cfg)
        (match MCPServerConfig.env cfg with
         | [] => None
         | _ => Some (dict_update (os_environ rt) (MCPServerConfig.env cfg))
         end) = Some ch ->
  output ch = l0 :: l1 :: l2 :: later ->
  answers_request l0 (uuid4 rt (uuids_drawn w)) m0 ->
  dict_contains "error" m0 = false ->
  answers_request l1 (uuid4 rt (S (uuids_drawn w))) m1 ->
  dict_get "result" m1 = Some (JObj r1) ->
  dict_get "tools" r1 = Some (JArr (entry_objects tool_entries)) ->
  tool_entries_ok tool_entries ->
  answers_request l2 (uuid4 rt (S (S (uuids_drawn w)))) m2 ->
  dict_get "result" m2 = Some (JObj r2) ->
  dict_get "resources" r2 = Some (JArr (entry_objects resource_entries)) ->
  resource_entries_ok resource_entries ->
  let pid := List.length (procs w) in
  let name_ := MCPServerConfig.name cfg in
  let done := connect rt (MCPServerConnection.new cfg, w) in
  fst done = Ret true
  /\ fst (snd done) =
     MCPServerConnection.mk cfg (Some pid)
       (dict_of_pairs (map (fun nd => (fst nd, tool_of name_ (fst nd) (snd nd)))
                           tool_entries))
       (dict_of_pairs (map (fun ud => (fst ud, resource_of name_ (fst ud) (snd ud)))
                           resource_entries))
       true
  /\ stdin_of pid (snd (snd done)) =
     [Json.dumps (JObj (init_request (uuid4 rt (uuids_drawn w)))) +:+ newline;
      Json.dumps (JObj [jsonrpc_member; ("method", JStr "notifications/initialized")])
        +:+ newline;
      Json.dumps (JObj [jsonrpc_member; ("id", JStr (uuid4 rt (S (uuids_drawn w))));
                        ("method", JStr "tools/list")]) +:+ newline;
      Json.dumps (JObj [jsonrpc_member; ("id", JStr (uuid4 rt (S (S (uuids_drawn w)))));
                        ("method", JStr "resources/list")]) +:+ newline]
  /\ stdout_of pid (snd (snd done)) = later
  /\ alive pid (snd (snd done)) = true
  /\ uuids_drawn (snd (snd done)) = S (S (S (uuids_drawn w)))
  /\ log (snd (snd done)) = log w ++ [LogConnected name_].
Proof.
  intros Htr Hpopen Hout H0 Herr H1 Hr1 Htools Hte H2 Hr2 Hres Hre. cbn zeta.
  set (pid := List.length (procs w)).
  set (c1 := set_process (Some pid) (MCPServerConnection.new cfg)).
  set (p1 := {| stdout := output ch; stdin := []; sigterm_ignored := ignores_sigterm ch;
                state := Running |}).
  set (w2 := set_uuids_drawn (S (uuids_drawn w)) (set_procs (procs w ++ [p1]) w)).
  assert (Hp1 : procs w2 !! pid = Some p1) by apply spawned_lookup.
  (* the initialize request *)
  pose proof (send_request_next c1 pid (uuid4 rt (uuids_drawn w))
                (init_request (uuid4 rt (uuids_drawn w))) l0 m0 (l1 :: l2 :: later)
                w2 p1 eq_refl Hp1 Hout eq_refl H0) as Hs0.
  set (line0 := Json.dumps (JObj (init_request (uuid4 rt (uuids_drawn w)))) +:+ newline)
    in *.
  set (line1 := Json.dumps (JObj [jsonrpc_member; ("method", JStr "notifications/initialized")])
                +:+ newline).
  set (line2 := Json.dumps (JObj [jsonrpc_member; ("id", JStr (uuid4 rt (S (uuids_drawn w))));
                                  ("method", JStr "tools/list")]) +:+ newline).
  set (line3 := Json.dumps (JObj [jsonrpc_member;
                                  ("id", JStr (uuid4 rt (S (S (uuids_drawn w)))));
                                  ("method", JStr "resources/list")]) +:+ newline).
  set (w3 := with_proc pid (proc_after p1 (l1 :: l2 :: later) [line0]) w2) in *.
  (* the notification *)
  set (pa := proc_after p1 (l1 :: l2 :: later) [line0; line1]).
  set (w4 := with_proc pid pa w2).
  assert (Hnotif : _send_notification c1
                     [jsonrpc_member; ("method", JStr "notifications/initialized")] w3
                   = (Ret tt, w4)).
  { unfold _send_notification. cbn [process c1 set_process]. unfold stdin_write, modify.
    assert (Hp3 : procs w3 !! pid = Some (proc_after p1 (l1 :: l2 :: later) [line0]))
      by (eapply with_proc_lookup; eauto).
    rewrite (update_proc_with_proc _ _ _ _ Hp3). unfold w3, w4. rewrite with_proc_twice.
    reflexivity. }
  (* tools/list *)
  set (w5 := set_uuids_drawn (S (S (uuids_drawn w))) w4).
  assert (Hp5 : procs w5 !! pid = Some pa) by (eapply with_proc_lookup; eauto).
  pose proof (send_request_next c1 pid (uuid4 rt (S (uuids_drawn w)))
                [jsonrpc_member; ("id", JStr (uuid4 rt (S (uuids_drawn w))));
                 ("method", JStr "tools/list")] l1 m1 (l2 :: later) w5 pa
                eq_refl Hp5 eq_refl eq_refl H1) as Hs1.
  fold line2 in Hs1.
  set (pb := proc_after pa (l2 :: later) [line2]) in *.
  set (w6 := with_proc pid pb w5) in *.
  (* resources/list *)
  set (w7 := set_uuids_drawn (S (S (S (uuids_drawn w)))) w6).
  assert (Hp7 : procs w7 !! pid = Some pb) by (eapply with_proc_lookup; eauto).
  pose proof (send_request_next c1 pid (uuid4 rt (S (S (uuids_drawn w))))
                [jsonrpc_member; ("id", JStr (uuid4 rt (S (S (uuids_drawn w)))));
                 ("method", JStr "resources/list")] l2 m2 later w7 pb
                eq_refl Hp7 eq_refl eq_refl H2) as Hs2.
  fold line3 in Hs2.
  set (pc := proc_after pb later [line3]) in *.
  set (w8 := with_proc pid pc w7) in *.
  (* the run *)
  assert (Hrun : connect rt (MCPServerConnection.new cfg, w) =
                 (Ret true,
                  (MCPServerConnection.mk cfg (Some pid)
                     (dict_of_pairs
                        (map (fun nd => (fst nd, tool_of (MCPServerConfig.name cfg)
                                                   (fst nd) (snd nd))) tool_entries))
                     (dict_of_pairs
                        (map (fun ud => (fst ud, resource_of (MCPServerConfig.name cfg)
                                                   (fst ud) (snd ud))) resource_entries))
                     true,
                   snd (logger (LogConnected (MCPServerConfig.name cfg)) w8)))).
  { unfold connect, bind at 1, bind at 1, get_state, ret. cbn [fst snd config
      MCPServerConnection.new]. rewrite Htr.
    unfold _connect_stdio, try_except.
    unfold bind at 1, bind at 1, get_state, ret. cbn [fst snd config MCPServerConnection.new].
    unfold bind at 1, in_world, Popen. cbn [fst snd]. rewrite Hpopen.
    unfold bind at 1, modify. cbn [fst snd].
    unfold bind at 1, bind at 1, get_state, ret. cbn [fst snd].
    unfold bind at 1, in_world, new_uuid. cbn [fst snd uuids_drawn set_procs].
    fold pid. fold p1. fold c1. fold w2.
    unfold bind at 1. cbn [fst snd]. rewrite Hs0.
    unfold bind at 1, lift.
    assert (Hacc : initialize_refused (Some (JObj m0)) = Ret false).
    { cbn [initialize_refused py_in]. rewrite Herr.
      pose proof (answers_request_nonempty _ _ _ H0) as Hne.
      destruct m0; [contradiction | reflexivity]. }
    rewrite Hacc.
    unfold bind at 1, in_world. cbn [fst snd]. rewrite Hnotif.
    unfold bind at 1. unfold _discover_capabilities.
    unfold bind at 1, bind at 1, get_state, ret. cbn [fst snd].
    unfold bind at 1, in_world, new_uuid. cbn [fst snd].
    change (uuids_drawn w4) with (S (uuids_drawn w)). fold w5.
    unfold bind at 1. cbn [fst snd]. rewrite Hs1.
    unfold bind at 1, lift.
    rewrite (listed_entries m1 r1 "tools" _ (answers_request_nonempty _ _ _ H1) Hr1 Htools).
    unfold bind at 1. rewrite (for_each_add_tool tool_entries Hte c1 w6).
    unfold bind at 1, in_world, new_uuid. cbn [fst snd].
    change (uuids_drawn w6) with (S (S (uuids_drawn w))). fold w7.
    unfold bind at 1. cbn [fst snd]. rewrite Hs2.
    unfold bind at 1, lift.
    rewrite (listed_entries m2 r2 "resources" _ (answers_request_nonempty _ _ _ H2) Hr2 Hres).
    rewrite (for_each_add_resource resource_entries Hre _ w8).
    unfold bind at 1, modify. cbn [fst snd].
    unfold bind at 1, in_world. cbn [fst snd]. reflexivity. }
  rewrite Hrun. cbn [fst snd]. unfold logger, modify. cbn [snd].
  split; [reflexivity |]. split; [reflexivity |].
  unfold stdin_of, stdout_of, alive. change (procs (set_log ?l ?w0)) with (procs w0).
  assert (Hp8 : procs w8 !! pid = Some pc) by (eapply with_proc_lookup; eauto).
  rewrite Hp8. repeat split; reflexivity.
Qed.

Lemma connect_handshake_witness :
  let done := connect three_servers_runtime
                (MCPServerConnection.new (demo_config "alpha" "run-alpha"), empty_world) in
  fst done = Ret true
  /\ dict_keys (tools (fst (snd done))) = ["add"; "sub"]
  /\ List.length (stdin_of 0 (snd (snd done))) = 4.
Proof.
  intros done.
  destruct (connect_handshake three_servers_runtime (demo_config "alpha" "run-alpha")
              empty_world (demo_provider 0 ["add"; "sub"] [])
              (demo_reply 0 [("result", JObj [("protocolVersion", JStr "2024-11-05")])])
              (demo_reply 1 [("result", JObj [("tools", JArr (map demo_tool ["add"; "sub"]))])])
              (demo_reply 2 [("result", JObj [("resources", JArr [])])])
              []
              [jsonrpc_member; ("id", JStr (demo_uuid 0));
               ("result", JObj [("protocolVersion", JStr "2024-11-05")])]
              [jsonrpc_member; ("id", JStr (demo_uuid 1));
               ("result", JObj [("tools", JArr (map demo_tool ["add"; "sub"]))])]
              [jsonrpc_member; ("id", JStr (demo_uuid 2));
               ("result", JObj [("resources", JArr [])])]
              [("tools", JArr (map demo_tool ["add"; "sub"]))]
              [("resources", JArr [])]
              [("add", [("name", JStr "add"); ("description", JStr "the add tool");
                        ("inputSchema", JObj [("type", JStr "object")])]);
               ("sub", [("name", JStr "sub"); ("description", JStr "the sub tool");
                        ("inputSchema", JObj [("type", JStr "object")])])]
              []
              eq_refl eq_refl eq_refl)
    as (H1 & H2 & H3 & _).
  - split; [vm_compute; reflexivity | split; reflexivity].
  - reflexivity.
  - split; [vm_compute; reflexivity | split; reflexivity].
  - reflexivity.
  - reflexivity.
  - repeat apply List.Forall_cons; try apply List.Forall_nil; reflexivity.
  - split; [vm_compute; reflexivity | split; reflexivity].
  - reflexivity.
  - reflexivity.
  - apply List.Forall_nil.
  - change (List.length (procs empty_world)) with 0 in H3.
    unfold done. split; [exact H1 |]. rewrite H2, H3. split; reflexivity.
Defined.

(** ** Running [initialize] again *)

Lemma dict_keys_update {V} (other d : pydict V) :
  exists more, dict_keys (dict_update d other) = dict_keys d ++ more.
Proof.
  revert d. induction other as [|[k v] other IH]; intros d.
  - exists []. cbn. now rewrite app_nil_r.
  - rewrite dict_update_cons. destruct (IH (dict_set k v d)) as [more Hmore].
    rewrite Hmore, dict_keys_set. destruct (dict_contains k d).
    + now exists more.
    + exists (k :: more). now rewrite <- app_assoc.
Qed.

Lemma aggregate_tools_keys connections :
  forall acc, exists more,
    dict_keys (aggregate_tools connections acc) = dict_keys acc ++ more.
Proof.
  unfold aggregate_tools.
  induction connections as [|c connections IH]; intros acc; cbn [fold_left].
  - exists []. now rewrite app_nil_r.
  - destruct (_initialized c); [| apply IH].
    destruct (IH (dict_update acc (tools c))) as [more Hmore].
    destruct (dict_keys_update (tools c) acc) as [more0 Hmore0].
    rewrite Hmore, Hmore0. exists (more0 ++ more). now rewrite app_assoc.
Qed.

Lemma dict_get_rev_None {V} k (d : pydict V) :
  dict_get k d = None -> dict_get k (rev d) = None.
Proof.
  rewrite !dict_get_None. intros H Hin. apply H.
  unfold dict_keys in *. rewrite map_rev in Hin. now apply in_rev in Hin.
Qed.

Lemma aggregate_tools_untouched connections name :
  (forall c, In c connections -> _initialized c = true -> dict_get name (tools c) = None) ->
  forall acc, dict_get name (aggregate_tools connections acc) = dict_get name acc.
Proof.
  unfold aggregate_tools.
  induction connections as [|c connections IH]; intros Hnone acc; cbn [fold_left];
    [reflexivity |].
  rewrite IH by (intros c' Hc'; apply Hnone; now right).
  destruct (_initialized c) eqn:Hi; [| reflexivity].
  rewrite dict_get_update, dict_get_rev_None; [reflexivity |].
  apply Hnone; [now left | exact Hi].
Qed.

(** X26.  Running [initialize] again only adds to the catalog: every name
    that was listed stays listed, at the same place, the new names coming
    after; and a tool that no initialized connection offers any more stays
    in the catalog exactly as it was. *)
Theorem initialize_only_adds (rt : runtime) (r : DynamicMCPClient.t) (w : world)
    (o : outcome bool) (r' : DynamicMCPClient.t) (w' : world) :
  DynamicMCPClient.initialize rt (r, w) = (o, (r', w')) ->
  o <> Unmodelled ->
  DynamicMCPClient.available_tools r < List.length (tool_dicts w) ->
  let before := tools_at (DynamicMCPClient.available_tools r) w in
  let after := tools_at (DynamicMCPClient.available_tools r') w' in
  (exists more, dict_keys after = dict_keys before ++ more)
  /\ (forall name,
        (forall key c, In (key, c) (DynamicMCPClient.server_connections r') ->
                       _initialized c = true -> dict_get name (tools c) = None) ->
        dict_get name after = dict_get name before).
Proof.
  intros Hinit Ho Href. cbn zeta.
  destruct (initialize_completed rt r w o r' w' Hinit Ho)
    as (connections & results & w1 & _ & _ & (Htd & _) & _ & Hr & Hw).
  pose proof (initialized_world_facts r connections results
                (List.length (connection_tasks (DynamicMCPClient.config_manager r))) w1)
    as (_ & _ & _ & _ & Hcat & _).
  cbn zeta in Hcat. rewrite <- Hw in Hcat.
  assert (Hat : DynamicMCPClient.available_tools r' = DynamicMCPClient.available_tools r)
    by (now rewrite Hr).
  rewrite Hat, Hcat. rewrite Htd.
  destruct (decide (DynamicMCPClient.available_tools r < List.length (tool_dicts w)));
    [| contradiction].
  assert (Hsame : tools_at (DynamicMCPClient.available_tools r) w1
                  = tools_at (DynamicMCPClient.available_tools r) w)
    by (unfold tools_at; now rewrite Htd).
  rewrite Hsame. split; [apply aggregate_tools_keys |].
  intros name Hnone. apply aggregate_tools_untouched.
  intros c Hc Hi. unfold dict_values in Hc. apply in_map_iff in Hc as ([key c'] & <- & Hkc).
  apply (Hnone key c'); [| exact Hi]. rewrite Hr. exact Hkc.
Qed.

(** ** Which processes the client touches *)

Lemma only_proc_refl pid w : only_proc pid w w.
Proof. split; [reflexivity | intros; reflexivity]. Qed.

Lemma only_proc_trans pid w1 w2 w3 :
  only_proc pid w1 w2 -> only_proc pid w2 w3 -> only_proc pid w1 w3.
Proof.
  intros [Hl1 Hq1] [Hl2 Hq2]. split; [congruence |].
  intros q Hq. now rewrite Hq2, Hq1.
Qed.

Lemma only_proc_update pid f w : only_proc pid w (update_proc pid f w).
Proof.
  unfold only_proc, update_proc. destruct (procs w !! pid) as [p|] eqn:Hp;
    [| split; [reflexivity | intros; reflexivity]].
  cbn [procs set_procs]. split; [apply length_insert |].
  intros q Hq. now apply list_lookup_insert_ne.
Qed.

Lemma only_proc_logger pid r w : only_proc pid w (snd (logger r w)).
Proof. split; [reflexivity | intros; reflexivity]. Qed.

Lemma only_proc_set_uuids pid n w : only_proc pid w (set_uuids_drawn n w).
Proof. split; [reflexivity | intros; reflexivity]. Qed.

Lemma stdout_readline_only pid w Q :
  (forall line w', only_proc pid w w' -> Q (Ret line) w') ->
  post (stdout_readline pid) w Q.
Proof.
  intros HQ. unfold post, stdout_readline.
  destruct (procs w !! pid) as [p|]; cbn [fst snd]; [| apply HQ, only_proc_refl].
  destruct (stdout p); cbn [fst snd]; [apply HQ, only_proc_refl | apply HQ, only_proc_update].
Qed.

Lemma handle_server_request_only c pid request w Q :
  process c = Some pid ->
  (forall w', only_proc pid w w' -> Q (Ret tt) w') ->
  post (_handle_server_request c request) w Q.
Proof.
  intros Hc HQ. unfold _handle_server_request. rewrite Hc.
  destruct (py_eq _ _); apply HQ; unfold stdin_write, modify; apply only_proc_update.
Qed.

Lemma await_response_only fuel c pid request_id w :
  process c = Some pid ->
  post (await_response fuel c pid request_id) w (fun _ w' => only_proc pid w w').
Proof.
  intros Hc. revert w. induction fuel as [|fuel IH]; intros w; cbn [await_response].
  - apply post_lift, only_proc_refl.
  - apply post_bind, stdout_readline_only. intros line w1 H1.
    destruct (String.eqb line EmptyString); [apply post_ret, H1 |].
    destruct (Json.loads (strip line)) as [[| | | | |members]| |];
      try (apply post_raise; exact H1); try (apply post_lift; exact H1).
    destruct (truthy _ && dict_contains _ _).
    + apply post_bind, (handle_server_request_only c pid); [exact Hc |]. intros w2 H2.
      eapply post_mono; [apply IH |]. cbv beta. intros o w3 H3.
      eauto using only_proc_trans.
    + destruct (py_eq _ _); [apply post_ret, H1 |].
      eapply post_mono; [apply IH |]. cbv beta. intros o w3 H3.
      eauto using only_proc_trans.
Qed.

Lemma send_request_only c pid request w :
  process c = Some pid ->
  post (_send_request c request) w (fun o w' => only_proc pid w w' /\ forall e, o <> Raise e).
Proof.
  intros Hc. unfold _send_request. rewrite Hc.
  apply post_try_except, post_bind. unfold stdin_write. apply post_modify.
  apply post_bind, post_get_state.
  eapply post_mono; [apply (await_response_only _ c pid), Hc |]. cbv beta.
  intros o w' H.
  assert (H0 : only_proc pid w w')
    by (eapply only_proc_trans; [apply only_proc_update | exact H]).
  destruct o as [a|e|].
  - split; [exact H0 | discriminate].
  - apply post_bind. unfold logger. apply post_modify, post_ret.
    split; [| discriminate].
    eapply only_proc_trans; [exact H0 | apply (only_proc_logger pid (LogRequestFailed _ e))].
  - split; [exact H0 | discriminate].
Qed.

Lemma send_notification_only c pid notification w :
  process c = Some pid ->
  only_proc pid w (snd (_send_notification c notification w)).
Proof.
  intros Hc. unfold _send_notification. rewrite Hc. unfold stdin_write, modify.
  apply only_proc_update.
Qed.

(** what the steps of a connection keep: its process, and every other
    process of the world *)
Lemma add_tool_only pid w0 tool_data (cw : MCPServerConnection.t * world) :
  process (fst cw) = Some pid /\ only_proc pid w0 (snd cw) ->
  post (add_tool tool_data) cw (fun _ cw' =>
    process (fst cw') = Some pid /\ only_proc pid w0 (snd cw')).
Proof.
  intros Hk. unfold add_tool.
  apply post_bind, post_lift. destruct (py_getitem tool_data "name") as [name_| |]; [| exact Hk ..].
  apply post_bind, post_lift. destruct (py_get tool_data "description" _) as [d| |]; [| exact Hk ..].
  apply post_bind, post_lift. destruct (py_get tool_data "inputSchema" _) as [sch| |]; [| exact Hk ..].
  destruct name_; try (apply post_lift; exact Hk); try (apply post_raise; exact Hk).
  apply post_modify. exact Hk.
Qed.

Lemma add_resource_only pid w0 resource_data (cw : MCPServerConnection.t * world) :
  process (fst cw) = Some pid /\ only_proc pid w0 (snd cw) ->
  post (add_resource resource_data) cw (fun _ cw' =>
    process (fst cw') = Some pid /\ only_proc pid w0 (snd cw')).
Proof.
  intros Hk. unfold add_resource.
  apply post_bind, post_lift. destruct (py_getitem resource_data "uri") as [uri_| |]; [| exact Hk ..].
  apply post_bind, post_lift. destruct (py_getitem resource_data "name") as [name_| |]; [| exact Hk ..].
  apply post_bind, post_lift. destruct (py_get resource_data "description" _) as [d| |]; [| exact Hk ..].
  apply post_bind, post_lift. destruct (py_get resource_data "mimeType" _) as [mt| |]; [| exact Hk ..].
  destruct uri_; try (apply post_lift; exact Hk); try (apply post_raise; exact Hk).
  apply post_modify. exact Hk.
Qed.

Lemma send_request_in_world_only pid w0 c request (cw : MCPServerConnection.t * world)
    (Q : outcome (option json) -> MCPServerConnection.t * world -> Prop) :
  process c = Some pid ->
  only_proc pid w0 (snd cw) ->
  (forall o w', only_proc pid w0 w' -> (forall e, o <> Raise e) -> Q o (fst cw, w')) ->
  post (in_world (_send_request c request)) cw Q.
Proof.
  intros Hc Hk HQ. apply post_in_world.
  eapply post_mono; [apply (send_request_only c pid), Hc |]. cbv beta.
  intros o w' [H Hne]. apply HQ; [| exact Hne]. eauto using only_proc_trans.
Qed.

Lemma post_new_uuid {S} rt (sw : S * world) (Q : outcome string -> S * world -> Prop) :
  Q (Ret (uuid4 rt (uuids_drawn (snd sw))))
    (fst sw, set_uuids_drawn (Datatypes.S (uuids_drawn (snd sw))) (snd sw)) ->
  post (in_world (new_uuid rt)) sw Q.
Proof. intros H. exact H. Qed.

Lemma discover_capabilities_only rt pid w0 (cw : MCPServerConnection.t * world) :
  process (fst cw) = Some pid /\ only_proc pid w0 (snd cw) ->
  post (_discover_capabilities rt) cw (fun _ cw' =>
    process (fst cw') = Some pid /\ only_proc pid w0 (snd cw')).
Proof.
  intros [Hc Hk]. unfold _discover_capabilities.
  apply post_bind, post_bind, post_get_state, post_ret.
  apply post_bind, post_new_uuid. cbn [fst snd].
  apply post_bind, (send_request_in_world_only pid w0); [exact Hc | exact Hk |].
  intros o1 w2 Hk2 Hne1. cbn [fst].
  destruct o1 as [tools_response|e|]; [| now destruct (Hne1 e) | now split].
  apply post_bind, post_lift.
  destruct (listed tools_response "tools") as [tools_data| |]; [| now split ..].
  apply post_bind.
  eapply post_mono;
    [apply (for_each_post (fun cw' => process (fst cw') = Some pid
                                      /\ only_proc pid w0 (snd cw'))); [| now split] |].
  { intros x s' Hs'. now apply add_tool_only. }
  cbv beta. intros [[]|e|] [c3 w3] Hk3; [| exact Hk3 ..].
  destruct Hk3 as [Hc3 Hk3]. cbn [fst snd] in Hc3, Hk3.
  apply post_bind, post_new_uuid. cbn [fst snd].
  apply post_bind, (send_request_in_world_only pid w0); [exact Hc | exact Hk3 |].
  intros o2 w5 Hk5 Hne2. cbn [fst].
  destruct o2 as [resources_response|e|]; [| now destruct (Hne2 e) | now split].
  apply post_bind, post_lift.
  destruct (listed resources_response "resources") as [resources_data| |]; [| now split ..].
  eapply post_mono;
    [apply (for_each_post (fun cw' => process (fst cw') = Some pid
                                      /\ only_proc pid w0 (snd cw'))); [| now split] |].
  { intros x s' Hs'. now apply add_resource_only. }
  cbv beta. auto.
Qed.

Lemma spawned_refl k w : spawned k w w.
Proof. split; [intros; reflexivity | split; lia]. Qed.

Lemma spawned_trans a b w1 w2 w3 :
  spawned a w1 w2 -> spawned b w2 w3 -> spawned (a + b) w1 w3.
Proof.
  intros (Hq1 & Hl1 & Hu1) (Hq2 & Hl2 & Hu2). split; [| split; lia].
  intros q Hq. rewrite Hq2 by lia. now apply Hq1.
Qed.

Lemma spawned_weaken a b w w' : a <= b -> spawned a w w' -> spawned b w w'.
Proof. intros Hab (Hq & Hl & Hu). split; [exact Hq | split; lia]. Qed.

Lemma only_proc_spawned w0 p1 w' :
  only_proc (List.length (procs w0)) (set_procs (procs w0 ++ [p1]) w0) w' ->
  spawned 1 w0 w'.
Proof.
  intros [Hl Hq]. cbn [procs set_procs] in Hl, Hq. rewrite length_app in Hl. cbn in Hl.
  split; [| split; lia].
  intros q Hlt. rewrite Hq by lia. now apply lookup_app_l.
Qed.

Lemma spawned_logger k r w w' : spawned k w w' -> spawned k w (snd (logger r w')).
Proof. intros H. exact H. Qed.

(** [_connect_stdio] on a connection that holds no process starts at most
    one, and touches no other. *)
Lemma connect_stdio_spawned rt c0 w0 :
  process c0 = None ->
  post (_connect_stdio rt) (c0, w0) (fun o cw' =>
    spawned 1 w0 (snd cw') /\ forall e, o <> Raise e).
Proof.
  intros Hnone. unfold _connect_stdio. apply post_try_except.
  apply post_bind, post_bind, post_get_state, post_ret. cbn [fst].
  apply post_bind, post_in_world. cbn [fst snd].
  unfold post at 1, Popen.
  destruct (popen rt (List.length (procs w0)) _ _) as [ch|]; cbn [fst snd].
  2: { (* the process cannot be created *)
    apply post_bind, post_bind, post_get_state, post_ret. cbn [fst].
    apply post_bind, post_in_world. unfold post at 1. cbn [fst snd].
    change (fst (logger (LogStdioFailed (server_name c0)
                           (OSError (MCPServerConfig.command (config c0)
                                     :: MCPServerConfig.args (config c0)))) w0))
      with (@Ret unit tt). cbv iota.
    rewrite Hnone. apply post_bind, post_ret, post_ret. cbn [snd].
    split; [| discriminate]. apply spawned_logger, spawned_refl. }
  set (pid := List.length (procs w0)).
  set (p1 := {| stdout := output ch; stdin := []; sigterm_ignored := ignores_sigterm ch;
                state := Running |}).
  set (w1 := set_procs (procs w0 ++ [p1]) w0).
  assert (Hfinal : forall w', only_proc pid w1 w' -> spawned 1 w0 w')
    by (intros w'; apply only_proc_spawned).
  assert (Hhandler : forall e (cw : MCPServerConnection.t * world),
            process (fst cw) = Some pid -> only_proc pid w1 (snd cw) ->
            post (c <- (cw <- get_state ;; ret (fst cw)) ;;
                  in_world (logger (LogStdioFailed (server_name c) e)) ;;;
                  match process c with
                  | Some pid => in_world (terminate pid)
                  | None => ret tt
                  end ;;;
                  ret false) cw
                 (fun o cw' => spawned 1 w0 (snd cw') /\ forall e, o <> Raise e)).
  { intros e [c w] Hc Hk. cbn [fst snd] in Hc, Hk.
    apply post_bind, post_bind, post_get_state, post_ret. cbn [fst].
    apply post_bind, post_in_world. unfold post at 1. cbn [fst snd].
    change (fst (logger (LogStdioFailed (server_name c) e) w)) with (@Ret unit tt).
    cbv iota. rewrite Hc. apply post_bind, post_in_world. unfold post at 1.
    cbn [fst snd]. unfold terminate, modify. cbn [fst snd].
    apply post_ret. cbn [snd]. split; [| discriminate].
    apply Hfinal. eapply only_proc_trans; [exact Hk |].
    eapply only_proc_trans;
      [apply (only_proc_logger pid (LogStdioFailed (server_name c) e)) |].
    apply only_proc_update. }
  apply post_bind, post_modify. cbn [fst snd].
  apply post_bind, post_bind, post_get_state, post_ret. cbn [fst].
  apply post_bind, post_new_uuid. cbn [fst snd].
  assert (Hc1 : process (set_process (Some pid) c0) = Some pid) by reflexivity.
  apply post_bind, (send_request_in_world_only pid w1); [exact Hc1 | |].
  { cbn [snd]. apply only_proc_set_uuids. }
  intros o w3 Hk3 Hne. cbn [fst].
  destruct o as [response|e|]; [| now destruct (Hne e) |].
  2: { cbn [snd]. split; [now apply Hfinal | discriminate]. }
  apply post_bind, post_lift.
  destruct (initialize_refused response) as [refused|e|].
  2: { now apply Hhandler. }
  2: { cbn [snd]. split; [now apply Hfinal | discriminate]. }
  destruct refused.
  - apply post_bind, post_in_world. unfold post at 1. cbn [fst snd].
    change (fst (logger (LogInitializeFailed (server_name (set_process (Some pid) c0))
                           response) w3)) with (@Ret unit tt).
    cbv iota. apply post_ret. cbn [snd]. split; [| discriminate].
    apply spawned_logger. now apply Hfinal.
  - apply post_bind, post_in_world. cbn [fst snd]. unfold post at 1.
    assert (Hret : forall n, fst (_send_notification (set_process (Some pid) c0) n w3)
                             = Ret tt) by reflexivity.
    rewrite Hret.
    pose proof (send_notification_only (set_process (Some pid) c0) pid
                  [jsonrpc_member; ("method", JStr "notifications/initialized")] w3 Hc1)
      as Hk4.
    apply post_bind.
    eapply post_mono;
      [apply (discover_capabilities_only rt pid w1); cbn [fst snd]; split;
         [exact Hc1 | eapply only_proc_trans; [exact Hk3 | exact Hk4]] |].
    cbv beta. intros [[]|e|] [c5 w5] [Hc5 Hk5]; cbn [fst snd] in Hc5, Hk5.
    2: { now apply Hhandler. }
    2: { cbn [snd]. split; [now apply Hfinal | discriminate]. }
    apply post_bind, post_modify. cbn [fst snd].
    apply post_bind, post_in_world. unfold post at 1. cbn [fst snd].
    change (fst (logger (LogConnected (server_name (set_process (Some pid) c0))) w5))
      with (@Ret unit tt).
    cbv iota. apply post_ret. cbn [snd]. split; [| discriminate].
    apply spawned_logger. now apply Hfinal.
Qed.

Lemma connect_spawned rt c0 w0 :
  process c0 = None ->
  post (connect rt) (c0, w0) (fun o cw' =>
    spawned 1 w0 (snd cw') /\ forall e, o <> Raise e).
Proof.
  intros Hnone. unfold connect.
  apply post_bind, post_bind, post_get_state, post_ret. cbn [fst].
  destruct (MCPServerConfig.transport (config c0)).
  - now apply connect_stdio_spawned.
  - apply post_bind, post_in_world. unfold post at 1. cbn [fst snd].
    apply post_ret. cbn [snd]. split; [| discriminate]. apply spawned_logger, spawned_refl.
  - apply post_bind, post_in_world. unfold post at 1. cbn [fst snd].
    apply post_ret. cbn [snd]. split; [| discriminate]. apply spawned_logger, spawned_refl.
Qed.

Lemma gather_spawned rt tasks :
  Forall (fun kc => process (snd kc) = None) tasks ->
  forall w,
    post (DynamicMCPClient.gather rt tasks) w (fun _ w' =>
      spawned (List.length tasks) w w').
Proof.
  induction 1 as [|[k c] tasks Hc _ IH]; intros w.
  - apply post_ret, spawned_refl.
  - cbn [snd] in Hc. cbn [DynamicMCPClient.gather List.length]. unfold post.
    pose proof (connect_spawned rt c w Hc) as Hconn. unfold post in Hconn.
    unfold try_except, DynamicMCPClient._connect_server.
    destruct (connect rt (c, w)) as [[b|e|] [c' w1]]; cbn [fst snd] in Hconn |- *;
      destruct Hconn as [Hs Hne].
    + pose proof (IH w1) as Hrest. unfold post in Hrest. unfold bind.
      destruct (DynamicMCPClient.gather rt tasks w1) as [[settled_|e|] w2];
        cbn [fst snd] in Hrest |- *;
        exact (spawned_trans 1 (List.length tasks) w w1 w2 Hs Hrest).
    + now contradiction (Hne e).
    + apply (spawned_weaken 1); [lia | exact Hs].
Qed.

Lemma connection_tasks_no_process m :
  Forall (fun kc => process (snd kc) = None) (connection_tasks m).
Proof.
  unfold connection_tasks. apply Forall_forall. intros [k c] Hin.
  apply list_elem_of_In, in_map_iff in Hin as ([k' cfg] & [= <- <-] & _). reflexivity.
Qed.

(** X27.  [initialize] starts at most one process for each enabled server,
    and neither writes to, reads from nor signals any process that was
    running before the call: the providers of the connections that a second
    run replaces in the registry are left as they are. *)
Theorem initialize_spares_processes (rt : runtime) (r : DynamicMCPClient.t) (w : world)
    (o : outcome bool) (r' : DynamicMCPClient.t) (w' : world) :
  DynamicMCPClient.initialize rt (r, w) = (o, (r', w')) ->
  o <> Unmodelled ->
  (forall pid, pid < List.length (procs w) -> procs w' !! pid = procs w !! pid)
  /\ List.length (procs w) <= List.length (procs w')
  /\ List.length (procs w')
     <= List.length (procs w)
        + List.length (MCPConfigManager.get_enabled_servers
                         (DynamicMCPClient.config_manager r)).
Proof.
  intros Hinit Ho.
  destruct (initialize_completed rt r w o r' w' Hinit Ho)
    as (connections & results & w1 & Hg & _ & _ & _ & _ & Hw).
  pose proof (initialized_world_facts r connections results
                (List.length (connection_tasks (DynamicMCPClient.config_manager r))) w1)
    as (_ & _ & Hprocs & _).
  cbn zeta in Hprocs. rewrite <- Hw in Hprocs.
  pose proof (gather_spawned rt _
                (connection_tasks_no_process (DynamicMCPClient.config_manager r)) w)
    as Hs.
  unfold post in Hs. rewrite Hg in Hs. cbn [snd] in Hs.
  destruct Hs as (Hq & Hl & Hu). rewrite Hprocs.
  split; [exact Hq |]. split; [exact Hl |].
  unfold connection_tasks in Hu. now rewrite length_map in Hu.
Qed.

Lemma initialize_spares_processes_witness :
  let start := DynamicMCPClient.new three_servers empty_world in
  let r0 := match fst start with
            | Ret r0 => r0
            | _ => DynamicMCPClient.mk three_servers [] 0 0 false
            end in
  let once := DynamicMCPClient.initialize three_servers_runtime (r0, snd start) in
  let twice := DynamicMCPClient.initialize three_servers_runtime (snd once) in
  List.length (procs (snd (snd once))) = 2
  /\ (forall pid, pid < 2 -> procs (snd (snd twice)) !! pid = procs (snd (snd once)) !! pid)
  /\ List.length (procs (snd (snd twice))) <= 5.
Proof.
  intros start r0 once twice.
  assert (Hlen : List.length (procs (snd (snd once))) = 2) by (vm_compute; reflexivity).
  assert (Htwice : fst twice = Ret false) by (vm_compute; reflexivity).
  destruct (initialize_spares_processes three_servers_runtime (fst (snd once))
              (snd (snd once)) (fst twice) (fst (snd twice)) (snd (snd twice)))
    as (Hq & _ & Hu).
  - rewrite <- (surjective_pairing (snd once)). fold twice.
    clear. clearbody twice. now destruct twice as [? [? ?]].
  - rewrite Htwice. discriminate.
  - split; [exact Hlen |]. rewrite Hlen in Hq, Hu. split; [exact Hq |].
    assert (Hen : List.length (MCPConfigManager.get_enabled_servers
                                 (DynamicMCPClient.config_manager (fst (snd once)))) = 3)
      by (vm_compute; reflexivity).
    rewrite Hen in Hu. exact Hu.
Defined.

Lemma initialize_only_adds_witness :
  let start := DynamicMCPClient.new three_servers empty_world in
  let r0 := match fst start with
            | Ret r0 => r0
            | _ => DynamicMCPClient.mk three_servers [] 0 0 false
            end in
  let once := DynamicMCPClient.initialize three_servers_runtime (r0, snd start) in
  let twice := DynamicMCPClient.initialize no_server_runtime (snd once) in
  dict_keys (tools_at (DynamicMCPClient.available_tools (fst (snd once))) (snd (snd once)))
    = ["add"; "sub"; "get_forecast"]
  /\ exists more,
       dict_keys (tools_at (DynamicMCPClient.available_tools (fst (snd twice)))
                           (snd (snd twice)))
       = ["add"; "sub"; "get_forecast"] ++ more.
Proof.
  intros start r0 once twice.
  assert (Hkeys : dict_keys (tools_at (DynamicMCPClient.available_tools (fst (snd once)))
                                      (snd (snd once)))
                  = ["add"; "sub"; "get_forecast"]) by (vm_compute; reflexivity).
  assert (Htwice : fst twice = Ret false) by (vm_compute; reflexivity).
  split; [exact Hkeys |]. rewrite <- Hkeys.
  refine (proj1 (initialize_only_adds no_server_runtime (fst (snd once)) (snd (snd once))
                   (fst twice) (fst (snd twice)) (snd (snd twice)) _ _ _)).
  - rewrite <- (surjective_pairing (snd once)). fold twice.
    clear. clearbody twice. now destruct twice as [? [? ?]].
  - rewrite Htwice. discriminate.
  - vm_compute. repeat constructor.
Defined.
